(* ===== verification/_CoqProject ===== *)
-Q . S2P
Prelude.v
PyStr.v
PyFloat.v
QtTable.v
QtDate.v
Zone.v
Ledger.v
Volume.v
Delivery.v
WorkHours.v
RefStore.v
DatabaseManagerFile.v
Excel.v
HandlerInvariants.v
Window.v
QtWidgets.v
Layout.v
JournalSchema.v
Scenarios.v
