(* ===== verification/Prelude.v ===== *)
(** * FuvarFeladat: a verification development of the trip and work-hour ledger

    ** The program

    [src/main.py] is a PySide6 desktop program for a delivery driver.  Its
    main window [FuvarAdminApp] keeps two month ledgers in [QTableWidget]s,
    with one row per day of the current month keyed by the date text
    [yyyy-MM-dd]:
    - the work ledger, with columns date, day name, start, end and hours;
    - the delivery ledger, with columns date and nine distance zones.
    It also keeps a form of input widgets, the m3 volumes typed for the
    current trip ([self.m3_values]), two append-only JSON journals, and an
    SQLite file with three reference tables (factories, addresses, zones).
    The handlers run to completion on the GUI thread, one at a time, so the
    program is a sequence of handler steps over one state:
    - [setupTableRows] fills the ledgers when the window opens;
    - [handleM3Input] (Enter in the m3 field) accumulates a volume and writes
      its summary into the ledger;
    - [saveDeliveryData] adds the trip's total to the zone cell of the day;
    - [saveWorkHours] writes the times and the hours of the day;
    - [saveToExcel], [exportToExcel], [openExcel] and [loadDataFromExcel]
      move the ledgers to and from a workbook;
    - [initDatabase], [loadFactories] and the dialog [DatabaseManager]
      (opened by [openDatabaseManager]) keep the reference tables.
    [getZoneColumn] turns the chosen distance band into a zone column for
    both ledger handlers, and every handler finds the row of the date by the
    same scan.

    ** The files

    - Prelude.v (this file): the state-and-exception monad [Py S A := S -> S
      * outcome A] the handlers are written in, where Python keeps every
      mutation made before an exception; [try_except]; [py_for], the
      [for x in xs] loop; the monad laws, a setoid equivalence [=py=] with
      its [Proper] instances, and the loop lemmas: a run of [py_for] under
      an invariant, and induction over [range n]; a small Hoare-style
      library, [keeps P m] (the handler keeps [P]) and [only_raises c P m]
      (it raises only exceptions in [c]), with one lemma per construct of
      the monad and the tactic [keeps_tac]; and the frame property
      [commutes g m] ([m] neither reads nor writes what [g] sets).
    - PyStr.v, PyFloat.v: the CPython built-ins the code calls on strings
      ([strip], [replace], [split], [join], [int], [str]) and floats
      ([float(text)], [f"{x:.Nf}"], [sum]), from CPython's algorithms.
    - QtTable.v: the table widget as a typeclass [TableWidget] with its
      contract [TableWidgetLaws], and the instance [qtable], which behaves
      as Qt's row-major item vector does: [setItem] past the last column
      lands in the next row.  QtDate.v: [QDate] and [QTime] and their text
      forms.
    - Zone.v, Module [ZoneResolver]: [getZoneColumn] (main.py:493-499) and
      the band labels of the combo box and the table headers.
    - Ledger.v: the window state [App T] (form, two ledgers, [m3_values],
      journals, messages), its setters, the table access the handlers use
      ([cell_text] raises [AttributeError] on a missing item), the row scan
      [scan_rows], and [setupTableRows] (main.py:390-415), with [init_app],
      the window right after [__init__].
    - Volume.v: [handleM3Input] and [updateDeliveryTable] (main.py:454-491).
    - Delivery.v: [saveDeliveryData] (main.py:536-581), split as the code is
      into building the record, the zone update, the journal write and the
      reset.
    - WorkHours.v: [saveWorkHours] (main.py:501-534), with
      [datetime.strptime(_, '%H:%M')] as the regular expression CPython
      compiles for it, and [timedelta.seconds].
    - RefStore.v: the SQLite tables as lists of rows in rowid order (Module
      [Sql]), [initDatabase], the main window's [loadFactories], and the
      dialog [DatabaseManager] (main.py:722-931): its three tabs, its nine
      handlers, and a session as a list of user actions run by [run_dialog].
    - DatabaseManagerFile.v, Module [DatabaseManagerFile]: the second copy
      of the dialog in [src/database_manager.py], method by method as that
      file writes it.
    - Excel.v: openpyxl sheets, [saveToExcel], [exportToExcel],
      [loadDataFromExcel], [loadWorkHoursRow], [loadDeliveryRow] and
      [openExcel] (main.py:583-714).
    - HandlerInvariants.v: what each handler of the main window preserves
      (dated ledgers, the m3 label) and that it returns normally.
    - Window.v: the program as a state machine: the window state (the
      application, the store, open or closed), the events the widgets,
      buttons ([setupButtons]) and menus ([MenuBar]) trigger, the handler
      each runs ([ui_run]), program start ([launch], [__main__]) and the
      inductive relation [reachable] of the windows a run reaches.
    - JournalSchema.v: the schema of the records the two JSON journals
      receive, and its proof for every reachable window.
    - QtWidgets.v: the Qt objects the window is built from ([QFrame],
      [QLabel], [QLineEdit], [QDateEdit], [QTimeEdit], [QComboBox],
      [QTableWidget] with its header, [QPushButton], [QMenuBar], the box
      layouts), as a store of objects addressed by reference, with the
      window's attributes as a Python dict ([AttributeError] on a missing
      one, [KeyError] on a missing dict key) and the object tree.
    - Layout.v, Module [MainWindow]: [__init__] and [initUI]
      (main.py:38-56) with [MenuBar] (main.py:20-35), [setupStyles]
      (97-158), [setupTopFrame] (160-246), [createInputGroup] (417-425),
      [loadFactories] (447-452), [setupBottomFrame] (248-357),
      [setupTableStyles] (359-388) and [setupButtons] (427-445), each call
      on a Qt object as written; [setupTableRows] is the handler of
      Ledger.v run on the cells of the two table widgets.
    - Scenarios.v: the handlers composed on a window of 5 November 2024.

    The handlers are written over any [TableWidget] and proved against
    [TableWidgetLaws], so the theorems hold for any table that keeps the
    contract.  The behaviour of writes past the last column is proved on
    [qtable] only, because the contract does not promise it.

    ** The theorems

    - Set-up: [setupTableRows] leaves both ledgers fresh for the month, and
      a fresh ledger has no two rows with the same date.
    - Zones: [getZoneColumn] of any ["<word> <i>-<rest>"] is [i // 5 + 1];
      its result is 0 or a column of at least 1; the first nine bands land
      in the table; the tenth does not.
    - Volumes and trips: the effect of [handleM3Input] and
      [saveDeliveryData] on every branch, errors included; the additive
      accumulation of the specification; the specification's examples.
    - The order of steps: the summary [handleM3Input] writes makes the next
      commit fail; a failed journal write makes a retry count the trip
      twice.
    - Work hours: the hours text is the exact duration rounded to two
      decimals, taken modulo a day; the effect of [saveWorkHours].
    - Reference data: the effect of load, add (its guard included) and
      delete; deleting the selected row refines the [remove] of the
      specification's contract on the collection of id to record; an
      invariant (positive, strictly increasing ids) kept by [initDatabase],
      and the seeding of an empty factories table at every start.
    - Excel: the delivery ledger survives save and load; a work ledger
      saved and loaded again comes back with its start, end and type
      columns shifted one column to the right (Excel.v); the total column
      stays empty.
    - The two dialog copies: database_manager.py's class is equivalent to
      main.py's on every session.
    - Whole runs (Window.v, by induction on [reachable]): the store's ids
      and the m3 label are invariants of every reachable window; without the
      last distance band the ledgers stay dated and no handler lets an
      exception escape; and the m3 values can always be committed and
      cleared by some sequence of events (a liveness property); every
      journal record of a reachable window has its schema (a valid date
      text, valid time texts, a combo box label).
    - The window's construction (Layout.v): [initUI] returns normally on
      every day and database; the widgets the attributes hold are the form
      and ledgers of [launch], the start state of every whole-run theorem
      (a refinement); the objects form a forest with nothing put in two
      places; exactly one object is not shown, the first delivery table;
      the shown delivery header has ten of its eleven labels, so
      ["Összeg"] is not shown and the last band has no column; the signals
      are connected to the slots [ui_run] dispatches.

    ** Bounds and exhaustive checks

    No model of the code uses fuel: every loop of the code is a [for] over
    a finite list, and [py_for] is structural on it.  The one fuel of the
    development is the depth bound of [descendants] (QtWidgets.v), the
    number of objects of the store: in a forest a path from a root visits
    each object at most once, so that many steps reach every object, and
    [forest] is proved of the window.  The construction theorems hold for
    every day and every database: they evaluate [initUI] with the day, the
    store and the filled ledgers as unknowns, which only flow into the
    widgets' values.  Two facts are checked by
    evaluation over a whole finite domain, with [vm_compute]:
    - [strptime] on the [HH:mm] text of each of the 24 * 60 = 1440 times;
    - the two-decimal text of [k * 60 / 3600] for each minute count [k] in
      [0, 1440).
    These are all the values that occur: a [QTime] from a time picker has
    an hour in [0, 24) and a minute in [0, 60), and the wrapped difference
    of two of them is below 1440 minutes.  Integers are unbounded [Z], as
    Python's [int] is; floats are Rocq's primitive binary64 floats, as
    Python's [float] is.

    ** Not modelled

    - The widgets' own behaviour beyond their values: a time picker or
      combo box is the value it holds, a QDateEdit a valid date (its
      1752-9999 range is not checked).
    - The content printed by [printData]: it opens a print dialog and, a
      TODO, prints nothing; it is modelled as a step that changes nothing.
    - How Qt renders a window: a style sheet is its text, a width or
      height its number; fonts, pixels and the layout geometry are not
      computed.  Qt's rules for putting an object that already has a parent
      into a second place are not modelled; [initUI_forest] shows the
      window never does it.  [QDate.currentDate()] is one day for the
      whole of [__init__].
    - The text of the JSON journals: a journal is the list of records
      appended to it.  A failure to open it is a flag of the state.
    - The text of an exception in a message box: a warning keeps the
      exception value, not [str(e)].
    - SQLite's own failures (a locked or unwritable file, a full disk):
      the store operations and [MenuDatabase] return normally by
      definition, so no theorem covers an [sqlite3.Error] escaping from the
      dialog or from [initDatabase].
    - What persists across a relaunch: the [Launch] event keeps the
      database but starts with empty journal logs, although the two JSON
      files on disk keep their lines; the journal theorems speak of the
      lines appended since the last start.
    - Editing a cell of a dialog table in place: Qt lets the user type
      into the [QTableWidget]s of the dialog, which changes what
      [deleteRef] later reads from column 0; the dialog's actions are the
      name and price fields, the tab's selection and the two buttons, so
      the deletion theorems assume the table shows the store.
    - Python's non-ASCII whitespace and digits in [strip], [int] and
      [float]: the form texts are treated as strings of UTF-8 bytes (see
      PyStr.v). *)

From Stdlib Require Import String List ZArith Lia Bool.
From Stdlib Require Import Morphisms Setoid.
Import ListNotations.

(** ** Python exceptions

    The exceptions the modelled code can raise: [ValueError] from [float()],
    [int()] and [strptime], [IndexError] from indexing a [split] result,
    [AttributeError] from calling [.text()] on a missing table item ([None]),
    [OSError] from opening a journal or workbook file, and [KeyError] from
    a missing key of a dict ([self.styles[key]]). *)
Inductive PyExc : Type :=
| ValueError (arg : string)
| IndexError
| AttributeError
| OSError
| KeyError (key : string).

(** The result of a Python computation: a value or a raised exception. *)
Inductive outcome (A : Type) : Type :=
| Ok (a : A)
| Raise (e : PyExc).
Arguments Ok {A} a.
Arguments Raise {A} e.

(** A handler over a state [S]: Python keeps every mutation made before an
    exception is raised, so the state is returned on both outcomes. *)
Definition Py (S A : Type) : Type := S -> S * outcome A.

Section Monad.
Context {S : Type}.

Definition ret {A} (a : A) : Py S A := fun s => (s, Ok a).

Definition bind {A B} (m : Py S A) (k : A -> Py S B) : Py S B :=
  fun s =>
    match m s with
    | (s', Ok a) => k a s'
    | (s', Raise e) => (s', Raise e)
    end.

Definition raise {A} (e : PyExc) : Py S A := fun s => (s, Raise e).

Definition get : Py S S := fun s => (s, Ok s).

Definition modify (f : S -> S) : Py S unit := fun s => (f s, Ok tt).

Definition gets {A} (f : S -> A) : Py S A := fun s => (s, Ok (f s)).

(** A pure Python expression that may raise, evaluated in place. *)
Definition lift {A} (o : outcome A) : Py S A := fun s => (s, o).

(** [try: m except <caught>: h]: an exception that [caught] selects runs the
    handler in the state reached when it was raised; any other one
    propagates. *)
Definition try_except {A} (m : Py S A) (caught : PyExc -> bool)
           (h : PyExc -> Py S A) : Py S A :=
  fun s =>
    match m s with
    | (s', Ok a) => (s', Ok a)
    | (s', Raise e) => if caught e then h e s' else (s', Raise e)
    end.

(** [for x in xs: body(x)], stopping at the first exception. *)
Fixpoint py_for {X} (xs : list X) (body : X -> Py S unit) : Py S unit :=
  match xs with
  | [] => ret tt
  | x :: xs' => bind (body x) (fun _ => py_for xs' body)
  end.

(** Two computations are equivalent when they agree on every state. *)
Definition py_equiv {A} (m1 m2 : Py S A) : Prop := forall s, m1 s = m2 s.
End Monad.

Arguments py_equiv {S A} m1 m2.

(** [range(n)] *)
Definition range (n : nat) : list nat := seq 0 n.

(** [except Exception:] catches every exception of the model. *)
Definition any_exc (e : PyExc) : bool := true.

(** [except ValueError:] *)
Definition is_value_error (e : PyExc) : bool :=
  match e with ValueError _ => true | _ => false end.

Declare Scope py_scope.
Delimit Scope py_scope with py.
Notation "x <- m ;; k" := (bind m (fun x => k))
  (at level 61, m at next level, right associativity) : py_scope.
Notation "m ;;; k" := (bind m (fun _ => k))
  (at level 61, right associativity) : py_scope.
Notation "m1 =py= m2" := (py_equiv m1 m2) (at level 70, no associativity) : py_scope.
Open Scope py_scope.

(** ** Laws of the monad *)

Create HintDb py.
Create Rewrite HintDb py_rw.

Section Laws.
Context {S : Type}.

Lemma bind_ret_l {A B} (a : A) (k : A -> Py S B) : bind (ret a) k = k a.
Proof. reflexivity. Qed.

Lemma bind_ret_r {A} (m : Py S A) : bind m ret =py= m.
Proof. intros s. unfold bind, ret. destruct (m s) as [s' [a|e]]; reflexivity. Qed.

Lemma bind_assoc {A B C} (m : Py S A) (k : A -> Py S B) (k' : B -> Py S C) :
  bind (bind m k) k' =py= bind m (fun a => bind (k a) k').
Proof. intros s. unfold bind. destruct (m s) as [s' [a|e]]; reflexivity. Qed.

Lemma bind_raise {A B} (e : PyExc) (k : A -> Py S B) : bind (raise e) k = raise e.
Proof. reflexivity. Qed.

#[global] Instance py_equiv_equivalence {A} : Equivalence (@py_equiv S A).
Proof.
  split; repeat intro; [reflexivity | symmetry; auto | etransitivity; eauto].
Qed.

#[global] Instance bind_proper {A B} :
  Proper (py_equiv ==> pointwise_relation A py_equiv ==> @py_equiv S B) bind.
Proof.
  intros m1 m2 Hm k1 k2 Hk s. unfold bind. rewrite Hm.
  destruct (m2 s) as [s' [a|e]]; [apply Hk | reflexivity].
Qed.

Lemma bind_modify {B} (f : S -> S) (k : unit -> Py S B) s :
  bind (modify f) k s = k tt (f s).
Proof. reflexivity. Qed.

Lemma bind_gets {A B} (f : S -> A) (k : A -> Py S B) s :
  bind (gets f) k s = k (f s) s.
Proof. reflexivity. Qed.

Lemma bind_get {B} (k : S -> Py S B) s : bind get k s = k s s.
Proof. reflexivity. Qed.

Lemma bind_run {A B} (m : Py S A) (k : A -> Py S B) s s' a :
  m s = (s', Ok a) -> bind m k s = k a s'.
Proof. intros H. unfold bind. rewrite H. reflexivity. Qed.

Lemma bind_run_raise {A B} (m : Py S A) (k : A -> Py S B) s s' e :
  m s = (s', Raise e) -> bind m k s = (s', Raise e).
Proof. intros H. unfold bind. rewrite H. reflexivity. Qed.

(** ** Loops *)

Lemma py_for_app {X} (xs ys : list X) (body : X -> Py S unit) :
  py_for (xs ++ ys) body =py= bind (py_for xs body) (fun _ => py_for ys body).
Proof.
  induction xs as [|x xs IH]; simpl; [reflexivity|].
  rewrite bind_assoc. apply bind_proper; [reflexivity | intros u; apply IH].
Qed.

(** A loop whose body leaves the state [s] as it is on every element. *)
Lemma py_for_noop {X} (xs : list X) (body : X -> Py S unit) s :
  (forall x, In x xs -> body x s = (s, Ok tt)) ->
  py_for xs body s = (s, Ok tt).
Proof.
  induction xs as [|x xs IH]; intros H; simpl; [reflexivity|].
  unfold bind. rewrite H by (left; reflexivity). apply IH.
  intros y Hy. apply H. right. exact Hy.
Qed.

(** A loop whose body acts at one element only: the elements before it
    leave [s] alone, the one at [x] turns [s] into [s'], and the elements
    after it leave [s'] alone. *)
Lemma py_for_single {X} (pre post : list X) (x : X) (body : X -> Py S unit) s s' :
  (forall y, In y pre -> body y s = (s, Ok tt)) ->
  body x s = (s', Ok tt) ->
  (forall y, In y post -> body y s' = (s', Ok tt)) ->
  py_for (pre ++ x :: post) body s = (s', Ok tt).
Proof.
  intros Hpre Hx Hpost. rewrite py_for_app.
  rewrite (bind_run _ _ s s tt) by (apply py_for_noop; exact Hpre).
  simpl. rewrite (bind_run _ _ s s' tt Hx). apply py_for_noop. exact Hpost.
Qed.

(** A loop whose body raises at [x] after a prefix that leaves [s] alone. *)
Lemma py_for_raise {X} (pre post : list X) (x : X) (body : X -> Py S unit) s s' e :
  (forall y, In y pre -> body y s = (s, Ok tt)) ->
  body x s = (s', Raise e) ->
  py_for (pre ++ x :: post) body s = (s', Raise e).
Proof.
  intros Hpre Hx. rewrite py_for_app.
  rewrite (bind_run _ _ s s tt) by (apply py_for_noop; exact Hpre).
  simpl. exact (bind_run_raise _ _ s s' e Hx).
Qed.

(** A loop preserves every property of the state that each step preserves,
    whatever the outcome. *)
Lemma py_for_preserves {X} (P : S -> Prop) (xs : list X) (body : X -> Py S unit) :
  (forall x s, In x xs -> P s -> P (fst (body x s))) ->
  forall s, P s -> P (fst (py_for xs body s)).
Proof.
  induction xs as [|x xs IH]; intros Hstep s Hs; simpl; [exact Hs|].
  unfold bind. pose proof (Hstep x s (or_introl eq_refl) Hs) as Hx.
  destruct (body x s) as [s1 [u|e]]; simpl in *; [|exact Hx].
  apply IH; [|exact Hx]. intros y t Hy Ht. apply Hstep; [right; exact Hy | exact Ht].
Qed.
End Laws.

#[export] Hint Rewrite @bind_ret_l @bind_raise : py_rw.
#[export] Hint Resolve py_for_noop py_for_single : py.

(** Unfold the monad's plumbing in a goal. *)
Ltac py_unfold :=
  unfold bind, ret, raise, get, gets, modify, try_except in *.

(** ** Lists: splitting [range n] at an index *)

Lemma range_split (n i : nat) :
  i < n -> range n = range i ++ i :: seq (S i) (n - S i).
Proof.
  intros H. unfold range.
  replace n with (i + S (n - S i)) at 1 by lia.
  rewrite seq_app. reflexivity.
Qed.

Lemma in_range (n i : nat) : In i (range n) <-> i < n.
Proof. unfold range. rewrite in_seq. lia. Qed.

#[export] Hint Rewrite in_range : py_rw.

(** ** Loops with an invariant indexed by the position *)

Section LoopInvariant.
Context {St : Type}.

(** A loop over [seq k n] whose body, at position [i], runs without
    exception from every state satisfying [I i] to a state satisfying
    [I (S i)]. *)
Lemma py_for_seq_inv (I : nat -> St -> Prop) (body : nat -> Py St unit) :
  forall n k s,
    I k s ->
    (forall i t, k <= i < k + n -> I i t -> exists t', body i t = (t', Ok tt) /\ I (S i) t') ->
    exists s', py_for (seq k n) body s = (s', Ok tt) /\ I (k + n) s'.
Proof.
  induction n as [|n IH]; intros k s Hs Hstep; simpl.
  - exists s. rewrite Nat.add_0_r. split; [reflexivity | exact Hs].
  - destruct (Hstep k s ltac:(lia) Hs) as (t & Ht & HIt).
    destruct (IH (S k) t HIt) as (s' & Hrun & HI).
    { intros i u Hi Hu. apply Hstep; [lia | exact Hu]. }
    exists s'. split; [|replace (k + S n) with (S k + n) by lia; exact HI].
    unfold bind. rewrite Ht. exact Hrun.
Qed.

Lemma py_for_range_inv (I : nat -> St -> Prop) (body : nat -> Py St unit) n s :
  I 0 s ->
  (forall i t, i < n -> I i t -> exists t', body i t = (t', Ok tt) /\ I (S i) t') ->
  exists s', py_for (range n) body s = (s', Ok tt) /\ I n s'.
Proof.
  intros H0 Hstep. apply (py_for_seq_inv I body n 0 s H0).
  intros i t Hi. apply Hstep. lia.
Qed.
End LoopInvariant.

(** ** Invariants of handlers and the exceptions they let escape

    [keeps P m]: running [m] from a state satisfying [P] ends, normally or
    not, in a state satisfying [P].  [only_raises c P m]: from a state
    satisfying [P], every exception [m] raises satisfies [c];
    [only_raises no_exc P m] says that [m] returns normally.  The lemmas
    follow the structure of the monad, so a handler's invariant is proved
    by unfolding it and applying them (tactic [keeps_tac]). *)

Section Keeps.
Context {S : Type} (P : S -> Prop).

Definition keeps {A} (m : Py S A) : Prop := forall s, P s -> P (fst (m s)).

Definition only_raises {A} (c : PyExc -> bool) (m : Py S A) : Prop :=
  forall s, P s -> match snd (m s) with Ok _ => True | Raise e => c e = true end.

Definition no_exc (e : PyExc) : bool := false.

Lemma keeps_ret {A} (a : A) : keeps (ret a).
Proof. intros s Hs. exact Hs. Qed.

Lemma keeps_raise {A} e : keeps (@raise S A e).
Proof. intros s Hs. exact Hs. Qed.

Lemma keeps_lift {A} (o : outcome A) : keeps (lift o).
Proof. intros s Hs. exact Hs. Qed.

Lemma keeps_modify f : (forall s, P s -> P (f s)) -> keeps (modify f).
Proof. intros Hf s Hs. exact (Hf s Hs). Qed.

Lemma keeps_bind {A B} (m : Py S A) (k : A -> Py S B) :
  keeps m -> (forall a, keeps (k a)) -> keeps (bind m k).
Proof.
  intros Hm Hk s Hs. unfold bind. pose proof (Hm s Hs) as H1.
  destruct (m s) as [s1 [a|e]]; [exact (Hk a s1 H1) | exact H1].
Qed.

(** A continuation that reads the state may use that the state read
    satisfies [P]. *)
Lemma keeps_bind_get {B} (k : S -> Py S B) :
  (forall s0, P s0 -> keeps (k s0)) -> keeps (bind get k).
Proof. intros Hk s Hs. exact (Hk s Hs s Hs). Qed.

Lemma keeps_bind_gets {A B} (f : S -> A) (k : A -> Py S B) :
  (forall s0, P s0 -> keeps (k (f s0))) -> keeps (bind (gets f) k).
Proof. intros Hk s Hs. exact (Hk s Hs s Hs). Qed.

Lemma keeps_try {A} (m : Py S A) caught (h : PyExc -> Py S A) :
  keeps m -> (forall e, keeps (h e)) -> keeps (try_except m caught h).
Proof.
  intros Hm Hh s Hs. unfold try_except. pose proof (Hm s Hs) as H1.
  destruct (m s) as [s1 [a|e]]; [exact H1|]. destruct (caught e); [exact (Hh e s1 H1) | exact H1].
Qed.

Lemma keeps_for {X} (xs : list X) (body : X -> Py S unit) :
  (forall x, In x xs -> keeps (body x)) -> keeps (py_for xs body).
Proof. intros Hb s Hs. apply py_for_preserves; [|exact Hs]. intros x t Hx Ht. exact (Hb x Hx t Ht). Qed.

Lemma only_ret {A} c (a : A) : only_raises c (ret a).
Proof. intros s _. exact I. Qed.

Lemma only_raise {A} (c : PyExc -> bool) e : c e = true -> only_raises c (@raise S A e).
Proof. intros He s _. exact He. Qed.

Lemma only_modify c f : only_raises c (modify f).
Proof. intros s _. exact I. Qed.

Lemma only_bind {A B} c (m : Py S A) (k : A -> Py S B) :
  keeps m -> only_raises c m -> (forall a, only_raises c (k a)) -> only_raises c (bind m k).
Proof.
  intros Hm Hc Hk s Hs. unfold bind. pose proof (Hm s Hs) as H1. pose proof (Hc s Hs) as H2.
  destruct (m s) as [s1 [a|e]]; [exact (Hk a s1 H1) | exact H2].
Qed.

Lemma only_bind_get {B} c (k : S -> Py S B) :
  (forall s0, P s0 -> only_raises c (k s0)) -> only_raises c (bind get k).
Proof. intros Hk s Hs. exact (Hk s Hs s Hs). Qed.

Lemma only_bind_gets {A B} c (f : S -> A) (k : A -> Py S B) :
  (forall s0, P s0 -> only_raises c (k (f s0))) -> only_raises c (bind (gets f) k).
Proof. intros Hk s Hs. exact (Hk s Hs s Hs). Qed.

(** [try ... except]: what escapes is what the body raises and does not
    catch, and what the handler raises. *)
Lemma only_try {A} (c d : PyExc -> bool) (m : Py S A) caught (h : PyExc -> Py S A) :
  keeps m -> only_raises c m ->
  (forall e, c e = true -> caught e = false -> d e = true) ->
  (forall e, only_raises d (h e)) -> only_raises d (try_except m caught h).
Proof.
  intros Hm Hc Hcd Hh s Hs. unfold try_except. pose proof (Hm s Hs) as H1. pose proof (Hc s Hs) as H2.
  destruct (m s) as [s1 [a|e]]; [exact I|]. destruct (caught e) eqn:Ec; [exact (Hh e s1 H1)|].
  exact (Hcd e H2 Ec).
Qed.

Lemma only_for {X} c (xs : list X) (body : X -> Py S unit) :
  (forall x, In x xs -> keeps (body x)) -> (forall x, In x xs -> only_raises c (body x)) ->
  only_raises c (py_for xs body).
Proof.
  intros Hk Hc. induction xs as [|x xs IH]; [intros s _; exact I|]. cbn [py_for].
  apply only_bind; [apply Hk; left; reflexivity | apply Hc; left; reflexivity |].
  intros []. apply IH; intros y Hy; [apply Hk | apply Hc]; right; exact Hy.
Qed.

Lemma only_weaken {A} (c d : PyExc -> bool) (m : Py S A) :
  (forall e, c e = true -> d e = true) -> only_raises c m -> only_raises d m.
Proof. intros Hcd Hm s Hs. specialize (Hm s Hs). destruct (snd (m s)); auto. Qed.
(** A handler that raises nothing returns normally. *)
Lemma only_no_exc (m : Py S unit) s : only_raises no_exc m -> P s -> snd (m s) = Ok tt.
Proof. intros Hm Hs. specialize (Hm s Hs). destruct (snd (m s)) as [[]|e]; [reflexivity | discriminate]. Qed.

(** [except Exception]: nothing the body raises escapes. *)
Lemma only_try_any {A} (d : PyExc -> bool) (m : Py S A) (h : PyExc -> Py S A) :
  keeps m -> (forall e, only_raises d (h e)) -> only_raises d (try_except m any_exc h).
Proof.
  intros Hm Hh. apply (only_try (fun _ => true)); [exact Hm | | discriminate | exact Hh].
  intros s _. destruct (snd (m s)); reflexivity.
Qed.
End Keeps.

Create HintDb keeps.
#[export] Hint Resolve keeps_ret keeps_raise keeps_lift keeps_bind keeps_try keeps_for : keeps.
#[export] Hint Resolve only_ret only_modify only_bind only_try only_for : keeps.

(** Apply the structural lemmas along the syntax of the handler, which is
    left folded; what is left are the primitive steps and the conditions
    of [if]s. *)
Ltac keeps_step :=
  match goal with
  | |- forall _, _ => intro
  | |- keeps _ (bind get _) => apply keeps_bind_get; intros ?s0 ?Hs0
  | |- keeps _ (bind (gets _) _) => apply keeps_bind_gets; intros ?s0 ?Hs0
  | |- keeps _ (bind _ _) => apply keeps_bind
  | |- keeps _ (try_except _ _ _) => apply keeps_try
  | |- keeps _ (py_for _ _) => apply keeps_for; intros ?x ?Hx
  | |- keeps _ (ret _) => apply keeps_ret
  | |- keeps _ (raise _) => apply keeps_raise
  | |- keeps _ (lift _) => apply keeps_lift
  | |- keeps _ (if ?b then _ else _) => destruct b
  | |- keeps _ (match ?o with _ => _ end) => destruct o
  end.

Ltac keeps_tac := repeat keeps_step.

(** ** Frame: a handler that does not touch what [g] writes

    [commutes g m]: running [m] after the update [g] is running [m] and then
    [g], with the same outcome.  With [g] a setter of fields [m] never reads
    or writes, this is the frame property of [m]. *)
Section Frame.
Context {S : Type} (g : S -> S).

Definition commutes {A} (m : Py S A) : Prop := forall s, m (g s) = (g (fst (m s)), snd (m s)).

Lemma commutes_ret {A} (a : A) : commutes (ret a).
Proof. intros s. reflexivity. Qed.

Lemma commutes_modify f : (forall s, f (g s) = g (f s)) -> commutes (modify f).
Proof. intros Hf s. unfold modify. rewrite Hf. reflexivity. Qed.

Lemma commutes_bind {A B} (m : Py S A) (k : A -> Py S B) :
  commutes m -> (forall a, commutes (k a)) -> commutes (bind m k).
Proof.
  intros Hm Hk s. unfold bind. rewrite Hm. destruct (m s) as [s1 [a|e]]; [apply Hk | reflexivity].
Qed.

Lemma commutes_for {X} (xs : list X) (body : X -> Py S unit) :
  (forall x, commutes (body x)) -> commutes (py_for xs body).
Proof.
  intros Hb. induction xs as [|x xs IH]; [apply commutes_ret|]. cbn [py_for].
  apply commutes_bind; [apply Hb | intros _; exact IH].
Qed.
End Frame.

Ltac commutes_tac :=
  repeat match goal with
  | |- forall _, _ => intro
  | |- commutes _ (bind _ _) => apply commutes_bind
  | |- commutes _ (py_for _ _) => apply commutes_for
  | |- commutes _ (ret _) => apply commutes_ret
  | |- commutes _ (match ?o with _ => _ end) => destruct o
  end.
