(* ===== verification/PyStr.v ===== *)
(** * Python string operations used by the program

    Python [str] values are modelled as Rocq [string]s holding their UTF-8
    bytes.  The program only splits, strips and compares on ASCII characters
    (space, comma, hyphen, digits), and in UTF-8 no byte of a multi-byte
    character is an ASCII byte, so these operations act on the bytes exactly
    as Python acts on the code points.  What differs is the non-ASCII
    whitespace and decimal digits Python also accepts in [strip()], [int()] and
    [float()]: the model treats them as ordinary characters (see the root
    header).

    Operations: [str.strip()], [str.replace(c, d)] for one character,
    [str.split(' ')], [' + '.join(...)], indexing a list with [IndexError],
    the underscore rule of numeric literals, [int(text)] and [str(int)]. *)

From Stdlib Require Import String Ascii List ZArith Lia Bool.
From Stdlib Require Import DecimalString DecimalZ DecimalFacts.
From S2P Require Import Prelude.
Import ListNotations.
Local Open Scope string_scope.
Local Open Scope nat_scope.

(** ** Characters *)

(** [Py_UNICODE_ISSPACE] on ASCII: tab, line feed, vertical tab, form feed,
    carriage return, the separators 0x1c to 0x1f, and space. *)
Definition py_isspace (c : ascii) : bool :=
  let n := nat_of_ascii c in
  ((9 <=? n) && (n <=? 13)) || ((28 <=? n) && (n <=? 32)).

Definition is_digit (c : ascii) : bool :=
  let n := nat_of_ascii c in (48 <=? n) && (n <=? 57).
Arguments is_digit c : simpl never.

Definition digit_value (c : ascii) : Z := Z.of_nat (nat_of_ascii c - 48).

(** ** [str.strip()] *)

Fixpoint lstrip (s : string) : string :=
  match s with
  | EmptyString => EmptyString
  | String c s' => if py_isspace c then lstrip s' else s
  end.

Definition rstrip (s : string) : string :=
  string_of_list_ascii (rev (list_ascii_of_string (lstrip
    (string_of_list_ascii (rev (list_ascii_of_string s)))))).

Definition strip (s : string) : string := rstrip (lstrip s).

(** ** [str.replace(a, b)] for single characters *)

Fixpoint replace_char (a b : ascii) (s : string) : string :=
  match s with
  | EmptyString => EmptyString
  | String c s' => String (if Ascii.eqb c a then b else c) (replace_char a b s')
  end.

(** ** [str.split(sep)] for a one-character separator: every occurrence
    splits, empty fields are kept, and the result is never empty. *)

Fixpoint split_on (sep : ascii) (s : string) : list string :=
  match s with
  | EmptyString => [EmptyString]
  | String c s' =>
      if Ascii.eqb c sep then EmptyString :: split_on sep s'
      else match split_on sep s' with
           | [] => [String c EmptyString]
           | w :: ws => String c w :: ws
           end
  end.

(** ** [sep.join(words)] *)

Fixpoint join (sep : string) (ws : list string) : string :=
  match ws with
  | [] => EmptyString
  | [w] => w
  | w :: ws' => w ++ sep ++ join sep ws'
  end.

(** ** [xs[i]] for a non-negative index: [IndexError] past the end. *)

Definition py_index {A} (xs : list A) (i : nat) : outcome A :=
  match nth_error xs i with
  | Some x => Ok x
  | None => Raise IndexError
  end.

(** ** Underscores in numeric literals

    [_Py_string_to_number_with_underscores] (used by [int()] and [float()])
    accepts an underscore only right after a digit and right before a
    digit, and then drops the underscores. *)

Fixpoint underscores_ok_from (prev : option ascii) (s : string) : bool :=
  match s with
  | EmptyString =>
      match prev with Some "_"%char => false | _ => true end
  | String c s' =>
      if Ascii.eqb c "_" then
        match prev with
        | Some p => is_digit p && underscores_ok_from (Some c) s'
        | None => false
        end
      else
        match prev with
        | Some "_"%char => is_digit c && underscores_ok_from (Some c) s'
        | _ => underscores_ok_from (Some c) s'
        end
  end.

Definition underscores_ok (s : string) : bool := underscores_ok_from None s.

Fixpoint drop_underscores (s : string) : string :=
  match s with
  | EmptyString => EmptyString
  | String c s' =>
      if Ascii.eqb c "_" then drop_underscores s' else String c (drop_underscores s')
  end.

Fixpoint has_char (a : ascii) (s : string) : bool :=
  match s with
  | EmptyString => false
  | String c s' => Ascii.eqb c a || has_char a s'
  end.

(** ** Digit strings *)

(** The value of a non-empty run of ASCII digits, [None] otherwise. *)
Fixpoint digits_value_acc (acc : Z) (s : string) : option Z :=
  match s with
  | EmptyString => Some acc
  | String c s' => if is_digit c then digits_value_acc (10 * acc + digit_value c) s' else None
  end.

Definition digits_value (s : string) : option Z :=
  match s with
  | EmptyString => None
  | _ => digits_value_acc 0 s
  end.

(** ** [int(text)] in base 10

    [PyLong_FromString]: surrounding whitespace, an optional sign, then
    decimal digits (leading zeros allowed, underscores between digits). *)

Definition int_body (t : string) : option Z :=
  match t with
  | String "-"%char r => option_map Z.opp (digits_value r)
  | String "+"%char r => digits_value r
  | _ => digits_value t
  end.

Definition py_int (s : string) : outcome Z :=
  let t := strip s in
  if underscores_ok t then
    match int_body (drop_underscores t) with
    | Some z => Ok z
    | None => Raise (ValueError s)
    end
  else Raise (ValueError s).

(** ** [str(n)] for a Python [int] *)

Definition str_Z (z : Z) : string :=
  NilZero.string_of_int (Z.to_int z).

Fixpoint zeros (k : nat) : string :=
  match k with O => EmptyString | S k' => String "0" (zeros k') end.

(** Left-pad with ['0'] to [n] characters (Qt's zero-padded number
    fields). *)
Definition zero_pad (n : nat) (s : string) : string :=
  zeros (n - String.length s) ++ s.

(** ** Lemmas *)

(** Every character of [s] satisfies [p]. *)
Fixpoint all_chars (p : ascii -> bool) (s : string) : bool :=
  match s with
  | EmptyString => true
  | String c s' => p c && all_chars p s'
  end.

Create HintDb pystr.

Lemma all_chars_app p a b :
  all_chars p (a ++ b) = all_chars p a && all_chars p b.
Proof. induction a as [|c a IH]; simpl; [reflexivity|]. rewrite IH. apply andb_assoc. Qed.

Lemma all_chars_impl (p q : ascii -> bool) s :
  (forall c, p c = true -> q c = true) -> all_chars p s = true -> all_chars q s = true.
Proof.
  intros Hpq. induction s as [|c s IH]; simpl; [reflexivity|].
  intros [Hc Hs]%andb_prop. rewrite (Hpq c Hc). exact (IH Hs).
Qed.

Lemma has_char_all_chars a s :
  all_chars (fun c => negb (Ascii.eqb c a)) s = true -> has_char a s = false.
Proof.
  induction s as [|c s IH]; simpl; [reflexivity|].
  intros [Hc Hs]%andb_prop. rewrite IH by exact Hs. destruct (Ascii.eqb c a); easy.
Qed.

Lemma lstrip_nospace s :
  all_chars (fun c => negb (py_isspace c)) s = true -> lstrip s = s.
Proof. destruct s as [|c s]; simpl; [reflexivity|]. now destruct (py_isspace c). Qed.

Lemma all_chars_rev p (l : list ascii) :
  all_chars p (string_of_list_ascii l) = forallb p l.
Proof. induction l as [|c l IH]; simpl; [reflexivity|]. now rewrite IH. Qed.

Lemma all_chars_list p s :
  all_chars p s = forallb p (list_ascii_of_string s).
Proof. induction s as [|c s IH]; simpl; [reflexivity|]. now rewrite IH. Qed.

(** [strip] leaves a string without whitespace as it is. *)
Lemma strip_nospace s :
  all_chars (fun c => negb (py_isspace c)) s = true -> strip s = s.
Proof.
  intros H. unfold strip, rstrip. rewrite (lstrip_nospace s H).
  rewrite lstrip_nospace.
  - rewrite list_ascii_of_string_of_list_ascii, rev_involutive.
    apply string_of_list_ascii_of_string.
  - rewrite all_chars_rev, forallb_forall. intros c Hc. apply in_rev in Hc.
    rewrite all_chars_list, forallb_forall in H. auto.
Qed.

(** Underscores: a string with none passes the check unchanged. *)
Lemma underscores_ok_from_none s prev :
  all_chars (fun c => negb (Ascii.eqb c "_")) s = true ->
  prev <> Some "_"%char ->
  underscores_ok_from prev s = true.
Proof.
  revert prev. induction s as [|c s IH]; intros prev Hs Hp; simpl.
  - destruct prev as [p|]; [|reflexivity].
    destruct (Ascii.eqb_spec p "_"); [subst; congruence|].
    destruct p as [[] [] [] [] [] [] [] []]; try reflexivity; exfalso; apply n; reflexivity.
  - simpl in Hs. apply andb_prop in Hs as [Hc Hs].
    destruct (Ascii.eqb_spec c "_"); [discriminate|].
    assert (Hrest : underscores_ok_from (Some c) s = true)
      by (apply IH; [exact Hs | congruence]).
    destruct prev as [p|]; [|exact Hrest].
    destruct (Ascii.eqb_spec p "_"); [subst; congruence|].
    destruct p as [[] [] [] [] [] [] [] []]; try exact Hrest; exfalso; apply n0; reflexivity.
Qed.

Lemma underscores_ok_none s :
  all_chars (fun c => negb (Ascii.eqb c "_")) s = true -> underscores_ok s = true.
Proof. intros H. apply underscores_ok_from_none; [exact H | discriminate]. Qed.

Lemma drop_underscores_none s :
  all_chars (fun c => negb (Ascii.eqb c "_")) s = true -> drop_underscores s = s.
Proof.
  induction s as [|c s IH]; simpl; [reflexivity|].
  intros [Hc Hs]%andb_prop. destruct (Ascii.eqb c "_"); [discriminate|]. now rewrite IH.
Qed.

(** ** [split] on a separator *)

Lemma split_on_nosep sep a :
  has_char sep a = false -> split_on sep a = [a].
Proof.
  induction a as [|c a IH]; simpl; [reflexivity|].
  intros [Hc Ha]%orb_false_elim. rewrite Hc, IH by exact Ha. reflexivity.
Qed.

Lemma split_on_app sep a b :
  has_char sep a = false ->
  split_on sep (a ++ String sep b) = a :: split_on sep b.
Proof.
  induction a as [|c a IH]; simpl; intros H.
  - now rewrite Ascii.eqb_refl.
  - apply orb_false_elim in H as [Hc Ha]. rewrite Hc, IH by exact Ha. reflexivity.
Qed.

(** [split] never returns an empty list. *)
Lemma split_on_cons sep b : exists w ws, split_on sep b = w :: ws.
Proof.
  destruct b as [|c b]; simpl; [eauto|].
  destruct (Ascii.eqb c sep); [eauto|]. destruct (split_on sep b); eauto.
Qed.

(** A prefix free of the separator joins the first field. *)
Lemma split_on_prefix sep a b w ws :
  has_char sep a = false -> split_on sep b = w :: ws -> split_on sep (a ++ b) = (a ++ w) :: ws.
Proof.
  induction a as [|c a IH]; simpl; intros H E; [exact E|].
  apply orb_false_elim in H as [Hc Ha]. rewrite Hc, (IH Ha E). reflexivity.
Qed.

(** ** Decimal numerals: [str(n)] and [int(text)] are inverse *)

Definition digit_chars : ascii -> bool := is_digit.

Lemma digits_value_acc_cons acc c s :
  is_digit c = true ->
  digits_value_acc acc (String c s) = digits_value_acc (10 * acc + digit_value c) s.
Proof. intros H. simpl. now rewrite H. Qed.

(** Evaluate [digit_value] on a literal character. *)
Ltac eval_digit_value :=
  repeat match goal with
  | |- context [digit_value ?c] =>
      let v := eval vm_compute in (digit_value c) in change (digit_value c) with v
  end.

Lemma digits_value_acc_uint d acc :
  digits_value_acc (Zpos acc) (NilEmpty.string_of_uint d) =
  Some (Zpos (Pos.of_uint_acc d acc)).
Proof.
  revert acc. induction d; intros acc; [reflexivity|..];
  cbn [NilEmpty.string_of_uint Pos.of_uint_acc];
  rewrite digits_value_acc_cons by reflexivity; rewrite <- IHd;
  f_equal; eval_digit_value; lia.
Qed.

Lemma digits_value_acc_uint0 d :
  digits_value_acc 0 (NilEmpty.string_of_uint d) = Some (Z.of_N (Pos.of_uint d)).
Proof.
  induction d; [reflexivity|..]; cbn [NilEmpty.string_of_uint Pos.of_uint];
  rewrite digits_value_acc_cons by reflexivity; eval_digit_value;
  [exact IHd|..]; apply digits_value_acc_uint.
Qed.

Lemma uint_all_digits d : all_chars is_digit (NilEmpty.string_of_uint d) = true.
Proof. induction d; simpl; try exact IHd; reflexivity. Qed.

Lemma str_Z_nonneg z :
  (0 <= z)%Z ->
  exists d, str_Z z = NilEmpty.string_of_uint d /\ d <> Decimal.Nil /\
            Z.of_N (Pos.of_uint d) = z.
Proof.
  intros Hz. destruct z as [|p|p]; [| |lia].
  - exists (Decimal.D0 Decimal.Nil). split; [reflexivity|]. split; [discriminate|reflexivity].
  - exists (Pos.to_uint p).
    change (str_Z (Zpos p)) with (NilZero.string_of_uint (Pos.to_uint p)).
    pose proof (DecimalPos.Unsigned.to_uint_nonnil p) as Hnn.
    split; [unfold NilZero.string_of_uint; destruct (Pos.to_uint p); congruence|].
    split; [exact Hnn|].
    rewrite DecimalPos.Unsigned.of_to. reflexivity.
Qed.

(** [str(n)] of a non-negative [n] is a non-empty run of digits. *)
Lemma str_Z_digits z :
  (0 <= z)%Z -> all_chars is_digit (str_Z z) = true /\ str_Z z <> EmptyString.
Proof.
  intros Hz. destruct (str_Z_nonneg z Hz) as (d & -> & Hd & _). split.
  - apply uint_all_digits.
  - destruct d; simpl; congruence.
Qed.

Lemma digits_value_str_Z z :
  (0 <= z)%Z -> digits_value (str_Z z) = Some z.
Proof.
  intros Hz. destruct (str_Z_nonneg z Hz) as (d & Hs & Hd & Hv).
  pose proof (proj2 (str_Z_digits z Hz)) as Hne.
  assert (digits_value (str_Z z) = digits_value_acc 0 (str_Z z)) as ->
    by (unfold digits_value; destruct (str_Z z); [congruence | reflexivity]).
  rewrite Hs, digits_value_acc_uint0, Hv. reflexivity.
Qed.

Lemma is_digit_not_space c : is_digit c = true -> negb (py_isspace c) = true.
Proof.
  destruct c as [[] [] [] [] [] [] [] []]; unfold is_digit; simpl; try discriminate; reflexivity.
Qed.

Lemma is_digit_not c a :
  is_digit c = true -> is_digit a = false -> negb (Ascii.eqb c a) = true.
Proof.
  intros Hc Ha. destruct (Ascii.eqb_spec c a); [subst; congruence | reflexivity].
Qed.

#[export] Hint Resolve is_digit_not_space : pystr.

Lemma int_body_digits s : all_chars is_digit s = true -> int_body s = digits_value s.
Proof.
  destruct s as [|c s]; [reflexivity|]. simpl. intros [Hc _]%andb_prop.
  unfold int_body. destruct c as [[] [] [] [] [] [] [] []]; try reflexivity; discriminate.
Qed.

(** [int()] of a run of digits is its value. *)
Lemma py_int_digit_string s v :
  all_chars is_digit s = true -> digits_value s = Some v -> py_int s = Ok v.
Proof.
  intros Hd Hv.
  assert (Hsp : all_chars (fun c => negb (py_isspace c)) s = true)
    by (eapply all_chars_impl; [apply is_digit_not_space | exact Hd]).
  assert (Hus : all_chars (fun c => negb (Ascii.eqb c "_")) s = true)
    by (eapply all_chars_impl; [intros c Hc; apply is_digit_not; [exact Hc | reflexivity] | exact Hd]).
  unfold py_int. rewrite strip_nospace by exact Hsp.
  rewrite underscores_ok_none by exact Hus. rewrite drop_underscores_none by exact Hus.
  rewrite int_body_digits, Hv by exact Hd. reflexivity.
Qed.

(** [int(str(n)) == n] for every Python [int]. *)
Lemma py_int_str_Z z : py_int (str_Z z) = Ok z.
Proof.
  destruct (Z.le_gt_cases 0 z) as [Hz|Hz].
  { apply py_int_digit_string; [apply str_Z_digits | apply digits_value_str_Z]; exact Hz. }
  destruct z as [|p|p]; try lia.
  destruct (str_Z_digits (Zpos p) ltac:(lia)) as [Hd _].
  assert (Hsp : all_chars (fun c => negb (py_isspace c)) (str_Z (Zpos p)) = true)
    by (eapply all_chars_impl; [apply is_digit_not_space | exact Hd]).
  assert (Hus : all_chars (fun c => negb (Ascii.eqb c "_")) (str_Z (Zpos p)) = true)
    by (eapply all_chars_impl; [intros c Hc; apply is_digit_not; [exact Hc | reflexivity] | exact Hd]).
  change (str_Z (Zneg p)) with (String "-" (str_Z (Zpos p))). unfold py_int.
  rewrite strip_nospace by (simpl; exact Hsp).
  rewrite underscores_ok_none by (simpl; exact Hus).
  simpl drop_underscores. rewrite drop_underscores_none by exact Hus.
  unfold int_body. rewrite (digits_value_str_Z (Zpos p)) by lia. reflexivity.
Qed.

Lemma has_char_false_iff a s :
  has_char a s = false <-> all_chars (fun c => negb (Ascii.eqb c a)) s = true.
Proof.
  split; [|apply has_char_all_chars].
  induction s as [|c s IH]; simpl; [reflexivity|].
  intros [Hc Hs]%orb_false_elim. rewrite Hc, IH by exact Hs. reflexivity.
Qed.

Lemma has_char_app a x y : has_char a (x ++ y) = has_char a x || has_char a y.
Proof. induction x as [|c x IH]; simpl; [reflexivity|]. rewrite IH. apply orb_assoc. Qed.

Lemma lstrip_all_chars p s : all_chars p s = true -> all_chars p (lstrip s) = true.
Proof.
  induction s as [|c s IH]; simpl; [reflexivity|].
  intros H. destruct (py_isspace c); [apply IH; apply andb_prop in H; tauto | exact H].
Qed.

(** [strip] keeps a property every character has. *)
Lemma strip_all_chars p s : all_chars p s = true -> all_chars p (strip s) = true.
Proof.
  intros H. unfold strip, rstrip. apply lstrip_all_chars in H.
  rewrite all_chars_rev, forallb_forall. intros c Hc. apply in_rev in Hc.
  assert (Hl : all_chars p (lstrip (string_of_list_ascii (rev (list_ascii_of_string (lstrip s))))) = true).
  { apply lstrip_all_chars. rewrite all_chars_rev, forallb_forall. intros d Hd.
    apply in_rev in Hd. rewrite all_chars_list, forallb_forall in H. auto. }
  rewrite all_chars_list, forallb_forall in Hl. auto.
Qed.

Lemma drop_underscores_all_chars p s :
  all_chars p s = true -> all_chars p (drop_underscores s) = true.
Proof.
  induction s as [|c s IH]; simpl; [reflexivity|]. intros [Hc Hs]%andb_prop.
  destruct (Ascii.eqb c "_"); simpl; [|rewrite Hc]; auto.
Qed.

(** The fields of [split_on sep s] never contain [sep]. *)
Lemma split_on_fields sep s w : In w (split_on sep s) -> has_char sep w = false.
Proof.
  revert w. induction s as [|c s IH]; simpl; intros w Hw.
  - destruct Hw as [<-|[]]. reflexivity.
  - destruct (Ascii.eqb c sep) eqn:Hc.
    + destruct Hw as [<-|Hw]; [reflexivity | auto].
    + destruct (split_on sep s) as [|w0 ws] eqn:E.
      * destruct Hw as [<-|[]]. simpl. now rewrite Hc.
      * destruct Hw as [<-|Hw]; [|apply IH; right; exact Hw].
        simpl. rewrite Hc. apply IH. left. reflexivity.
Qed.

Lemma digits_value_acc_nonneg acc s v :
  (0 <= acc)%Z -> digits_value_acc acc s = Some v -> (0 <= v)%Z.
Proof.
  revert acc. induction s as [|c s IH]; intros acc Hacc H; cbn [digits_value_acc] in H.
  - injection H as <-. exact Hacc.
  - destruct (is_digit c); [|discriminate].
    eapply IH; [|exact H]. unfold digit_value. lia.
Qed.

Lemma digits_value_nonneg s v : digits_value s = Some v -> (0 <= v)%Z.
Proof.
  unfold digits_value. destruct s; [discriminate|]. apply digits_value_acc_nonneg. lia.
Qed.

(** [int(text)] of a text without a minus sign is never negative. *)
Lemma py_int_nonneg s k : has_char "-" s = false -> py_int s = Ok k -> (0 <= k)%Z.
Proof.
  intros Hs. unfold py_int.
  destruct (underscores_ok (strip s)); [|discriminate].
  assert (Ht : has_char "-" (drop_underscores (strip s)) = false).
  { apply has_char_false_iff, drop_underscores_all_chars, strip_all_chars, has_char_false_iff.
    exact Hs. }
  destruct (int_body (drop_underscores (strip s))) as [v|] eqn:E; [|discriminate].
  intros [= <-]. revert Ht E. unfold int_body.
  destruct (drop_underscores (strip s)) as [|c r]; [discriminate|].
  destruct c as [[] [] [] [] [] [] [] []];
    try (intros _; apply digits_value_nonneg); simpl; try discriminate.
Qed.

(** [str(n)] of a non-negative [n] contains no non-digit character. *)
Lemma str_Z_has_char c z : (0 <= z)%Z -> is_digit c = false -> has_char c (str_Z z) = false.
Proof.
  intros Hz Hc. apply has_char_false_iff.
  eapply all_chars_impl; [intros d Hd; apply is_digit_not; [exact Hd | exact Hc]|].
  apply (str_Z_digits z Hz).
Qed.

(** ** Zero padding *)

Lemma zeros_digits k : all_chars is_digit (zeros k) = true.
Proof. induction k; simpl; [reflexivity | exact IHk]. Qed.

Lemma digits_value_acc_zeros k s :
  digits_value_acc 0 (zeros k ++ s) = digits_value_acc 0 s.
Proof. induction k; [reflexivity|]. exact IHk. Qed.

(** [int()] reads a zero-padded [str(n)] back as [n]. *)
Lemma py_int_zero_pad n z : (0 <= z)%Z -> py_int (zero_pad n (str_Z z)) = Ok z.
Proof.
  intros Hz. destruct (str_Z_digits z Hz) as [Hd Hne].
  apply py_int_digit_string.
  - unfold zero_pad. rewrite all_chars_app, zeros_digits, Hd. reflexivity.
  - unfold zero_pad, digits_value.
    destruct (zeros (n - String.length (str_Z z)) ++ str_Z z) eqn:E.
    + destruct (zeros _); simpl in E; [congruence | discriminate].
    + rewrite <- E, digits_value_acc_zeros.
      rewrite <- (digits_value_str_Z z Hz). unfold digits_value.
      destruct (str_Z z); [congruence | reflexivity].
Qed.

Lemma string_app_inv_l p a b : p ++ a = p ++ b -> a = b.
Proof. induction p as [|c p IH]; simpl; [auto | intros [= H]; auto]. Qed.

(** A non-digit character occurs in no zero-padded [str(n)] of [n >= 0]. *)
Lemma zero_pad_has_char c w z :
  (0 <= z)%Z -> is_digit c = false -> has_char c (zero_pad w (str_Z z)) = false.
Proof.
  intros Hz Hc. unfold zero_pad. rewrite has_char_app, str_Z_has_char by assumption.
  rewrite orb_false_r. apply has_char_all_chars.
  apply (all_chars_impl is_digit); [|apply zeros_digits].
  intros a Ha. apply negb_true_iff, Ascii.eqb_neq. intros ->. congruence.
Qed.

(** ** Stripping a string that starts with a visible character *)

Lemma lstrip_snoc (xs : list ascii) c :
  py_isspace c = false ->
  exists ys, lstrip (string_of_list_ascii (xs ++ [c])) = string_of_list_ascii (ys ++ [c]).
Proof.
  intros Hc. induction xs as [|x xs IH]; cbn [app string_of_list_ascii lstrip].
  - rewrite Hc. exists []. reflexivity.
  - destruct (py_isspace x); [exact IH | exists (x :: xs); reflexivity].
Qed.

(** [strip()] keeps the first character when it is not whitespace. *)
Lemma strip_head c s : py_isspace c = false -> exists r, strip (String c s) = String c r.
Proof.
  intros Hc. unfold strip, rstrip. cbn [lstrip]. rewrite Hc. cbn [list_ascii_of_string rev].
  destruct (lstrip_snoc (rev (list_ascii_of_string s)) c Hc) as [ys ->].
  rewrite list_ascii_of_string_of_list_ascii, rev_app_distr. cbn [rev app string_of_list_ascii].
  eexists. reflexivity.
Qed.

Lemma digit_value_range c : is_digit c = true -> (0 <= digit_value c <= 9)%Z.
Proof.
  unfold is_digit, digit_value. intros [H1 H2]%andb_prop.
  apply Nat.leb_le in H1, H2. lia.
Qed.
