(* ===== verification/PyFloat.v ===== *)
(** * Python floats: [float(text)], [format(x, '.Nf')] and [sum]

    A Python [float] is an IEEE-754 binary64 number, which is exactly Rocq's
    primitive [float]; arithmetic on it ([+], [/]) is the primitive
    arithmetic.  This file models the three library routines of CPython the
    program calls on floats:
    - [float(text)] ([PyFloat_FromString]): underscores checked and dropped,
      whitespace stripped, then an optional sign and either [inf],
      [infinity], [nan] (any case) or a decimal literal, converted with
      correct rounding ([_Py_dg_strtod]); the conversion here rounds the exact
      rational value with the Standard Library's [SpecFloat] rounding;
    - [f"{x:.Nf}"] ([PyOS_double_to_string] in mode 3): the exact binary
      value rounded half-to-even to [N] decimals;
    - [sum(xs)] of a non-empty list of floats, as CPython 3.12 and later
      compute it (Neumaier's compensated summation after [0 + xs[0]]);
      [py_sum_naive] is the left fold of earlier versions. *)

From Stdlib Require Import String Ascii List ZArith Lia Bool Floats.
From S2P Require Import Prelude PyStr.
Import ListNotations.
Local Open Scope string_scope.

(** ** Decimal to binary64 *)

(** The float nearest to [(-1)^neg * m * 10^x] (ties to even), where [m]
    has at most [nd] decimal digits.  The two early exits are the cases
    where the value is beyond the largest float (more than [10^309]) or
    below half the smallest subnormal (less than [10^-330]). *)
Definition decimal_to_float (neg : bool) (m x : Z) (nd : nat) : float :=
  if (m =? 0)%Z then (if neg then neg_zero else zero)
  else if (309 <? x)%Z then (if neg then neg_infinity else infinity)
  else if (x + Z.of_nat nd <? -330)%Z then (if neg then neg_zero else zero)
  else SF2Prim
    (if (0 <=? x)%Z then
       binary_normalize prec emax (if neg then - (m * 5 ^ x) else m * 5 ^ x)%Z x false
     else
       SFdiv prec emax (S754_finite neg (Z.to_pos m) 0)
                       (S754_finite false (Z.to_pos (5 ^ (- x))) (- x))).

(** ** The grammar of [float()] *)

(** The longest prefix of ASCII digits, and the rest. *)
Fixpoint take_digits (s : string) : string * string :=
  match s with
  | EmptyString => (EmptyString, EmptyString)
  | String c s' =>
      if is_digit c then let (d, r) := take_digits s' in (String c d, r)
      else (EmptyString, s)
  end.

Definition take_sign (s : string) : bool * string :=
  match s with
  | String "-"%char r => (true, r)
  | String "+"%char r => (false, r)
  | _ => (false, s)
  end.

Definition lower_char (c : ascii) : ascii :=
  let n := nat_of_ascii c in
  if ((65 <=? n) && (n <=? 90))%nat then ascii_of_nat (n + 32) else c.

Fixpoint lower (s : string) : string :=
  match s with
  | EmptyString => EmptyString
  | String c s' => String (lower_char c) (lower s')
  end.

(** An exponent part, which must end the literal: [strtod] would stop
    before an incomplete one, and [float()] rejects what is left over. *)
Definition parse_exponent (r : string) : option Z :=
  match r with
  | EmptyString => Some 0%Z
  | String c r' =>
      if Ascii.eqb c "e" || Ascii.eqb c "E" then
        let (neg, r'') := take_sign r' in
        match take_digits r'' with
        | (ds, EmptyString) =>
            option_map (fun v => if neg then Z.opp v else v) (digits_value ds)
        | _ => None
        end
      else None
  end.

(** [digits ["." [digits]] [exponent]] or ["." digits [exponent]]. *)
Definition parse_decimal (neg : bool) (r : string) : option float :=
  let (ip, r1) := take_digits r in
  let (fp, r2) :=
    match r1 with
    | String "."%char r1' => take_digits r1'
    | _ => (EmptyString, r1)
    end in
  if (String.length ip + String.length fp =? 0)%nat then None
  else
    match parse_exponent r2, digits_value (ip ++ fp) with
    | Some x, Some m =>
        Some (decimal_to_float neg m (x - Z.of_nat (String.length fp))
                               (String.length (ip ++ fp)))
    | _, _ => None
    end.

(** [_Py_parse_inf_or_nan] or a decimal, after the sign. *)
Definition parse_float_body (t : string) : option float :=
  let (neg, r) := take_sign t in
  let l := lower r in
  if String.eqb l "inf" || String.eqb l "infinity" then
    Some (if neg then neg_infinity else infinity)
  else if String.eqb l "nan" then Some nan
  else parse_decimal neg r.

(** [float(s)] for a [str] argument. *)
Definition py_float (s : string) : outcome float :=
  let inner (t : string) :=
    match parse_float_body (strip t) with
    | Some f => Ok f
    | None => Raise (ValueError s)
    end in
  if has_char "_" s then
    (if underscores_ok s then inner (drop_underscores s) else Raise (ValueError s))
  else inner s.

(** ** [format(x, '.Nf')] *)

(** [num / den] rounded half to even, for [den > 0]. *)
Definition div_round_even (num den : Z) : Z :=
  let q := (num / den)%Z in
  let r := (num mod den)%Z in
  match Z.compare (2 * r) den with
  | Lt => q
  | Gt => q + 1
  | Eq => if Z.even q then q else q + 1
  end%Z.

(** [m * 2^e * 10^d] rounded half to even to an integer. *)
Definition scaled_round (d : nat) (m : positive) (e : Z) : Z :=
  if (0 <=? e)%Z then (Zpos m * 2 ^ e * 10 ^ Z.of_nat d)%Z
  else div_round_even (Zpos m * 10 ^ Z.of_nat d) (2 ^ (- e)).

(** The text of [n / 10^d] with [d] decimals, for [n >= 0]. *)
Definition fixed_digits (d : nat) (n : Z) : string :=
  match d with
  | O => str_Z n
  | S _ =>
      str_Z (n / 10 ^ Z.of_nat d) ++ "." ++ zero_pad d (str_Z (n mod 10 ^ Z.of_nat d))
  end.

Definition sign_text (s : bool) : string := if s then "-" else "".

Definition py_format_fixed (d : nat) (f : float) : string :=
  match Prim2SF f with
  | S754_nan => "nan"
  | S754_infinity s => sign_text s ++ "inf"
  | S754_zero s => sign_text s ++ fixed_digits d 0
  | S754_finite s m e => sign_text s ++ fixed_digits d (scaled_round d m e)
  end.

(** ** [sum(xs)] *)

Local Open Scope float_scope.

(** One step of the float loop of [builtin_sum_impl]: the running sum and
    the Neumaier compensation. *)
Definition neumaier_step (acc : float * float) (x : float) : float * float :=
  let (f, c) := acc in
  let t := f + x in
  let c' := if abs x <=? abs f then c + ((f - t) + x) else c + ((x - t) + f) in
  (t, c').

(** [sum(xs)] with the start value [0]: the first element is added to the
    integer [0] ([0.0 + x]), the rest go through the compensated loop, and
    the compensation is added at the end when it is non-zero and finite. *)
Definition py_sum (xs : list float) : float :=
  match xs with
  | [] => zero
  | x :: rest =>
      let (f, c) := fold_left neumaier_step rest (zero + x, zero) in
      if negb (c =? zero) && is_finite c then f + c else f
  end.

(** [sum(xs)] before CPython 3.12: a left fold from [0]. *)
Definition py_sum_naive (xs : list float) : float :=
  fold_left add xs zero.

Local Close Scope float_scope.

(** ** Lemmas *)

(** [float()] raises nothing but [ValueError]. *)
Lemma py_float_raise s e : py_float s = Raise e -> e = ValueError s.
Proof.
  unfold py_float.
  destruct (has_char "_" s); [destruct (underscores_ok s)|];
    try destruct (parse_float_body _); congruence.
Qed.

(** [float()] rejects a text that starts with ['(']. *)
Lemma py_float_paren r : py_float (String "(" r) = Raise (ValueError (String "(" r)).
Proof.
  assert (Hinner : forall t, exists t', strip (String "(" t) = String "(" t')
    by (intros t; apply strip_head; reflexivity).
  unfold py_float. cbn [has_char drop_underscores].
  change (Ascii.eqb "(" "_") with false. cbn [orb negb].
  destruct (has_char "_" r); [destruct (underscores_ok (String "(" r))|];
    try reflexivity;
    [destruct (Hinner (drop_underscores r)) as [t' ->] | destruct (Hinner r) as [t' ->]];
    reflexivity.
Qed.
