(* ===== verification/QtTable.v ===== *)
(** * The Qt table widget the ledgers are kept in

    The program keeps its month ledgers in [QTableWidget]s and touches them
    through five calls: [rowCount()], [item(row, col)] followed by
    [.text()], [setItem(row, col, QTableWidgetItem(text))],
    [insertRow(row)] and [setRowCount(0)].  Qt is a library the sources only
    call, so it is modelled twice:
    - [TableWidget] and [TableWidgetLaws] are the interface the handlers are
      written against and the contract their theorems use: reads and writes
      inside the table behave like a grid, reads outside it give [None],
      appending a row adds an empty row;
    - [qtable] implements it the way Qt's [QTableModel] (qtablewidget.cpp)
      does: one row-major vector of [rowCount * columnCount] optional items.
      [item()] checks the row and the column ([QAbstractItemModel::index]),
      while [setItem()] checks only the flat index [row * columnCount +
      column] against the vector, so a write to a column past the last one
      lands in the next row.  This is the behaviour the findings about the
      last distance band rest on; the contract does not promise it. *)

From Stdlib Require Import String Lia.
From stdpp Require Import base list.

(** ** The interface *)

Class TableWidget (T : Type) := {
  columnCount : T -> nat;
  rowCount : T -> nat;
  (** [item(row, col)]: the item's text, [None] for no item *)
  item : T -> nat -> nat -> option string;
  (** [setItem(row, col, QTableWidgetItem(text))] *)
  setItem : T -> nat -> nat -> string -> T;
  (** [insertRow(row)] *)
  insertRow : T -> nat -> T;
  (** [setRowCount(0)] *)
  clearRows : T -> T;
}.

(** The contract, relative to a well-formedness predicate every operation
    preserves. *)
Class TableWidgetLaws (T : Type) `{TableWidget T} := {
  table_wf : T -> Prop;
  wf_setItem t r c v : table_wf t -> table_wf (setItem t r c v);
  wf_insertRow t r : table_wf t -> table_wf (insertRow t r);
  wf_clearRows t : table_wf t -> table_wf (clearRows t);
  item_outside t r c :
    rowCount t <= r \/ columnCount t <= c -> item t r c = None;
  item_setItem_eq t r c v :
    table_wf t -> r < rowCount t -> c < columnCount t ->
    item (setItem t r c v) r c = Some v;
  item_setItem_ne t r c r' c' v :
    table_wf t -> r < rowCount t -> c < columnCount t -> (r, c) <> (r', c') ->
    item (setItem t r c v) r' c' = item t r' c';
  rowCount_setItem t r c v : rowCount (setItem t r c v) = rowCount t;
  columnCount_setItem t r c v : columnCount (setItem t r c v) = columnCount t;
  rowCount_insertRow_end t : rowCount (insertRow t (rowCount t)) = S (rowCount t);
  columnCount_insertRow t r : columnCount (insertRow t r) = columnCount t;
  item_insertRow_end t r c :
    table_wf t ->
    item (insertRow t (rowCount t)) r c = if r <? rowCount t then item t r c else None;
  rowCount_clearRows t : rowCount (clearRows t) = 0;
  columnCount_clearRows t : columnCount (clearRows t) = columnCount t;
}.

(** ** Qt's implementation: a row-major vector *)

Record qtable := {
  q_cols : nat;
  q_rows : nat;
  q_items : list (option string);
}.

(** A table widget after [setColumnCount(n)], with no rows. *)
Definition empty_qtable (n : nat) : qtable := {| q_cols := n; q_rows := 0; q_items := [] |}.

Definition q_item (t : qtable) (r c : nat) : option string :=
  if (r <? q_rows t) && (c <? q_cols t) then
    match q_items t !! (r * q_cols t + c) with Some o => o | None => None end
  else None.

(** [QTableModel::setItem]: only the flat index is checked. *)
Definition q_setItem (t : qtable) (r c : nat) (v : string) : qtable :=
  {| q_cols := q_cols t; q_rows := q_rows t;
     q_items := <[r * q_cols t + c := Some v]> (q_items t) |}.

(** [QTableModel::insertRows(row, 1)]: [columnCount] empty items at the
    row's flat position; a row past the end is refused. *)
Definition q_insertRow (t : qtable) (r : nat) : qtable :=
  if r <=? q_rows t then
    {| q_cols := q_cols t; q_rows := S (q_rows t);
       q_items := take (r * q_cols t) (q_items t) ++ replicate (q_cols t) None
                  ++ drop (r * q_cols t) (q_items t) |}
  else t.

Definition q_clearRows (t : qtable) : qtable :=
  {| q_cols := q_cols t; q_rows := 0; q_items := [] |}.

#[export] Instance qtable_widget : TableWidget qtable := {
  columnCount := q_cols;
  rowCount := q_rows;
  item := q_item;
  setItem := q_setItem;
  insertRow := q_insertRow;
  clearRows := q_clearRows;
}.

(** The shape invariant of [QTableModel]: the vector holds exactly
    [rowCount * columnCount] entries. *)
Definition q_wf (t : qtable) : Prop := length (q_items t) = q_rows t * q_cols t.

(** ** The implementation meets the contract *)

Lemma flat_index_inj n r c r' c' :
  c < n -> c' < n -> r * n + c = r' * n + c' -> r = r' /\ c = c'.
Proof.
  intros Hc Hc' H.
  assert (r = r') as <- by (destruct (Nat.lt_trichotomy r r') as [Hl|[Hl|Hl]]; [nia | exact Hl | nia]).
  split; [reflexivity | lia].
Qed.

Lemma q_flat_lt t r c : q_wf t -> r < q_rows t -> c < q_cols t -> r * q_cols t + c < length (q_items t).
Proof. unfold q_wf. intros -> Hr Hc. nia. Qed.

(** The shape invariant holds after every operation. *)
Lemma q_wf_setItem t r c v : q_wf t -> q_wf (q_setItem t r c v).
Proof. unfold q_wf; simpl. rewrite length_insert. auto. Qed.

Lemma q_wf_insertRow t r : q_wf t -> q_wf (q_insertRow t r).
Proof.
  unfold q_wf, q_insertRow. intros H. destruct (Nat.leb_spec r (q_rows t)) as [Hr|Hr]; [|exact H].
  simpl. rewrite !length_app, length_take, length_replicate, length_drop, H.
  assert (r * q_cols t <= q_rows t * q_cols t) by nia. lia.
Qed.

Lemma q_wf_clearRows t : q_wf (q_clearRows t).
Proof. reflexivity. Qed.

Lemma q_item_insertRow_end t r c :
  q_wf t -> q_item (q_insertRow t (q_rows t)) r c = if r <? q_rows t then q_item t r c else None.
Proof.
  intros H. unfold q_wf in H. unfold q_insertRow. rewrite Nat.leb_refl. unfold q_item; simpl.
  rewrite take_ge, drop_ge, app_nil_r by lia.
  destruct (Nat.ltb_spec r (q_rows t)) as [Hr|Hr];
    destruct (Nat.ltb_spec c (q_cols t)) as [Hc|Hc]; simpl;
    try (destruct (Nat.ltb_spec r (S (q_rows t))); [|lia]); simpl; try reflexivity.
  - rewrite lookup_app_l by (apply q_flat_lt; assumption). reflexivity.
  - destruct (Nat.ltb_spec r (S (q_rows t))); simpl; [|reflexivity].
    assert (r = q_rows t) as -> by lia.
    rewrite lookup_app_r by lia. rewrite H, Nat.add_sub_swap, Nat.sub_diag by lia.
    rewrite lookup_replicate_2 by lia. reflexivity.
  - destruct (Nat.ltb_spec r (S (q_rows t))); reflexivity.
Qed.

Lemma q_item_outside t r c : q_rows t <= r \/ q_cols t <= c -> q_item t r c = None.
Proof.
  unfold q_item. intros [Hr|Hc].
  - rewrite (proj2 (Nat.ltb_ge _ _) Hr). reflexivity.
  - rewrite (proj2 (Nat.ltb_ge c _) Hc), andb_false_r. reflexivity.
Qed.

Lemma q_item_setItem_eq t r c v :
  q_wf t -> r < q_rows t -> c < q_cols t -> q_item (q_setItem t r c v) r c = Some v.
Proof.
  intros H Hr Hc. unfold q_item, q_setItem; cbn [q_rows q_cols q_items].
  apply Nat.ltb_lt in Hr as Hr', Hc as Hc'. rewrite Hr', Hc'. cbn [andb].
  rewrite list_lookup_insert_eq by (apply q_flat_lt; assumption). reflexivity.
Qed.

Lemma q_item_setItem_ne t r c r' c' v :
  q_wf t -> r < q_rows t -> c < q_cols t -> (r, c) <> (r', c') ->
  q_item (q_setItem t r c v) r' c' = q_item t r' c'.
Proof.
  intros H Hr Hc Hne. unfold q_item, q_setItem; cbn [q_rows q_cols q_items].
  destruct ((r' <? q_rows t) && (c' <? q_cols t)) eqn:E; [|reflexivity].
  apply andb_prop in E as [_ Hc']. apply Nat.ltb_lt in Hc'.
  rewrite list_lookup_insert_ne; [reflexivity|].
  intros Heq. apply Hne. apply flat_index_inj in Heq as [H1 H2]; [subst; reflexivity | exact Hc | exact Hc'].
Qed.

Lemma q_rows_insertRow_end t : q_rows (q_insertRow t (q_rows t)) = S (q_rows t).
Proof. unfold q_insertRow. rewrite Nat.leb_refl. reflexivity. Qed.

Lemma q_cols_insertRow t r : q_cols (q_insertRow t r) = q_cols t.
Proof. unfold q_insertRow. destruct (r <=? q_rows t); reflexivity. Qed.

#[export] Instance qtable_laws : TableWidgetLaws qtable := {|
  table_wf := q_wf;
  wf_setItem := q_wf_setItem;
  wf_insertRow := q_wf_insertRow;
  wf_clearRows t _ := q_wf_clearRows t;
  item_outside := q_item_outside;
  item_setItem_eq := q_item_setItem_eq;
  item_setItem_ne := q_item_setItem_ne;
  rowCount_setItem t r c v := eq_refl;
  columnCount_setItem t r c v := eq_refl;
  rowCount_insertRow_end := q_rows_insertRow_end;
  columnCount_insertRow := q_cols_insertRow;
  item_insertRow_end := q_item_insertRow_end;
  rowCount_clearRows t := eq_refl;
  columnCount_clearRows t := eq_refl;
|}.


(** ** Qt-specific: a write past the last column *)

(** [setItem(row, columnCount + c)] writes the cell [(row + 1, c)] when that
    row exists: the flat index is the same. *)
Lemma q_setItem_wraps t r c v :
  q_wf t -> S r < q_rows t -> c < q_cols t ->
  q_item (q_setItem t r (q_cols t + c) v) (S r) c = Some v.
Proof.
  intros H Hr Hc. unfold q_item, q_setItem; cbn [q_rows q_cols q_items].
  apply Nat.ltb_lt in Hr as Hr', Hc as Hc'. rewrite Hr', Hc'. cbn [andb].
  replace (r * q_cols t + (q_cols t + c)) with (S r * q_cols t + c) by lia.
  rewrite list_lookup_insert_eq by (apply q_flat_lt; assumption). reflexivity.
Qed.

(** ... and leaves every other cell as it was. *)
Lemma q_setItem_wraps_other t r c v r' c' :
  q_wf t -> c < q_cols t -> (r', c') <> (S r, c) ->
  q_item (q_setItem t r (q_cols t + c) v) r' c' = q_item t r' c'.
Proof.
  intros H Hc Hne. unfold q_item, q_setItem; cbn [q_rows q_cols q_items].
  destruct ((r' <? q_rows t) && (c' <? q_cols t)) eqn:E; [|reflexivity].
  apply andb_prop in E as [_ Hc']. apply Nat.ltb_lt in Hc'.
  rewrite list_lookup_insert_ne; [reflexivity|].
  replace (r * q_cols t + (q_cols t + c)) with (S r * q_cols t + c) by lia.
  intros Heq. apply Hne. apply flat_index_inj in Heq as [H1 H2]; [subst; reflexivity | exact Hc | exact Hc'].
Qed.

(** A write whose flat index is past the vector changes nothing. *)
Lemma q_setItem_past_end t r c v :
  length (q_items t) <= r * q_cols t + c -> q_setItem t r c v = t.
Proof.
  intros H. unfold q_setItem. rewrite list_insert_ge by exact H. destruct t; reflexivity.
Qed.

(** The case the program meets: [setItem(row, columnCount)] writes the
    first cell of the next row. *)
Lemma q_setItem_count_wraps t r v :
  q_wf t -> S r < q_rows t -> 0 < q_cols t -> q_item (q_setItem t r (q_cols t) v) (S r) 0 = Some v.
Proof. intros. rewrite <- (Nat.add_0_r (q_cols t)) at 1. apply q_setItem_wraps; assumption. Qed.

Lemma q_setItem_count_other t r v r' c' :
  q_wf t -> 0 < q_cols t -> (r', c') <> (S r, 0) ->
  q_item (q_setItem t r (q_cols t) v) r' c' = q_item t r' c'.
Proof. intros. rewrite <- (Nat.add_0_r (q_cols t)) at 1. apply q_setItem_wraps_other; assumption. Qed.
