(* ===== verification/QtDate.v ===== *)
(** * Qt's dates and times: [QDate], [QTime] and their text forms

    The ledgers are keyed by [QDate.toString('yyyy-MM-dd')] and the work
    hours are read from [QTime.toString('HH:mm')].  Qt is a library the
    sources only call; this file models the part of [QDate] and [QTime] they
    use, on the proleptic Gregorian calendar Qt uses: [daysInMonth],
    [addDays] for a non-negative count (one day at a time), [dayOfWeek]
    (1 = Monday ... 7 = Sunday) and the two text formats.  A [QDateEdit]
    holds dates from 1752-09-14 to 9999-12-31, so years have four digits. *)

From Stdlib Require Import String Ascii List ZArith Lia Bool.
From S2P Require Import Prelude PyStr.
Import ListNotations.
Local Open Scope Z_scope.

Record QDate := mkDate { qd_year : Z; qd_month : Z; qd_day : Z }.

Record QTime := mkTime { qt_hour : Z; qt_minute : Z }.

Definition is_leap (y : Z) : bool :=
  ((y mod 4 =? 0) && negb (y mod 100 =? 0)) || (y mod 400 =? 0).

(** [QDate::daysInMonth] *)
Definition days_in_month (y m : Z) : Z :=
  if (m =? 2) then (if is_leap y then 29 else 28)
  else if (m =? 4) || (m =? 6) || (m =? 9) || (m =? 11) then 30
  else 31.

(** [QDate::isValid] *)
Definition valid_date (d : QDate) : bool :=
  (1 <=? qd_month d) && (qd_month d <=? 12) &&
  (1 <=? qd_day d) && (qd_day d <=? days_in_month (qd_year d) (qd_month d)).

Definition valid_time (t : QTime) : bool :=
  (0 <=? qt_hour t) && (qt_hour t <=? 23) && (0 <=? qt_minute t) && (qt_minute t <=? 59).

(** The day after [d]. *)
Definition next_day (d : QDate) : QDate :=
  if qd_day d <? days_in_month (qd_year d) (qd_month d) then
    mkDate (qd_year d) (qd_month d) (qd_day d + 1)
  else if qd_month d <? 12 then mkDate (qd_year d) (qd_month d + 1) 1
  else mkDate (qd_year d + 1) 1 1.

(** [QDate::addDays(n)] for [n >= 0]. *)
Definition addDays (d : QDate) (n : nat) : QDate := Nat.iter n next_day d.

(** Days since 1970-01-01 of a Gregorian date (the civil-from-days
    algorithm's inverse, by 400-year eras). *)
Definition days_from_civil (y m d : Z) : Z :=
  let y' := if m <=? 2 then y - 1 else y in
  let era := y' / 400 in
  let yoe := y' - era * 400 in
  let mp := if 2 <? m then m - 3 else m + 9 in
  let doy := (153 * mp + 2) / 5 + d - 1 in
  let doe := yoe * 365 + yoe / 4 - yoe / 100 + doy in
  era * 146097 + doe - 719468.

(** [QDate::dayOfWeek]: 1970-01-01 was a Thursday. *)
Definition dayOfWeek (d : QDate) : Z :=
  (days_from_civil (qd_year d) (qd_month d) (qd_day d) + 3) mod 7 + 1.

(** A number field padded with zeros ([yyyy], [MM], [dd], [HH], [mm]). *)
Definition num_field (width : nat) (n : Z) : string := zero_pad width (str_Z n).

(** [QDate::toString("yyyy-MM-dd")] *)
Definition date_text (d : QDate) : string :=
  num_field 4 (qd_year d) ++ "-" ++ num_field 2 (qd_month d) ++ "-" ++ num_field 2 (qd_day d).

(** [QTime::toString("HH:mm")] *)
Definition time_text (t : QTime) : string :=
  num_field 2 (qt_hour t) ++ ":" ++ num_field 2 (qt_minute t).

(** ** Lemmas *)

(** Within a month, [addDays i] from the first moves the day number. *)
Lemma addDays_first (y m : Z) (i : nat) :
  Z.of_nat i < days_in_month y m ->
  addDays (mkDate y m 1) i = mkDate y m (1 + Z.of_nat i).
Proof.
  induction i as [|i IH]; intros Hi; [reflexivity|].
  unfold addDays in *. simpl Nat.iter. rewrite IH by lia.
  unfold next_day; cbn [qd_year qd_month qd_day]. destruct (Z.ltb_spec (1 + Z.of_nat i) (days_in_month y m)); [|lia].
  f_equal. lia.
Qed.

Lemma days_in_month_range y m : 28 <= days_in_month y m <= 31.
Proof.
  unfold days_in_month.
  destruct (m =? 2); [destruct (is_leap y); lia|].
  destruct ((m =? 4) || (m =? 6) || (m =? 9) || (m =? 11)); lia.
Qed.

Lemma num_field_inj w a b : 0 <= a -> 0 <= b -> num_field w a = num_field w b -> a = b.
Proof.
  intros Ha Hb E. pose proof (py_int_zero_pad w a Ha) as Pa.
  unfold num_field in E. rewrite E, py_int_zero_pad in Pa by exact Hb. congruence.
Qed.

(** Two dates of one month with the same text are the same day. *)
Lemma date_text_day_inj y m d1 d2 :
  0 <= d1 -> 0 <= d2 -> date_text (mkDate y m d1) = date_text (mkDate y m d2) -> d1 = d2.
Proof.
  unfold date_text; cbn [qd_year qd_month qd_day]. intros H1 H2 E.
  apply string_app_inv_l in E. injection E as E.
  apply string_app_inv_l in E. injection E as E.
  exact (num_field_inj 2 d1 d2 H1 H2 E).
Qed.

(** A character other than a digit and ['-'] occurs in no date text of
    non-negative fields. *)
Lemma date_text_has_char c y m d :
  is_digit c = false -> Ascii.eqb "-" c = false -> 0 <= y -> 0 <= m -> 0 <= d ->
  has_char c (date_text (mkDate y m d)) = false.
Proof.
  intros Hc Hm Hy Hmo Hd. unfold date_text, num_field; cbn [qd_year qd_month qd_day].
  rewrite !has_char_app, !zero_pad_has_char by assumption. cbn [has_char]. rewrite Hm. reflexivity.
Qed.

(** Two dates of one year with the same text are in the same month. *)
Lemma date_text_month_inj y m1 m2 d1 d2 :
  0 <= m1 -> 0 <= m2 -> 0 <= d1 -> 0 <= d2 ->
  date_text (mkDate y m1 d1) = date_text (mkDate y m2 d2) -> m1 = m2.
Proof.
  unfold date_text; cbn [qd_year qd_month qd_day]. intros H1 H2 H3 H4 E.
  apply string_app_inv_l in E. injection E as E.
  assert (Hf : forall z, 0 <= z -> has_char "-"%char (num_field 2 z) = false)
    by (intros z Hz; apply zero_pad_has_char; [exact Hz | reflexivity]).
  apply (f_equal (split_on "-"%char)) in E.
  change ("-"%string ++ num_field 2 d1)%string with (String "-"%char (num_field 2 d1)) in E.
  change ("-"%string ++ num_field 2 d2)%string with (String "-"%char (num_field 2 d2)) in E.
  rewrite !split_on_app in E by (apply Hf; assumption). injection E as E _.
  exact (num_field_inj 2 m1 m2 H1 H2 E).
Qed.
