(* ===== verification/Zone.v ===== *)
(** * Zone resolver: from a distance-band label to a delivery-table column

    [FuvarAdminApp.getZoneColumn] (src/main.py:493-499) reads the lower bound
    of a band label such as ["Övezet 10-15"] and returns [lower // 5 + 1], or
    [0] when the label cannot be read.  The labels come from the distance
    combo box (main.py:206, ten bands from 0 to 50 km) and the delivery table
    has ten columns (main.py:315): the date and nine zone columns, for the
    bands 0 to 45 km (main.py:316).  The theorems say which column each
    label resolves to, that the sentinel [0] is the only non-positive result,
    and which labels land inside the table. *)

From Stdlib Require Import String Ascii List ZArith Lia Bool.
From S2P Require Import Prelude PyStr.
Import ListNotations.
Local Open Scope string_scope.

Module ZoneResolver.

(** [f"Övezet {i}-{i+5}"] *)
Definition zone_label (i : Z) : string :=
  "Övezet " ++ str_Z i ++ "-" ++ str_Z (i + 5).

(** [self.km_combo.addItems([f"Övezet {i}-{i+5}" for i in range(0, 50, 5)])] *)
Definition km_items : list string :=
  map (fun k => zone_label (5 * Z.of_nat k)) (range 10).

(** [["Dátum"] + [f"Övezet {i}-{i+5}" for i in range(0, 45, 5)] + ["Összeg"]] *)
Definition delivery_headers : list string :=
  ["Dátum"] ++ map (fun k => zone_label (5 * Z.of_nat k)) (range 9) ++ ["Összeg"].

(** [self.delivery_table.setColumnCount(10)] *)
Definition delivery_column_count : nat := 10.

(** [getZoneColumn]: the bare [except:] turns every exception of the
    [try] block into the sentinel [0]. *)
Definition getZoneColumn (zone_text : string) : Z :=
  match py_index (split_on " " zone_text) 1 with
  | Raise _ => 0
  | Ok field =>
      match py_index (split_on "-" field) 0 with
      | Raise _ => 0
      | Ok start =>
          match py_int start with
          | Ok start_km => start_km / 5 + 1
          | Raise _ => 0
          end
      end
  end.

(** ** Reading a band label *)

Lemma zone_label_fields i :
  (0 <= i)%Z ->
  split_on " " (zone_label i) = ["Övezet"; str_Z i ++ "-" ++ str_Z (i + 5)] /\
  split_on "-" (str_Z i ++ "-" ++ str_Z (i + 5)) = [str_Z i; str_Z (i + 5)].
Proof.
  intros Hi.
  assert (Hsp : forall z, (0 <= z)%Z -> has_char " " (str_Z z) = false)
    by (intros z Hz; apply str_Z_has_char; [exact Hz | reflexivity]).
  assert (Hmi : forall z, (0 <= z)%Z -> has_char "-" (str_Z z) = false)
    by (intros z Hz; apply str_Z_has_char; [exact Hz | reflexivity]).
  split.
  - change (zone_label i) with ("Övezet" ++ String " " (str_Z i ++ "-" ++ str_Z (i + 5))).
    rewrite split_on_app by reflexivity. f_equal.
    apply split_on_nosep. rewrite has_char_app. simpl.
    rewrite !Hsp by lia. reflexivity.
  - change ("-" ++ str_Z (i + 5)) with (String "-" (str_Z (i + 5))).
    rewrite split_on_app by (apply Hmi; lia). f_equal.
    rewrite split_on_nosep by (apply Hmi; lia). reflexivity.
Qed.

(** [py_int] of the lower-bound field of a split result. *)
Lemma zone_start_nonneg field start k :
  In start (split_on "-" field) -> py_int start = Ok k -> (0 <= k)%Z.
Proof. intros Hin. apply py_int_nonneg. exact (split_on_fields "-" field start Hin). Qed.

Lemma py_index_in {A} (xs : list A) i x : py_index xs i = Ok x -> In x xs.
Proof.
  unfold py_index. destruct (nth_error xs i) eqn:E; [|discriminate].
  intros [= <-]. eapply nth_error_In. exact E.
Qed.

(** The [k]-th of the first [n] band labels. *)
Lemma band_labels_nth n k :
  (k < n)%nat ->
  nth k (map (fun j => zone_label (5 * Z.of_nat j)) (range n)) "" = zone_label (5 * Z.of_nat k).
Proof.
  intros Hk. apply nth_error_nth. rewrite nth_error_map. unfold range.
  rewrite nth_error_seq. apply Nat.ltb_lt in Hk. rewrite Hk. reflexivity.
Qed.

Lemma km_items_nth k : (k < 10)%nat -> nth k km_items "" = zone_label (5 * Z.of_nat k).
Proof. apply band_labels_nth. Qed.

(** ** The column of each label *)

(** A band label ["Övezet i-(i+5)"] with a non-negative lower bound [i]
    resolves to column [i // 5 + 1]. *)
Lemma getZoneColumn_band (i : Z) (Hi : (0 <= i)%Z) :
  getZoneColumn (zone_label i) = (i / 5 + 1)%Z.
Proof.
  unfold getZoneColumn. destruct (zone_label_fields i Hi) as [H1 H2].
  rewrite H1. cbn [py_index nth_error]. rewrite H2. cbn [py_index nth_error].
  rewrite py_int_str_Z. reflexivity.
Qed.

(** [getZoneColumn] returns either the sentinel [0] or a column of at
    least [1]: it never names the date column, whatever the text. *)
Theorem getZoneColumn_sentinel (zone_text : string) :
  getZoneColumn zone_text = 0%Z \/ (1 <= getZoneColumn zone_text)%Z.
Proof.
  unfold getZoneColumn.
  destruct (py_index (split_on " " zone_text) 1) as [field|]; [|left; reflexivity].
  destruct (py_index (split_on "-" field) 0) as [start|] eqn:E; [|left; reflexivity].
  destruct (py_int start) as [k|] eqn:Ek; [|left; reflexivity].
  right. pose proof (zone_start_nonneg field start k (py_index_in _ _ _ E) Ek).
  pose proof (Z.div_pos k 5). lia.
Qed.

(** The [k]-th entry of the distance combo box resolves to column
    [k + 1], for each of its ten entries. *)
Lemma km_items_column (k : nat) (Hk : (k < 10)%nat) :
  getZoneColumn (nth k km_items "") = (Z.of_nat k + 1)%Z.
Proof.
  rewrite km_items_nth, getZoneColumn_band by lia.
  rewrite Z.mul_comm, Z.div_mul by lia. reflexivity.
Qed.



(** The last entry of the combo box, ["Övezet 45-50"], resolves to
    column [10], which the ten-column delivery table does not have. *)
Theorem last_band_past_table :
  getZoneColumn (nth 9 km_items "") = Z.of_nat delivery_column_count /\
  nth 9 km_items "" = "Övezet 45-50".
Proof. split; [apply km_items_column; lia | reflexivity]. Qed.

(** C5: [getZoneColumn] on any text of the form ["<word> <i>-<rest>"],
    where the word has no space and [i] is a non-negative decimal numeral,
    returns [i // 5 + 1], whatever the word and whatever follows the dash. *)
Theorem getZoneColumn_label (word rest : string) (i : Z) :
  has_char " " word = false -> (0 <= i)%Z ->
  getZoneColumn (word ++ " " ++ str_Z i ++ "-" ++ rest) = (i / 5 + 1)%Z.
Proof.
  intros Hw Hi. unfold getZoneColumn.
  destruct (split_on_cons " " rest) as (w & ws & E).
  pose proof (split_on_prefix " " "-" rest w ws eq_refl E) as E1.
  pose proof (split_on_prefix " " (str_Z i) _ _ ws (str_Z_has_char " " i Hi eq_refl) E1) as E2.
  change (" " ++ ?x) with (String " " x). rewrite split_on_app, E2 by exact Hw.
  cbn [py_index nth_error]. change ("-" ++ w) with (String "-" w).
  rewrite split_on_app by (apply str_Z_has_char; [exact Hi | reflexivity]).
  cbn [py_index nth_error]. rewrite py_int_str_Z. reflexivity.
Qed.

Lemma getZoneColumn_label_witness :
  has_char " " "Zone" = false /\ (0 <= 10)%Z /\
  getZoneColumn ("Zone" ++ " " ++ str_Z 10 ++ "-" ++ "15 km") = 3%Z.
Proof.
  split; [reflexivity | split; [lia |]].
  apply (getZoneColumn_label "Zone" "15 km" 10); [reflexivity | lia].
Defined.

(** The examples of the specification (property 1), ["Zone 10-15"]
    resolves to column 3 and ["garbage"] to the sentinel 0; the resolver
    does not check the label against the band pattern: any text whose
    second space-separated field starts with an integer resolves to a
    column. *)
Theorem getZoneColumn_unchecked :
  getZoneColumn "Zone 10-15" = 3%Z /\ getZoneColumn "x 7" = 2%Z /\
  getZoneColumn "Övezet 100-105" = 21%Z /\ getZoneColumn "garbage" = 0%Z.
Proof. vm_compute. repeat split. Qed.

End ZoneResolver.
