(* ===== verification/Ledger.v ===== *)
(** * The main window's state and the month ledgers

    [FuvarAdminApp] (src/main.py) keeps its state in widgets and attributes.
    [App T] collects the part the handlers read or change, over a table
    widget type [T] (see QtTable.v):
    - [form]: the input widgets (date picker, two time pickers, the three
      combo boxes as their current index and items, the free-text fields,
      the m3 field and the m3 summary label);
    - [work_table] and [delivery_table]: the two month ledgers;
    - [m3_values]: the attribute [self.m3_values], [None] until the first
      m3 value is typed ([hasattr] is false);
    - [work_log] and [delivery_log]: the records appended to
      [work_hours.json] and [delivery_data.json], one per line;
    - [journal_ok]: whether the journal files can be opened for appending;
    - [messages]: the message boxes shown, oldest first.

    [setupTableRows] (main.py:390-415) fills both ledgers with one row per
    day of the current month; the theorems characterise the result (row
    count, dates in order, day names, no other cells) and the date lookup
    every handler performs. *)

From Stdlib Require Import String Ascii List ZArith Lia Bool Floats.
From S2P Require Import Prelude PyStr PyFloat QtTable QtDate Zone.
Import ListNotations ZoneResolver.
Local Open Scope string_scope.

(** ** Data *)

(** [self.type_combo.addItems([...])] (main.py:192) *)
Definition type_items : list string :=
  ["Sima munkanap"; "Műhely nap"; "Szabadság"; "Betegszabadság (TP)"].

(** [day_names] (main.py:396) *)
Definition day_names : list string :=
  ["Hétfő"; "Kedd"; "Szerda"; "Csütörtök"; "Péntek"; "Szombat"; "Vasárnap"].

(** The dict [saveWorkHours] builds and appends to [work_hours.json]. *)
Record WorkRecord := mkWorkRecord {
  wr_date : string; wr_start_time : string; wr_end_time : string; wr_type : string }.

(** The dict [saveDeliveryData] builds and appends to [delivery_data.json]. *)
Record DeliveryRecord := mkDeliveryRecord {
  dr_date : string; dr_km_range : string; dr_factory : string;
  dr_address : string; dr_delivery_number : string; dr_m3_values : list float }.

(** A [QMessageBox.information] or [QMessageBox.warning]; a warning that
    reports an exception keeps the exception ([str(e)] is not rendered). *)
Inductive Message :=
| Information (title text : string)
| Warning (title text : string) (exc : option PyExc).

(** [QMessageBox.warning(self, "Hiba", f"Hiba történt: {str(e)}")], the
    [except Exception] of both commit handlers. *)
Definition error_warning (e : PyExc) : Message := Warning "Hiba" "Hiba történt: " (Some e).

Record Form := mkForm {
  date_edit : QDate;
  start_time : QTime;
  end_time : QTime;
  type_index : nat;
  km_index : nat;
  factory_items : list string;
  factory_index : nat;
  address_input : string;
  delivery_input : string;
  m3_input : string;
  m3_sum : string }.

Record App (T : Type) := mkApp {
  form : Form;
  work_table : T;
  delivery_table : T;
  m3_values : option (list float);
  work_log : list WorkRecord;
  delivery_log : list DeliveryRecord;
  journal_ok : bool;
  messages : list Message }.

Arguments mkApp {T}.
Arguments form {T}. Arguments work_table {T}. Arguments delivery_table {T}.
Arguments m3_values {T}. Arguments work_log {T}. Arguments delivery_log {T}.
Arguments journal_ok {T}. Arguments messages {T}.

(** [self.km_combo.currentText()], [self.type_combo.currentText()],
    [self.factory_combo.currentText()] *)
Definition km_text (f : Form) : string := nth (km_index f) km_items "".
Definition type_text (f : Form) : string := nth (type_index f) type_items "".
Definition factory_text (f : Form) : string := nth (factory_index f) (factory_items f) "".

(** [self.m3_values if hasattr(self, 'm3_values') else []] *)
Definition values_or_empty {T} (s : App T) : list float :=
  match m3_values s with Some vs => vs | None => [] end.

(** ** Updating the state *)

(** The two ledgers, by name. *)
Inductive Ledger := WorkLedger | DeliveryLedger.

Section Setters.
Context {T : Type}.

Definition set_form (f : Form) (s : App T) : App T :=
  mkApp f (work_table s) (delivery_table s) (m3_values s) (work_log s)
        (delivery_log s) (journal_ok s) (messages s).

Definition set_m3_input (v : string) (s : App T) : App T :=
  let f := form s in
  set_form (mkForm (date_edit f) (start_time f) (end_time f) (type_index f) (km_index f)
                   (factory_items f) (factory_index f) (address_input f)
                   (delivery_input f) v (m3_sum f)) s.

(** The user's choices in the form: the date edit and the distance combo. *)
Definition set_date_edit (d : QDate) (s : App T) : App T :=
  let f := form s in
  set_form (mkForm d (start_time f) (end_time f) (type_index f) (km_index f)
                   (factory_items f) (factory_index f) (address_input f)
                   (delivery_input f) (m3_input f) (m3_sum f)) s.

Definition set_times (st et : QTime) (s : App T) : App T :=
  let f := form s in
  set_form (mkForm (date_edit f) st et (type_index f) (km_index f)
                   (factory_items f) (factory_index f) (address_input f)
                   (delivery_input f) (m3_input f) (m3_sum f)) s.

Definition set_km_index (k : nat) (s : App T) : App T :=
  let f := form s in
  set_form (mkForm (date_edit f) (start_time f) (end_time f) (type_index f) k
                   (factory_items f) (factory_index f) (address_input f)
                   (delivery_input f) (m3_input f) (m3_sum f)) s.

(** The journal files becoming writable or not. *)
Definition set_journal_ok (b : bool) (s : App T) : App T :=
  mkApp (form s) (work_table s) (delivery_table s) (m3_values s) (work_log s)
        (delivery_log s) b (messages s).

Definition set_m3_sum (v : string) (s : App T) : App T :=
  let f := form s in
  set_form (mkForm (date_edit f) (start_time f) (end_time f) (type_index f) (km_index f)
                   (factory_items f) (factory_index f) (address_input f)
                   (delivery_input f) (m3_input f) v) s.

Definition set_m3_values (v : option (list float)) (s : App T) : App T :=
  mkApp (form s) (work_table s) (delivery_table s) v (work_log s)
        (delivery_log s) (journal_ok s) (messages s).

Definition add_work_record (r : WorkRecord) (s : App T) : App T :=
  mkApp (form s) (work_table s) (delivery_table s) (m3_values s) (work_log s ++ [r])
        (delivery_log s) (journal_ok s) (messages s).

Definition add_delivery_record (r : DeliveryRecord) (s : App T) : App T :=
  mkApp (form s) (work_table s) (delivery_table s) (m3_values s) (work_log s)
        (delivery_log s ++ [r]) (journal_ok s) (messages s).

Definition add_message (m : Message) (s : App T) : App T :=
  mkApp (form s) (work_table s) (delivery_table s) (m3_values s) (work_log s)
        (delivery_log s) (journal_ok s) (messages s ++ [m]).

Definition table_of (l : Ledger) (s : App T) : T :=
  match l with WorkLedger => work_table s | DeliveryLedger => delivery_table s end.

Definition set_table (l : Ledger) (t : T) (s : App T) : App T :=
  match l with
  | WorkLedger =>
      mkApp (form s) t (delivery_table s) (m3_values s) (work_log s)
            (delivery_log s) (journal_ok s) (messages s)
  | DeliveryLedger =>
      mkApp (form s) (work_table s) t (m3_values s) (work_log s)
            (delivery_log s) (journal_ok s) (messages s)
  end.
End Setters.

(** ** Table access in the handlers *)

Section Access.
Context {T : Type} `{TableWidget T}.

(** [table.rowCount()] *)
Definition row_count (l : Ledger) : Py (App T) nat :=
  gets (fun s => rowCount (table_of l s)).

(** [table.item(row, col)] *)
Definition cell (l : Ledger) (r c : nat) : Py (App T) (option string) :=
  gets (fun s => item (table_of l s) r c).

(** [table.item(row, col).text()]: [AttributeError] on a missing item. *)
Definition cell_text (l : Ledger) (r c : nat) : Py (App T) string :=
  fun s => match item (table_of l s) r c with
           | Some v => (s, Ok v)
           | None => (s, Raise AttributeError)
           end.

(** [table.setItem(row, col, QTableWidgetItem(text))] *)
Definition set_cell (l : Ledger) (r c : nat) (v : string) : Py (App T) unit :=
  modify (fun s => set_table l (setItem (table_of l s) r c v) s).

(** [for row in range(table.rowCount()):
        if table.item(row, 0).text() == key: body(row)]:
    the date lookup every handler performs (main.py:489-491, 516-525,
    556-567, 699-706, 712-714). *)
Definition scan_step (l : Ledger) (key : string) (body : nat -> Py (App T) unit) (row : nat) :
  Py (App T) unit :=
  d <- cell_text l row 0 ;;
  if String.eqb d key then body row else ret tt.

Definition scan_rows (l : Ledger) (key : string) (body : nat -> Py (App T) unit) : Py (App T) unit :=
  n <- row_count l ;;
  py_for (range n) (scan_step l key body).

(** ** [setupTableRows] (main.py:390-415) *)

(** The body of [for table in [self.work_table, self.delivery_table]]. *)
Definition setup_ledger (today : QDate) (l : Ledger) : Py (App T) unit :=
  let first_day := mkDate (qd_year today) (qd_month today) 1 in
  let days := Z.to_nat (days_in_month (qd_year today) (qd_month today)) in
  modify (fun s => set_table l (clearRows (table_of l s)) s) ;;;
  py_for (range days) (fun i =>
    let current_day := addDays first_day i in
    modify (fun s => set_table l (insertRow (table_of l s) i) s) ;;;
    set_cell l i 0 (date_text current_day) ;;;
    match l with
    | WorkLedger =>
        set_cell l i 1 (nth (Z.to_nat (dayOfWeek current_day - 1)) day_names "")
    | DeliveryLedger => ret tt
    end).

Definition setupTableRows (today : QDate) : Py (App T) unit :=
  py_for [WorkLedger; DeliveryLedger] (setup_ledger today).
End Access.

(** ** The shape of a freshly set-up ledger *)

(** [day_names[current_day.dayOfWeek() - 1]] for the [i]-th day. *)
Definition day_cell (y m : Z) (i : nat) : string :=
  nth (Z.to_nat (dayOfWeek (mkDate y m (1 + Z.of_nat i)) - 1)) day_names "".

(** The text of row [i], column [c] of ledger [l] right after
    [setupTableRows]: the date, the day name in the work ledger, nothing
    else. *)
Definition fresh_cell (l : Ledger) (y m : Z) (i c : nat) : option string :=
  match c, l with
  | O, _ => Some (date_text (mkDate y m (1 + Z.of_nat i)))
  | 1, WorkLedger => Some (day_cell y m i)
  | _, _ => None
  end.

(** The columns a ledger needs for [setupTableRows] to fill it. *)
Definition needed_columns (l : Ledger) : nat :=
  match l with WorkLedger => 2 | DeliveryLedger => 1 end.

Section LedgerFacts.
Context {T : Type} `{TableWidgetLaws T}.

Lemma table_of_set_table (l : Ledger) (t : T) s : table_of l (set_table l t s) = t.
Proof. destruct l; reflexivity. Qed.

Lemma table_of_set_table_other (l l' : Ledger) (t : T) s :
  l <> l' -> table_of l' (set_table l t s) = table_of l' s.
Proof. destruct l, l'; intros Hne; try congruence; reflexivity. Qed.

Lemma set_table_twice (l : Ledger) (t t' : T) s :
  set_table l t (set_table l t' s) = set_table l t s.
Proof. destruct l; reflexivity. Qed.

Lemma set_table_same (l : Ledger) (s : App T) : set_table l (table_of l s) s = s.
Proof. destruct l, s; reflexivity. Qed.

(** [fresh_ledger l t y m]: [t] is ledger [l] for month [y-m] as
    [setupTableRows] leaves it. *)
Definition fresh_ledger (l : Ledger) (t : T) (y m : Z) : Prop :=
  table_wf t /\ rowCount t = Z.to_nat (days_in_month y m) /\
  forall i c, item t i c = if Nat.ltb i (rowCount t) then fresh_cell l y m i c else None.

(** The table after the first [k] iterations of the row loop. *)
Definition partial_ledger (l : Ledger) (y m : Z) (k : nat) (t : T) : Prop :=
  table_wf t /\ rowCount t = k /\ needed_columns l <= columnCount t /\
  forall i c, item t i c = if Nat.ltb i k then fresh_cell l y m i c else None.

Lemma partial_ledger_step l y m k (t : T) :
  partial_ledger l y m k t ->
  let t1 := setItem (insertRow t k) k 0 (date_text (mkDate y m (1 + Z.of_nat k))) in
  partial_ledger l y m (S k)
    (match l with WorkLedger => setItem t1 k 1 (day_cell y m k) | DeliveryLedger => t1 end).
Proof.
  intros (Hwf & Hrows & Hcols & Hitems). cbv zeta.
  assert (Hwf1 : table_wf (insertRow t k)) by (apply wf_insertRow; exact Hwf).
  assert (Hr1 : rowCount (insertRow t k) = S k) by (rewrite <- Hrows at 1 2; apply rowCount_insertRow_end).
  assert (Hc1 : columnCount (insertRow t k) = columnCount t) by apply columnCount_insertRow.
  assert (Hi1 : forall i c, item (insertRow t k) i c = if Nat.ltb i k then item t i c else None)
    by (intros i c; rewrite <- Hrows at 1; rewrite item_insertRow_end by exact Hwf; rewrite Hrows; reflexivity).
  set (t1 := insertRow t k) in *.
  set (t2 := setItem t1 k 0 (date_text (mkDate y m (1 + Z.of_nat k)))).
  assert (Hcol0 : 0 < columnCount t1) by (destruct l; simpl in Hcols; lia).
  assert (Hwf2 : table_wf t2) by (apply wf_setItem; exact Hwf1).
  assert (Hr2 : rowCount t2 = S k) by (unfold t2; rewrite rowCount_setItem; exact Hr1).
  assert (Hc2 : columnCount t2 = columnCount t) by (unfold t2; rewrite columnCount_setItem; exact Hc1).
  assert (Hi2 : forall i c, item t2 i c =
            if Nat.eqb i k && Nat.eqb c 0 then Some (date_text (mkDate y m (1 + Z.of_nat k)))
            else item t1 i c).
  { intros i c. unfold t2.
    destruct (Nat.eqb_spec i k) as [->|Hik]; destruct (Nat.eqb_spec c 0) as [->|Hc0]; simpl;
      [apply item_setItem_eq; [exact Hwf1 | lia | lia] | | |];
      (apply item_setItem_ne; [exact Hwf1 | lia | lia | congruence]). }
  destruct l.
  - split; [apply wf_setItem; exact Hwf2|].
    split; [rewrite rowCount_setItem; exact Hr2|].
    split; [rewrite columnCount_setItem, Hc2; exact Hcols|].
    intros i c. simpl in Hcols.
    destruct (Nat.eqb_spec i k) as [->|Hik]; [destruct (Nat.eqb_spec c 1) as [->|Hc1']|].
    + rewrite item_setItem_eq by (exact Hwf2 || lia). rewrite (proj2 (Nat.ltb_lt k (S k))) by lia.
      reflexivity.
    + rewrite item_setItem_ne by (exact Hwf2 || lia || congruence).
      rewrite Hi2, Nat.eqb_refl, Hi1, Nat.ltb_irrefl, (proj2 (Nat.ltb_lt k (S k))) by lia.
      destruct c as [|[|c]]; simpl; congruence.
    + rewrite item_setItem_ne by (exact Hwf2 || lia || congruence).
      rewrite Hi2, (proj2 (Nat.eqb_neq i k) Hik), Hi1, Hitems. simpl.
      destruct (Nat.ltb_spec i k); destruct (Nat.ltb_spec i (S k)); try reflexivity; lia.
  - split; [exact Hwf2|]. split; [exact Hr2|]. split; [rewrite Hc2; exact Hcols|].
    intros i c. rewrite Hi2, Hi1.
    destruct (Nat.eqb_spec i k) as [->|Hik].
    + rewrite Nat.ltb_irrefl, (proj2 (Nat.ltb_lt k (S k))) by lia.
      destruct c as [|[|c]]; reflexivity.
    + rewrite Hitems. simpl.
      destruct (Nat.ltb_spec i k); destruct (Nat.ltb_spec i (S k)); try reflexivity; lia.
Qed.
End LedgerFacts.

Section SetupRun.
Context {T : Type} `{TableWidgetLaws T}.

Lemma partial_ledger_start l y m (t : T) :
  table_wf t -> needed_columns l <= columnCount t ->
  partial_ledger l y m 0 (clearRows t).
Proof.
  intros Hwf Hc. split; [apply wf_clearRows; exact Hwf|].
  split; [apply rowCount_clearRows|]. split; [rewrite columnCount_clearRows; exact Hc|].
  intros i c. apply item_outside. left. rewrite rowCount_clearRows. lia.
Qed.

(** One ledger of [setupTableRows]: the ledger becomes fresh for the
    month of [today], with its columns, and nothing else changes. *)
Lemma setup_ledger_run (today : QDate) (l : Ledger) (s : App T) :
  table_wf (table_of l s) -> needed_columns l <= columnCount (table_of l s) ->
  exists t', setup_ledger today l s = (set_table l t' s, Ok tt) /\
             fresh_ledger l t' (qd_year today) (qd_month today) /\
             columnCount t' = columnCount (table_of l s).
Proof.
  intros Hwf Hc. set (y := qd_year today). set (m := qd_month today).
  set (days := Z.to_nat (days_in_month y m)).
  pose (I := fun k (u : App T) =>
    partial_ledger l y m k (table_of l u) /\
    u = set_table l (table_of l u) s /\ columnCount (table_of l u) = columnCount (table_of l s)).
  unfold setup_ledger. fold y m days.
  rewrite bind_modify. cbv beta.
  set (s1 := set_table l (clearRows (table_of l s)) s).
  match goal with |- exists t', py_for _ ?b _ = _ /\ _ => set (body := b) end.
  assert (Hinit : I 0 s1).
  { split; [unfold s1; rewrite table_of_set_table; apply partial_ledger_start; assumption|].
    unfold s1. rewrite table_of_set_table, columnCount_clearRows.
    split; reflexivity. }
  assert (Hstep : forall i u, i < days -> I i u -> exists u', body i u = (u', Ok tt) /\ I (S i) u').
  { intros i u Hi (Hpu & Hu & Hcu).
    pose proof (partial_ledger_step l y m i (table_of l u) Hpu) as Hnext.
    destruct Hpu as (_ & Hrows & _).
    unfold body. rewrite (addDays_first y m i) by (pose proof (days_in_month_range y m); lia).
    destruct l; (eexists; split; [reflexivity|]); unfold I;
      rewrite ?table_of_set_table, ?set_table_twice;
      (split; [exact Hnext|]); (split; [rewrite Hu at 2; rewrite set_table_twice; reflexivity|]);
      rewrite ?columnCount_setItem, columnCount_insertRow; exact Hcu. }
  destruct (py_for_range_inv I body days s1 Hinit Hstep) as (s' & Hrun & (Hp & Hs' & Hcs')).
  rewrite Hs' in Hrun. exists (table_of l s'). split; [exact Hrun|].
  destruct Hp as (Hwf' & Hr' & _ & Hitems). split; [|exact Hcs'].
  split; [exact Hwf'|]. split; [exact Hr'|]. rewrite Hr'. exact Hitems.
Qed.
End SetupRun.

(** ** [setupTableRows] *)

Section SetupTheorems.
Context {T : Type} `{TableWidgetLaws T}.

(** Both ledgers are filled in turn, the work ledger first. *)
Lemma setupTableRows_run (today : QDate) (s : App T) :
  table_wf (work_table s) -> 2 <= columnCount (work_table s) ->
  table_wf (delivery_table s) -> 1 <= columnCount (delivery_table s) ->
  exists w d,
    setupTableRows today s = (set_table DeliveryLedger d (set_table WorkLedger w s), Ok tt) /\
    fresh_ledger WorkLedger w (qd_year today) (qd_month today) /\
    fresh_ledger DeliveryLedger d (qd_year today) (qd_month today).
Proof.
  intros Hw Hwc Hd Hdc.
  destruct (setup_ledger_run today WorkLedger s Hw Hwc) as (w & Hrw & Hfw & _).
  destruct (setup_ledger_run today DeliveryLedger (set_table WorkLedger w s) Hd Hdc)
    as (d & Hrd & Hfd & _).
  exists w, d. split; [|split; assumption].
  unfold setupTableRows. simpl py_for.
  rewrite (bind_run _ _ s _ tt Hrw), (bind_run _ _ _ _ tt Hrd). reflexivity.
Qed.

(** C1: [setupTableRows] leaves both ledgers fresh for the month of the
    given date: one row per day of the month, row [i] holding the date of
    day [i + 1] (in [yyyy-MM-dd] form), the work ledger holding the day
    name in column 1, and no other cell set; nothing else changes. *)
Theorem setupTableRows_fresh (today : QDate) (s : App T) :
  table_wf (work_table s) -> 2 <= columnCount (work_table s) ->
  table_wf (delivery_table s) -> 1 <= columnCount (delivery_table s) ->
  exists w d,
    setupTableRows today s = (set_table DeliveryLedger d (set_table WorkLedger w s), Ok tt) /\
    fresh_ledger WorkLedger w (qd_year today) (qd_month today) /\
    fresh_ledger DeliveryLedger d (qd_year today) (qd_month today).
Proof. apply setupTableRows_run. Qed.

(** In a fresh ledger no two rows hold the same date. *)
Theorem fresh_ledger_dates_unique (l : Ledger) (t : T) y m i j :
  fresh_ledger l t y m -> i < rowCount t -> j < rowCount t ->
  item t i 0 = item t j 0 -> i = j.
Proof.
  intros (_ & _ & Hitems) Hi Hj E. rewrite !Hitems in E.
  rewrite (proj2 (Nat.ltb_lt _ _) Hi), (proj2 (Nat.ltb_lt _ _) Hj) in E.
  injection E as E. apply date_text_day_inj in E; lia.
Qed.
End SetupTheorems.

(** [setupTableRows] reads and writes the two tables only: it commutes
    with a change of the form. *)
Section SetupFrame.
Context {T : Type} `{TableWidget T}.

Lemma setupTableRows_set_form (today : QDate) (f : Form) (s : App T) :
  setupTableRows today (set_form f s) =
    (set_form f (fst (setupTableRows today s)), snd (setupTableRows today s)).
Proof.
  revert s. change (commutes (set_form f) (setupTableRows (T:=T) today)).
  unfold setupTableRows, setup_ledger, set_cell. commutes_tac;
    apply commutes_modify; intros s; repeat match goal with l : Ledger |- _ => destruct l end; reflexivity.
Qed.

(** [setupTableRows] raises nothing: it only inserts rows and sets items. *)
Lemma setupTableRows_normal (today : QDate) (s : App T) : snd (setupTableRows today s) = Ok tt.
Proof.
  apply (only_no_exc (fun _ => True)); [|exact I].
  unfold setupTableRows, setup_ledger, set_cell.
  repeat match goal with
  | |- forall _, _ => intro
  | |- only_raises _ _ (bind _ _) => apply only_bind; [intros ? _; exact I | |]
  | |- only_raises _ _ (py_for _ _) => apply only_for; [intros ? ? ? _; exact I |]
  | |- only_raises _ _ (modify _) => apply only_modify
  | |- only_raises _ _ (ret _) => apply only_ret
  | |- only_raises _ _ (match ?o with _ => _ end) => destruct o
  end.
Qed.

Lemma setupTableRows_ok (today : QDate) (s : App T) :
  setupTableRows today s = (fst (setupTableRows today s), Ok tt).
Proof. rewrite <- (setupTableRows_normal today s). destruct (setupTableRows today s); reflexivity. Qed.
End SetupFrame.

(** ** The window as [__init__] leaves it *)

(** The input widgets after [setupTopFrame] (main.py:160-246): the date
    picker on [today], the time pickers on 00:00, every combo box on its
    first entry, the factory combo box filled from the store, the m3
    summary label ["(0)"]. *)
Definition start_form (today : QDate) (factories : list string) : Form :=
  mkForm today (mkTime 0 0) (mkTime 0 0) 0 0 factories 0 "" "" "" "(0)".

(** The state before [setupTableRows]: the work table with 7 columns and
    the delivery table with 10 (main.py:259-260, 314-315), no row yet, no
    [m3_values] attribute, no journal line, no message. *)
Definition unfilled_app (today : QDate) (factories : list string) : App qtable :=
  mkApp (start_form today factories) (empty_qtable 7) (empty_qtable 10) None [] [] true [].

(** [FuvarAdminApp.__init__] up to the tables (main.py:38-56, 248-357). *)
Definition init_app (today : QDate) (factories : list string) : App qtable :=
  fst (setupTableRows today (unfilled_app today factories)).

(** The two ledgers of a new window are fresh for the current month. *)
Lemma init_app_fresh (today : QDate) (factories : list string) :
  fresh_ledger WorkLedger (work_table (init_app today factories)) (qd_year today) (qd_month today) /\
  fresh_ledger DeliveryLedger (delivery_table (init_app today factories)) (qd_year today) (qd_month today).
Proof.
  unfold init_app.
  destruct (setupTableRows_run today (unfilled_app today factories))
    as (w & d & E & Hw & Hd); [exact eq_refl | simpl; lia | exact eq_refl | simpl; lia |].
  rewrite E. split; assumption.
Qed.

Definition nov5 : QDate := mkDate 2024 11 5.

Lemma setupTableRows_fresh_witness :
  exists w d,
    setupTableRows nov5 (unfilled_app nov5 []) =
      (set_table DeliveryLedger d (set_table WorkLedger w (unfilled_app nov5 [])), Ok tt) /\
    fresh_ledger WorkLedger w 2024 11 /\ fresh_ledger DeliveryLedger d 2024 11.
Proof. apply (setupTableRows_fresh nov5); (exact eq_refl || (simpl; lia)). Defined.

Lemma fresh_ledger_dates_unique_witness :
  rowCount (work_table (init_app nov5 [])) = 30 /\ 4 = 4.
Proof.
  split; [vm_compute; reflexivity|].
  apply (fresh_ledger_dates_unique WorkLedger (work_table (init_app nov5 [])) 2024 11 4 4).
  - exact (proj1 (init_app_fresh nov5 [])).
  - vm_compute. lia.
  - vm_compute. lia.
  - reflexivity.
Defined.

(** ** Looking a date up *)

Section Scan.
Context {T : Type} `{TableWidgetLaws T}.

(** A ledger whose rows are the days of month [y-m], in order: what every
    handler keeps of a fresh ledger (they only write other columns). *)
Definition dated_ledger (t : T) (y m : Z) : Prop :=
  table_wf t /\ rowCount t = Z.to_nat (days_in_month y m) /\
  forall i, i < rowCount t -> item t i 0 = Some (date_text (mkDate y m (1 + Z.of_nat i))).

Lemma fresh_dated (l : Ledger) (t : T) y m : fresh_ledger l t y m -> dated_ledger t y m.
Proof.
  intros (Hwf & Hr & Hit). split; [exact Hwf|]. split; [exact Hr|].
  intros i Hi. rewrite Hit, (proj2 (Nat.ltb_lt _ _) Hi). reflexivity.
Qed.

(** A write inside the table to a column other than the date column keeps
    the dates. *)
Lemma dated_setItem (t : T) y m r c v :
  dated_ledger t y m -> r < rowCount t -> 0 < c < columnCount t ->
  dated_ledger (setItem t r c v) y m.
Proof.
  intros (Hwf & Hr & Hd) Hrr Hc. split; [apply wf_setItem; exact Hwf|].
  rewrite rowCount_setItem. split; [exact Hr|]. intros i Hi.
  rewrite item_setItem_ne by (exact Hwf || lia || (intros E; injection E; lia)). auto.
Qed.

Lemma scan_step_other (l : Ledger) key body (s : App T) i v :
  item (table_of l s) i 0 = Some v -> v <> key -> scan_step l key body i s = (s, Ok tt).
Proof.
  intros Hv Hne. unfold scan_step, bind, cell_text. rewrite Hv.
  apply String.eqb_neq in Hne. rewrite Hne. reflexivity.
Qed.

Lemma scan_step_key (l : Ledger) key body (s : App T) i :
  item (table_of l s) i 0 = Some key -> scan_step l key body i s = body i s.
Proof. intros Hv. unfold scan_step, bind, cell_text. rewrite Hv, String.eqb_refl. reflexivity. Qed.

(** [scan_rows] when no row holds [key]: nothing happens. *)
Lemma scan_rows_none (l : Ledger) key body (s : App T) :
  (forall i, i < rowCount (table_of l s) ->
     exists v, item (table_of l s) i 0 = Some v /\ v <> key) ->
  scan_rows l key body s = (s, Ok tt).
Proof.
  intros Hno. unfold scan_rows, row_count. rewrite bind_gets.
  apply py_for_noop. intros i Hi. apply in_range in Hi.
  destruct (Hno i Hi) as (v & Hv & Hne). exact (scan_step_other l key body s i v Hv Hne).
Qed.

(** [scan_rows] when row [r] is the first row holding [key] and no later
    row holds it after the body ran at [r]: the body's effect. *)
Lemma scan_rows_one (l : Ledger) key body (s s' : App T) r o :
  r < rowCount (table_of l s) ->
  item (table_of l s) r 0 = Some key ->
  (forall i, i < r -> exists v, item (table_of l s) i 0 = Some v /\ v <> key) ->
  body r s = (s', o) ->
  (o = Ok tt -> forall i, r < i < rowCount (table_of l s) ->
     exists v, item (table_of l s') i 0 = Some v /\ v <> key) ->
  scan_rows l key body s = (s', o).
Proof.
  intros Hr Hkey Hothers Hbody Hlater. unfold scan_rows, row_count. rewrite bind_gets.
  rewrite (range_split _ r Hr).
  destruct o as [[]|e].
  - apply py_for_single.
    + intros i Hi. apply in_range in Hi.
      destruct (Hothers i ltac:(lia)) as (v & Hv & Hne).
      exact (scan_step_other l key body s i v Hv Hne).
    + rewrite scan_step_key by exact Hkey. exact Hbody.
    + intros i Hi. apply in_seq in Hi.
      destruct (Hlater eq_refl i ltac:(lia)) as (v & Hv & Hne).
      exact (scan_step_other l key body s' i v Hv Hne).
  - apply py_for_raise.
    + intros i Hi. apply in_range in Hi.
      destruct (Hothers i ltac:(lia)) as (v & Hv & Hne).
      exact (scan_step_other l key body s i v Hv Hne).
    + rewrite scan_step_key by exact Hkey. exact Hbody.
Qed.

(** In a dated ledger, the row of day [d] holds the date of day [d] and
    no other row does. *)
Lemma dated_rows (t : T) y m (d : Z) :
  dated_ledger t y m -> (1 <= d <= Z.of_nat (rowCount t))%Z ->
  item t (Z.to_nat (d - 1)) 0 = Some (date_text (mkDate y m d)) /\
  forall i, i < rowCount t -> i <> Z.to_nat (d - 1) ->
    exists v, item t i 0 = Some v /\ v <> date_text (mkDate y m d).
Proof.
  intros (_ & _ & Hd) Hdr. split.
  - rewrite Hd by lia. do 3 f_equal. lia.
  - intros i Hi Hne. rewrite Hd by exact Hi. eexists. split; [reflexivity|].
    intros E. apply date_text_day_inj in E; lia.
Qed.

(** In a dated ledger, a key that is no row's date matches no row. *)
Lemma dated_no_row (t : T) y m key :
  dated_ledger t y m ->
  (forall i, i < rowCount t -> date_text (mkDate y m (1 + Z.of_nat i)) <> key) ->
  forall i, i < rowCount t -> exists v, item t i 0 = Some v /\ v <> key.
Proof.
  intros (_ & _ & Hd) Hno i Hi. rewrite Hd by exact Hi. eexists. split; [reflexivity | auto].
Qed.
(** After a write at row [r] outside the date column, the later rows of a
    dated ledger still hold other dates than row [r]'s. *)
Lemma dated_later_rows (t : T) y m r c v :
  dated_ledger t y m -> r < rowCount t -> 0 < c < columnCount t ->
  forall i, r < i < rowCount t ->
    exists w, item (setItem t r c v) i 0 = Some w /\
              w <> date_text (mkDate y m (1 + Z.of_nat r)).
Proof.
  intros Hd Hr Hc i Hi. destruct (dated_setItem t y m r c v Hd Hr Hc) as (_ & Hrows & Hdates).
  rewrite rowCount_setItem in Hrows. rewrite Hdates by (rewrite rowCount_setItem; lia).
  eexists. split; [reflexivity|]. intros E. apply date_text_day_inj in E; lia.
Qed.

(** The rows before [r] of a dated ledger hold other dates than row [r]'s. *)
Lemma dated_earlier_rows (t : T) y m r :
  dated_ledger t y m -> r < rowCount t ->
  forall i, i < r -> exists w, item t i 0 = Some w /\ w <> date_text (mkDate y m (1 + Z.of_nat r)).
Proof.
  intros (_ & _ & Hd) Hr i Hi. rewrite Hd by lia. eexists. split; [reflexivity|].
  intros E. apply date_text_day_inj in E; lia.
Qed.

Lemma dated_row_key (t : T) y m r :
  dated_ledger t y m -> r < rowCount t ->
  item t r 0 = Some (date_text (mkDate y m (1 + Z.of_nat r))).
Proof. intros (_ & _ & Hd) Hr. exact (Hd r Hr). Qed.

(** The date lookup over a dated ledger finds row [r] for the date of day
    [r + 1]: the body's effect at that row, when the body keeps the dates. *)
Lemma scan_rows_dated (l : Ledger) body (s s' : App T) y m r o :
  dated_ledger (table_of l s) y m -> r < rowCount (table_of l s) ->
  body r s = (s', o) -> (o = Ok tt -> dated_ledger (table_of l s') y m) ->
  scan_rows l (date_text (mkDate y m (1 + Z.of_nat r))) body s = (s', o).
Proof.
  intros Hd Hr Hbody Hd'. apply (scan_rows_one l _ body s s' r o Hr).
  - exact (dated_row_key _ y m r Hd Hr).
  - exact (dated_earlier_rows _ y m r Hd Hr).
  - exact Hbody.
  - intros Ho i Hi. specialize (Hd' Ho).
    assert (Hrows : rowCount (table_of l s') = rowCount (table_of l s))
      by (destruct Hd as (_ & E1 & _), Hd' as (_ & E2 & _); congruence).
    rewrite <- Hrows in Hi. rewrite (dated_row_key _ y m i Hd' ltac:(lia)).
    eexists. split; [reflexivity|]. intros E. apply date_text_day_inj in E; lia.
Qed.

(** The date lookup for a date no row holds does nothing. *)
Lemma scan_rows_dated_absent (l : Ledger) body (s : App T) y m key :
  dated_ledger (table_of l s) y m ->
  (forall i, i < rowCount (table_of l s) -> date_text (mkDate y m (1 + Z.of_nat i)) <> key) ->
  scan_rows l key body s = (s, Ok tt).
Proof. intros Hd Hno. apply scan_rows_none. exact (dated_no_row _ y m key Hd Hno). Qed.

(** [set_cell] outside the date column keeps a dated ledger dated. *)
Lemma set_cell_dated (l : Ledger) (s : App T) y m r c v :
  dated_ledger (table_of l s) y m -> r < rowCount (table_of l s) ->
  0 < c < columnCount (table_of l s) ->
  dated_ledger (table_of l (fst (set_cell l r c v s))) y m.
Proof.
  intros Hd Hr Hc. unfold set_cell, modify; cbn [fst].
  rewrite table_of_set_table. apply dated_setItem; assumption.
Qed.

(** Writing one cell at the date of day [r + 1] of a dated ledger. *)
Lemma scan_set_cell_dated (l : Ledger) (s : App T) y m r c v :
  dated_ledger (table_of l s) y m -> r < rowCount (table_of l s) ->
  0 < c < columnCount (table_of l s) ->
  scan_rows l (date_text (mkDate y m (1 + Z.of_nat r))) (fun row => set_cell l row c v) s =
  (set_table l (setItem (table_of l s) r c v) s, Ok tt).
Proof.
  intros Hd Hr Hc. apply scan_rows_dated; [exact Hd | exact Hr | reflexivity |].
  intros _. exact (set_cell_dated l s y m r c v Hd Hr Hc).
Qed.

(** The form setters leave the ledgers alone. *)
Lemma dated_set_m3_input v (s : App T) y m :
  dated_ledger (delivery_table s) y m -> dated_ledger (delivery_table (set_m3_input v s)) y m.
Proof. exact (fun H => H). Qed.

Lemma dated_set_km_index k (s : App T) y m :
  dated_ledger (delivery_table s) y m -> dated_ledger (delivery_table (set_km_index k s)) y m.
Proof. exact (fun H => H). Qed.

Lemma dated_set_m3_values vs (s : App T) y m :
  dated_ledger (delivery_table s) y m -> dated_ledger (delivery_table (set_m3_values vs s)) y m.
Proof. exact (fun H => H). Qed.

Lemma dated_set_journal_ok b (s : App T) y m :
  dated_ledger (delivery_table s) y m -> dated_ledger (delivery_table (set_journal_ok b s)) y m.
Proof. exact (fun H => H). Qed.

Lemma dated_work_set_times st et (s : App T) y m :
  dated_ledger (work_table s) y m -> dated_ledger (work_table (set_times st et s)) y m.
Proof. exact (fun H => H). Qed.

Lemma dated_set_date_edit d (s : App T) y m :
  dated_ledger (delivery_table s) y m -> dated_ledger (delivery_table (set_date_edit d s)) y m.
Proof. exact (fun H => H). Qed.

(** A write inside the table: the written cell and every other cell. *)
Lemma setItem_cells (t : T) r c v :
  table_wf t -> r < rowCount t -> c < columnCount t ->
  item (setItem t r c v) r c = Some v /\
  (forall r' c', (r', c') <> (r, c) -> item (setItem t r c v) r' c' = item t r' c').
Proof.
  intros Hwf Hr Hc. split; [apply item_setItem_eq; assumption|].
  intros r' c' Hne. apply item_setItem_ne; try assumption. intros E. apply Hne. congruence.
Qed.

End Scan.

(** ** The row scan under an invariant

    A scan keeps every invariant its body keeps at the rows of the table,
    and raises only what the body raises when no row lacks its date item:
    [.text()] on a missing item is the only exception of its own. *)

Section ScanInvariant.
Context {T : Type} `{TableWidget T} (P : App T -> Prop).

Lemma keeps_cell_text l r c : keeps P (cell_text l r c).
Proof. intros s Hs. unfold cell_text. destruct (item (table_of l s) r c); exact Hs. Qed.

Lemma keeps_cell l r c : keeps P (cell l r c).
Proof. intros s Hs. exact Hs. Qed.

Lemma keeps_scan_rows l key body n0 :
  (forall s, P s -> rowCount (table_of l s) = n0) ->
  (forall r, r < n0 -> keeps P (body r)) -> keeps P (scan_rows l key body).
Proof.
  intros Hn Hb. unfold scan_rows, row_count. apply keeps_bind_gets. intros s0 Hs0.
  apply keeps_for. intros r Hr. apply in_range in Hr. rewrite (Hn s0 Hs0) in Hr.
  unfold scan_step. apply keeps_bind; [apply keeps_cell_text|]. intros d.
  destruct (String.eqb d key); [exact (Hb r Hr) | apply keeps_ret].
Qed.

Lemma keeps_scan_rows_any l key body :
  (forall r, keeps P (body r)) -> keeps P (scan_rows l key body).
Proof.
  intros Hb. unfold scan_rows, row_count. apply keeps_bind_gets. intros s0 _.
  apply keeps_for. intros r _. unfold scan_step. apply keeps_bind; [apply keeps_cell_text|]. intros d.
  destruct (String.eqb d key); [exact (Hb r) | apply keeps_ret].
Qed.

Lemma only_scan_rows c l key body n0 :
  (forall s, P s -> rowCount (table_of l s) = n0 /\ forall r, r < n0 -> item (table_of l s) r 0 <> None) ->
  (forall r, r < n0 -> keeps P (body r)) -> (forall r, r < n0 -> only_raises P c (body r)) ->
  only_raises P c (scan_rows l key body).
Proof.
  intros Hn Hk Hc. unfold scan_rows, row_count. apply only_bind_gets. intros s0 Hs0.
  destruct (Hn s0 Hs0) as [E0 _]. rewrite E0.
  apply only_for; intros r Hr; apply in_range in Hr; unfold scan_step.
  - apply keeps_bind; [apply keeps_cell_text|]. intros d.
    destruct (String.eqb d key); [exact (Hk r Hr) | apply keeps_ret].
  - apply only_bind; [apply keeps_cell_text | |].
    + intros s Hs. unfold cell_text. destruct (Hn s Hs) as [_ Hitem].
      destruct (item (table_of l s) r 0) eqn:E; [exact I | exfalso; exact (Hitem r Hr E)].
    + intros d. destruct (String.eqb d key); [exact (Hc r Hr) | apply only_ret].
Qed.
End ScanInvariant.
