(* ===== verification/Volume.v ===== *)
(** * The m3 accumulator: [handleM3Input] and [updateDeliveryTable]

    Pressing Enter in the m3 field runs [FuvarAdminApp.handleM3Input]
    (src/main.py:454-481): the text is stripped, a comma becomes a point, an
    empty text is ignored, and a number is appended to [self.m3_values]; the
    summary ["(v1 + v2 + ...) (total)"] goes to the label and, through
    [updateDeliveryTable] (main.py:483-491), into the delivery ledger at the
    chosen date and zone.  A text [float()] rejects shows a warning and
    changes nothing.

    The theorems give the effect of each branch, over any table widget that
    meets the contract of QtTable.v, and the effect of the last distance
    band on Qt's own table, where the summary overwrites the next day's
    date. *)

From Stdlib Require Import String Ascii List ZArith Lia Bool Floats.
From S2P Require Import Prelude PyStr PyFloat QtTable QtDate Zone Ledger.
Import ListNotations ZoneResolver.
Local Open Scope string_scope.

Section Handlers.
Context {T : Type} `{TableWidget T}.

(** [updateDeliveryTable(sum_text)] *)
Definition updateDeliveryTable (sum_text : string) : Py (App T) unit :=
  s <- get ;;
  let date_text := date_text (date_edit (form s)) in
  let zone_col := getZoneColumn (km_text (form s)) in
  if (0 <? zone_col)%Z then
    scan_rows DeliveryLedger date_text
      (fun row => set_cell DeliveryLedger row (Z.to_nat zone_col) sum_text)
  else ret tt.

(** [f"({' + '.join(display_values)}) ({total:.1f})"] with the values
    formatted to one decimal and [total = sum(self.m3_values)]. *)
Definition m3_summary (vals : list float) : string :=
  "(" ++ join " + " (map (py_format_fixed 1) vals) ++ ") ("
      ++ py_format_fixed 1 (py_sum vals) ++ ")".

(** The warning of [except ValueError]. *)
Definition m3_warning : Message :=
  Warning "Hiba" "Kérem számot adjon meg (pl.: 6.0 vagy 6,0)" None.

(** [text.strip().replace(',', '.')] *)
Definition m3_text (s : App T) : string :=
  replace_char "," "." (strip (m3_input (form s))).

(** [handleM3Input] *)
Definition handleM3Input : Py (App T) unit :=
  s <- get ;;
  let text := strip (m3_input (form s)) in
  try_except
    (let text := replace_char "," "." text in
     if String.eqb text "" then ret tt
     else
       match py_float text with
       | Raise e => raise e
       | Ok value =>
           modify (fun s => set_m3_values (Some (values_or_empty s ++ [value])%list) s) ;;;
           s1 <- get ;;
           let sum_text := m3_summary (values_or_empty s1) in
           modify (set_m3_sum sum_text) ;;;
           updateDeliveryTable sum_text ;;;
           modify (set_m3_input "")
       end)
    is_value_error
    (fun _ => modify (add_message m3_warning)).
End Handlers.

(** ** The effect of each branch *)

Section VolumeTheorems.
Context {T : Type} `{TableWidgetLaws T}.

(** The conditions under which the summary reaches the ledger: the form's
    date is day [r + 1] of the dated month of the delivery ledger, and the
    chosen band resolves to a zone column [c] inside the table. *)
Definition lands_at (s : App T) (y m : Z) (r : nat) (c : nat) : Prop :=
  dated_ledger (delivery_table s) y m /\
  date_edit (form s) = mkDate y m (1 + Z.of_nat r) /\ r < rowCount (delivery_table s) /\
  (0 < getZoneColumn (km_text (form s)))%Z /\ c = Z.to_nat (getZoneColumn (km_text (form s))) /\
  c < columnCount (delivery_table s).

(** The values and the label do not touch what [updateDeliveryTable]
    reads. *)
Definition accumulate (vs : list float) (s : App T) : App T :=
  set_m3_sum (m3_summary vs) (set_m3_values (Some vs) s).

Lemma updateDeliveryTable_lands (s : App T) y m r c v :
  lands_at s y m r c ->
  updateDeliveryTable v s =
  (set_table DeliveryLedger (setItem (delivery_table s) r c v) s, Ok tt).
Proof.
  intros (Hd & Hdate & Hr & Hz & -> & Hc). unfold updateDeliveryTable. rewrite bind_get.
  rewrite Hdate. apply Z.ltb_lt in Hz as Hz'. rewrite Hz'.
  apply (scan_set_cell_dated DeliveryLedger s y m r); [exact Hd | exact Hr | cbn [table_of]; lia].
Qed.

Lemma updateDeliveryTable_absent (s : App T) y m v :
  dated_ledger (delivery_table s) y m ->
  (forall i, i < rowCount (delivery_table s) ->
     date_text (mkDate y m (1 + Z.of_nat i)) <> date_text (date_edit (form s))) ->
  updateDeliveryTable v s = (s, Ok tt).
Proof.
  intros Hd Hno. unfold updateDeliveryTable. rewrite bind_get.
  destruct (0 <? _)%Z; [|reflexivity]. exact (scan_rows_dated_absent DeliveryLedger _ s y m _ Hd Hno).
Qed.

Lemma lands_at_accumulate (s : App T) y m r c vs :
  lands_at s y m r c -> lands_at (accumulate vs s) y m r c.
Proof. intros Hl; exact Hl. Qed.

Lemma lands_at_set_m3_input (s : App T) y m r c v :
  lands_at s y m r c -> lands_at (set_m3_input v s) y m r c.
Proof. intros Hl; exact Hl. Qed.

Lemma lands_at_set_m3_values (s : App T) y m r c vs :
  lands_at s y m r c -> lands_at (set_m3_values vs s) y m r c.
Proof. intros Hl; exact Hl. Qed.

Lemma lands_at_journal (s : App T) y m r c b :
  lands_at s y m r c -> lands_at (set_journal_ok b s) y m r c.
Proof. intros Hl; exact Hl. Qed.

Lemma lands_at_message (s : App T) y m r c msg :
  lands_at s y m r c -> lands_at (add_message msg s) y m r c.
Proof. intros Hl; exact Hl. Qed.

(** A write at a zone cell keeps the landing conditions. *)
Lemma lands_at_write (s : App T) y m r c r' c' v :
  lands_at s y m r c -> r' < rowCount (delivery_table s) -> 0 < c' < columnCount (delivery_table s) ->
  lands_at (set_table DeliveryLedger (setItem (delivery_table s) r' c' v) s) y m r c.
Proof.
  intros (Hd & Hdate & Hr & Hz & Ec & Hc) Hr' Hc'. unfold lands_at. cbn [set_table delivery_table form].
  rewrite rowCount_setItem, columnCount_setItem.
  split; [apply dated_setItem; assumption | tauto].
Qed.

(** An accepted number: the rest of the handler once [updateDeliveryTable]
    has run on the accumulated state. *)
Lemma handleM3Input_update (s s2 : App T) x :
  m3_text s <> "" -> py_float (m3_text s) = Ok x ->
  let vs := (values_or_empty s ++ [x])%list in
  updateDeliveryTable (m3_summary vs) (accumulate vs s) = (s2, Ok tt) ->
  handleM3Input s = (set_m3_input "" s2, Ok tt).
Proof.
  intros Hne Hf vs Hu. unfold handleM3Input. rewrite bind_get. unfold m3_text in *.
  apply String.eqb_neq in Hne. unfold try_except. rewrite Hne, Hf.
  unfold bind, modify, get. cbv beta iota zeta. unfold accumulate, vs in Hu.
  change (values_or_empty (set_m3_values (Some (values_or_empty s ++ [x])%list) s))
    with (values_or_empty s ++ [x])%list.
  rewrite Hu. reflexivity.
Qed.

(** C4: a number typed into the m3 field (comma or point) is appended to
    the list of values; the summary ["(v1 + ... + vn) (total)"] of the new
    list goes to the label and to the delivery ledger's cell at the chosen
    date and zone, every other cell keeps its text, the dates stay, the
    field is cleared and no message is shown. *)
Theorem handleM3Input_records (s : App T) y m r c x :
  m3_text s <> "" -> py_float (m3_text s) = Ok x -> lands_at s y m r c ->
  let vs := (values_or_empty s ++ [x])%list in
  let s' := fst (handleM3Input s) in
  snd (handleM3Input s) = Ok tt /\
  m3_values s' = Some vs /\ m3_sum (form s') = m3_summary vs /\ m3_input (form s') = "" /\
  item (delivery_table s') r c = Some (m3_summary vs) /\
  (forall r' c', (r', c') <> (r, c) ->
     item (delivery_table s') r' c' = item (delivery_table s) r' c') /\
  dated_ledger (delivery_table s') y m /\ messages s' = messages s.
Proof.
  intros Hne Hf Hl vs.
  rewrite (handleM3Input_update s _ x Hne Hf)
    by (apply (updateDeliveryTable_lands _ y m r c), lands_at_accumulate, Hl).
  destruct Hl as (Hd & _ & Hr & Hz & Ec & Hc). pose proof Hd as (Hwf & _).
  cbn -[m3_summary dated_ledger]. do 4 (split; [reflexivity|]).
  destruct (setItem_cells _ r c (m3_summary vs) Hwf Hr Hc) as [Heq Hne'].
  split; [exact Heq|]. split; [exact Hne'|]. split; [|reflexivity].
  apply dated_setItem; [exact Hd | exact Hr | lia].
Qed.

(** C31: a text [float()] rejects (after the comma became a point) changes
    nothing but the messages: the warning "Kérem számot adjon meg" is shown,
    the values, the label, the field and both ledgers are as they were. *)
Theorem handleM3Input_invalid (s : App T) e :
  m3_text s <> "" -> py_float (m3_text s) = Raise e ->
  handleM3Input s = (add_message m3_warning s, Ok tt).
Proof.
  intros Hne Hf. pose proof (py_float_raise _ _ Hf) as ->.
  unfold handleM3Input. rewrite bind_get. unfold m3_text in *.
  apply String.eqb_neq in Hne. unfold try_except. rewrite Hne, Hf. reflexivity.
Qed.

(** An empty or all-blank field is ignored: the state is unchanged and
    no message is shown. *)
Theorem handleM3Input_empty (s : App T) :
  m3_text s = "" -> handleM3Input s = (s, Ok tt).
Proof.
  intros He. unfold handleM3Input. rewrite bind_get. unfold m3_text in He.
  unfold try_except. rewrite He. reflexivity.
Qed.

(** C29: when the form's date is no row of the delivery ledger (another
    month), the number is still accumulated and the label and field are
    updated, but no cell of the ledger changes and no message tells the
    user. *)
Theorem handleM3Input_no_row (s : App T) y m x :
  m3_text s <> "" -> py_float (m3_text s) = Ok x ->
  dated_ledger (delivery_table s) y m ->
  (forall i, i < rowCount (delivery_table s) ->
     date_text (mkDate y m (1 + Z.of_nat i)) <> date_text (date_edit (form s))) ->
  let vs := (values_or_empty s ++ [x])%list in
  handleM3Input s = (set_m3_input "" (accumulate vs s), Ok tt).
Proof.
  intros Hne Hf Hd Hno vs. apply (handleM3Input_update s _ x Hne Hf).
  exact (updateDeliveryTable_absent (accumulate vs s) y m _ Hd Hno).
Qed.
End VolumeTheorems.

(** ** The last distance band on Qt's table *)

Section LastBand.

(** The summary is no date: it starts with ['(']. *)
Lemma summary_not_date vs y m d :
  (0 <= y)%Z -> (0 <= m)%Z -> (0 <= d)%Z -> m3_summary vs <> date_text (mkDate y m d).
Proof.
  intros Hy Hm Hd E.
  pose proof (date_text_has_char "(" y m d eq_refl eq_refl Hy Hm Hd) as Hc.
  rewrite <- E in Hc. unfold m3_summary in Hc. cbn [append has_char] in Hc. discriminate Hc.
Qed.

(** With the zone column equal to the column count, the write for day
    [r + 1] lands on the date cell of day [r + 2]: the scan then meets the
    written text instead of that date, and goes on. *)
Lemma updateDeliveryTable_wraps (s : App qtable) y m r v :
  (0 <= y)%Z -> (0 <= m)%Z -> dated_ledger (delivery_table s) y m ->
  q_cols (delivery_table s) = delivery_column_count ->
  getZoneColumn (km_text (form s)) = Z.of_nat delivery_column_count ->
  date_edit (form s) = mkDate y m (1 + Z.of_nat r) -> S r < q_rows (delivery_table s) ->
  v <> date_text (mkDate y m (1 + Z.of_nat r)) ->
  updateDeliveryTable v s =
  (set_table DeliveryLedger (q_setItem (delivery_table s) r delivery_column_count v) s, Ok tt).
Proof.
  intros Hy Hm Hd Hcols Hz Hdate Hr Hv. unfold updateDeliveryTable. rewrite bind_get.
  rewrite Hdate, Hz, Nat2Z.id. change (0 <? Z.of_nat delivery_column_count)%Z with true.
  pose proof Hd as (Hwf & _).
  assert (Hc0 : 0 < q_cols (delivery_table s)) by (rewrite Hcols; unfold delivery_column_count; lia).
  apply (scan_rows_one DeliveryLedger _ _ s _ r); cbn [table_of].
  - cbn [rowCount qtable_widget]. lia.
  - apply (dated_row_key _ y m r Hd). cbn [rowCount qtable_widget]. lia.
  - apply (dated_earlier_rows _ y m r Hd). cbn [rowCount qtable_widget]. lia.
  - reflexivity.
  - intros _ i Hi. cbn [table_of set_table delivery_table item qtable_widget].
    cbn [rowCount qtable_widget] in Hi.
    rewrite <- Hcols. destruct (Nat.eq_dec i (S r)) as [->|Hne].
    + exists v. split; [|exact Hv]. apply q_setItem_count_wraps; [exact Hwf | lia | exact Hc0].
    + rewrite q_setItem_count_other by (exact Hwf || exact Hc0 || (intros E; injection E; lia)).
      change (q_item (delivery_table s) i 0) with (item (delivery_table s) i 0).
      rewrite (dated_row_key _ y m i Hd) by (cbn [rowCount qtable_widget]; lia).
      eexists. split; [reflexivity|]. intros E. apply date_text_day_inj in E; lia.
Qed.
(** C24: on Qt's table, the last entry of the distance combo box
    (["Övezet 45-50"], column 10 of a ten-column table) makes the summary
    overwrite the date cell of the next day, while the row of the chosen
    day keeps every cell. *)
Theorem handleM3Input_last_band_overwrites (s : App qtable) y m r x :
  (0 <= y)%Z -> (0 <= m)%Z -> dated_ledger (delivery_table s) y m ->
  q_cols (delivery_table s) = delivery_column_count -> km_index (form s) = 9 ->
  date_edit (form s) = mkDate y m (1 + Z.of_nat r) -> S r < q_rows (delivery_table s) ->
  m3_text s <> "" -> py_float (m3_text s) = Ok x ->
  let vs := (values_or_empty s ++ [x])%list in
  let s' := fst (handleM3Input s) in
  q_item (delivery_table s') (S r) 0 = Some (m3_summary vs) /\
  (forall c, q_item (delivery_table s') r c = q_item (delivery_table s) r c).
Proof.
  intros Hy Hm Hd Hcols Hk Hdate Hr Hne Hf vs.
  assert (Hz : getZoneColumn (km_text (form s)) = Z.of_nat delivery_column_count)
    by (unfold km_text; rewrite Hk, km_items_column by lia; reflexivity).
  rewrite (handleM3Input_update s _ x Hne Hf)
    by (apply (updateDeliveryTable_wraps _ y m r); try assumption; apply summary_not_date; lia).
  pose proof Hd as (Hwf & _).
  assert (Hc0 : 0 < q_cols (delivery_table s)) by (rewrite Hcols; unfold delivery_column_count; lia).
  cbn [fst delivery_table set_m3_input set_form set_table accumulate set_m3_sum set_m3_values].
  rewrite <- Hcols. split.
  - apply q_setItem_count_wraps; [exact Hwf | exact Hr | exact Hc0].
  - intros c. apply q_setItem_count_other; [exact Hwf | exact Hc0 | intros E; injection E; lia].
Qed.
End LastBand.

(** ** On a new window of 5 November 2024 *)

Lemma nov5_dated (fs : list string) : dated_ledger (delivery_table (init_app nov5 fs)) 2024 11.
Proof. exact (fresh_dated _ _ _ _ (proj2 (init_app_fresh nov5 fs))). Qed.

(** The form setters leave the ledger of a new window dated.  The proof
    goes through the setter lemmas, so that no conversion ever unfolds the
    window itself. *)
Ltac nov5_dated_tac :=
  repeat match goal with x := _ |- _ => subst x end;
  repeat lazymatch goal with
  | |- dated_ledger (delivery_table (set_m3_input _ _)) _ _ => apply dated_set_m3_input
  | |- dated_ledger (delivery_table (set_km_index _ _)) _ _ => apply dated_set_km_index
  | |- dated_ledger (delivery_table (set_date_edit _ _)) _ _ => apply dated_set_date_edit
  | |- dated_ledger (delivery_table (set_m3_values _ _)) _ _ => apply dated_set_m3_values
  | |- dated_ledger (delivery_table (set_journal_ok _ _)) _ _ => apply dated_set_journal_ok
  end;
  apply nov5_dated.

(** On a new window, the date of the form (5 November) and the first band
    land at row 4, column 1. *)
Lemma nov5_lands : lands_at (init_app nov5 []) 2024 11 4 1.
Proof. split; [apply nov5_dated | vm_compute; repeat split; (reflexivity || lia)]. Qed.

Ltac nov5_lands_tac :=
  repeat match goal with x := _ |- _ => subst x end;
  repeat lazymatch goal with
  | |- lands_at (set_m3_input _ _) _ _ _ _ => apply lands_at_set_m3_input
  | |- lands_at (set_m3_values _ _) _ _ _ _ => apply lands_at_set_m3_values
  | |- lands_at (set_journal_ok _ _) _ _ _ _ => apply lands_at_journal
  | |- lands_at (add_message _ _) _ _ _ _ => apply lands_at_message
  end;
  apply nov5_lands.

Lemma handleM3Input_records_witness :
  let s0 := set_m3_input "6,0" (init_app nov5 []) in
  item (delivery_table (fst (handleM3Input s0))) 4 1 = Some (m3_summary [6%float]).
Proof.
  intros s0.
  destruct (handleM3Input_records s0 2024 11 4 1 6%float) as (_ & _ & _ & _ & Hc & _).
  - vm_compute. discriminate.
  - vm_compute. reflexivity.
  - nov5_lands_tac.
  - replace (values_or_empty s0) with (@nil float) in Hc by (vm_compute; reflexivity).
    exact Hc.
Defined.

Lemma handleM3Input_invalid_witness :
  let s0 := set_m3_input "6 m3" (init_app nov5 []) in
  handleM3Input s0 = (add_message m3_warning s0, Ok tt).
Proof.
  intros s0. apply (handleM3Input_invalid s0 (ValueError "6 m3"));
    vm_compute; [discriminate | reflexivity].
Defined.

Lemma handleM3Input_empty_witness :
  let s0 := set_m3_input "  " (init_app nov5 []) in handleM3Input s0 = (s0, Ok tt).
Proof. intros s0. apply handleM3Input_empty. vm_compute. reflexivity. Defined.

Lemma handleM3Input_no_row_witness :
  let s0 := set_m3_input "4" (set_date_edit (mkDate 2024 12 1) (init_app nov5 [])) in
  handleM3Input s0 = (set_m3_input "" (accumulate (values_or_empty s0 ++ [4%float]) s0), Ok tt).
Proof.
  intros s0. apply (handleM3Input_no_row s0 2024 11 4%float).
  - vm_compute. discriminate.
  - vm_compute. reflexivity.
  - nov5_dated_tac.
  - intros i _ E. vm_compute in E. congruence.
Defined.

Lemma handleM3Input_last_band_overwrites_witness :
  let s0 := set_m3_input "2" (set_km_index 9 (init_app nov5 [])) in
  q_item (delivery_table (fst (handleM3Input s0))) 5 0 = Some (m3_summary [2%float]).
Proof.
  intros s0.
  destruct (handleM3Input_last_band_overwrites s0 2024 11 4 2%float) as [Hw _].
  - lia.
  - lia.
  - nov5_dated_tac.
  - vm_compute. reflexivity.
  - reflexivity.
  - reflexivity.
  - vm_compute. lia.
  - vm_compute. discriminate.
  - vm_compute. reflexivity.
  - replace (values_or_empty s0) with (@nil float) in Hw by (vm_compute; reflexivity).
    exact Hw.
Defined.

(** The example of the specification: on a new window, entering
    ["6,0"] and then [" 3.5 "] shows ["(6.0 + 3.5) (9.5)"] in the label
    and in the cell of the chosen date (5 November, band 0-5 km), and keeps
    the values [6.0] and [3.5]. *)
Example m3_spec_example :
  let s1 := fst (handleM3Input (set_m3_input "6,0" (init_app nov5 []))) in
  let s2 := fst (handleM3Input (set_m3_input " 3.5 " s1)) in
  m3_sum (form s2) = "(6.0 + 3.5) (9.5)" /\
  q_item (delivery_table s2) 4 1 = Some "(6.0 + 3.5) (9.5)" /\
  m3_values s2 = Some [6%float; 3.5%float].
Proof. vm_compute. repeat split. Qed.
