(* ===== verification/Delivery.v ===== *)
(** * Committing a trip: [saveDeliveryData]

    The "Fuvar mentése" button runs [FuvarAdminApp.saveDeliveryData]
    (src/main.py:536-581).  It builds the journal record of the trip, and,
    when the chosen band resolves to a zone column, adds the total of the
    m3 values to the number in the ledger cell of the chosen date and zone
    (an empty cell counts as [0]), written back with one decimal.  It then
    appends the record to [delivery_data.json], clears the m3 values, the
    field and the label and shows "Fuvar adatok mentve!".  Any exception on
    the way (a cell text [float()] rejects, a journal that cannot be opened)
    ends the handler with a warning, after the changes made so far.

    The theorems give the result of a commit on each path, the additive
    accumulation the specification promises, and two consequences of the
    order of the steps: the summary [handleM3Input] writes into the cell
    makes the next commit fail, and a failed journal write leaves the table
    updated and the values in place, so that committing again counts the
    trip twice. *)

From Stdlib Require Import String Ascii List ZArith Lia Bool Floats.
From S2P Require Import Prelude PyStr PyFloat QtTable QtDate Zone Ledger Volume.
Import ListNotations ZoneResolver.
Local Open Scope string_scope.

Section Commit.
Context {T : Type} `{TableWidget T}.

(** The [data] dict. *)
Definition delivery_data (s : App T) : DeliveryRecord :=
  let f := form s in
  mkDeliveryRecord (date_text (date_edit f)) (km_text f) (factory_text f)
                   (address_input f) (delivery_input f) (values_or_empty s).

(** [sum(m3_values) if m3_values else 0] *)
Definition m3_total (vs : list float) : float :=
  match vs with [] => zero | _ => py_sum vs end.

(** [float(current_item.text()) if current_item and current_item.text() else 0] *)
Definition cell_number (current_item : option string) : outcome float :=
  match current_item with
  | Some t => if String.eqb t "" then Ok zero else py_float t
  | None => Ok zero
  end.

(** The body of the loop at the row of the date. *)
Definition commit_row (zone_col : nat) (m3_values : list float) (row : nat) : Py (App T) unit :=
  let m3_sum := m3_total m3_values in
  current_item <- cell DeliveryLedger row zone_col ;;
  current_value <- lift (cell_number current_item) ;;
  let new_value := (current_value + m3_sum)%float in
  set_cell DeliveryLedger row zone_col (py_format_fixed 1 new_value).

(** [with open('delivery_data.json', 'a') as f: json.dump(data, f)]:
    [OSError] when the file cannot be opened. *)
Definition append_delivery (data : DeliveryRecord) : Py (App T) unit :=
  s <- get ;;
  if journal_ok s then modify (add_delivery_record data) else raise OSError.

Definition delivery_saved : Message := Information "Siker" "Fuvar adatok mentve!".

(** [if zone_col > 0: for row in ...: if date matches: <commit_row>] *)
Definition update_zone (data : DeliveryRecord) : Py (App T) unit :=
  let zone_col := getZoneColumn (dr_km_range data) in
  if (0 <? zone_col)%Z then
    scan_rows DeliveryLedger (dr_date data) (commit_row (Z.to_nat zone_col) (dr_m3_values data))
  else ret tt.

(** [self.m3_values = []; self.m3_input.clear(); self.m3_sum.setText("(0)")] *)
Definition reset_m3 : Py (App T) unit :=
  modify (set_m3_values (Some [])) ;;;
  modify (set_m3_input "") ;;;
  modify (set_m3_sum "(0)").

(** The journal write, the reset and the message. *)
Definition commit_tail (data : DeliveryRecord) : Py (App T) unit :=
  append_delivery data ;;;
  reset_m3 ;;;
  modify (add_message delivery_saved).

Definition saveDeliveryData : Py (App T) unit :=
  try_except
    (s <- get ;;
     let data := delivery_data s in
     update_zone data ;;;
     commit_tail data)
    any_exc
    (fun e => modify (add_message (error_warning e))).
End Commit.

(** ** The paths through a commit *)

Section CommitFacts.
Context {T : Type} `{TableWidgetLaws T}.

(** The state a successful commit leaves after the table step. *)
Definition committed (data : DeliveryRecord) (s : App T) : App T :=
  add_message delivery_saved
    (set_m3_sum "(0)" (set_m3_input "" (set_m3_values (Some []) (add_delivery_record data s)))).

Lemma commit_tail_ok data (s : App T) :
  journal_ok s = true -> commit_tail data s = (committed data s, Ok tt).
Proof. intros Hj. unfold commit_tail, append_delivery, reset_m3, bind, get, modify. rewrite Hj. reflexivity. Qed.

Lemma commit_tail_fail data (s : App T) :
  journal_ok s = false -> commit_tail data s = (s, Raise OSError).
Proof. intros Hj. unfold commit_tail, append_delivery, bind, get. rewrite Hj. reflexivity. Qed.

(** [saveDeliveryData] once the table step has run. *)
Lemma saveDeliveryData_after (s s1 : App T) o :
  update_zone (delivery_data s) s = (s1, o) ->
  saveDeliveryData s =
  match o with
  | Ok _ =>
      match commit_tail (delivery_data s) s1 with
      | (s2, Ok _) => (s2, Ok tt)
      | (s2, Raise e) => (add_message (error_warning e) s2, Ok tt)
      end
  | Raise e => (add_message (error_warning e) s1, Ok tt)
  end.
Proof.
  intros Hu. unfold saveDeliveryData, try_except. rewrite bind_get.
  unfold bind at 1. rewrite Hu. destruct o as [[]|e]; [|reflexivity].
  destruct (commit_tail (delivery_data s) s1) as [s2 [[]|e]]; reflexivity.
Qed.

(** The loop body at the row of the date, on a cell [float()] reads. *)
Lemma commit_row_ok (s : App T) c vs r v :
  cell_number (item (delivery_table s) r c) = Ok v ->
  commit_row c vs r s =
  (set_table DeliveryLedger (setItem (delivery_table s) r c (py_format_fixed 1 (v + m3_total vs)%float)) s,
   Ok tt).
Proof. intros Hv. unfold commit_row, bind, cell, gets, lift. cbn [table_of]. rewrite Hv. reflexivity. Qed.

Lemma commit_row_fail (s : App T) c vs r e :
  cell_number (item (delivery_table s) r c) = Raise e -> commit_row c vs r s = (s, Raise e).
Proof. intros Hv. unfold commit_row, bind, cell, gets, lift. cbn [table_of]. rewrite Hv. reflexivity. Qed.

(** The table step when the date and zone land in the ledger. *)
Lemma update_zone_ok (s : App T) y m r c v :
  lands_at s y m r c -> cell_number (item (delivery_table s) r c) = Ok v ->
  update_zone (delivery_data s) s =
  (set_table DeliveryLedger
     (setItem (delivery_table s) r c (py_format_fixed 1 (v + m3_total (values_or_empty s))%float)) s,
   Ok tt).
Proof.
  intros Hl Hv. pose proof Hl as (Hd & Hdate & Hr & Hz & Ec & Hc).
  unfold update_zone, delivery_data; cbn [dr_km_range dr_date dr_m3_values].
  apply Z.ltb_lt in Hz. rewrite Hz, <- Ec, Hdate.
  apply scan_rows_dated; [exact Hd | exact Hr | apply commit_row_ok; exact Hv |].
  intros _. rewrite table_of_set_table. apply dated_setItem; [exact Hd | exact Hr | lia].
Qed.

Lemma update_zone_fail (s : App T) y m r c e :
  lands_at s y m r c -> cell_number (item (delivery_table s) r c) = Raise e ->
  update_zone (delivery_data s) s = (s, Raise e).
Proof.
  intros Hl Hv. pose proof Hl as (Hd & Hdate & Hr & Hz & Ec & Hc).
  unfold update_zone, delivery_data; cbn [dr_km_range dr_date dr_m3_values].
  apply Z.ltb_lt in Hz. rewrite Hz, <- Ec, Hdate.
  apply scan_rows_dated; [exact Hd | exact Hr | apply commit_row_fail; exact Hv | discriminate].
Qed.

(** The table step when no row holds the date. *)
Lemma update_zone_absent (s : App T) y m :
  dated_ledger (delivery_table s) y m ->
  (forall i, i < rowCount (delivery_table s) ->
     date_text (mkDate y m (1 + Z.of_nat i)) <> date_text (date_edit (form s))) ->
  update_zone (delivery_data s) s = (s, Ok tt).
Proof.
  intros Hd Hno. unfold update_zone, delivery_data; cbn [dr_km_range dr_date dr_m3_values].
  destruct (0 <? _)%Z; [|reflexivity]. exact (scan_rows_dated_absent DeliveryLedger _ s y m _ Hd Hno).
Qed.
(** C2: committing a trip whose date and zone land in the ledger, with a
    writable journal and a cell holding a number [v] (or nothing, read as
    [0]): the cell becomes [v + total] with one decimal, where [total] is
    [sum] of the m3 values ([0] when there are none), every other cell is
    kept, the trip is appended to the journal, the m3 values, field and
    label are reset and "Fuvar adatok mentve!" is shown. *)
Theorem saveDeliveryData_commits (s : App T) y m r c v :
  lands_at s y m r c -> journal_ok s = true -> cell_number (item (delivery_table s) r c) = Ok v ->
  let s' := fst (saveDeliveryData s) in
  snd (saveDeliveryData s) = Ok tt /\
  item (delivery_table s') r c = Some (py_format_fixed 1 (v + m3_total (values_or_empty s))%float) /\
  (forall r' c', (r', c') <> (r, c) -> item (delivery_table s') r' c' = item (delivery_table s) r' c') /\
  delivery_log s' = (delivery_log s ++ [delivery_data s])%list /\
  m3_values s' = Some [] /\ m3_input (form s') = "" /\ m3_sum (form s') = "(0)" /\
  messages s' = (messages s ++ [delivery_saved])%list.
Proof.
  intros Hl Hj Hv. rewrite (saveDeliveryData_after s _ _ (update_zone_ok s y m r c v Hl Hv)).
  rewrite commit_tail_ok by exact Hj.
  destruct Hl as ((Hwf & _) & _ & Hr & _ & _ & Hc).
  destruct (setItem_cells _ r c (py_format_fixed 1 (v + m3_total (values_or_empty s))%float) Hwf Hr Hc)
    as [Heq Hne].
  cbn -[py_format_fixed m3_total]. auto 10.
Qed.

(** C30: a cell text [float()] rejects makes the commit fail as a whole:
    the warning "Hiba történt" is shown with the [ValueError], and nothing
    else changes: no cell, no journal line, the m3 values are kept. *)
Theorem saveDeliveryData_unparseable (s : App T) y m r c e :
  lands_at s y m r c -> cell_number (item (delivery_table s) r c) = Raise e ->
  saveDeliveryData s = (add_message (error_warning e) s, Ok tt).
Proof.
  intros Hl Hv. exact (saveDeliveryData_after s _ _ (update_zone_fail s y m r c e Hl Hv)).
Qed.

(** C28: when the form's date is no row of the delivery ledger, the commit
    changes no cell, yet appends the trip to the journal, resets the m3
    values and reports success. *)
Theorem saveDeliveryData_no_row (s : App T) y m :
  dated_ledger (delivery_table s) y m ->
  (forall i, i < rowCount (delivery_table s) ->
     date_text (mkDate y m (1 + Z.of_nat i)) <> date_text (date_edit (form s))) ->
  journal_ok s = true ->
  saveDeliveryData s = (committed (delivery_data s) s, Ok tt).
Proof.
  intros Hd Hno Hj. rewrite (saveDeliveryData_after s _ _ (update_zone_absent s y m Hd Hno)).
  rewrite commit_tail_ok by exact Hj. reflexivity.
Qed.

(** C26: when the journal cannot be opened, the ledger cell has already
    been increased, but the trip is not journalled and the m3 values, field
    and label are kept; only the [OSError] warning is added. *)
Theorem saveDeliveryData_journal_fails (s : App T) y m r c v :
  lands_at s y m r c -> journal_ok s = false -> cell_number (item (delivery_table s) r c) = Ok v ->
  saveDeliveryData s =
  (add_message (error_warning OSError)
     (set_table DeliveryLedger
        (setItem (delivery_table s) r c (py_format_fixed 1 (v + m3_total (values_or_empty s))%float)) s),
   Ok tt).
Proof.
  intros Hl Hj Hv. rewrite (saveDeliveryData_after s _ _ (update_zone_ok s y m r c v Hl Hv)).
  rewrite commit_tail_fail by exact Hj. reflexivity.
Qed.
End CommitFacts.

(** ** Commits after other handlers *)

Section Sequences.
Context {T : Type} `{TableWidgetLaws T}.

(** The summary text in a cell does not read as a number. *)
Lemma summary_cell_number vs : cell_number (Some (m3_summary vs)) = Raise (ValueError (m3_summary vs)).
Proof. unfold cell_number, m3_summary. cbn [append String.eqb]. apply py_float_paren. Qed.

(** C3: typing a number into the m3 field and then committing the trip,
    without changing the date or the band, always fails: [handleM3Input]
    has written the summary ["(...) (...)"] into the very cell the commit
    reads, [float()] rejects it, and the commit ends in the warning with
    that [ValueError]: no cell is increased, nothing is journalled and the
    m3 values stay. *)
Theorem handleM3Input_then_save_fails (s : App T) y m r c x :
  m3_text s <> "" -> py_float (m3_text s) = Ok x -> lands_at s y m r c ->
  let vs := (values_or_empty s ++ [x])%list in
  let s1 := fst (handleM3Input s) in
  saveDeliveryData s1 = (add_message (error_warning (ValueError (m3_summary vs))) s1, Ok tt).
Proof.
  intros Hne Hf Hl vs.
  pose proof (updateDeliveryTable_lands (accumulate vs s) y m r c (m3_summary vs)
                (lands_at_accumulate s y m r c vs Hl)) as Hu.
  rewrite (handleM3Input_update s _ x Hne Hf Hu). cbn [fst].
  pose proof Hl as ((Hwf & _) & _ & Hr & Hz & Ec & Hc).
  assert (Hc' : 0 < c < columnCount (delivery_table s)) by lia.
  set (s1 := set_m3_input "" (set_table DeliveryLedger
                (setItem (delivery_table (accumulate vs s)) r c (m3_summary vs)) (accumulate vs s))).
  assert (Hv : cell_number (item (delivery_table s1) r c) = Raise (ValueError (m3_summary vs)))
    by (subst s1; cbn [set_m3_input set_form set_table delivery_table accumulate set_m3_sum set_m3_values];
        rewrite item_setItem_eq by assumption; apply summary_cell_number).
  exact (saveDeliveryData_after _ _ _ (update_zone_fail s1 y m r c _
           (lands_at_set_m3_input _ y m r c _
              (lands_at_write _ y m r c r c _ (lands_at_accumulate s y m r c vs Hl) Hr Hc')) Hv)).
Qed.

(** C27: a commit whose journal write failed, committed again once the
    journal is writable, adds the m3 total to the cell a second time: the
    cell holds [v + total] read back and increased by [total] again, and
    the journal has the trip once. *)
Theorem saveDeliveryData_retry_double_counts (s : App T) y m r c v v' :
  lands_at s y m r c -> journal_ok s = false -> cell_number (item (delivery_table s) r c) = Ok v ->
  let total := m3_total (values_or_empty s) in
  cell_number (Some (py_format_fixed 1 (v + m3_total (values_or_empty s))%float)) = Ok v' ->
  let s1 := fst (saveDeliveryData s) in
  let s2 := fst (saveDeliveryData (set_journal_ok true s1)) in
  item (delivery_table s2) r c = Some (py_format_fixed 1 (v' + total)%float) /\
  delivery_log s2 = (delivery_log s ++ [delivery_data s])%list.
Proof.
  intros Hl Hj Hv total Hv' s1 s2. subst s1 s2 total.
  rewrite (saveDeliveryData_after s _ _ (update_zone_ok s y m r c v Hl Hv)).
  rewrite commit_tail_fail by exact Hj. cbn [fst].
  pose proof Hl as ((Hwf & _) & _ & Hr & Hz & Ec & Hc).
  assert (Hc' : 0 < c < columnCount (delivery_table s)) by lia.
  pose proof (lands_at_journal _ y m r c true (lands_at_message _ y m r c (error_warning OSError)
                (lands_at_write _ y m r c r c (py_format_fixed 1 (v + m3_total (values_or_empty s))%float) Hl Hr Hc')))
    as Hl2.
  assert (Hv2 : cell_number (item (delivery_table
            (set_journal_ok true (add_message (error_warning OSError)
               (set_table DeliveryLedger (setItem (delivery_table s) r c
                  (py_format_fixed 1 (v + m3_total (values_or_empty s))%float)) s)))) r c) = Ok v')
    by (cbn [set_journal_ok add_message set_table delivery_table];
        rewrite item_setItem_eq by assumption; exact Hv').
  rewrite (saveDeliveryData_after _ _ _ (update_zone_ok _ y m r c v' Hl2 Hv2)).
  rewrite commit_tail_ok by reflexivity.
  cbn [fst committed add_message set_m3_sum set_m3_input set_m3_values set_form add_delivery_record
       set_table set_journal_ok delivery_table delivery_log].
  split; [|reflexivity].
  apply item_setItem_eq; [apply wf_setItem; exact Hwf | rewrite rowCount_setItem; exact Hr |
                          rewrite columnCount_setItem; exact Hc].
Qed.
End Sequences.

(** ** On a new window of 5 November 2024 *)

(** A window whose cell for 5 November, band 0-5 km, holds [text]. *)
Definition with_cell (text : string) : App qtable :=
  set_table DeliveryLedger (setItem (delivery_table (init_app nov5 [])) 4 1 text) (init_app nov5 []).

Lemma with_cell_lands text : lands_at (with_cell text) 2024 11 4 1.
Proof.
  apply (lands_at_write _ 2024 11 4 1 4 1 text nov5_lands); vm_compute; [lia | split; lia].
Qed.

Lemma saveDeliveryData_commits_witness :
  let s0 := set_m3_values (Some [5%float]) (init_app nov5 []) in
  item (delivery_table (fst (saveDeliveryData s0))) 4 1 = Some "5.0".
Proof.
  intros s0.
  destruct (saveDeliveryData_commits s0 2024 11 4 1 zero) as (_ & Hc & _).
  - nov5_lands_tac.
  - vm_compute. reflexivity.
  - vm_compute. reflexivity.
  - rewrite Hc. vm_compute. reflexivity.
Defined.

Lemma saveDeliveryData_unparseable_witness :
  saveDeliveryData (with_cell "6 m3") =
  (add_message (error_warning (ValueError "6 m3")) (with_cell "6 m3"), Ok tt).
Proof.
  apply (saveDeliveryData_unparseable _ 2024 11 4 1); [apply with_cell_lands | vm_compute; reflexivity].
Defined.

Lemma saveDeliveryData_no_row_witness :
  let s0 := set_m3_values (Some [5%float]) (set_date_edit (mkDate 2024 12 1) (init_app nov5 [])) in
  saveDeliveryData s0 = (committed (delivery_data s0) s0, Ok tt).
Proof.
  intros s0. apply (saveDeliveryData_no_row s0 2024 11).
  - nov5_dated_tac.
  - intros i _ E. vm_compute in E. congruence.
  - vm_compute. reflexivity.
Defined.

Lemma saveDeliveryData_journal_fails_witness :
  let s0 := set_journal_ok false (set_m3_values (Some [5%float]) (init_app nov5 [])) in
  saveDeliveryData s0 =
  (add_message (error_warning OSError)
     (set_table DeliveryLedger
        (setItem (delivery_table s0) 4 1 (py_format_fixed 1 (zero + m3_total (values_or_empty s0))%float)) s0),
   Ok tt).
Proof.
  intros s0. apply (saveDeliveryData_journal_fails s0 2024 11 4 1 zero).
  - nov5_lands_tac.
  - vm_compute. reflexivity.
  - vm_compute. reflexivity.
Defined.

Lemma handleM3Input_then_save_fails_witness :
  let s0 := set_m3_input "5" (init_app nov5 []) in
  let s1 := fst (handleM3Input s0) in
  saveDeliveryData s1 =
  (add_message (error_warning (ValueError (m3_summary (values_or_empty s0 ++ [5%float])))) s1, Ok tt).
Proof.
  intros s0 s1. apply (handleM3Input_then_save_fails s0 2024 11 4 1 5%float).
  - vm_compute. discriminate.
  - vm_compute. reflexivity.
  - nov5_lands_tac.
Defined.

Lemma saveDeliveryData_retry_double_counts_witness :
  let s0 := set_journal_ok false (set_m3_values (Some [5%float]) (init_app nov5 [])) in
  let s1 := fst (saveDeliveryData s0) in
  let s2 := fst (saveDeliveryData (set_journal_ok true s1)) in
  item (delivery_table s2) 4 1 = Some "10.0".
Proof.
  intros s0 s1 s2.
  destruct (saveDeliveryData_retry_double_counts s0 2024 11 4 1 zero 5%float) as [Hc _].
  - nov5_lands_tac.
  - vm_compute. reflexivity.
  - vm_compute. reflexivity.
  - vm_compute. reflexivity.
  - subst s2 s1. rewrite Hc. vm_compute. reflexivity.
Defined.

(** The example of the specification (property 6): committing the m3
    value [5.0] and then [3.0] to the same date and zone leaves ["8.0"] in
    the cell, and both trips are journalled. *)
Example delivery_spec_example :
  let s1 := fst (saveDeliveryData (set_m3_values (Some [5%float]) (init_app nov5 []))) in
  let s2 := fst (saveDeliveryData (set_m3_values (Some [3%float]) s1)) in
  q_item (delivery_table s2) 4 1 = Some "8.0" /\ length (delivery_log s2) = 2%nat.
Proof. vm_compute. split; reflexivity. Qed.

(** Committing under the last band, ["Övezet 45-50"], writes the total
    over the date cell of the next day on Qt's table and still reports
    success; the row of 6 November no longer holds its date. *)
Example delivery_last_band_example :
  let s1 := fst (saveDeliveryData (set_m3_values (Some [5%float]) (set_km_index 9 (init_app nov5 [])))) in
  q_item (delivery_table s1) 5 0 = Some "5.0" /\
  last (messages s1) (Information "" "") = delivery_saved.
Proof. vm_compute. split; reflexivity. Qed.
