(* ===== verification/WorkHours.v ===== *)
(** * Saving a work day: [saveWorkHours]

    The "Munkaórák mentése" button runs [FuvarAdminApp.saveWorkHours]
    (src/main.py:501-534): at the row of the chosen date it writes the start
    and end times ([HH:mm]) into columns 2 and 3, reads them back with
    [datetime.strptime(text, '%H:%M')], and writes the hours worked,
    [(end - start).seconds / 3600] with two decimals, into column 4.  It then
    appends the record to [work_hours.json] and shows "Munkaórák mentve!".

    [strptime] is modelled by the regular expression CPython's [_strptime]
    compiles for ['%H:%M'], [(2[0-3]|[0-1]\d|\d):([0-5]\d|\d)], matched with
    its backtracking order and followed by the check that no text remains.
    [timedelta.seconds] is the difference in seconds modulo one day
    (a [timedelta] keeps [0 <= seconds < 86400] and puts the rest into
    [days]), and [/] on two small [int]s is the division of their exact
    float images.

    The theorems: [strptime] reads back every [HH:mm] text; the hours text
    is, for every pair of times, the exact number of minutes over 60 rounded
    to two decimals, in [0, 24): across midnight the code gives the
    complement to a day, not the negative duration the specification
    describes; and the effect of [saveWorkHours] on the ledger and the
    journal. *)

From Stdlib Require Import String Ascii List ZArith Lia Bool Floats.
From S2P Require Import Prelude PyStr PyFloat QtTable QtDate Ledger.
Import ListNotations.
Local Open Scope string_scope.

(** ** [datetime.strptime(text, '%H:%M')] *)

Definition digit_at (c : ascii) : Z := digit_value c.

Definition in_digits (lo hi : Z) (c : ascii) : bool :=
  is_digit c && (lo <=? digit_value c)%Z && (digit_value c <=? hi)%Z.

(** The alternatives of [2[0-3]|[0-1]\d|\d], in the order the regular
    expression tries them: each is the hour and the rest of the text. *)
Definition hour_alts (s : string) : list (Z * string) :=
  match s with
  | String a (String b r) =>
      (if Ascii.eqb a "2" && in_digits 0 3 b then [(20 + digit_at b, r)]%Z else []) ++
      (if in_digits 0 1 a && is_digit b then [(10 * digit_at a + digit_at b, r)]%Z else [])
  | _ => []
  end ++
  match s with
  | String a r => if is_digit a then [(digit_at a, r)] else []
  | _ => []
  end.

(** [[0-5]\d|\d] *)
Definition minute_alts (s : string) : list (Z * string) :=
  match s with
  | String a (String b r) =>
      if in_digits 0 5 a && is_digit b then [(10 * digit_at a + digit_at b, r)]%Z else []
  | _ => []
  end ++
  match s with
  | String a r => if is_digit a then [(digit_at a, r)] else []
  | _ => []
  end.

(** The first alternative that succeeds, as a backtracking search does. *)
Fixpoint first_some {A B} (f : A -> option B) (xs : list A) : option B :=
  match xs with
  | [] => None
  | x :: xs' => match f x with Some b => Some b | None => first_some f xs' end
  end.

(** [format_regex.match(data_string)]: hour, minute and the text after the
    match. *)
Definition match_HM (s : string) : option (Z * Z * string) :=
  first_some (fun '(h, r1) =>
    match r1 with
    | String ":" r1' => first_some (fun '(mi, r2) => Some (h, mi, r2)) (minute_alts r1')
    | _ => None
    end) (hour_alts s).

(** [_strptime]: no match, or text left after the match, is a
    [ValueError] ([repr] of the text is written with plain quotes). *)
Definition strptime_HM (s : string) : outcome (Z * Z) :=
  match match_HM s with
  | None => Raise (ValueError ("time data '" ++ s ++ "' does not match format '%H:%M'"))
  | Some (h, mi, EmptyString) => Ok (h, mi)
  | Some (_, _, rest) => Raise (ValueError ("unconverted data remains: " ++ rest))
  end.

(** ** [(end - start).seconds / 3600] *)

(** [datetime(1900, 1, 1, h, m)] as seconds from midnight. *)
Definition clock_seconds (hm : Z * Z) : Z := (fst hm * 3600 + snd hm * 60)%Z.

(** [timedelta.seconds] of [end - start]. *)
Definition delta_seconds (start stop : Z * Z) : Z :=
  ((clock_seconds stop - clock_seconds start) mod 86400)%Z.

(** A non-negative [int] below [2^53] as a float. *)
Definition float_of_Z (z : Z) : float := of_uint63 (Uint63.of_Z z).

Definition hours_between (start stop : Z * Z) : float :=
  (float_of_Z (delta_seconds start stop) / float_of_Z 3600)%float.

(** ** The handler *)

Section Save.
Context {T : Type} `{TableWidget T}.

(** The [data] dict. *)
Definition work_data (s : App T) : WorkRecord :=
  let f := form s in
  mkWorkRecord (date_text (date_edit f)) (time_text (start_time f)) (time_text (end_time f))
               (type_text f).

(** The body of the loop at the row of the date. *)
Definition work_row (start_text end_text : string) (row : nat) : Py (App T) unit :=
  set_cell WorkLedger row 2 start_text ;;;
  set_cell WorkLedger row 3 end_text ;;;
  start <- lift (strptime_HM start_text) ;;
  stop <- lift (strptime_HM end_text) ;;
  let hours := hours_between start stop in
  set_cell WorkLedger row 4 (py_format_fixed 2 hours).

(** [with open('work_hours.json', 'a') as f: json.dump(data, f)] *)
Definition append_work (data : WorkRecord) : Py (App T) unit :=
  s <- get ;;
  if journal_ok s then modify (add_work_record data) else raise OSError.

Definition work_saved : Message := Information "Siker" "Munkaórák mentve!".

Definition saveWorkHours : Py (App T) unit :=
  try_except
    (s <- get ;;
     let data := work_data s in
     scan_rows WorkLedger (wr_date data) (work_row (wr_start_time data) (wr_end_time data)) ;;;
     append_work data ;;;
     modify (add_message work_saved))
    any_exc
    (fun e => modify (add_message (error_warning e))).
End Save.

(** ** What [strptime] accepts *)

Lemma first_some_spec {A B} (f : A -> option B) xs b :
  first_some f xs = Some b -> exists x, In x xs /\ f x = Some b.
Proof.
  induction xs as [|x xs IH]; cbn [first_some]; [discriminate|].
  destruct (f x) as [b'|] eqn:E.
  - intros [= <-]. exists x. split; [left; reflexivity | exact E].
  - intros Hb. destruct (IH Hb) as (x' & Hin & Hx'). exists x'. split; [right; exact Hin | exact Hx'].
Qed.

Lemma in_digits_range lo hi c :
  in_digits lo hi c = true -> (lo <= digit_at c <= hi)%Z.
Proof. unfold in_digits, digit_at. intros [[_ H1]%andb_prop H2]%andb_prop. lia. Qed.

Lemma digit_at_range c : is_digit c = true -> (0 <= digit_at c <= 9)%Z.
Proof. apply digit_value_range. Qed.

(** The single-digit alternative [\d]. *)
Lemma one_digit_range s v r :
  In (v, r) match s with String a r => if is_digit a then [(digit_at a, r)] else [] | _ => [] end ->
  (0 <= v <= 9)%Z.
Proof.
  destruct s as [|a r']; [intros []|]. destruct (is_digit a) eqn:Ha; [|intros []].
  intros [[= <- _]|[]]. apply digit_at_range. exact Ha.
Qed.

(** Every hour alternative is an hour of the day, every minute
    alternative a minute of the hour. *)
Lemma hour_alts_range s h r : In (h, r) (hour_alts s) -> (0 <= h <= 23)%Z.
Proof.
  unfold hour_alts. intros Hin. apply in_app_or in Hin as [Hin|Hin]; [|apply one_digit_range in Hin; lia].
  destruct s as [|a [|b r']]; [destruct Hin | destruct Hin|].
  apply in_app_or in Hin as [Hin|Hin].
  - destruct (Ascii.eqb a "2" && in_digits 0 3 b) eqn:E; [|destruct Hin].
    destruct Hin as [[= <- _]|[]]. apply andb_prop in E as [_ E]. apply in_digits_range in E. lia.
  - destruct (in_digits 0 1 a && is_digit b) eqn:E; [|destruct Hin].
    destruct Hin as [[= <- _]|[]]. apply andb_prop in E as [Ea Eb].
    apply in_digits_range in Ea. apply digit_at_range in Eb. lia.
Qed.

Lemma minute_alts_range s mi r : In (mi, r) (minute_alts s) -> (0 <= mi <= 59)%Z.
Proof.
  unfold minute_alts. intros Hin. apply in_app_or in Hin as [Hin|Hin]; [|apply one_digit_range in Hin; lia].
  destruct s as [|a [|b r']]; [destruct Hin | destruct Hin|].
  destruct (in_digits 0 5 a && is_digit b) eqn:E; [|destruct Hin].
  destruct Hin as [[= <- _]|[]]. apply andb_prop in E as [Ea Eb].
  apply in_digits_range in Ea. apply digit_at_range in Eb. lia.
Qed.

Lemma strptime_HM_valid s h mi : strptime_HM s = Ok (h, mi) -> valid_time (mkTime h mi) = true.
Proof.
  unfold strptime_HM. destruct (match_HM s) as [[[h' m'] [|c r]]|] eqn:E; try discriminate.
  intros [= <- <-]. unfold match_HM in E. apply first_some_spec in E as ([h0 r1] & Hin & Hf).
  destruct r1 as [|c r1]; [discriminate|].
  destruct (Ascii.eqb c ":") eqn:Ec; [apply Ascii.eqb_eq in Ec as ->|].
  - apply first_some_spec in Hf as ([m0 r2] & Hin' & [= -> -> _]).
    apply hour_alts_range in Hin. apply minute_alts_range in Hin'.
    unfold valid_time; cbn [qt_hour qt_minute]. rewrite !andb_true_iff, !Z.leb_le. lia.
  - exfalso. destruct c as [[] [] [] [] [] [] [] []]; try discriminate.
Qed.

(** [strptime] reads back every [HH:mm] text of a valid time: the check
    runs over the 1440 times of a day. *)
Definition ok_hm (o : outcome (Z * Z)) (h mi : Z) : bool :=
  match o with Ok (a, b) => Z.eqb a h && Z.eqb b mi | Raise _ => false end.

Lemma strptime_all_times :
  forallb (fun h => forallb (fun mi =>
      ok_hm (strptime_HM (time_text (mkTime (Z.of_nat h) (Z.of_nat mi)))) (Z.of_nat h) (Z.of_nat mi))
    (range 60)) (range 24) = true.
Proof. vm_compute. reflexivity. Qed.

Lemma valid_time_bounds t :
  valid_time t = true -> (0 <= qt_hour t <= 23)%Z /\ (0 <= qt_minute t <= 59)%Z.
Proof. unfold valid_time. rewrite !andb_true_iff, !Z.leb_le. lia. Qed.

Lemma strptime_time_text t :
  valid_time t = true -> strptime_HM (time_text t) = Ok (qt_hour t, qt_minute t).
Proof.
  intros Hv. apply valid_time_bounds in Hv as [Hh Hm]. destruct t as [h mi]; cbn [qt_hour qt_minute] in *.
  pose proof strptime_all_times as Hall. rewrite forallb_forall in Hall.
  specialize (Hall (Z.to_nat h) ltac:(apply in_range; lia)). rewrite forallb_forall in Hall.
  specialize (Hall (Z.to_nat mi) ltac:(apply in_range; lia)). rewrite !Z2Nat.id in Hall by lia.
  destruct (strptime_HM _) as [[a b]|]; [|discriminate].
  apply andb_prop in Hall as [Ha Hb]. apply Z.eqb_eq in Ha, Hb. subst. reflexivity.
Qed.

(** ** The hours text *)

(** Minutes from midnight. *)
Definition minutes_of (hm : Z * Z) : Z := (60 * fst hm + snd hm)%Z.

(** The exact value of [k] minutes in hours, rounded half to even to two
    decimals: the reference the float computation is compared with. *)
Definition exact_hours_text (k : Z) : string := fixed_digits 2 (div_round_even (k * 100) 60).

Lemma delta_seconds_minutes start stop :
  delta_seconds start stop = (60 * ((minutes_of stop - minutes_of start) mod 1440))%Z.
Proof.
  unfold delta_seconds, clock_seconds, minutes_of.
  replace (fst stop * 3600 + snd stop * 60 - (fst start * 3600 + snd start * 60))%Z
    with (60 * (60 * fst stop + snd stop - (60 * fst start + snd start)))%Z by ring.
  change 86400%Z with (60 * 1440)%Z. apply Z.mul_mod_distr_l; lia.
Qed.

Lemma hours_all_minutes :
  forallb (fun k => String.eqb (py_format_fixed 2 (float_of_Z (60 * Z.of_nat k) / float_of_Z 3600)%float)
                               (exact_hours_text (Z.of_nat k)))
          (range 1440) = true.
Proof. vm_compute. reflexivity. Qed.

(** The float computation of the code gives the exact text, whatever the
    two times. *)
Lemma hours_between_text start stop :
  py_format_fixed 2 (hours_between start stop) =
  exact_hours_text ((minutes_of stop - minutes_of start) mod 1440).
Proof.
  unfold hours_between. rewrite delta_seconds_minutes.
  set (k := ((minutes_of stop - minutes_of start) mod 1440)%Z).
  assert (Hk : (0 <= k < 1440)%Z) by (apply Z.mod_pos_bound; lia).
  pose proof hours_all_minutes as Hall. rewrite forallb_forall in Hall.
  specialize (Hall (Z.to_nat k) ltac:(apply in_range; lia)). rewrite Z2Nat.id in Hall by lia.
  apply String.eqb_eq in Hall. exact Hall.
Qed.

(** ** The paths through [saveWorkHours] *)

Section SaveFacts.
Context {T : Type} `{TableWidgetLaws T}.

(** The three writes at the row of the date. *)
Definition work_written (t : T) (r : nat) (st et ht : string) : T :=
  setItem (setItem (setItem t r 2 st) r 3 et) r 4 ht.

Lemma work_row_ok (s : App T) st et r hs he :
  strptime_HM st = Ok hs -> strptime_HM et = Ok he ->
  work_row st et r s =
  (set_table WorkLedger (work_written (work_table s) r st et (py_format_fixed 2 (hours_between hs he))) s,
   Ok tt).
Proof.
  intros Hs He. unfold work_row, set_cell, bind, modify, lift.
  cbn [table_of set_table work_table]. rewrite Hs, He. reflexivity.
Qed.

Lemma work_written_dated (t : T) y m r st et ht :
  dated_ledger t y m -> r < rowCount t -> 4 < columnCount t ->
  dated_ledger (work_written t r st et ht) y m.
Proof.
  intros Hd Hr Hc. unfold work_written.
  apply dated_setItem; rewrite ?rowCount_setItem, ?columnCount_setItem; try lia.
  apply dated_setItem; rewrite ?rowCount_setItem, ?columnCount_setItem; try lia.
  apply dated_setItem; assumption || lia.
Qed.

Lemma work_written_cells (t : T) r st et ht :
  table_wf t -> r < rowCount t -> 4 < columnCount t ->
  item (work_written t r st et ht) r 2 = Some st /\
  item (work_written t r st et ht) r 3 = Some et /\
  item (work_written t r st et ht) r 4 = Some ht /\
  (forall r' c', r' <> r \/ (c' <> 2 /\ c' <> 3 /\ c' <> 4) ->
     item (work_written t r st et ht) r' c' = item t r' c').
Proof.
  intros Hwf Hr Hc. unfold work_written.
  assert (Hwf1 : table_wf (setItem t r 2 st)) by (apply wf_setItem; exact Hwf).
  assert (Hwf2 : table_wf (setItem (setItem t r 2 st) r 3 et)) by (apply wf_setItem; exact Hwf1).
  destruct (setItem_cells t r 2 st Hwf ltac:(lia) ltac:(lia)) as [E1 N1].
  destruct (setItem_cells _ r 3 et Hwf1 ltac:(rewrite rowCount_setItem; lia)
              ltac:(rewrite columnCount_setItem; lia)) as [E2 N2].
  destruct (setItem_cells _ r 4 ht Hwf2 ltac:(rewrite !rowCount_setItem; lia)
              ltac:(rewrite !columnCount_setItem; lia)) as [E3 N3].
  repeat split.
  - rewrite N3, N2 by (intros [=]). exact E1.
  - rewrite N3 by (intros [=]). exact E2.
  - exact E3.
  - intros r' c' Hne. rewrite N3, N2, N1 by (intros [= -> ->]; lia). reflexivity.
Qed.

(** [saveWorkHours] once the loop has run without an exception. *)
Lemma saveWorkHours_after (s s1 : App T) :
  scan_rows WorkLedger (wr_date (work_data s))
            (work_row (wr_start_time (work_data s)) (wr_end_time (work_data s))) s = (s1, Ok tt) ->
  saveWorkHours s =
  if journal_ok s1 then (add_message work_saved (add_work_record (work_data s) s1), Ok tt)
  else (add_message (error_warning OSError) s1, Ok tt).
Proof.
  intros Hs. unfold saveWorkHours, try_except. rewrite bind_get. unfold bind at 1. rewrite Hs.
  unfold append_work, bind, get, modify, raise. destruct (journal_ok s1); reflexivity.
Qed.

(** The loop when the date is day [r + 1] of a dated work ledger. *)
Lemma work_scan_ok (s : App T) y m r :
  dated_ledger (work_table s) y m -> date_edit (form s) = mkDate y m (1 + Z.of_nat r) ->
  r < rowCount (work_table s) -> 4 < columnCount (work_table s) ->
  valid_time (start_time (form s)) = true -> valid_time (end_time (form s)) = true ->
  let f := form s in
  scan_rows WorkLedger (wr_date (work_data s))
            (work_row (wr_start_time (work_data s)) (wr_end_time (work_data s))) s =
  (set_table WorkLedger
     (work_written (work_table s) r (time_text (start_time f)) (time_text (end_time f))
        (py_format_fixed 2 (hours_between (qt_hour (start_time f), qt_minute (start_time f))
                                          (qt_hour (end_time f), qt_minute (end_time f))))) s,
   Ok tt).
Proof.
  intros Hd Hdate Hr Hc Hst Het f. unfold work_data; cbn [wr_date wr_start_time wr_end_time].
  rewrite Hdate. apply scan_rows_dated; [exact Hd | exact Hr | |].
  - apply work_row_ok; apply strptime_time_text; assumption.
  - intros _. rewrite table_of_set_table. apply work_written_dated; assumption.
Qed.
End SaveFacts.

(** ** Theorems *)

(** [strptime(text, '%H:%M')] reads back the [HH:mm] text of every
    valid time, and whatever it accepts is a valid time. *)
Theorem strptime_HM_accepts :
  (forall t, valid_time t = true -> strptime_HM (time_text t) = Ok (qt_hour t, qt_minute t)) /\
  (forall s h mi, strptime_HM s = Ok (h, mi) -> valid_time (mkTime h mi) = true).
Proof. split; [exact strptime_time_text | exact strptime_HM_valid]. Qed.

Lemma strptime_HM_accepts_witness :
  valid_time (mkTime 9 5) = true /\ strptime_HM (time_text (mkTime 9 5)) = Ok (9%Z, 5%Z).
Proof.
  split; [vm_compute; reflexivity |].
  apply (proj1 strptime_HM_accepts (mkTime 9 5)). vm_compute. reflexivity.
Defined.

(** C6: for two valid times, the hours text [saveWorkHours] writes is the
    exact duration in hours, rounded to two decimals, of [end - start] when
    [end] is not earlier than [start], and of [end - start + 24 h] when it
    is: across midnight the code never gives the negative duration of the
    specification, and the text is always that of a value in [0, 24). *)
Theorem hours_text_spec (start stop : QTime) :
  valid_time start = true -> valid_time stop = true ->
  let d := (minutes_of (qt_hour stop, qt_minute stop) - minutes_of (qt_hour start, qt_minute start))%Z in
  py_format_fixed 2 (hours_between (qt_hour start, qt_minute start) (qt_hour stop, qt_minute stop)) =
  exact_hours_text (if (0 <=? d)%Z then d else d + 1440)%Z /\
  (0 <= (if (0 <=? d)%Z then d else d + 1440) < 1440)%Z.
Proof.
  intros Hs He d. rewrite hours_between_text. fold d.
  apply valid_time_bounds in Hs, He.
  assert (Hd : (-1440 < d < 1440)%Z) by (unfold d, minutes_of; cbn [fst snd]; lia).
  destruct (Z.leb_spec 0 d) as [Hd0|Hd0].
  - rewrite Z.mod_small by lia. split; [reflexivity | lia].
  - replace (d mod 1440)%Z with (d + 1440)%Z by (apply Z.mod_unique with (-1)%Z; lia).
    split; [reflexivity | lia].
Qed.

Lemma hours_text_spec_witness :
  py_format_fixed 2 (hours_between (22, 0)%Z (6, 0)%Z) = exact_hours_text 480.
Proof.
  destruct (hours_text_spec (mkTime 22 0) (mkTime 6 0)) as [E _]; [reflexivity | reflexivity |].
  exact E.
Defined.

(** A shift from 22:00 to 06:00 is written as ["8.00"] hours, not as
    the [-16.00] of the specification's naive subtraction. *)
Example hours_midnight_example :
  py_format_fixed 2 (hours_between (22, 0)%Z (6, 0)%Z) = "8.00".
Proof. vm_compute. reflexivity. Qed.

Section SaveTheorems.
Context {T : Type} `{TableWidgetLaws T}.

(** C22: saving a work day whose date is in the work ledger, with valid
    times and a writable journal, writes the start and end times ([HH:mm])
    into columns 2 and 3 and the hours text into column 4 of that row,
    changes no other cell, appends the record to the journal and shows
    "Munkaórák mentve!". *)
Theorem saveWorkHours_records (s : App T) y m r :
  dated_ledger (work_table s) y m -> date_edit (form s) = mkDate y m (1 + Z.of_nat r) ->
  r < rowCount (work_table s) -> 4 < columnCount (work_table s) ->
  valid_time (start_time (form s)) = true -> valid_time (end_time (form s)) = true ->
  journal_ok s = true ->
  let f := form s in
  let s' := fst (saveWorkHours s) in
  snd (saveWorkHours s) = Ok tt /\
  item (work_table s') r 2 = Some (time_text (start_time f)) /\
  item (work_table s') r 3 = Some (time_text (end_time f)) /\
  item (work_table s') r 4 =
    Some (py_format_fixed 2 (hours_between (qt_hour (start_time f), qt_minute (start_time f))
                                           (qt_hour (end_time f), qt_minute (end_time f)))) /\
  (forall r' c', r' <> r \/ (c' <> 2 /\ c' <> 3 /\ c' <> 4) ->
     item (work_table s') r' c' = item (work_table s) r' c') /\
  work_log s' = (work_log s ++ [work_data s])%list /\
  messages s' = (messages s ++ [work_saved])%list /\ delivery_table s' = delivery_table s.
Proof.
  intros Hd Hdate Hr Hc Hst Het Hj f s'. subst s'.
  rewrite (saveWorkHours_after s _ (work_scan_ok s y m r Hd Hdate Hr Hc Hst Het)).
  cbn [journal_ok set_table]. rewrite Hj. pose proof Hd as (Hwf & _).
  destruct (work_written_cells (work_table s) r (time_text (start_time f)) (time_text (end_time f))
    (py_format_fixed 2 (hours_between (qt_hour (start_time f), qt_minute (start_time f))
                                      (qt_hour (end_time f), qt_minute (end_time f)))) Hwf Hr Hc)
    as (E2 & E3 & E4 & N).
  cbn -[work_written py_format_fixed hours_between]. auto 10.
Qed.
End SaveTheorems.

Lemma nov5_work_dated : dated_ledger (work_table (init_app nov5 [])) 2024 11.
Proof. exact (fresh_dated _ _ _ _ (proj1 (init_app_fresh nov5 []))). Qed.

Lemma saveWorkHours_records_witness :
  let s0 := set_times (mkTime 8 0) (mkTime 16 30) (init_app nov5 []) in
  item (work_table (fst (saveWorkHours s0))) 4 4 = Some "8.50".
Proof.
  intros s0. destruct (saveWorkHours_records s0 2024 11 4) as (_ & _ & _ & E4 & _).
  - apply dated_work_set_times, nov5_work_dated.
  - vm_compute. reflexivity.
  - vm_compute. lia.
  - vm_compute. lia.
  - reflexivity.
  - reflexivity.
  - vm_compute. reflexivity.
  - rewrite E4. vm_compute. reflexivity.
Defined.
