(* ===== verification/RefStore.v ===== *)
(** * The reference store: three SQLite tables and the dialog that edits them

    [FuvarAdminApp.initDatabase] (src/main.py:58-95) creates the tables
    [factories], [addresses] and [zones] of [fuvarok.db] (an [INTEGER PRIMARY
    KEY] id, a label and a price) and seeds [factories] when it is empty.
    The main window reads the factory labels into its combo box
    ([loadFactories], main.py:447-452).  The dialog [DatabaseManager]
    (main.py:722-931; the copy in [src/database_manager.py], which nothing
    imports, is modelled in DatabaseManagerFile.v) shows each table in a
    three-column table widget and adds
    ([addFactory], [addAddress], [addZone]) and deletes ([deleteFactory],
    ...) records.

    Module [Sql] holds what the code relies on of SQLite: the rows of a
    table in rowid order, an insert that gives the new row the largest id
    plus one (1 in an empty table), and [DELETE ... WHERE id=?] with a text
    parameter, which the column's integer affinity turns into a number when
    it reads as one.  The dialog's handlers are written once per
    [Category] over any table widget of QtTable.v ([loadRef], [addRef],
    [deleteRef]); the nine methods of the class are those handlers at one
    category each, and [open_dialog] builds the three tabs in the order of
    [initUI].

    The theorems: the ids of every table stay positive and strictly
    increasing through any session; a load shows the table row by row;
    deleting the selected row removes exactly that record; deleting by an id
    no record has changes nothing; the add guard, which refuses an empty
    name and a zero price as the add contract asks; seeding and what a
    restart does after every factory was deleted; the main window's
    factory list going stale; and two
    refinement theorems: against a finite map from ids to records
    ([Collection]), adding is an insert at a fresh id and deleting the
    selected row the removal of exactly that row's id. *)

From Stdlib Require Import String Ascii List ZArith Lia Bool Sorted.
From S2P Require Import Prelude PyStr QtTable Ledger.
Import ListNotations.
Local Open Scope string_scope.

(** ** SQLite *)

Module Sql.

(** A row of [factories (id, nev, fuvardij)], [addresses (id, cim, ar)] or
    [zones (id, nev, alapdij)]. *)
Record RefRow := mkRow { row_id : Z; row_label : string; row_price : Z }.

Definition max_id (t : list RefRow) : Z := fold_left (fun m r => Z.max m (row_id r)) t 0%Z.

(** The rowid of an [INSERT] that gives none. *)
Definition next_rowid (t : list RefRow) : Z := (max_id t + 1)%Z.

Definition insert (t : list RefRow) (label : string) (price : Z) : list RefRow :=
  t ++ [mkRow (next_rowid t) label price].

(** [executemany] of an [INSERT]: one insert per parameter tuple. *)
Definition insert_many (t : list RefRow) (rows : list (string * Z)) : list RefRow :=
  fold_left (fun t '(l, p) => insert t l p) rows t.

(** A text parameter compared with the integer column: numeric affinity
    applies when the text is an integer literal; any other text compares
    unequal to every integer. *)
Definition integer_text (s : string) : option Z := int_body s.

Definition delete_where_id (t : list RefRow) (id_text : string) : list RefRow :=
  match integer_text id_text with
  | Some k => filter (fun r => negb (Z.eqb (row_id r) k)) t
  | None => t
  end.

End Sql.

Import Sql.

(** The three tables of [fuvarok.db]. *)
Inductive Category := Factories | Addresses | Zones.

Record Store := mkStore { factories : list RefRow; addresses : list RefRow; zones : list RefRow }.

Definition table_rows (c : Category) (st : Store) : list RefRow :=
  match c with Factories => factories st | Addresses => addresses st | Zones => zones st end.

Definition set_rows (c : Category) (t : list RefRow) (st : Store) : Store :=
  match c with
  | Factories => mkStore t (addresses st) (zones st)
  | Addresses => mkStore (factories st) t (zones st)
  | Zones => mkStore (factories st) (addresses st) t
  end.

(** A file that has just been created: [CREATE TABLE IF NOT EXISTS] makes
    the three tables, empty. *)
Definition empty_store : Store := mkStore [] [] [].

(** The seed of [initDatabase]. *)
Definition seed_factories : list (string * Z) := [("CATL", 5000); ("BMW", 6000); ("Gyár 3", 5500)]%Z.

(** [initDatabase]: the tables exist; [factories] is seeded when
    the row count is 0. *)
Definition initDatabase (st : Store) : Store :=
  if (length (factories st) =? 0)%nat then set_rows Factories (insert_many (factories st) seed_factories) st
  else st.

(** [FuvarAdminApp.loadFactories]: [SELECT nev FROM factories] into the
    combo box. *)
Definition loadFactories_main (st : Store) : list string := map row_label (factories st).

(** ** The dialog [DatabaseManager] *)

(** One tab: the name field, the price spin box, the table widget and the
    row of the first selected item ([selectedItems()[0].row()]). *)
Record Tab (T : Type) := mkTab {
  tab_name : string; tab_price : Z; tab_table : T; tab_selected : option nat }.
Arguments mkTab {T}. Arguments tab_name {T}. Arguments tab_price {T}.
Arguments tab_table {T}. Arguments tab_selected {T}.

Record Dialog (T : Type) := mkDialog {
  dstore : Store; factory_tab : Tab T; address_tab : Tab T; zone_tab : Tab T }.
Arguments mkDialog {T}. Arguments dstore {T}. Arguments factory_tab {T}.
Arguments address_tab {T}. Arguments zone_tab {T}.

Section DialogState.
Context {T : Type}.

Definition tab_of (c : Category) (d : Dialog T) : Tab T :=
  match c with Factories => factory_tab d | Addresses => address_tab d | Zones => zone_tab d end.

Definition set_tab (c : Category) (tb : Tab T) (d : Dialog T) : Dialog T :=
  match c with
  | Factories => mkDialog (dstore d) tb (address_tab d) (zone_tab d)
  | Addresses => mkDialog (dstore d) (factory_tab d) tb (zone_tab d)
  | Zones => mkDialog (dstore d) (factory_tab d) (address_tab d) tb
  end.

Definition set_dstore (st : Store) (d : Dialog T) : Dialog T :=
  mkDialog st (factory_tab d) (address_tab d) (zone_tab d).
End DialogState.

Section Handlers.
Context {T : Type} `{TableWidget T}.

(** [for row, data in enumerate(rows): insertRow(row);
       for col, item in enumerate(data): setItem(row, col, str(item))] *)
Fixpoint load_rows (t : T) (row : nat) (rows : list RefRow) : T :=
  match rows with
  | [] => t
  | r :: rs =>
      let t1 := insertRow t row in
      let t2 := setItem t1 row 0 (str_Z (row_id r)) in
      let t3 := setItem t2 row 1 (row_label r) in
      let t4 := setItem t3 row 2 (str_Z (row_price r)) in
      load_rows t4 (S row) rs
  end.

(** [loadFactories], [loadAddresses], [loadZones] of the dialog:
    [SELECT *], [setRowCount(0)] (which also empties the selection), then
    one row per record. *)
Definition loadRef (c : Category) (d : Dialog T) : Dialog T :=
  let tb := tab_of c d in
  set_tab c (mkTab (tab_name tb) (tab_price tb)
                   (load_rows (clearRows (tab_table tb)) 0 (table_rows c (dstore d))) None) d.

(** [addFactory], [addAddress], [addZone]: [if name and price:] insert,
    commit, reload, clear the name and set the price to 0. *)
Definition addRef (c : Category) (d : Dialog T) : Dialog T :=
  let tb := tab_of c d in
  let name := tab_name tb in
  let price := tab_price tb in
  if negb (String.eqb name "") && negb (Z.eqb price 0) then
    let st := set_rows c (insert (table_rows c (dstore d)) name price) (dstore d) in
    let d1 := loadRef c (set_dstore st d) in
    let tb1 := tab_of c d1 in
    set_tab c (mkTab "" 0 (tab_table tb1) (tab_selected tb1)) d1
  else d.

(** [deleteFactory], [deleteAddress], [deleteZone]: with a selection, the
    text of column 0 of the selected row is the id of the [DELETE]; then
    commit and reload. *)
Definition deleteRef (c : Category) (d : Dialog T) : Dialog T :=
  let tb := tab_of c d in
  match tab_selected tb with
  | None => d
  | Some row =>
      match item (tab_table tb) row 0 with
      | None => d
      | Some id_text =>
          let st := set_rows c (delete_where_id (table_rows c (dstore d)) id_text) (dstore d) in
          loadRef c (set_dstore st d)
      end
  end.

(** What the user does in the dialog. *)
Inductive DialogAction :=
| TypeName (c : Category) (s : string)
| SetPrice (c : Category) (p : Z)
| SelectRow (c : Category) (row : option nat)
| ClickAdd (c : Category)
| ClickDelete (c : Category).

(** [QSpinBox.setRange(0, 1000000)] clamps what the spin box holds. *)
Definition clamp_price (p : Z) : Z := Z.max 0 (Z.min 1000000 p).

Definition dialog_step (d : Dialog T) (a : DialogAction) : Dialog T :=
  match a with
  | TypeName c s => let tb := tab_of c d in
      set_tab c (mkTab s (tab_price tb) (tab_table tb) (tab_selected tb)) d
  | SetPrice c p => let tb := tab_of c d in
      set_tab c (mkTab (tab_name tb) (clamp_price p) (tab_table tb) (tab_selected tb)) d
  | SelectRow c r => let tb := tab_of c d in
      set_tab c (mkTab (tab_name tb) (tab_price tb) (tab_table tb) r) d
  | ClickAdd c => addRef c d
  | ClickDelete c => deleteRef c d
  end.

Definition run_dialog (acts : list DialogAction) (d : Dialog T) : Dialog T :=
  fold_left dialog_step acts d.

(** The nine methods of [DatabaseManager]: the three copies of each
    handler differ only in the table, the widgets and the SQL table name,
    which [Category] selects. *)
Definition loadFactories : Dialog T -> Dialog T := loadRef Factories.
Definition loadAddresses : Dialog T -> Dialog T := loadRef Addresses.
Definition loadZones : Dialog T -> Dialog T := loadRef Zones.
Definition addFactory : Dialog T -> Dialog T := addRef Factories.
Definition addAddress : Dialog T -> Dialog T := addRef Addresses.
Definition addZone : Dialog T -> Dialog T := addRef Zones.
Definition deleteFactory : Dialog T -> Dialog T := deleteRef Factories.
Definition deleteAddress : Dialog T -> Dialog T := deleteRef Addresses.
Definition deleteZone : Dialog T -> Dialog T := deleteRef Zones.
End Handlers.

(** [DatabaseManager(self)]: three empty three-column tables, each loaded
    from the store ([createFactoriesTab] and the others). *)
Definition new_tab : Tab qtable := mkTab "" 0 (empty_qtable 3) None.

(** [createFactoriesTab] and the other two: a fresh name field, a spin box
    holding 0, an empty three-column table, then the table's [load...]. *)
Definition createTab (c : Category) (d : Dialog qtable) : Dialog qtable :=
  loadRef c (set_tab c new_tab d).
Definition createFactoriesTab := createTab Factories.
Definition createAddressesTab := createTab Addresses.
Definition createZonesTab := createTab Zones.

(** [__init__] and [initUI]: the tabs are created in the order of the
    [addTab] calls. *)
Definition open_dialog (st : Store) : Dialog qtable :=
  createZonesTab (createAddressesTab (createFactoriesTab (mkDialog st new_tab new_tab new_tab))).

(** [openDatabaseManager] (main.py:657-659): the dialog runs on the store;
    the main window is not told, so its factory combo box keeps the list
    it had. *)
Definition openDatabaseManager (acts : list DialogAction) (combo : list string) (st : Store) :
  list string * Store :=
  (combo, dstore (run_dialog acts (open_dialog st))).

(** ** The id invariant *)

(** Ids positive and strictly increasing in table order. *)
Definition ids_ok (t : list RefRow) : Prop :=
  Forall (fun r => (0 < row_id r)%Z) t /\ StronglySorted (fun a b => (row_id a < row_id b)%Z) t.

Definition store_ok (st : Store) : Prop :=
  ids_ok (factories st) /\ ids_ok (addresses st) /\ ids_ok (zones st).

Lemma max_id_acc_ge (t : list RefRow) m : (m <= fold_left (fun m r => Z.max m (row_id r)) t m)%Z.
Proof.
  revert m. induction t as [|r t IH]; intros m; cbn [fold_left]; [lia|].
  specialize (IH (Z.max m (row_id r))). lia.
Qed.

Lemma max_id_ge (t : list RefRow) r : In r t -> (row_id r <= max_id t)%Z.
Proof.
  unfold max_id. generalize 0%Z. induction t as [|r' t IH]; intros m; [intros []|].
  intros [->|Hin]; cbn [fold_left].
  - pose proof (max_id_acc_ge t (Z.max m (row_id r))). lia.
  - apply IH. exact Hin.
Qed.

Lemma next_rowid_fresh (t : list RefRow) :
  (0 < next_rowid t)%Z /\ Forall (fun r => (row_id r < next_rowid t)%Z) t.
Proof.
  unfold next_rowid. split; [pose proof (max_id_acc_ge t 0); unfold max_id; lia|].
  apply Forall_forall. intros r Hin. pose proof (max_id_ge t r Hin). lia.
Qed.

Lemma ss_snoc (t : list RefRow) x :
  StronglySorted (fun a b => (row_id a < row_id b)%Z) t ->
  Forall (fun r => (row_id r < row_id x)%Z) t ->
  StronglySorted (fun a b => (row_id a < row_id b)%Z) (t ++ [x]).
Proof.
  induction t as [|a t IH]; intros Hs Hx; cbn [app].
  - repeat constructor.
  - inversion Hs as [|? ? Hs' Ha]; subst. inversion Hx as [|? ? Hax Hx']; subst.
    constructor; [exact (IH Hs' Hx')|]. apply Forall_app. split; [exact Ha|]. repeat constructor. exact Hax.
Qed.

Lemma insert_ok t label price : ids_ok t -> ids_ok (insert t label price).
Proof.
  intros [Hpos Hs]. destruct (next_rowid_fresh t) as [Hn Hlt]. unfold insert. split.
  - apply Forall_app. split; [exact Hpos|]. repeat constructor. exact Hn.
  - apply ss_snoc; [exact Hs | exact Hlt].
Qed.

Lemma Forall_filter_keep {A} (P : A -> Prop) f (l : list A) : Forall P l -> Forall P (filter f l).
Proof.
  rewrite !Forall_forall. intros HP x Hx. apply filter_In in Hx. apply HP, Hx.
Qed.

Lemma ss_filter (t : list RefRow) f :
  StronglySorted (fun a b => (row_id a < row_id b)%Z) t ->
  StronglySorted (fun a b => (row_id a < row_id b)%Z) (filter f t).
Proof.
  induction t as [|a t IH]; intros Hs; [constructor|]. inversion Hs as [|? ? Hs' Ha]; subst.
  cbn [filter]. destruct (f a); [constructor; [apply IH, Hs' | apply Forall_filter_keep, Ha] | apply IH, Hs'].
Qed.

Lemma delete_ok t id_text : ids_ok t -> ids_ok (delete_where_id t id_text).
Proof.
  intros [Hpos Hs]. unfold delete_where_id. destruct (integer_text id_text); [|split; assumption].
  split; [apply Forall_filter_keep, Hpos | apply ss_filter, Hs].
Qed.

Lemma insert_many_ok t rows : ids_ok t -> ids_ok (insert_many t rows).
Proof.
  unfold insert_many. revert t. induction rows as [|[l p] rows IH]; intros t Ht; [exact Ht|].
  cbn [fold_left]. apply IH, insert_ok, Ht.
Qed.

Lemma set_rows_ok c t st : store_ok st -> ids_ok t -> store_ok (set_rows c t st).
Proof. intros (H1 & H2 & H3) Ht. unfold store_ok. destruct c; cbn [set_rows factories addresses zones]; tauto. Qed.

Lemma table_rows_ok c st : store_ok st -> ids_ok (table_rows c st).
Proof. intros (H1 & H2 & H3). destruct c; assumption. Qed.

(** [initDatabase] keeps the invariant: the seed gets the next ids. *)
Lemma initDatabase_ok st : store_ok st -> store_ok (initDatabase st).
Proof.
  intros Hok. unfold initDatabase. destruct (length (factories st) =? 0)%nat; [|exact Hok].
  apply set_rows_ok; [exact Hok | apply insert_many_ok, (proj1 Hok)].
Qed.

Section DialogFacts.
Context {T : Type} `{TableWidget T}.

Lemma dstore_set_tab c (tb : Tab T) d : dstore (set_tab c tb d) = dstore d.
Proof. destruct c; reflexivity. Qed.

Lemma dstore_loadRef c (d : Dialog T) : dstore (loadRef c d) = dstore d.
Proof. unfold loadRef. apply dstore_set_tab. Qed.

Lemma tab_of_set_tab c (tb : Tab T) d : tab_of c (set_tab c tb d) = tb.
Proof. destruct c; reflexivity. Qed.

Lemma table_rows_set_rows c t st : table_rows c (set_rows c t st) = t.
Proof. destruct c; reflexivity. Qed.

Lemma table_rows_set_rows_other c c' t st :
  c <> c' -> table_rows c' (set_rows c t st) = table_rows c' st.
Proof. destruct c, c'; cbn; congruence. Qed.

Lemma dialog_step_ok (d : Dialog T) a : store_ok (dstore d) -> store_ok (dstore (dialog_step d a)).
Proof.
  intros Hok. destruct a as [c s|c p|c r|c|c]; cbn [dialog_step]; try (rewrite dstore_set_tab; exact Hok).
  - unfold addRef. destruct (_ && _); [|exact Hok].
    rewrite dstore_set_tab, dstore_loadRef. cbn [dstore set_dstore].
    apply set_rows_ok; [exact Hok | apply insert_ok, table_rows_ok, Hok].
  - unfold deleteRef. destruct (tab_selected _); [|exact Hok]. destruct (item _ _ _); [|exact Hok].
    rewrite dstore_loadRef. cbn [dstore set_dstore].
    apply set_rows_ok; [exact Hok | apply delete_ok, table_rows_ok, Hok].
Qed.

(** A session keeps the invariant, one action at a time. *)
Lemma run_dialog_ok (acts : list DialogAction) (d : Dialog T) :
  store_ok (dstore d) -> store_ok (dstore (run_dialog acts d)).
Proof.
  unfold run_dialog. revert d. induction acts as [|a acts IH]; intros d Hok; [exact Hok|].
  cbn [fold_left]. apply IH, dialog_step_ok, Hok.
Qed.
End DialogFacts.

(** ** What a load shows *)

(** The text [str(item)] of column [c] of record [i]. *)
Definition loaded_item (rows : list RefRow) (i c : nat) : option string :=
  match nth_error rows i with
  | None => None
  | Some r =>
      match c with
      | 0 => Some (str_Z (row_id r))
      | 1 => Some (row_label r)
      | 2 => Some (str_Z (row_price r))
      | _ => None
      end
  end.

Section LoadFacts.
Context {T : Type} `{TableWidgetLaws T}.

(** The four writes of one record at the new last row. *)
Lemma load_row_cells (t : T) r :
  table_wf t -> columnCount t = 3 ->
  let n := rowCount t in
  let t4 := setItem (setItem (setItem (insertRow t n) n 0 (str_Z (row_id r))) n 1 (row_label r))
                    n 2 (str_Z (row_price r)) in
  table_wf t4 /\ rowCount t4 = S n /\ columnCount t4 = 3 /\
  forall i c, item t4 i c = if (i <? n)%nat then item t i c else loaded_item [r] (i - n)%nat c.
Proof.
  intros Hwf Hc n t4.
  assert (W1 : table_wf (insertRow t n)) by (apply wf_insertRow, Hwf).
  assert (R1 : rowCount (insertRow t n) = S n) by apply rowCount_insertRow_end.
  assert (C1 : columnCount (insertRow t n) = 3) by (rewrite columnCount_insertRow; exact Hc).
  assert (W2 := wf_setItem _ n 0 (str_Z (row_id r)) W1).
  assert (W3 := wf_setItem _ n 1 (row_label r) W2).
  destruct (setItem_cells _ n 0 (str_Z (row_id r)) W1 ltac:(lia) ltac:(lia)) as [E0 N0].
  destruct (setItem_cells _ n 1 (row_label r) W2 ltac:(rewrite rowCount_setItem; lia)
              ltac:(rewrite columnCount_setItem; lia)) as [E1 N1].
  destruct (setItem_cells _ n 2 (str_Z (row_price r)) W3 ltac:(rewrite !rowCount_setItem; lia)
              ltac:(rewrite !columnCount_setItem; lia)) as [E2 N2].
  split; [apply wf_setItem, W3|]. unfold t4. rewrite !rowCount_setItem, !columnCount_setItem.
  split; [exact R1|]. split; [exact C1|]. intros i c.
  destruct (Nat.ltb_spec i n) as [Hi|Hi].
  - rewrite N2, N1, N0 by (intros [=]; lia). unfold n in *. rewrite item_insertRow_end by exact Hwf.
    destruct (Nat.ltb_spec i (rowCount t)); [reflexivity | lia].
  - destruct (Nat.eq_dec i n) as [->|Hne].
    + rewrite Nat.sub_diag. unfold loaded_item; cbn [nth_error].
      destruct c as [|[|[|c]]].
      * rewrite N2, N1 by (intros [=]). exact E0.
      * rewrite N2 by (intros [=]). exact E1.
      * exact E2.
      * rewrite item_outside; [reflexivity|]. right. rewrite !columnCount_setItem. lia.
    + rewrite item_outside by (left; rewrite !rowCount_setItem; lia).
      unfold loaded_item. replace (i - n)%nat with (S (i - S n)) by lia. cbn [nth_error].
      destruct (i - S n); reflexivity.
Qed.

Lemma load_rows_spec rows : forall (t : T) n,
  table_wf t -> rowCount t = n -> columnCount t = 3 ->
  table_wf (load_rows t n rows) /\ rowCount (load_rows t n rows) = n + length rows /\
  columnCount (load_rows t n rows) = 3 /\
  forall i c, item (load_rows t n rows) i c = if (i <? n)%nat then item t i c else loaded_item rows (i - n)%nat c.
Proof.
  induction rows as [|r rs IH]; intros t n Hwf Hn Hc; cbn [load_rows length].
  - split; [exact Hwf|]. split; [lia|]. split; [exact Hc|]. intros i c.
    destruct (Nat.ltb_spec i n); [reflexivity|]. rewrite item_outside by lia.
    unfold loaded_item. destruct (i - n)%nat; reflexivity.
  - subst n. destruct (load_row_cells t r Hwf Hc) as (W4 & R4 & C4 & I4).
    destruct (IH _ (S (rowCount t)) W4 R4 C4) as (W & R & C & I).
    split; [exact W|]. split; [lia|]. split; [exact C|]. intros i c. rewrite I, I4.
    destruct (Nat.ltb_spec i (S (rowCount t))) as [Hi|Hi];
      destruct (Nat.ltb_spec i (rowCount t)) as [Hi'|Hi']; try lia; [reflexivity| |].
    + assert (i = rowCount t) as -> by lia. rewrite Nat.sub_diag. unfold loaded_item; cbn [nth_error].
      reflexivity.
    + unfold loaded_item. replace (i - rowCount t) with (S (i - S (rowCount t))) by lia. reflexivity.
Qed.
(** The table of a tab after a load. *)
Lemma loadRef_table (c : Category) (d : Dialog T) :
  table_wf (tab_table (tab_of c d)) -> columnCount (tab_table (tab_of c d)) = 3 ->
  let t := tab_table (tab_of c (loadRef c d)) in
  table_wf t /\ rowCount t = length (table_rows c (dstore d)) /\ columnCount t = 3 /\
  (forall i col, item t i col = loaded_item (table_rows c (dstore d)) i col).
Proof.
  intros Hwf Hc t. subst t. unfold loadRef. rewrite tab_of_set_tab. cbn [tab_table].
  destruct (load_rows_spec (table_rows c (dstore d)) (clearRows (tab_table (tab_of c d))) 0
              (wf_clearRows _ Hwf) (rowCount_clearRows _) ltac:(rewrite columnCount_clearRows; exact Hc))
    as (W & R & C & I).
  split; [exact W|]. split; [exact R|]. split; [exact C|]. intros i col. rewrite I, Nat.sub_0_r. reflexivity.
Qed.

Lemma tab_of_loadRef_other (c c' : Category) (d : Dialog T) :
  c <> c' -> tab_of c (loadRef c' d) = tab_of c d.
Proof. intros Hne. unfold loadRef. destruct c, c'; cbn; congruence. Qed.
End LoadFacts.

(** ** Deleting by id *)

(** [list.pop(i)] of the records. *)
Definition remove_at {A} (i : nat) (l : list A) : list A := firstn i l ++ skipn (S i) l.

Lemma integer_text_str_Z z : (0 <= z)%Z -> integer_text (str_Z z) = Some z.
Proof.
  intros Hz. unfold integer_text. rewrite int_body_digits by (apply str_Z_digits, Hz).
  apply digits_value_str_Z, Hz.
Qed.

Lemma filter_keep_all {A} (f : A -> bool) (l : list A) :
  (forall x, In x l -> f x = true) -> filter f l = l.
Proof.
  induction l as [|a l IH]; intros Hall; [reflexivity|]. cbn [filter].
  rewrite (Hall a (or_introl eq_refl)). f_equal. apply IH. intros x Hx. apply Hall. right. exact Hx.
Qed.

(** In a table with increasing ids, the rows with the id of row [i] are
    row [i] alone. *)
Lemma filter_id_remove_at (rows : list RefRow) i r :
  StronglySorted (fun a b => (row_id a < row_id b)%Z) rows -> nth_error rows i = Some r ->
  filter (fun r' => negb (Z.eqb (row_id r') (row_id r))) rows = remove_at i rows.
Proof.
  revert i. induction rows as [|a rows IH]; intros i Hs Hi; [destruct i; discriminate|].
  inversion Hs as [|? ? Hs' Ha]; subst. rewrite Forall_forall in Ha. destruct i as [|i]; cbn [nth_error] in Hi.
  - injection Hi as ->. unfold remove_at; cbn [firstn skipn app filter].
    rewrite Z.eqb_refl. cbn [negb].
    apply filter_keep_all. intros x Hx. specialize (Ha x Hx). apply negb_true_iff, Z.eqb_neq. lia.
  - unfold remove_at in *; cbn [firstn skipn app filter].
    assert (Hlt : (row_id a < row_id r)%Z) by (apply Ha, (nth_error_In _ _ Hi)).
    destruct (Z.eqb_spec (row_id a) (row_id r)) as [E|E]; [lia|]. cbn [negb]. f_equal.
    exact (IH i Hs' Hi).
Qed.

Lemma filter_none_true (rows : list RefRow) k :
  (forall r, In r rows -> row_id r <> k) -> filter (fun r => negb (Z.eqb (row_id r) k)) rows = rows.
Proof.
  intros Hno. apply filter_keep_all. intros r Hr. apply negb_true_iff, Z.eqb_neq, Hno, Hr.
Qed.

(** ** Deleting the selected row *)

Section DeleteFacts.
Context {T : Type} `{TableWidgetLaws T}.

(** When the tab shows the store and row [i] is selected, the [DELETE]
    filters out the id of the [i]-th record. *)
Lemma deleteRef_store (c : Category) (d : Dialog T) i :
  store_ok (dstore d) ->
  (forall r col, item (tab_table (tab_of c d)) r col = loaded_item (table_rows c (dstore d)) r col) ->
  tab_selected (tab_of c d) = Some i -> i < length (table_rows c (dstore d)) ->
  exists r, nth_error (table_rows c (dstore d)) i = Some r /\
    dstore (deleteRef c d) =
    set_rows c (filter (fun r' => negb (Z.eqb (row_id r') (row_id r))) (table_rows c (dstore d))) (dstore d).
Proof.
  intros Hok Hshow Hsel Hi. destruct (table_rows_ok c _ Hok) as [Hpos _].
  destruct (nth_error (table_rows c (dstore d)) i) as [r|] eqn:Er;
    [|apply nth_error_None in Er; lia].
  exists r. split; [reflexivity|].
  assert (Hid : item (tab_table (tab_of c d)) i 0 = Some (str_Z (row_id r)))
    by (rewrite Hshow; unfold loaded_item; rewrite Er; reflexivity).
  assert (Hr : (0 < row_id r)%Z)
    by (rewrite Forall_forall in Hpos; apply Hpos, (nth_error_In _ _ Er)).
  unfold deleteRef. rewrite Hsel, Hid, dstore_loadRef. cbn [dstore set_dstore].
  unfold delete_where_id. rewrite integer_text_str_Z by lia. reflexivity.
Qed.
End DeleteFacts.

(** ** The abstract contract: a collection keyed by id

    The specification describes each table as key-value rows keyed by a
    numeric id, with an add that takes a fresh id and a delete by id.  Its
    model is a partial map from ids to (label, price); a table refines it
    through [lookup_id]. *)

Definition Collection := Z -> option (string * Z).

Definition coll_add (a : Collection) (k : Z) (v : string * Z) : Collection :=
  fun k' => if Z.eqb k' k then Some v else a k'.

Definition coll_remove (a : Collection) (k : Z) : Collection :=
  fun k' => if Z.eqb k' k then None else a k'.

(** [SELECT nev, fuvardij FROM factories WHERE id = k] *)
Definition lookup_id (t : list RefRow) (k : Z) : option (string * Z) :=
  match find (fun r => Z.eqb (row_id r) k) t with
  | Some r => Some (row_label r, row_price r)
  | None => None
  end.

Lemma lookup_id_snoc t r k :
  lookup_id (t ++ [r]) k =
  match lookup_id t k with
  | Some v => Some v
  | None => if Z.eqb (row_id r) k then Some (row_label r, row_price r) else None
  end.
Proof.
  unfold lookup_id. induction t as [|a t IH]; cbn [app find].
  - destruct (Z.eqb (row_id r) k); reflexivity.
  - destruct (Z.eqb (row_id a) k); [reflexivity | exact IH].
Qed.

Lemma lookup_id_fresh t k : Forall (fun r => (row_id r < k)%Z) t -> lookup_id t k = None.
Proof.
  unfold lookup_id. induction t as [|a t IH]; intros Hlt; [reflexivity|].
  inversion Hlt as [|? ? Ha Ht]; subst. cbn [find].
  destruct (Z.eqb_spec (row_id a) k); [lia | exact (IH Ht)].
Qed.

Lemma lookup_id_filter t k k' :
  lookup_id (filter (fun r => negb (Z.eqb (row_id r) k)) t) k' =
  if Z.eqb k' k then None else lookup_id t k'.
Proof.
  unfold lookup_id. induction t as [|a t IH]; cbn [filter find].
  - destruct (Z.eqb k' k); reflexivity.
  - destruct (Z.eqb_spec (row_id a) k) as [Ea|Ea]; cbn [negb find].
    + rewrite IH. destruct (Z.eqb_spec k' k); [reflexivity|].
      destruct (Z.eqb_spec (row_id a) k'); [lia | reflexivity].
    + destruct (Z.eqb_spec (row_id a) k') as [Ek|Ek].
      * destruct (Z.eqb_spec k' k); [lia | reflexivity].
      * exact IH.
Qed.

(** With strictly increasing ids, [SELECT ... WHERE id = k] on the id of
    the [i]-th row finds that row. *)
Lemma lookup_id_nth t i r :
  StronglySorted (fun a b => (row_id a < row_id b)%Z) t -> nth_error t i = Some r ->
  lookup_id t (row_id r) = Some (row_label r, row_price r).
Proof.
  unfold lookup_id. revert i. induction t as [|a t IH]; intros [|i] Hs Er; cbn in Er; try discriminate.
  - injection Er as <-. cbn [find]. rewrite Z.eqb_refl. reflexivity.
  - inversion Hs as [|? ? Hs' Ha]; subst. cbn [find].
    pose proof (proj1 (Forall_forall _ _) Ha r (nth_error_In _ _ Er)) as Hlt. cbv beta in Hlt.
    destruct (Z.eqb_spec (row_id a) (row_id r)); [lia | exact (IH i Hs' Er)].
Qed.

(** ** Theorems *)

Section DialogTheorems.
Context {T : Type} `{TableWidgetLaws T}.

(** Through any session of the dialog (typing, selecting, adding,
    deleting in any tab, in any order), the ids of each of the three tables
    stay positive and strictly increasing, hence unique. *)
Theorem dialog_session_preserves_ids (acts : list DialogAction) (d : Dialog T) :
  store_ok (dstore d) -> store_ok (dstore (run_dialog acts d)).
Proof. apply run_dialog_ok. Qed.

(** Loading a tab shows the table of the store row by row: one row per
    record, in id order, with [str(id)], the label and [str(price)] in
    columns 0 to 2, nothing else, and no selection. *)
Theorem loadRef_shows (c : Category) (d : Dialog T) :
  table_wf (tab_table (tab_of c d)) -> columnCount (tab_table (tab_of c d)) = 3 ->
  let tb := tab_of c (loadRef c d) in
  rowCount (tab_table tb) = length (table_rows c (dstore d)) /\
  (forall i col, item (tab_table tb) i col = loaded_item (table_rows c (dstore d)) i col) /\
  tab_selected tb = None.
Proof.
  intros Hwf Hc tb. destruct (loadRef_table c d Hwf Hc) as (_ & R & _ & I).
  split; [exact R|]. split; [exact I|]. subst tb. unfold loadRef. rewrite tab_of_set_tab. reflexivity.
Qed.

(** C8: when the tab shows the store, deleting with row [i] selected
    removes exactly the [i]-th record of that table ([DELETE ... WHERE
    id=str(id)] finds its id again) and leaves the other two tables. *)
Theorem deleteRef_selected (c : Category) (d : Dialog T) i :
  store_ok (dstore d) ->
  (forall r col, item (tab_table (tab_of c d)) r col = loaded_item (table_rows c (dstore d)) r col) ->
  tab_selected (tab_of c d) = Some i -> i < length (table_rows c (dstore d)) ->
  table_rows c (dstore (deleteRef c d)) = remove_at i (table_rows c (dstore d)) /\
  (forall c', c' <> c -> table_rows c' (dstore (deleteRef c d)) = table_rows c' (dstore d)).
Proof.
  intros Hok Hshow Hsel Hi. destruct (table_rows_ok c _ Hok) as [_ Hs].
  destruct (deleteRef_store c d i Hok Hshow Hsel Hi) as (r & Er & ->).
  split; [rewrite table_rows_set_rows; exact (filter_id_remove_at _ i r Hs Er)|].
  intros c' Hne. apply table_rows_set_rows_other. congruence.
Qed.

(** Deleting with a selected row whose id text names no record of the
    table changes no table of the store and reports nothing (property 7 of
    the specification). *)
Theorem deleteRef_missing (c : Category) (d : Dialog T) row id_text :
  tab_selected (tab_of c d) = Some row -> item (tab_table (tab_of c d)) row 0 = Some id_text ->
  (forall r, In r (table_rows c (dstore d)) -> integer_text id_text <> Some (row_id r)) ->
  dstore (deleteRef c d) = dstore d.
Proof.
  intros Hsel Hid Hno. unfold deleteRef. rewrite Hsel, Hid, dstore_loadRef. cbn [dstore set_dstore].
  unfold delete_where_id. destruct (integer_text id_text) as [k|] eqn:Ek.
  - rewrite filter_none_true by (intros r Hr E; apply (Hno r Hr); rewrite E; reflexivity).
    destruct c; destruct (dstore d); reflexivity.
  - destruct c; destruct (dstore d); reflexivity.
Qed.

(** C32: [if name and price:] refuses an empty name and a price of 0, as
    the add contract asks (a label and a positive price): the dialog is
    left as it was. *)
Theorem addRef_guard (c : Category) (d : Dialog T) :
  tab_name (tab_of c d) = "" \/ tab_price (tab_of c d) = 0%Z -> addRef c d = d.
Proof.
  intros Hg. unfold addRef.
  destruct Hg as [E|E]; rewrite E; [reflexivity|]. rewrite andb_false_r. reflexivity.
Qed.

(** C33: adding with a name and a non-zero price appends the record with the
    next id (larger than every id of the table) to that table only, and
    clears the name and the price. *)
Theorem addRef_appends (c : Category) (d : Dialog T) :
  tab_name (tab_of c d) <> "" -> tab_price (tab_of c d) <> 0%Z ->
  let rows := table_rows c (dstore d) in
  let d' := addRef c d in
  table_rows c (dstore d') =
    (rows ++ [mkRow (next_rowid rows) (tab_name (tab_of c d)) (tab_price (tab_of c d))])%list /\
  Forall (fun r => (row_id r < next_rowid rows)%Z) rows /\
  (forall c', c' <> c -> table_rows c' (dstore d') = table_rows c' (dstore d)) /\
  tab_name (tab_of c d') = "" /\ tab_price (tab_of c d') = 0%Z.
Proof.
  intros Hn Hp rows d'. subst d'. unfold addRef.
  apply String.eqb_neq in Hn. apply Z.eqb_neq in Hp. rewrite Hn, Hp. cbn [negb andb].
  rewrite dstore_set_tab, dstore_loadRef, tab_of_set_tab. cbn [dstore set_dstore tab_name tab_price].
  split; [apply table_rows_set_rows|]. split; [apply next_rowid_fresh|].
  split; [|split; reflexivity]. intros c' Hne. apply table_rows_set_rows_other. congruence.
Qed.
(** Adding refines the abstract add: the id the record gets was free
    in the collection, and afterwards the collection is the old one with
    that id bound to the name and the price. *)
Theorem addRef_refines (c : Category) (d : Dialog T) :
  tab_name (tab_of c d) <> "" -> tab_price (tab_of c d) <> 0%Z ->
  let rows := table_rows c (dstore d) in
  let k := next_rowid rows in
  lookup_id rows k = None /\
  (forall k', lookup_id (table_rows c (dstore (addRef c d))) k' =
              coll_add (lookup_id rows) k (tab_name (tab_of c d), tab_price (tab_of c d)) k').
Proof.
  intros Hn Hp rows k. pose proof (proj2 (next_rowid_fresh rows)) as Hfresh.
  split; [exact (lookup_id_fresh rows k Hfresh)|]. intros k'.
  unfold addRef. apply String.eqb_neq in Hn. apply Z.eqb_neq in Hp. rewrite Hn, Hp. cbn [negb andb].
  rewrite dstore_set_tab, dstore_loadRef. cbn [dstore set_dstore]. rewrite table_rows_set_rows.
  unfold insert, coll_add. rewrite lookup_id_snoc. cbn [row_id row_label row_price].
  fold rows. fold k. destruct (Z.eqb_spec k' k) as [->|Hne].
  - rewrite (lookup_id_fresh rows k Hfresh), Z.eqb_refl. reflexivity.
  - destruct (lookup_id rows k'); [reflexivity|]. destruct (Z.eqb_spec k k'); [lia | reflexivity].
Qed.

End DialogTheorems.

(** ** Start-up and the main window *)



(** C35: at every start, a factories table with no row gets the three
    default factories CATL, BMW and Gyár 3 with ids 1 to 3, whatever the
    other two tables hold, so deleting every factory in the dialog is
    undone at the next start; a table with a row is left as it is. *)
Theorem initDatabase_seeds (st : Store) :
  (factories st = [] ->
   initDatabase st = mkStore [mkRow 1 "CATL" 5000; mkRow 2 "BMW" 6000; mkRow 3 "Gyár 3" 5500]%Z
                             (addresses st) (zones st)) /\
  (factories st <> [] -> initDatabase st = st).
Proof.
  unfold initDatabase. split; intros Hf.
  - rewrite Hf. reflexivity.
  - destruct (factories st) eqn:E; [congruence | reflexivity].
Qed.

Lemma initDatabase_seeds_witness :
  factories empty_store = [] /\
  initDatabase empty_store = mkStore [mkRow 1 "CATL" 5000; mkRow 2 "BMW" 6000; mkRow 3 "Gyár 3" 5500]%Z [] [].
Proof. split; [reflexivity | apply (proj1 (initDatabase_seeds empty_store)); reflexivity]. Defined.

Lemma dstore_createTab c d : dstore (createTab c d) = dstore d.
Proof. unfold createTab. rewrite dstore_loadRef. apply dstore_set_tab. Qed.

Lemma tab_of_createTab_other c c' d : c <> c' -> tab_of c (createTab c' d) = tab_of c d.
Proof. intros Hne. unfold createTab. rewrite tab_of_loadRef_other by exact Hne. destruct c, c'; cbn; congruence. Qed.

Lemma createTab_shows c d :
  forall i col, item (tab_table (tab_of c (createTab c d))) i col = loaded_item (table_rows c (dstore d)) i col.
Proof.
  pose proof (loadRef_table c (set_tab c new_tab d)) as L.
  rewrite tab_of_set_tab, dstore_set_tab in L.
  exact (proj2 (proj2 (proj2 (L eq_refl eq_refl)))).
Qed.

Lemma dstore_open_dialog st : dstore (open_dialog st) = st.
Proof. unfold open_dialog, createZonesTab, createAddressesTab, createFactoriesTab. rewrite !dstore_createTab. reflexivity. Qed.

(** Adding a factory in the dialog does not reach the main window: its
    factory combo box keeps the list it had, while the store has the new
    factory at the end. *)
Theorem factory_combo_stale (combo : list string) (st : Store) name p :
  name <> "" -> (1 <= p <= 1000000)%Z ->
  let acts := [TypeName Factories name; SetPrice Factories p; ClickAdd Factories] in
  fst (openDatabaseManager acts combo st) = combo /\
  loadFactories_main (snd (openDatabaseManager acts combo st)) =
    (loadFactories_main st ++ [name])%list.
Proof.
  intros Hn Hp acts. split; [reflexivity|]. cbn [openDatabaseManager snd run_dialog acts fold_left dialog_step].
  set (d0 := open_dialog st).
  unfold addRef. rewrite !tab_of_set_tab. cbn [tab_name tab_price tab_table tab_selected].
  assert (Hc : clamp_price p = p) by (unfold clamp_price; lia). rewrite Hc.
  apply String.eqb_neq in Hn. assert (Hp' : Z.eqb p 0 = false) by (apply Z.eqb_neq; lia).
  rewrite Hn, Hp'. cbn [negb andb]. rewrite dstore_set_tab, dstore_loadRef. cbn [dstore set_dstore].
  rewrite !dstore_set_tab. unfold d0. rewrite dstore_open_dialog.
  unfold loadFactories_main, insert. cbn [set_rows factories table_rows]. rewrite map_app. reflexivity.
Qed.

Lemma factory_combo_stale_witness :
  fst (openDatabaseManager [TypeName Factories "Audi"; SetPrice Factories 7000%Z; ClickAdd Factories]
        ["CATL"; "BMW"; "Gyár 3"] (initDatabase empty_store)) = ["CATL"; "BMW"; "Gyár 3"] /\
  loadFactories_main (snd (openDatabaseManager [TypeName Factories "Audi"; SetPrice Factories 7000%Z;
        ClickAdd Factories] ["CATL"; "BMW"; "Gyár 3"] (initDatabase empty_store))) =
  (loadFactories_main (initDatabase empty_store) ++ ["Audi"])%list.
Proof. apply factory_combo_stale; [discriminate | lia]. Defined.

(** ** A dialog opened on a new database *)

(** Every tab of a freshly opened dialog shows its table. *)
Lemma open_dialog_shows (st : Store) (c : Category) :
  forall i col, item (tab_table (tab_of c (open_dialog st))) i col = loaded_item (table_rows c st) i col.
Proof.
  unfold open_dialog, createZonesTab, createAddressesTab, createFactoriesTab.
  set (d0 := mkDialog st new_tab new_tab new_tab).
  destruct c.
  - rewrite !tab_of_createTab_other by discriminate. exact (createTab_shows Factories d0).
  - rewrite tab_of_createTab_other by discriminate.
    pose proof (createTab_shows Addresses (createTab Factories d0)) as L.
    rewrite dstore_createTab in L. exact L.
  - pose proof (createTab_shows Zones (createTab Addresses (createTab Factories d0))) as L.
    rewrite !dstore_createTab in L. exact L.
Qed.

Definition db1 : Store := initDatabase empty_store.
Definition dlg1 : Dialog qtable := open_dialog db1.

Lemma db1_ok : store_ok db1.
Proof. vm_compute. split; [|split]; repeat constructor; lia. Qed.

(** The dialog with row [i] of the factory tab selected. *)
Definition dlg1_select (i : nat) : Dialog qtable := dialog_step dlg1 (SelectRow Factories (Some i)).

Lemma dlg1_select_shows i :
  forall r col, item (tab_table (tab_of Factories (dlg1_select i))) r col =
                loaded_item (table_rows Factories (dstore (dlg1_select i))) r col.
Proof.
  intros r col. unfold dlg1_select. cbn [dialog_step]. rewrite tab_of_set_tab, dstore_set_tab.
  cbn [tab_table]. unfold dlg1. rewrite dstore_open_dialog. apply open_dialog_shows.
Qed.

Lemma dialog_session_preserves_ids_witness :
  store_ok (dstore (run_dialog [TypeName Zones "Övezet A"; SetPrice Zones 1200%Z; ClickAdd Zones;
                                SelectRow Factories (Some 0); ClickDelete Factories] dlg1)).
Proof. apply dialog_session_preserves_ids. unfold dlg1. rewrite dstore_open_dialog. exact db1_ok. Defined.

Lemma loadRef_shows_witness :
  rowCount (tab_table (tab_of Factories (loadRef Factories dlg1))) = 3.
Proof.
  destruct (loadRef_shows Factories dlg1) as [R _]; [vm_compute; reflexivity | vm_compute; reflexivity |].
  rewrite R. vm_compute. reflexivity.
Defined.

Lemma deleteRef_selected_witness :
  factories (dstore (deleteRef Factories (dlg1_select 1))) = [mkRow 1 "CATL" 5000; mkRow 3 "Gyár 3" 5500]%Z.
Proof.
  destruct (deleteRef_selected Factories (dlg1_select 1) 1) as [E _].
  - unfold dlg1_select. cbn [dialog_step]. rewrite dstore_set_tab. unfold dlg1.
    rewrite dstore_open_dialog. exact db1_ok.
  - apply dlg1_select_shows.
  - vm_compute. reflexivity.
  - vm_compute. lia.
  - change (factories (dstore (deleteRef Factories (dlg1_select 1))))
      with (table_rows Factories (dstore (deleteRef Factories (dlg1_select 1)))).
    rewrite E. vm_compute. reflexivity.
Defined.

(** The factory tab showing a row whose id cell reads ["7"], which no
    record has. *)
Definition dlg1_stale : Dialog qtable :=
  set_tab Factories (mkTab "" 0 (setItem (tab_table (tab_of Factories dlg1)) 0 0 "7") (Some 0)) dlg1.

Lemma deleteRef_missing_witness : dstore (deleteRef Factories dlg1_stale) = dstore dlg1_stale.
Proof.
  apply (deleteRef_missing Factories dlg1_stale 0 "7"); [reflexivity | vm_compute; reflexivity |].
  intros r Hr. unfold dlg1_stale in Hr. rewrite dstore_set_tab in Hr. unfold dlg1 in Hr.
  rewrite dstore_open_dialog in Hr. vm_compute in Hr.
  destruct Hr as [<-|[<-|[<-|[]]]]; vm_compute; discriminate.
Defined.

Lemma addRef_guard_witness :
  addRef Factories (dialog_step dlg1 (TypeName Factories "Audi")) = dialog_step dlg1 (TypeName Factories "Audi").
Proof. apply addRef_guard. right. reflexivity. Defined.

Lemma addRef_appends_witness :
  let d := dialog_step (dialog_step dlg1 (TypeName Addresses "Fő utca 1")) (SetPrice Addresses 900%Z) in
  table_rows Addresses (dstore (addRef Addresses d)) = [mkRow 1 "Fő utca 1" 900]%Z.
Proof.
  intros d. destruct (addRef_appends Addresses d) as [E _]; [vm_compute; discriminate | vm_compute; discriminate |].
  rewrite E. vm_compute. reflexivity.
Defined.

Lemma addRef_refines_witness :
  let d := dialog_step (dialog_step dlg1 (TypeName Factories "Audi")) (SetPrice Factories 7000%Z) in
  lookup_id (table_rows Factories (dstore (addRef Factories d))) 4 = Some ("Audi", 7000%Z).
Proof.
  intros d. destruct (addRef_refines Factories d) as [_ E]; [vm_compute; discriminate | vm_compute; discriminate |].
  rewrite E. vm_compute. reflexivity.
Defined.

