(* ===== verification/DatabaseManagerFile.v ===== *)
(** * The dialog of [src/database_manager.py]

    [src/database_manager.py] holds a second [DatabaseManager] class, which
    [main.py] never imports: it has its own copy of the class.  This file
    models the second copy method by method, the way it is written: each
    method reads and writes the widgets of its own tab ([self.factory_name],
    [self.factory_table], ...) and its own SQL table, and the loaders keep
    the inner loop [for col, item in enumerate(data)] over the fields of a
    row.  It uses the store and dialog state of RefStore.v.

    The theorem: the two copies are equivalent.  Every method here computes
    what the generic handler of RefStore.v computes at its category, a new
    dialog is the same, and so every session of user actions ends in the
    same dialog state and the same store. *)

From Stdlib Require Import String List ZArith Lia Bool.
From S2P Require Import Prelude PyStr QtTable RefStore.
Import ListNotations.
Import Sql.
Local Open Scope string_scope.

Module DatabaseManagerFile.

Section Methods.
Context {T : Type} `{TableWidget T}.

(** The tuple [data] a row of [SELECT *] gives, as the texts [str(item)]. *)
Definition row_fields (r : RefRow) : list string :=
  [str_Z (row_id r); row_label r; str_Z (row_price r)].

(** [for col, item in enumerate(data): table.setItem(row, col, QTableWidgetItem(str(item)))] *)
Definition fill_row (t : T) (row : nat) (fields : list string) : T :=
  fold_left (fun t '(col, v) => setItem t row col v) (combine (seq 0 (length fields)) fields) t.

(** [for row, data in enumerate(cursor.fetchall()): table.insertRow(row); ...] *)
Definition fill_table (t : T) (rows : list RefRow) : T :=
  fold_left (fun t '(row, r) => fill_row (insertRow t row) row (row_fields r))
            (combine (seq 0 (length rows)) rows) t.

(** [table.setRowCount(0)] then the rows; the selection goes with the rows. *)
Definition reload (tb : Tab T) (rows : list RefRow) : Tab T :=
  mkTab (tab_name tb) (tab_price tb) (fill_table (clearRows (tab_table tb)) rows) None.

Definition loadFactories (d : Dialog T) : Dialog T :=
  mkDialog (dstore d) (reload (factory_tab d) (factories (dstore d))) (address_tab d) (zone_tab d).

Definition loadAddresses (d : Dialog T) : Dialog T :=
  mkDialog (dstore d) (factory_tab d) (reload (address_tab d) (addresses (dstore d))) (zone_tab d).

Definition loadZones (d : Dialog T) : Dialog T :=
  mkDialog (dstore d) (factory_tab d) (address_tab d) (reload (zone_tab d) (zones (dstore d))).

(** [self.factory_name.clear(); self.factory_price.setValue(0)] *)
Definition cleared (tb : Tab T) : Tab T := mkTab "" 0 (tab_table tb) (tab_selected tb).

(** [if name and price:] *)
Definition filled (tb : Tab T) : bool := negb (String.eqb (tab_name tb) "") && negb (Z.eqb (tab_price tb) 0).

Definition addFactory (d : Dialog T) : Dialog T :=
  let tb := factory_tab d in
  let st := dstore d in
  if filled tb then
    let d1 := loadFactories
                (mkDialog (mkStore (insert (factories st) (tab_name tb) (tab_price tb)) (addresses st) (zones st))
                          tb (address_tab d) (zone_tab d)) in
    mkDialog (dstore d1) (cleared (factory_tab d1)) (address_tab d1) (zone_tab d1)
  else d.

Definition addAddress (d : Dialog T) : Dialog T :=
  let tb := address_tab d in
  let st := dstore d in
  if filled tb then
    let d1 := loadAddresses
                (mkDialog (mkStore (factories st) (insert (addresses st) (tab_name tb) (tab_price tb)) (zones st))
                          (factory_tab d) tb (zone_tab d)) in
    mkDialog (dstore d1) (factory_tab d1) (cleared (address_tab d1)) (zone_tab d1)
  else d.

Definition addZone (d : Dialog T) : Dialog T :=
  let tb := zone_tab d in
  let st := dstore d in
  if filled tb then
    let d1 := loadZones
                (mkDialog (mkStore (factories st) (addresses st) (insert (zones st) (tab_name tb) (tab_price tb)))
                          (factory_tab d) (address_tab d) tb) in
    mkDialog (dstore d1) (factory_tab d1) (address_tab d1) (cleared (zone_tab d1))
  else d.

(** [selected = table.selectedItems(); if selected: row = selected[0].row();
       id_item = table.item(row, 0); if id_item: DELETE ... WHERE id=?] *)
Definition selected_id (tb : Tab T) : option string :=
  match tab_selected tb with
  | None => None
  | Some row => item (tab_table tb) row 0
  end.

Definition deleteFactory (d : Dialog T) : Dialog T :=
  let st := dstore d in
  match selected_id (factory_tab d) with
  | None => d
  | Some id_text =>
      loadFactories (mkDialog (mkStore (delete_where_id (factories st) id_text) (addresses st) (zones st))
                              (factory_tab d) (address_tab d) (zone_tab d))
  end.

Definition deleteAddress (d : Dialog T) : Dialog T :=
  let st := dstore d in
  match selected_id (address_tab d) with
  | None => d
  | Some id_text =>
      loadAddresses (mkDialog (mkStore (factories st) (delete_where_id (addresses st) id_text) (zones st))
                              (factory_tab d) (address_tab d) (zone_tab d))
  end.

Definition deleteZone (d : Dialog T) : Dialog T :=
  let st := dstore d in
  match selected_id (zone_tab d) with
  | None => d
  | Some id_text =>
      loadZones (mkDialog (mkStore (factories st) (addresses st) (delete_where_id (zones st) id_text))
                          (factory_tab d) (address_tab d) (zone_tab d))
  end.

(** The [clicked.connect(...)] wiring of the six buttons; typing, the spin
    boxes and the selection are the widgets' own behaviour, as in
    RefStore.v. *)
Definition dialog_step (d : Dialog T) (a : DialogAction) : Dialog T :=
  match a with
  | ClickAdd Factories => addFactory d
  | ClickAdd Addresses => addAddress d
  | ClickAdd Zones => addZone d
  | ClickDelete Factories => deleteFactory d
  | ClickDelete Addresses => deleteAddress d
  | ClickDelete Zones => deleteZone d
  | _ => RefStore.dialog_step d a
  end.

Definition run_dialog (acts : list DialogAction) (d : Dialog T) : Dialog T :=
  fold_left dialog_step acts d.
End Methods.

(** [createFactoriesTab] and the other two: a fresh tab, then its loader. *)
Definition createFactoriesTab (d : Dialog qtable) : Dialog qtable :=
  loadFactories (mkDialog (dstore d) new_tab (address_tab d) (zone_tab d)).
Definition createAddressesTab (d : Dialog qtable) : Dialog qtable :=
  loadAddresses (mkDialog (dstore d) (factory_tab d) new_tab (zone_tab d)).
Definition createZonesTab (d : Dialog qtable) : Dialog qtable :=
  loadZones (mkDialog (dstore d) (factory_tab d) (address_tab d) new_tab).

(** [__init__] and [initUI] *)
Definition open_dialog (st : Store) : Dialog qtable :=
  createZonesTab (createAddressesTab (createFactoriesTab (mkDialog st new_tab new_tab new_tab))).

(** ** The two copies are the same dialog *)

Section Equivalence.
Context {T : Type} `{TableWidget T}.

(** The [enumerate] loops compute the unrolled loop of RefStore.v. *)
Lemma fill_table_from (rows : list RefRow) : forall (t : T) k,
  fold_left (fun t '(row, r) => fill_row (insertRow t row) row (row_fields r))
            (combine (seq k (length rows)) rows) t = load_rows t k rows.
Proof. induction rows as [|r rows IH]; intros t k; [reflexivity|]. cbn [length seq combine fold_left]. apply IH. Qed.

Lemma fill_table_load_rows (t : T) rows : fill_table t rows = load_rows t 0 rows.
Proof. apply fill_table_from. Qed.

Lemma loadFactories_eq (d : Dialog T) : loadFactories d = loadRef Factories d.
Proof. unfold loadFactories, reload, loadRef. rewrite fill_table_load_rows. reflexivity. Qed.

Lemma loadAddresses_eq (d : Dialog T) : loadAddresses d = loadRef Addresses d.
Proof. unfold loadAddresses, reload, loadRef. rewrite fill_table_load_rows. reflexivity. Qed.

Lemma loadZones_eq (d : Dialog T) : loadZones d = loadRef Zones d.
Proof. unfold loadZones, reload, loadRef. rewrite fill_table_load_rows. reflexivity. Qed.

Ltac method_eq :=
  intros; cbv beta delta [addFactory addAddress addZone deleteFactory deleteAddress deleteZone
                         addRef deleteRef selected_id filled cleared] zeta;
  cbn [tab_of table_rows set_rows set_dstore];
  try (destruct (tab_selected _) as [row|]; [destruct (item _ row 0)|]);
  rewrite ?loadFactories_eq, ?loadAddresses_eq, ?loadZones_eq; reflexivity.

Lemma addFactory_eq (d : Dialog T) : addFactory d = addRef Factories d.
Proof. method_eq. Qed.
Lemma addAddress_eq (d : Dialog T) : addAddress d = addRef Addresses d.
Proof. method_eq. Qed.
Lemma addZone_eq (d : Dialog T) : addZone d = addRef Zones d.
Proof. method_eq. Qed.
Lemma deleteFactory_eq (d : Dialog T) : deleteFactory d = deleteRef Factories d.
Proof. method_eq. Qed.
Lemma deleteAddress_eq (d : Dialog T) : deleteAddress d = deleteRef Addresses d.
Proof. method_eq. Qed.
Lemma deleteZone_eq (d : Dialog T) : deleteZone d = deleteRef Zones d.
Proof. method_eq. Qed.

Lemma dialog_step_eq (d : Dialog T) a : dialog_step d a = RefStore.dialog_step d a.
Proof.
  destruct a as [c s|c p|c r|c|c]; try reflexivity; destruct c; cbn [dialog_step];
    auto using addFactory_eq, addAddress_eq, addZone_eq, deleteFactory_eq, deleteAddress_eq, deleteZone_eq.
Qed.
Lemma run_dialog_eq acts : forall (d : Dialog T), run_dialog acts d = RefStore.run_dialog acts d.
Proof.
  induction acts as [|a acts IH]; intros d; [reflexivity|].
  cbn [run_dialog RefStore.run_dialog fold_left]. rewrite dialog_step_eq. apply IH.
Qed.
End Equivalence.

Lemma open_dialog_eq st : open_dialog st = RefStore.open_dialog st.
Proof.
  unfold open_dialog, RefStore.open_dialog, createZonesTab, createAddressesTab, createFactoriesTab,
    RefStore.createZonesTab, RefStore.createAddressesTab, RefStore.createFactoriesTab, createTab.
  rewrite loadFactories_eq, loadAddresses_eq, loadZones_eq. reflexivity.
Qed.

(** C15: the dialog of [src/database_manager.py] is equivalent to the one
    [main.py] uses: a new dialog is the same, and after any session of user
    actions (typing, selecting, adding and deleting in any tab) both copies
    are in the same state, with the same store. *)
Theorem dialog_copies_equivalent (acts : list DialogAction) (st : Store) :
  open_dialog st = RefStore.open_dialog st /\
  run_dialog acts (open_dialog st) = RefStore.run_dialog acts (RefStore.open_dialog st).
Proof. rewrite open_dialog_eq. split; [reflexivity | apply run_dialog_eq]. Qed.

End DatabaseManagerFile.
