(* ===== verification/Excel.v ===== *)
(** * The workbook: export to and import from Excel

    [FuvarAdminApp.saveToExcel] (src/main.py:609-655) writes the two
    ledgers into [munka_nyilvantartas.xlsx], a sheet "Munkaórák" and a sheet
    "Fuvar adatok", with a header row and then table row [r] as sheet row
    [r + 2], cell by cell, skipping empty cells; [exportToExcel]
    (main.py:583-607) writes the work ledger alone, under five headers.
    [openExcel] (main.py:661-670) opens a workbook the user picks and
    [loadDataFromExcel] (main.py:672-692) reads it back: for each sheet row
    with a date in column 1, [loadWorkHoursRow] (main.py:694-706) copies
    sheet columns 2 to 4 into table columns 2 to 4 of the row with that
    date, and [loadDeliveryRow] (main.py:708-714) copies sheet column
    [c + 1] into table column [c] for every zone column [c].

    A sheet is modelled as openpyxl keeps it: the cells written so far and
    [max_row], the largest row holding a cell (1 for a new sheet).  Cell
    values are strings, which is all the program writes; the formatting of
    the header cells is not modelled.

    The theorems: what a saved sheet holds (the "Összeg" column is never
    written), and the round trip of the delivery ledger through save and
    load into a new window (property 5 of the specification).  That the
    work ledger does not survive the round trip, because the import shifts
    its columns by one, is shown on a concrete window in Scenarios.v. *)

From Stdlib Require Import String Ascii List ZArith Lia Bool.
From S2P Require Import Prelude PyStr QtTable QtDate Zone Ledger.
Import ListNotations ZoneResolver.
Local Open Scope string_scope.

(** ** openpyxl *)

Record Sheet := mkSheet { max_row : nat; cells : nat -> nat -> option string }.

(** [Workbook().active] or [wb.create_sheet(...)]: no cell yet. *)
Definition empty_sheet : Sheet := mkSheet 1 (fun _ _ => None).

(** [ws.cell(row=r, column=c, value=v)] *)
Definition ws_set (sh : Sheet) (r c : nat) (v : string) : Sheet :=
  mkSheet (Nat.max (max_row sh) r)
          (fun r' c' => if Nat.eqb r' r && Nat.eqb c' c then Some v else cells sh r' c').

(** A workbook: its sheets by title, in order. *)
Definition Workbook := list (string * Sheet).

(** [workbook[name]] when [name in workbook.sheetnames]. *)
Definition sheet_named (wb : Workbook) (name : string) : option Sheet :=
  match find (fun p => String.eqb (fst p) name) wb with Some (_, sh) => Some sh | None => None end.

(** [for col, header in enumerate(headers, 1): ws.cell(row=1, column=col).value = header] *)
Definition write_headers (hdrs : list string) (sh : Sheet) : Sheet :=
  fold_left (fun sh '(col, h) => ws_set sh 1 col h) (combine (seq 1 (length hdrs)) hdrs) sh.

(** ** Saving *)

Section Save.
Context {T : Type} `{TableWidget T}.

(** [for col in range(ncols): item = table.item(row, col);
       if item: ws.cell(row=row+2, column=col+1, value=item.text())] *)
Definition write_row (t : T) (ncols : nat) (sh : Sheet) (row : nat) : Sheet :=
  fold_left (fun sh col =>
    match item t row col with
    | Some v => ws_set sh (row + 2) (col + 1) v
    | None => sh
    end) (range ncols) sh.

(** [for row in range(table.rowCount()): ...] *)
Definition write_table (t : T) (ncols : nat) (sh : Sheet) : Sheet :=
  fold_left (write_row t ncols) (range (rowCount t)) sh.

(** A sheet of [saveToExcel] or [exportToExcel]: the headers, then the
    table under as many columns as there are headers. *)
Definition table_sheet (hdrs : list string) (t : T) : Sheet :=
  write_table t (length hdrs) (write_headers hdrs empty_sheet).

Definition work_headers : list string :=
  ["Dátum"; "Nap"; "Munka KB"; "Munka BF"; "Ledolgozott óra"; "Műhely KB"; "Műhely BF"].

(** The workbook [saveToExcel] builds. *)
Definition save_workbook (s : App T) : Workbook :=
  [("Munkaórák", table_sheet work_headers (work_table s));
   ("Fuvar adatok", table_sheet delivery_headers (delivery_table s))].

Definition excel_saved : Message := Information "Siker" "Excel fájl mentve!".

Definition save_error (e : PyExc) : Message := Warning "Hiba" "Mentési hiba: " (Some e).

(** [saveToExcel]: the workbook written to [munka_nyilvantartas.xlsx], or
    nothing when [wb.save] raises [OSError]. *)
Definition saveToExcel (save_ok : bool) (s : App T) : App T * option Workbook :=
  if save_ok then (add_message excel_saved s, Some (save_workbook s))
  else (add_message (save_error OSError) s, None).

(** [exportToExcel]: the work ledger alone, under five headers. *)
Definition export_headers : list string := ["Dátum"; "Nap"; "Kezdés"; "Végzés"; "Munka típusa"].

Definition export_workbook (s : App T) : Workbook :=
  [("Munkaórák", table_sheet export_headers (work_table s))].

Definition exportToExcel (save_ok : bool) (s : App T) : App T * option Workbook :=
  if save_ok then (add_message excel_saved s, Some (export_workbook s))
  else (add_message (save_error OSError) s, None).
End Save.

(** ** Loading *)

Section Load.
Context {T : Type} `{TableWidget T}.

(** [if value:] on a cell value that is a string or [None]. *)
Definition truthy (v : option string) : bool :=
  match v with Some x => negb (String.eqb x "") | None => false end.

(** [if value: table.setItem(table_row, col, QTableWidgetItem(str(value)))] *)
Definition set_if (l : Ledger) (row col : nat) (v : option string) : Py (App T) unit :=
  match v with
  | Some x => if truthy v then set_cell l row col x else ret tt
  | None => ret tt
  end.

Definition loadWorkHoursRow (date : string) (ws : Sheet) (row : nat) : Py (App T) unit :=
  let start_time := cells ws row 2 in
  let end_time := cells ws row 3 in
  let work_type := cells ws row 4 in
  scan_rows WorkLedger date (fun table_row =>
    set_if WorkLedger table_row 2 start_time ;;;
    set_if WorkLedger table_row 3 end_time ;;;
    set_if WorkLedger table_row 4 work_type).

(** [for col in range(1, self.delivery_table.columnCount()): ...] *)
Definition loadDeliveryRow (date : string) (ws : Sheet) (row : nat) : Py (App T) unit :=
  n <- gets (fun s => columnCount (delivery_table s)) ;;
  py_for (seq 1 (n - 1)) (fun col =>
    match cells ws row (col + 1) with
    | Some value => scan_rows DeliveryLedger date (fun table_row => set_cell DeliveryLedger table_row col value)
    | None => ret tt
    end).

(** [for row in range(2, ws.max_row + 1): date = ws.cell(row=row, column=1).value;
       if date: load(date, ws, row)] *)
Definition load_sheet (ws : Sheet) (load : string -> Sheet -> nat -> Py (App T) unit) : Py (App T) unit :=
  py_for (seq 2 (max_row ws - 1)) (fun row =>
    match cells ws row 1 with
    | Some date => if truthy (Some date) then load date ws row else ret tt
    | None => ret tt
    end).

Definition excel_loaded : Message := Information "Siker" "Excel adatok betöltve!".

Definition load_error (e : PyExc) : Message := Warning "Hiba" "Adatok betöltési hiba: " (Some e).

Definition loadDataFromExcel (wb : Workbook) : Py (App T) unit :=
  try_except
    ((match sheet_named wb "Munkaórák" with
      | Some ws => load_sheet ws loadWorkHoursRow
      | None => ret tt
      end) ;;;
     (match sheet_named wb "Fuvar adatok" with
      | Some ws => load_sheet ws loadDeliveryRow
      | None => ret tt
      end) ;;;
     modify (add_message excel_loaded))
    any_exc
    (fun e => modify (add_message (load_error e))).

Definition open_error (e : PyExc) : Message := Warning "Hiba" "Fájl megnyitási hiba: " (Some e).

(** [openExcel]: the file dialog gives no name ([None]), or the outcome of
    [load_workbook] on the chosen file. *)
Definition openExcel (choice : option (outcome Workbook)) : Py (App T) unit :=
  match choice with
  | None => ret tt
  | Some (Raise e) => modify (add_message (open_error e))
  | Some (Ok wb) => loadDataFromExcel wb
  end.
End Load.

(** ** What a saved sheet holds *)

Lemma write_headers_cells hdrs sh r c :
  2 <= r -> cells (write_headers hdrs sh) r c = cells sh r c.
Proof.
  intros Hr. unfold write_headers. generalize (seq 1 (length hdrs)) as cols. intros cols.
  revert sh. induction (combine cols hdrs) as [|[col h] ps IH]; intros sh; [reflexivity|].
  cbn [fold_left]. rewrite IH. cbn [cells ws_set]. destruct (Nat.eqb_spec r 1); [lia | reflexivity].
Qed.

Lemma write_headers_max hdrs sh : 1 <= max_row sh -> max_row (write_headers hdrs sh) = max_row sh.
Proof.
  unfold write_headers. generalize (seq 1 (length hdrs)) as cols. intros cols.
  revert sh. induction (combine cols hdrs) as [|[col h] ps IH]; intros sh Hm; [reflexivity|].
  cbn [fold_left]. rewrite IH; cbn [max_row ws_set]; lia.
Qed.

Section SheetFacts.
Context {T : Type} `{TableWidget T}.

(** The columns [k .. k + m - 1] of one row. *)
Lemma write_cols_cells (t : T) row k m sh r c :
  cells (fold_left (fun sh col =>
           match item t row col with Some v => ws_set sh (row + 2) (col + 1) v | None => sh end)
         (seq k m) sh) r c =
  if Nat.eqb r (row + 2) && Nat.leb (k + 1) c && Nat.leb c (k + m) then
    match item t row (c - 1) with Some v => Some v | None => cells sh r c end
  else cells sh r c.
Proof.
  revert k sh. induction m as [|m IH]; intros k sh; cbn [seq fold_left].
  - destruct (Nat.eqb r _), (Nat.leb_spec (k + 1) c), (Nat.leb_spec c (k + 0)); cbn; try reflexivity; lia.
  - rewrite IH. destruct (Nat.eqb_spec r (row + 2)) as [->|Hr]; cbn [andb]; [|
      destruct (item t row k); cbn [cells ws_set]; [rewrite (proj2 (Nat.eqb_neq _ _) Hr)|]; reflexivity].
    destruct (Nat.eqb_spec c (k + 1)) as [->|Hc].
    + replace (k + 1 - 1) with k by lia.
      destruct (Nat.leb_spec (S k + 1) (k + 1)); [lia|]. destruct (Nat.leb_spec (k + 1) (k + 1)); [|lia].
      destruct (Nat.leb_spec (k + 1) (k + S m)); [|lia]. cbn [andb].
      destruct (item t row k); cbn [cells ws_set]; rewrite ?Nat.eqb_refl; reflexivity.
    + assert (Hsh : cells (match item t row k with Some v => ws_set sh (row + 2) (k + 1) v | None => sh end)
                      (row + 2) c = cells sh (row + 2) c)
        by (destruct (item t row k); cbn [cells ws_set]; [rewrite (proj2 (Nat.eqb_neq _ _) Hc), andb_false_r|];
            reflexivity).
      rewrite Hsh.
      destruct (Nat.leb_spec (S k + 1) c), (Nat.leb_spec c (S k + m)), (Nat.leb_spec (k + 1) c),
               (Nat.leb_spec c (k + S m)); cbn [andb]; try reflexivity; lia.
Qed.
Lemma write_rows_cells (t : T) n k m sh r c :
  cells (fold_left (write_row t n) (seq k m) sh) r c =
  if Nat.leb (k + 2) r && Nat.leb r (k + m + 1) && Nat.leb 1 c && Nat.leb c n then
    match item t (r - 2) (c - 1) with Some v => Some v | None => cells sh r c end
  else cells sh r c.
Proof.
  revert k sh. induction m as [|m IH]; intros k sh; cbn [seq fold_left].
  - destruct (Nat.leb_spec (k + 2) r), (Nat.leb_spec r (k + 0 + 1)); cbn [andb]; try reflexivity; lia.
  - rewrite IH. unfold write_row, range. rewrite (write_cols_cells t k 0 n sh r c). rewrite !Nat.add_0_l.
    destruct (Nat.leb_spec 1 c) as [H1|H1], (Nat.leb_spec c n) as [H2|H2];
      rewrite ?andb_true_r, ?andb_false_r; cbn [andb]; try reflexivity.
    destruct (Nat.eqb_spec r (k + 2)) as [->|Hr].
    + destruct (Nat.leb_spec (S k + 2) (k + 2)); [lia|]. destruct (Nat.leb_spec (k + 2) (k + 2)); [|lia].
      destruct (Nat.leb_spec (k + 2) (k + S m + 1)); [|lia]. cbn [andb].
      replace (k + 2 - 2) with k by lia. reflexivity.
    + destruct (Nat.leb_spec (S k + 2) r), (Nat.leb_spec r (S k + m + 1)), (Nat.leb_spec (k + 2) r),
               (Nat.leb_spec r (k + S m + 1)); cbn [andb]; try reflexivity; lia.
Qed.

Lemma write_cols_max (t : T) row k m sh :
  max_row (fold_left (fun sh col =>
             match item t row col with Some v => ws_set sh (row + 2) (col + 1) v | None => sh end)
           (seq k m) sh) =
  Nat.max (max_row sh)
    (if existsb (fun col => match item t row col with Some _ => true | None => false end) (seq k m)
     then row + 2 else 0).
Proof.
  revert k sh. induction m as [|m IH]; intros k sh; cbn [seq fold_left existsb]; [lia|].
  rewrite IH. destruct (item t row k); cbn [max_row ws_set orb];
    destruct (existsb _ (seq (S k) m)); lia.
Qed.

(** Every row holds a date: the sheet ends at the table's last row. *)
Lemma write_rows_max (t : T) n k m sh :
  0 < n -> (forall r, k <= r < k + m -> item t r 0 <> None) ->
  max_row (fold_left (write_row t n) (seq k m) sh) =
  if Nat.eqb m 0 then max_row sh else Nat.max (max_row sh) (k + m + 1).
Proof.
  intros Hn. revert k sh. induction m as [|m IH]; intros k sh Hd; cbn [seq fold_left]; [reflexivity|].
  rewrite IH by (intros r Hr; apply Hd; lia). unfold write_row, range. rewrite write_cols_max.
  destruct n as [|n]; [lia|]. cbn [seq existsb].
  destruct (item t k 0) eqn:E; [|exfalso; exact (Hd k ltac:(lia) E)]. cbn [orb].
  change (Nat.eqb (S m) 0) with false. destruct (Nat.eqb_spec m 0); lia.
Qed.

(** What [saveToExcel] writes below the header row: table row [r] in
    sheet row [r + 2], table column [c] in sheet column [c + 1], under as
    many columns as there are headers, and nothing else. *)
Lemma table_sheet_cells hdrs (t : T) r c :
  2 <= r ->
  cells (table_sheet hdrs t) r c =
  if Nat.leb r (rowCount t + 1) && Nat.leb 1 c && Nat.leb c (length hdrs) then item t (r - 2) (c - 1)
  else None.
Proof.
  intros Hr. unfold table_sheet, write_table, range. rewrite write_rows_cells, write_headers_cells by exact Hr.
  cbn [Nat.add]. destruct (Nat.leb_spec 2 r); [|lia]. cbn [andb cells empty_sheet].
  destruct (_ && _ && _); [destruct (item t (r - 2) (c - 1)); reflexivity | reflexivity].
Qed.

Lemma table_sheet_max hdrs (t : T) :
  hdrs <> [] -> (forall r, r < rowCount t -> item t r 0 <> None) ->
  max_row (table_sheet hdrs t) = rowCount t + 1.
Proof.
  intros Hh Hd. unfold table_sheet, write_table, range.
  rewrite write_rows_max by ((destruct hdrs; [congruence | cbn; lia]) || (intros r Hr; apply Hd; lia)).
  rewrite write_headers_max by (cbn; lia). cbn [max_row empty_sheet].
  destruct (Nat.eqb_spec (rowCount t) 0); lia.
Qed.
End SheetFacts.

(** ** Loading a saved delivery sheet *)

Lemma date_text_truthy d : truthy (Some (date_text d)) = true.
Proof. unfold truthy, date_text. destruct (num_field 4 (qd_year d)); reflexivity. Qed.

(** The target cell after the cells before [(lr, lc)], in row order, of
    zone columns were copied from [src] where [src] has an item. *)
Definition copy_upto {T} `{TableWidget T} (src tgt : T) (lr lc r c : nat) : option string :=
  if (Nat.ltb r lr || (Nat.eqb r lr && Nat.ltb c lc)) && Nat.leb 1 c then
    match item src r c with Some v => Some v | None => item tgt r c end
  else item tgt r c.

Section DeliveryLoad.
Context {T : Type} `{TableWidgetLaws T}.
Variables (src : T) (s0 : App T) (y m : Z).
Hypothesis src_dated : dated_ledger src y m.
Hypothesis src_cols : columnCount src = 10.
Hypothesis tgt_dated : dated_ledger (delivery_table s0) y m.
Hypothesis tgt_cols : columnCount (delivery_table s0) = 10.

Let ws := table_sheet delivery_headers src.
Let tgt := delivery_table s0.

(** The state of the import after the cells before [(lr, lc)]. *)
Definition loaded_upto (lr lc : nat) (s : App T) : Prop :=
  (exists t, s = set_table DeliveryLedger t s0) /\
  dated_ledger (delivery_table s) y m /\ columnCount (delivery_table s) = 10 /\
  forall r c, item (delivery_table s) r c = copy_upto src tgt lr lc r c.

Lemma rows_equal : rowCount src = rowCount tgt.
Proof. destruct src_dated as (_ & E1 & _), tgt_dated as (_ & E2 & _). unfold tgt. congruence. Qed.

Lemma ws_cell r c : r < rowCount src -> c < 10 -> cells ws (r + 2) (c + 1) = item src r c.
Proof.
  intros Hr Hc. unfold ws. rewrite table_sheet_cells by lia.
  destruct (Nat.leb_spec (r + 2) (rowCount src + 1)); [|lia].
  assert (Hlen : length delivery_headers = 11) by reflexivity.
  destruct (Nat.leb_spec 1 (c + 1)); [|lia]. destruct (Nat.leb_spec (c + 1) (length delivery_headers)); [|lia].
  cbn [andb]. do 2 f_equal; lia.
Qed.

(** One zone cell of one row. *)
Lemma load_cell_step r col s :
  r < rowCount src -> 1 <= col < 10 -> loaded_upto r col s ->
  exists s', (match cells ws (r + 2) (col + 1) with
              | Some value => scan_rows DeliveryLedger (date_text (mkDate y m (1 + Z.of_nat r)))
                                (fun table_row => set_cell DeliveryLedger table_row col value)
              | None => ret tt
              end) s = (s', Ok tt) /\ loaded_upto r (S col) s'.
Proof.
  intros Hr Hc (Hs & Hd & Hcols & Hit). rewrite ws_cell by lia. pose proof rows_equal as Hrows.
  assert (Hstep : forall r' c', copy_upto src tgt r (S col) r' c' =
            if Nat.eqb r' r && Nat.eqb c' col then
              match item src r col with Some v => Some v | None => copy_upto src tgt r col r' c' end
            else copy_upto src tgt r col r' c').
  { intros r' c'. unfold copy_upto.
    destruct (Nat.eqb_spec r' r) as [->|Hr']; cbn [andb].
    - destruct (Nat.eqb_spec c' col) as [->|Hc']; cbn [andb].
      + destruct (Nat.ltb_spec r r); [lia|]. destruct (Nat.ltb_spec col (S col)); [|lia].
        destruct (Nat.ltb_spec col col); [lia|]. destruct (Nat.leb_spec 1 col); [|lia]. cbn [orb andb].
        destruct (item src r col); reflexivity.
      + destruct (Nat.ltb_spec r r); [lia|]. cbn [orb].
        destruct (Nat.ltb_spec c' (S col)), (Nat.ltb_spec c' col); try lia; reflexivity.
    - reflexivity. }
  destruct (item src r col) as [v|] eqn:Ev.
  - pose proof (dated_ledger_rows_ok := Hd). destruct Hd as (Hwf & Hdr & _).
    eexists. split.
    + apply (scan_set_cell_dated DeliveryLedger s y m r col v); cbn [table_of];
        [exact dated_ledger_rows_ok | | lia].
      destruct tgt_dated as (_ & E & _). unfold tgt in Hrows. lia.
    + destruct Hs as [t ->]. split; [eexists; rewrite set_table_twice; reflexivity|].
      cbn [table_of set_table delivery_table] in *.
      assert (Hr' : r < rowCount t) by (destruct tgt_dated as (_ & E & _); unfold tgt in Hrows; lia).
      split; [apply dated_setItem; [exact dated_ledger_rows_ok | exact Hr' | lia]|].
      split; [rewrite columnCount_setItem; exact Hcols|].
      intros r' c'. rewrite Hstep.
      destruct (Nat.eqb_spec r' r) as [->|Hne1]; destruct (Nat.eqb_spec c' col) as [->|Hne2];
        cbn [andb].
      * apply item_setItem_eq; [exact Hwf | exact Hr' | lia].
      * rewrite item_setItem_ne by (exact Hwf || lia || congruence). apply Hit.
      * rewrite item_setItem_ne by (exact Hwf || lia || congruence). apply Hit.
      * rewrite item_setItem_ne by (exact Hwf || lia || congruence). apply Hit.
  - exists s. split; [reflexivity|]. split; [exact Hs|]. split; [exact Hd|]. split; [exact Hcols|].
    intros r' c'. rewrite Hstep, Hit.
    destruct (Nat.eqb_spec r' r) as [->|]; destruct (Nat.eqb_spec c' col) as [->|]; cbn [andb]; try reflexivity.
    all: rewrite Ev; reflexivity.
Qed.
Lemma copy_upto_row_start r : forall r' c', copy_upto src tgt r 0 r' c' = copy_upto src tgt r 1 r' c'.
Proof.
  intros r' c'. unfold copy_upto. destruct (Nat.ltb r' r); [reflexivity|].
  destruct (Nat.eqb r' r); cbn [andb orb]; [|reflexivity].
  destruct (Nat.ltb_spec c' 0), (Nat.ltb_spec c' 1), (Nat.leb_spec 1 c'); try lia; reflexivity.
Qed.

Lemma copy_upto_row_end r : forall r' c', copy_upto src tgt r 10 r' c' = copy_upto src tgt (S r) 0 r' c'.
Proof.
  intros r' c'. unfold copy_upto.
  destruct (Nat.ltb_spec r' r), (Nat.ltb_spec r' (S r)), (Nat.eqb_spec r' r), (Nat.eqb_spec r' (S r));
    try lia; cbn [orb andb]; try reflexivity.
  subst r'. destruct (Nat.ltb_spec c' 10); cbn [andb]; [reflexivity|].
  destruct (Nat.leb 1 c'); [|reflexivity]. rewrite (item_outside src r c') by (right; lia). reflexivity.
Qed.

Lemma loaded_upto_ext lr lc lr' lc' s :
  (forall r' c', copy_upto src tgt lr lc r' c' = copy_upto src tgt lr' lc' r' c') ->
  loaded_upto lr lc s -> loaded_upto lr' lc' s.
Proof. intros E (Hs & Hd & Hc & Hit). split; [exact Hs|]. split; [exact Hd|]. split; [exact Hc|]. intros; rewrite Hit; apply E. Qed.

(** One sheet row: [loadDeliveryRow] copies its zone cells. *)
Lemma load_row_step r s :
  r < rowCount src -> loaded_upto r 0 s ->
  exists s', loadDeliveryRow (date_text (mkDate y m (1 + Z.of_nat r))) ws (r + 2) s = (s', Ok tt) /\
             loaded_upto (S r) 0 s'.
Proof.
  intros Hr Hl. unfold loadDeliveryRow. rewrite bind_gets.
  pose proof Hl as (_ & _ & Hc & _). rewrite Hc. cbn [Nat.sub].
  match goal with |- exists s', py_for (seq 1 9) ?body s = _ /\ _ =>
    destruct (py_for_seq_inv (fun col => loaded_upto r col) body 9 1 s
                (loaded_upto_ext r 0 r 1 s (copy_upto_row_start r) Hl)) as (s' & Hrun & Hs')
  end.
  - intros i t Hi Ht. apply (load_cell_step r i t Hr ltac:(lia) Ht).
  - exists s'. split; [exact Hrun|]. exact (loaded_upto_ext r 10 (S r) 0 s' (copy_upto_row_end r) Hs').
Qed.

Lemma src_dates : forall r, r < rowCount src -> item src r 0 <> None.
Proof. intros r Hr. destruct src_dated as (_ & _ & Hd). rewrite Hd by exact Hr. discriminate. Qed.

(** The whole sheet. *)
Lemma load_sheet_delivery :
  exists s', load_sheet ws loadDeliveryRow s0 = (s', Ok tt) /\ loaded_upto (rowCount src) 0 s'.
Proof.
  unfold load_sheet. change (max_row ws) with (max_row (table_sheet delivery_headers src)).
  rewrite (table_sheet_max delivery_headers src ltac:(discriminate) src_dates).
  replace (rowCount src + 1 - 1) with (rowCount src) by lia.
  match goal with |- exists s', py_for (seq 2 (rowCount src)) ?body s0 = _ /\ _ =>
    destruct (py_for_seq_inv (fun i => loaded_upto (i - 2) 0) body (rowCount src) 2 s0) as (s' & Hrun & Hs')
  end.
  - split; [exists tgt; unfold tgt; symmetry; exact (set_table_same DeliveryLedger s0)|].
    split; [exact tgt_dated|]. split; [exact tgt_cols|]. intros r c. cbn [Nat.sub]. unfold copy_upto.
    destruct (Nat.ltb_spec r 0); [lia|]. destruct (Nat.ltb_spec c 0); [lia|].
    rewrite andb_false_r. reflexivity.
  - intros i t Hi Ht. replace i with ((i - 2) + 2) by lia.
    pose proof (ws_cell (i - 2) 0 ltac:(lia) ltac:(lia)) as Hw. rewrite Nat.add_0_l in Hw. rewrite Hw.
    destruct src_dated as (_ & _ & Hd). rewrite Hd by lia. rewrite date_text_truthy.
    replace (S (i - 2 + 2) - 2) with (S (i - 2)) by lia.
    exact (load_row_step (i - 2) t ltac:(lia) Ht).
  - exists s'. split; [exact Hrun|]. replace (2 + rowCount src - 2) with (rowCount src) in Hs' by lia. exact Hs'.
Qed.
End DeliveryLoad.

(** ** Loading a saved work sheet *)

(** Cell [(r, c)] of the work ledger after [loadWorkHoursRow] of every
    row: table columns 2 to 4 receive sheet columns 2 to 4, which hold
    table columns 1 to 3 of the saved ledger; an empty value is skipped. *)
Definition shifted {T} `{TableWidget T} (src tgt : T) (r c : nat) : option string :=
  if Nat.leb 2 c && Nat.leb c 4 && truthy (item src r (c - 1)) then item src r (c - 1) else item tgt r c.

(** [set_if] on the table: the write it makes, if any. *)
Definition set_opt {T} `{TableWidget T} (t : T) (r c : nat) (v : option string) : T :=
  match v with Some x => if truthy v then setItem t r c x else t | None => t end.

Section WorkLoad.
Context {T : Type} `{TableWidgetLaws T}.
Variables (src : T) (s0 : App T) (y m : Z).
Hypothesis src_dated : dated_ledger src y m.
Hypothesis src_cols : columnCount src = 7.
Hypothesis tgt_dated : dated_ledger (work_table s0) y m.
Hypothesis tgt_cols : columnCount (work_table s0) = 7.

Let ws := table_sheet work_headers src.
Let tgt := work_table s0.

(** The state of the import after the first [lr] rows. *)
Definition work_loaded (lr : nat) (s : App T) : Prop :=
  (exists t, s = set_table WorkLedger t s0) /\
  dated_ledger (work_table s) y m /\ columnCount (work_table s) = 7 /\
  forall r c, item (work_table s) r c = if Nat.ltb r lr then shifted src tgt r c else item tgt r c.

Lemma work_rows_equal : rowCount src = rowCount tgt.
Proof. destruct src_dated as (_ & E1 & _), tgt_dated as (_ & E2 & _). unfold tgt. congruence. Qed.

Lemma work_ws_cell r c : r < rowCount src -> c < 7 -> cells ws (r + 2) (c + 1) = item src r c.
Proof.
  intros Hr Hc. unfold ws. rewrite table_sheet_cells by lia.
  destruct (Nat.leb_spec (r + 2) (rowCount src + 1)); [|lia].
  assert (Hlen : length work_headers = 7) by reflexivity.
  destruct (Nat.leb_spec 1 (c + 1)); [|lia]. destruct (Nat.leb_spec (c + 1) (length work_headers)); [|lia].
  cbn [andb]. do 2 f_equal; lia.
Qed.

Lemma set_if_run r c v (s : App T) :
  set_if WorkLedger r c v s = (set_table WorkLedger (set_opt (work_table s) r c v) s, Ok tt).
Proof.
  unfold set_if, set_opt. destruct v as [x|]; [destruct (truthy (Some x)) |]; destruct s; reflexivity.
Qed.

Lemma set_opt_wf t r c v : table_wf t -> table_wf (set_opt t r c v).
Proof. intros Hw. unfold set_opt. destruct v as [x|]; [destruct (truthy _); [apply wf_setItem|]|]; exact Hw. Qed.

Lemma set_opt_dated t r c v : dated_ledger t y m -> r < rowCount t -> 0 < c < columnCount t ->
  dated_ledger (set_opt t r c v) y m.
Proof.
  intros Hd Hr Hc. unfold set_opt. destruct v as [x|]; [destruct (truthy _); [apply dated_setItem; assumption|]|];
    exact Hd.
Qed.

Lemma set_opt_rows t r c v : rowCount (set_opt t r c v) = rowCount t.
Proof. unfold set_opt. destruct v as [x|]; [destruct (truthy _); [apply rowCount_setItem|]|]; reflexivity. Qed.

Lemma set_opt_cols t r c v : columnCount (set_opt t r c v) = columnCount t.
Proof. unfold set_opt. destruct v as [x|]; [destruct (truthy _); [apply columnCount_setItem|]|]; reflexivity. Qed.

Lemma set_opt_item t r c v r' c' : table_wf t -> r < rowCount t -> c < columnCount t ->
  item (set_opt t r c v) r' c' = if Nat.eqb r' r && Nat.eqb c' c && truthy v then v else item t r' c'.
Proof.
  intros Hw Hr Hc. unfold set_opt.
  destruct v as [x|]; [|rewrite andb_false_r; reflexivity].
  destruct (truthy (Some x)); [|rewrite andb_false_r; reflexivity]. rewrite andb_true_r.
  destruct (Nat.eqb_spec r' r) as [->|Hne]; destruct (Nat.eqb_spec c' c) as [->|Hne'];
    cbn [andb]; [apply item_setItem_eq; assumption| | |];
    apply item_setItem_ne; (assumption || congruence).
Qed.

(** One sheet row: the three cells of its date's row. *)
Lemma work_row_step r s :
  r < rowCount src -> work_loaded r s ->
  exists s', loadWorkHoursRow (date_text (mkDate y m (1 + Z.of_nat r))) ws (r + 2) s = (s', Ok tt) /\
             work_loaded (S r) s'.
Proof.
  intros Hr ([t ->] & Hd & Hc & Hit). cbn [work_table set_table] in Hd, Hc, Hit.
  pose proof work_rows_equal as Hrows.
  assert (Hrt : r < rowCount t) by (destruct Hd as (_ & E & _), tgt_dated as (_ & E' & _); unfold tgt in Hrows; lia).
  pose proof Hd as (Hwf & _).
  unfold loadWorkHoursRow.
  pose proof (work_ws_cell r 1 Hr ltac:(lia)) as C1. pose proof (work_ws_cell r 2 Hr ltac:(lia)) as C2.
  pose proof (work_ws_cell r 3 Hr ltac:(lia)) as C3. cbn [Nat.add] in C1, C2, C3. rewrite C1, C2, C3.
  set (t1 := set_opt t r 2 (item src r 1)). set (t2 := set_opt t1 r 3 (item src r 2)).
  set (t3 := set_opt t2 r 4 (item src r 3)).
  assert (Hd1 : dated_ledger t1 y m) by (apply set_opt_dated; [exact Hd | exact Hrt | lia]).
  assert (Hd2 : dated_ledger t2 y m)
    by (apply set_opt_dated; [exact Hd1 | unfold t1; rewrite set_opt_rows; exact Hrt | unfold t1; rewrite set_opt_cols; lia]).
  assert (Hd3 : dated_ledger t3 y m)
    by (apply set_opt_dated; [exact Hd2 | unfold t2, t1; rewrite !set_opt_rows; exact Hrt
                             | unfold t2, t1; rewrite !set_opt_cols; lia]).
  exists (set_table WorkLedger t3 (set_table WorkLedger t s0)). split.
  - apply scan_rows_dated; [exact Hd | exact Hrt | | intros _; exact Hd3].
    unfold bind. rewrite !set_if_run. cbn [work_table set_table]. reflexivity.
  - split; [eexists; rewrite set_table_twice; reflexivity|]. cbn [work_table set_table].
    split; [exact Hd3|]. split; [unfold t3, t2, t1; rewrite !set_opt_cols; exact Hc|].
    intros r' c'. unfold t3, t2, t1.
    rewrite !set_opt_item by (repeat apply set_opt_wf; rewrite ?set_opt_rows, ?set_opt_cols; (exact Hwf || exact Hrt || lia)).
    rewrite Hit. unfold shifted.
    destruct (Nat.eqb_spec r' r) as [->|Hne]; cbn [andb].
    + destruct (Nat.ltb_spec r r); [lia|]. destruct (Nat.ltb_spec r (S r)); [|lia].
      destruct (Nat.eqb_spec c' 4) as [->|Hc4]; [cbn; destruct (truthy (item src r 3)); reflexivity|].
      destruct (Nat.eqb_spec c' 3) as [->|Hc3]; [cbn; destruct (truthy (item src r 2)); reflexivity|].
      destruct (Nat.eqb_spec c' 2) as [->|Hc2]; [cbn; destruct (truthy (item src r 1)); reflexivity|].
      destruct (Nat.leb_spec 2 c'), (Nat.leb_spec c' 4); try lia; reflexivity.
    + destruct (Nat.ltb_spec r' r), (Nat.ltb_spec r' (S r)); try lia; reflexivity.
Qed.

(** The whole sheet. *)
Lemma load_sheet_work :
  exists s', load_sheet ws loadWorkHoursRow s0 = (s', Ok tt) /\ work_loaded (rowCount src) s'.
Proof.
  unfold load_sheet. change (max_row ws) with (max_row (table_sheet work_headers src)).
  assert (Hdates : forall r, r < rowCount src -> item src r 0 <> None)
    by (intros r Hr; destruct src_dated as (_ & _ & Hd); rewrite Hd by exact Hr; discriminate).
  rewrite (table_sheet_max work_headers src ltac:(discriminate) Hdates).
  replace (rowCount src + 1 - 1) with (rowCount src) by lia.
  match goal with |- exists s', py_for (seq 2 (rowCount src)) ?body s0 = _ /\ _ =>
    destruct (py_for_seq_inv (fun i => work_loaded (i - 2)) body (rowCount src) 2 s0) as (s' & Hrun & Hs')
  end.
  - split; [exists tgt; unfold tgt; symmetry; exact (set_table_same WorkLedger s0)|].
    split; [exact tgt_dated|]. split; [exact tgt_cols|]. intros r c. cbn [Nat.sub].
    destruct (Nat.ltb_spec r 0); [lia | reflexivity].
  - intros i t Hi Ht. replace i with ((i - 2) + 2) by lia.
    pose proof (work_ws_cell (i - 2) 0 ltac:(lia) ltac:(lia)) as Hw. rewrite Nat.add_0_l in Hw. rewrite Hw.
    destruct src_dated as (_ & _ & Hd). rewrite Hd by lia. rewrite date_text_truthy.
    replace (S (i - 2 + 2) - 2) with (S (i - 2)) by lia.
    exact (work_row_step (i - 2) t ltac:(lia) Ht).
  - exists s'. split; [exact Hrun|]. replace (2 + rowCount src - 2) with (rowCount src) in Hs' by lia. exact Hs'.
Qed.
End WorkLoad.

(** ** Theorems *)

(** C7: the delivery ledger survives a save and a load: loading the
    "Fuvar adatok" sheet [saveToExcel] writes into a window whose delivery
    ledger has the same month and no zone cell filled restores every cell,
    dates and zone columns alike (property 5 of the specification). *)
Theorem delivery_sheet_roundtrip {T : Type} `{TableWidgetLaws T} (src : T) (s0 : App T) y m :
  dated_ledger src y m -> columnCount src = 10 ->
  dated_ledger (delivery_table s0) y m -> columnCount (delivery_table s0) = 10 ->
  (forall r c, 1 <= c -> item (delivery_table s0) r c = None) ->
  exists t, load_sheet (table_sheet delivery_headers src) loadDeliveryRow s0 = (set_table DeliveryLedger t s0, Ok tt) /\
            forall r c, item t r c = item src r c.
Proof.
  intros Hsd Hsc Htd Htc Hfresh.
  destruct (load_sheet_delivery src s0 y m Hsd Hsc Htd Htc) as (s' & Hrun & ([t ->] & _ & _ & Hit)).
  exists t. split; [exact Hrun|]. intros r c. specialize (Hit r c). cbn [delivery_table set_table] in Hit.
  rewrite Hit. unfold copy_upto.
  pose proof (rows_equal src s0 y m Hsd Htd) as Hrows.
  destruct Hsd as (_ & _ & Hsrc), Htd as (_ & _ & Htgt).
  destruct (Nat.ltb_spec r (rowCount src)) as [Hr|Hr]; cbn [orb].
  - destruct (Nat.leb_spec 1 c) as [Hc|Hc].
    + cbn [andb]. destruct (item src r c); [reflexivity|]. apply Hfresh, Hc.
    + cbn [andb]. assert (c = 0) as -> by lia. rewrite Hsrc, Htgt by lia. reflexivity.
  - destruct (Nat.eqb_spec r (rowCount src)), (Nat.ltb_spec c 0); try lia; cbn [andb];
      rewrite !item_outside by lia; reflexivity.
Qed.

(** C23: the work ledger does not survive a save and a load: loading the
    "Munkaórák" sheet [saveToExcel] writes from a work ledger into a window
    whose work ledger has the same month puts table column [c - 1] of the
    saved ledger into column [c], for [c] from 2 to 4, wherever that cell
    is not empty: the day name lands in the start column, the start time in
    the end column, the end time over the hours.  Every other cell of the
    window's ledger is kept. *)
Theorem work_sheet_reload_shifts {T : Type} `{TableWidgetLaws T} (src : T) (s0 : App T) y m :
  dated_ledger src y m -> columnCount src = 7 ->
  dated_ledger (work_table s0) y m -> columnCount (work_table s0) = 7 ->
  exists t, load_sheet (table_sheet work_headers src) loadWorkHoursRow s0 = (set_table WorkLedger t s0, Ok tt) /\
            forall r c, item t r c = shifted src (work_table s0) r c.
Proof.
  intros Hsd Hsc Htd Htc.
  destruct (load_sheet_work src s0 y m Hsd Hsc Htd Htc) as (s' & Hrun & ([t ->] & _ & _ & Hit)).
  exists t. split; [exact Hrun|]. intros r c. specialize (Hit r c). cbn [work_table set_table] in Hit.
  rewrite Hit. destruct (Nat.ltb_spec r (rowCount src)) as [Hr|Hr]; [reflexivity|].
  unfold shifted. rewrite (item_outside src r (c - 1)) by (left; exact Hr).
  rewrite andb_false_r. reflexivity.
Qed.

(** C36: the "Összeg" column of the saved delivery sheet (column 11, under
    the eleventh header) is never written: the table has ten columns, so
    every row of the sheet leaves the total empty. *)
Theorem saved_total_column_empty {T : Type} `{TableWidgetLaws T} (s : App T) r :
  columnCount (delivery_table s) = 10 -> 2 <= r ->
  cells (table_sheet delivery_headers (delivery_table s)) r 11 = None /\
  nth 10 delivery_headers "" = "Összeg".
Proof.
  intros Hc Hr. split; [|reflexivity]. rewrite table_sheet_cells by exact Hr.
  destruct (_ && _ && _); [|reflexivity]. apply item_outside. right. lia.
Qed.

(** ** On a new window of 5 November 2024 *)

Lemma nov5_delivery_fresh :
  forall r c, 1 <= c -> item (delivery_table (init_app nov5 [])) r c = None.
Proof.
  intros r c Hc. destruct (proj2 (init_app_fresh nov5 [])) as (_ & _ & Hit).
  rewrite Hit. destruct (Nat.ltb _ _); [|reflexivity]. unfold fresh_cell.
  destruct c as [|[|c]]; [lia | reflexivity | reflexivity].
Qed.

(** The delivery ledger of a new window with ["5.0"] on 5 November,
    band 0-5 km. *)
Definition nov5_committed : qtable := setItem (delivery_table (init_app nov5 [])) 4 1 "5.0".

Lemma nov5_committed_dated : dated_ledger nov5_committed 2024 11.
Proof.
  unfold nov5_committed. apply dated_setItem; [exact (fresh_dated _ _ _ _ (proj2 (init_app_fresh nov5 []))) | |];
    vm_compute; lia.
Qed.

Lemma delivery_sheet_roundtrip_witness :
  exists t, load_sheet (table_sheet delivery_headers nov5_committed) loadDeliveryRow (init_app nov5 []) =
              (set_table DeliveryLedger t (init_app nov5 []), Ok tt) /\
            forall r c, item t r c = item nov5_committed r c.
Proof.
  apply (delivery_sheet_roundtrip nov5_committed (init_app nov5 []) 2024 11).
  - exact nov5_committed_dated.
  - vm_compute. reflexivity.
  - exact (fresh_dated _ _ _ _ (proj2 (init_app_fresh nov5 []))).
  - vm_compute. reflexivity.
  - exact nov5_delivery_fresh.
Defined.

Lemma saved_total_column_empty_witness :
  cells (table_sheet delivery_headers (delivery_table (init_app nov5 []))) 6 11 = None /\
  nth 10 delivery_headers "" = "Összeg".
Proof. apply saved_total_column_empty; [vm_compute; reflexivity | lia]. Defined.

(** A work ledger of November 2024 with 08:00 saved as the start time of
    5 November. *)
Definition nov5_worked : qtable := setItem (work_table (init_app nov5 [])) 4 2 "08:00".

Lemma nov5_worked_dated : dated_ledger nov5_worked 2024 11.
Proof.
  unfold nov5_worked. apply dated_setItem; [exact (fresh_dated _ _ _ _ (proj1 (init_app_fresh nov5 []))) | |];
    vm_compute; lia.
Qed.

Lemma work_sheet_reload_shifts_witness :
  exists t, load_sheet (table_sheet work_headers nov5_worked) loadWorkHoursRow (init_app nov5 []) =
              (set_table WorkLedger t (init_app nov5 []), Ok tt) /\
            forall r c, item t r c = shifted nov5_worked (work_table (init_app nov5 [])) r c.
Proof.
  apply (work_sheet_reload_shifts nov5_worked (init_app nov5 []) 2024 11).
  - exact nov5_worked_dated.
  - vm_compute. reflexivity.
  - exact (fresh_dated _ _ _ _ (proj1 (init_app_fresh nov5 []))).
  - vm_compute. reflexivity.
Defined.
