(* ===== verification/HandlerInvariants.v ===== *)
(** * What every handler of the main window preserves

    Three invariants of the window state [App T]:
    - [ledgers_ok y m]: both ledgers are the dated ledgers of month [y-m]
      (every row holds its date in column 0), with 7 and 10 columns, and
      the distance combo box is on one of its first nine entries;
    - [label_ok]: the m3 label shows the m3 values, ["(0)"] when there
      are none;
    - the handlers return normally: no exception escapes them.

    Each handler of main.py ([handleM3Input], [saveDeliveryData],
    [saveWorkHours], [loadDataFromExcel], [openExcel], [saveToExcel],
    [exportToExcel]) is shown to keep the first two and, from a state with
    [ledgers_ok], to return normally.  The proofs go through the structure
    of the handlers with the lemmas of Prelude.v ([keeps], [only_raises])
    and the scan lemmas of Ledger.v.  Window.v composes them into the
    invariant of every reachable window. *)

From Stdlib Require Import String List ZArith Lia Bool.
From S2P Require Import Prelude PyStr PyFloat QtTable QtDate Zone Ledger Volume Delivery WorkHours Excel.
Import ListNotations ZoneResolver.
Local Open Scope string_scope.

Section Invariants.
Context {T : Type} `{TableWidgetLaws T}.
Variables (y m : Z).

(** The number of rows of a ledger of month [y-m]. *)
Definition days : nat := Z.to_nat (days_in_month y m).

(** The column count [setupBottomFrame] gives each ledger. *)
Definition ledger_columns (l : Ledger) : nat :=
  match l with WorkLedger => 7 | DeliveryLedger => delivery_column_count end.

Definition ledgers_ok (s : App T) : Prop :=
  dated_ledger (work_table s) y m /\ columnCount (work_table s) = ledger_columns WorkLedger /\
  dated_ledger (delivery_table s) y m /\ columnCount (delivery_table s) = ledger_columns DeliveryLedger /\
  km_index (form s) < 9.

Definition label_ok (s : App T) : Prop :=
  m3_sum (form s) = match values_or_empty s with [] => "(0)" | vs => m3_summary vs end.

(** ** The steps every handler is made of *)

Lemma ledgers_ok_table l s :
  ledgers_ok s -> dated_ledger (table_of l s) y m /\ columnCount (table_of l s) = ledger_columns l.
Proof. intros (Hw & Hwc & Hd & Hdc & _). destruct l; split; assumption. Qed.

Lemma ledgers_ok_rows l s : ledgers_ok s -> rowCount (table_of l s) = days.
Proof. intros Hs. destruct (ledgers_ok_table l s Hs) as [(_ & Hr & _) _]. exact Hr. Qed.

(** The scans of both ledgers find every row's date item. *)
Lemma ledgers_ok_scan l s :
  ledgers_ok s -> rowCount (table_of l s) = days /\ forall r, r < days -> item (table_of l s) r 0 <> None.
Proof.
  intros Hs. split; [exact (ledgers_ok_rows l s Hs)|]. intros r Hr.
  destruct (ledgers_ok_table l s Hs) as [(_ & Hrows & Hdates) _].
  unfold days in Hr. rewrite Hdates by lia. discriminate.
Qed.

(** A write at a row of the month, outside the date column. *)
Lemma keeps_ledgers_set_cell l r c v :
  r < days -> 0 < c < ledger_columns l -> keeps ledgers_ok (set_cell l r c v).
Proof.
  intros Hr Hc s Hs. pose proof (ledgers_ok_rows l s Hs) as Hn. unfold days in *.
  destruct Hs as (Hw & Hwc & Hd & Hdc & Hk). unfold set_cell, modify, ledgers_ok; cbn [fst].
  destruct l; cbn [set_table table_of work_table delivery_table form ledger_columns] in *;
    (split; [|split; [|split; [|split]]]); rewrite ?columnCount_setItem; try assumption;
    apply dated_setItem; lia || assumption.
Qed.

Lemma keeps_label_set_cell l r c v : keeps label_ok (set_cell l r c v).
Proof. intros s Hs. destruct l; exact Hs. Qed.

(** The zone column of a combo box entry among the first nine. *)
Lemma zone_column_ok s :
  ledgers_ok s -> getZoneColumn (km_text (form s)) = (Z.of_nat (km_index (form s)) + 1)%Z /\
                  0 < Z.to_nat (getZoneColumn (km_text (form s))) < ledger_columns DeliveryLedger.
Proof.
  intros (_ & _ & _ & _ & Hk). unfold km_text. rewrite km_items_column by lia.
  split; [reflexivity|]. cbn [ledger_columns]. unfold delivery_column_count. lia.
Qed.

(** A state write that leaves the tables, the combo box and the m3 fields
    alone keeps both invariants, by computation. *)
Ltac frame := intros ?s ?Hs; exact Hs.

(** Apply the structural lemmas, then close the primitive steps. *)
Ltac step_tac :=
  repeat first
    [ keeps_step
    | match goal with
      | |- keeps _ (modify _) => apply keeps_modify; frame
      | |- keeps _ (cell _ _ _) => apply keeps_cell
      | |- keeps _ (cell_text _ _ _) => apply keeps_cell_text
      | |- keeps label_ok (set_cell _ _ _ _) => apply keeps_label_set_cell
      end ].

(** ** [updateDeliveryTable] and [handleM3Input] *)

Lemma keeps_ledgers_updateDeliveryTable v : keeps ledgers_ok (updateDeliveryTable v).
Proof.
  unfold updateDeliveryTable. apply keeps_bind_get. intros s0 Hs0.
  destruct (zone_column_ok s0 Hs0) as [_ Hc].
  destruct (0 <? _)%Z; [|apply keeps_ret].
  apply (keeps_scan_rows _ DeliveryLedger _ _ days); [exact (ledgers_ok_rows DeliveryLedger)|].
  intros r Hr. apply keeps_ledgers_set_cell; assumption.
Qed.

Lemma keeps_label_updateDeliveryTable v : keeps label_ok (updateDeliveryTable v).
Proof.
  unfold updateDeliveryTable. apply keeps_bind_get. intros s0 _.
  destruct (0 <? _)%Z; [|apply keeps_ret].
  apply keeps_scan_rows_any. intros r. apply keeps_label_set_cell.
Qed.

(** From a state with [ledgers_ok], [updateDeliveryTable] returns normally. *)
Lemma normal_updateDeliveryTable v : only_raises ledgers_ok no_exc (updateDeliveryTable v).
Proof.
  unfold updateDeliveryTable. apply only_bind_get. intros s0 Hs0.
  destruct (zone_column_ok s0 Hs0) as [_ Hc].
  destruct (0 <? _)%Z; [|apply only_ret].
  apply (only_scan_rows _ _ DeliveryLedger _ _ days);
    [intros s Hs; exact (ledgers_ok_scan DeliveryLedger s Hs) | |];
    intros r Hr; [apply keeps_ledgers_set_cell; assumption | apply only_modify].
Qed.

Lemma keeps_ledgers_handleM3Input : keeps ledgers_ok handleM3Input.
Proof.
  unfold handleM3Input. step_tac. apply keeps_ledgers_updateDeliveryTable.
Qed.

(** The label after the values changed: the summary of a non-empty list. *)
Lemma label_ok_accumulate (s : App T) x :
  let vs := (values_or_empty s ++ [x])%list in
  label_ok (set_m3_sum (m3_summary vs) (set_m3_values (Some vs) s)).
Proof.
  intros vs. unfold label_ok. cbn [values_or_empty m3_values set_m3_values set_m3_sum set_form form m3_sum].
  destruct vs as [|v vs'] eqn:E; [exfalso; apply (app_cons_not_nil (values_or_empty s) [] x); exact (eq_sym E)|].
  reflexivity.
Qed.

Lemma keeps_label_handleM3Input : keeps label_ok handleM3Input.
Proof.
  intros s Hs. unfold handleM3Input. rewrite bind_get. unfold try_except.
  destruct (String.eqb _ "") eqn:Ee; [exact Hs|].
  destruct (py_float _) as [x|e].
  - unfold bind at 1, modify at 1. rewrite bind_get, bind_modify.
    set (s2 := set_m3_sum _ _).
    assert (H2 : label_ok s2) by apply label_ok_accumulate.
    pose proof (keeps_label_updateDeliveryTable (m3_summary (values_or_empty s ++ [x])) s2 H2) as H3.
    unfold bind at 1. destruct (updateDeliveryTable _ s2) as [s3 [u|e]]; cbn [fst] in *.
    + exact H3.
    + destruct (is_value_error e); exact H3.
  - cbn. destruct (is_value_error e); exact Hs.
Qed.

(** From a state with [ledgers_ok], [handleM3Input] returns normally: the
    only exception its [try] block can raise is the [ValueError] of
    [float()], which it catches. *)
Lemma normal_handleM3Input : only_raises ledgers_ok no_exc handleM3Input.
Proof.
  unfold handleM3Input. apply only_bind_get. intros s0 _.
  apply (only_try _ is_value_error); [step_tac; apply keeps_ledgers_updateDeliveryTable | | |].
  - destruct (String.eqb _ "") eqn:Ee; [apply only_ret|].
    destruct (py_float _) as [x|e] eqn:Ef.
    + apply only_bind; [apply keeps_modify; frame | apply only_modify|]. intros [].
      apply only_bind_get. intros s1 _.
      apply only_bind; [apply keeps_modify; frame | apply only_modify|]. intros [].
      apply only_bind; [apply keeps_ledgers_updateDeliveryTable | |].
      * apply (only_weaken _ no_exc); [discriminate | apply normal_updateDeliveryTable].
      * intros []. apply only_modify.
    + apply only_raise. rewrite (py_float_raise _ _ Ef). reflexivity.
  - intros e He Hc. rewrite He in Hc. discriminate.
  - intros e. apply only_modify.
Qed.

(** ** [saveDeliveryData] *)

Lemma keeps_ledgers_update_zone s0 :
  ledgers_ok s0 -> keeps ledgers_ok (update_zone (delivery_data s0)).
Proof.
  intros Hs0. destruct (zone_column_ok s0 Hs0) as [_ Hc].
  unfold update_zone. destruct (0 <? _)%Z; [|apply keeps_ret].
  apply (keeps_scan_rows _ DeliveryLedger _ _ days); [exact (ledgers_ok_rows DeliveryLedger)|].
  intros r Hr. unfold commit_row. step_tac. apply keeps_ledgers_set_cell; assumption.
Qed.

Lemma keeps_label_update_zone data : keeps label_ok (update_zone data).
Proof.
  unfold update_zone. destruct (0 <? _)%Z; [|apply keeps_ret].
  apply keeps_scan_rows_any. intros r. unfold commit_row. step_tac.
Qed.

Lemma keeps_ledgers_saveDeliveryData : keeps ledgers_ok saveDeliveryData.
Proof.
  unfold saveDeliveryData. apply keeps_try; [|intros e; apply keeps_modify; frame].
  apply keeps_bind_get. intros s0 Hs0. apply keeps_bind; [apply keeps_ledgers_update_zone; exact Hs0|].
  intros _. unfold commit_tail, append_delivery, reset_m3. step_tac.
Qed.

Lemma keeps_label_saveDeliveryData : keeps label_ok saveDeliveryData.
Proof.
  intros s Hs. destruct (update_zone (delivery_data s) s) as [s1 o] eqn:E.
  pose proof (keeps_label_update_zone (delivery_data s) s Hs) as H1. rewrite E in H1. cbn [fst] in H1.
  rewrite (saveDeliveryData_after s s1 o E).
  destruct o as [u|e]; [|exact H1].
  destruct (journal_ok s1) eqn:Ej.
  - rewrite (commit_tail_ok _ s1 Ej). reflexivity.
  - rewrite (commit_tail_fail _ s1 Ej). exact H1.
Qed.

Lemma normal_saveDeliveryData : only_raises ledgers_ok no_exc saveDeliveryData.
Proof.
  apply only_try_any; [|intros e; apply only_modify].
  apply keeps_bind_get. intros s0 Hs0. apply keeps_bind; [apply keeps_ledgers_update_zone; exact Hs0|].
  intros _. unfold commit_tail, append_delivery, reset_m3. step_tac.
Qed.

(** ** [saveWorkHours] *)

Lemma keeps_ledgers_work_body : keeps ledgers_ok
  (s <- get ;;
   let data := work_data s in
   scan_rows WorkLedger (wr_date data) (work_row (wr_start_time data) (wr_end_time data)) ;;;
   append_work data ;;;
   modify (add_message work_saved)).
Proof.
  apply keeps_bind_get. intros s0 Hs0. apply keeps_bind.
  - apply (keeps_scan_rows _ WorkLedger _ _ days); [exact (ledgers_ok_rows WorkLedger)|].
    intros r Hr. unfold work_row.
    step_tac; apply keeps_ledgers_set_cell; cbn [ledger_columns]; lia || assumption.
  - intros _. unfold append_work. step_tac.
Qed.

Lemma keeps_ledgers_saveWorkHours : keeps ledgers_ok saveWorkHours.
Proof.
  unfold saveWorkHours. apply keeps_try; [exact keeps_ledgers_work_body | intros e; apply keeps_modify; frame].
Qed.

Lemma keeps_label_saveWorkHours : keeps label_ok saveWorkHours.
Proof.
  unfold saveWorkHours, append_work. step_tac.
  apply keeps_scan_rows_any. intros r. unfold work_row. step_tac.
Qed.

Lemma normal_saveWorkHours : only_raises ledgers_ok no_exc saveWorkHours.
Proof. apply only_try_any; [exact keeps_ledgers_work_body | intros e; apply only_modify]. Qed.

(** ** The Excel handlers *)

Lemma keeps_ledgers_set_if l r c v :
  r < days -> 0 < c < ledger_columns l -> keeps ledgers_ok (set_if l r c v).
Proof.
  intros Hr Hc. unfold set_if. destruct v as [x|]; [|apply keeps_ret].
  destruct (truthy _); [apply keeps_ledgers_set_cell; assumption | apply keeps_ret].
Qed.

Lemma keeps_label_set_if l r c v : keeps label_ok (set_if l r c v).
Proof. unfold set_if. step_tac. Qed.

Lemma keeps_ledgers_loadWorkHoursRow date ws row : keeps ledgers_ok (loadWorkHoursRow date ws row).
Proof.
  unfold loadWorkHoursRow. apply (keeps_scan_rows _ WorkLedger _ _ days); [exact (ledgers_ok_rows WorkLedger)|].
  intros r Hr. step_tac; apply keeps_ledgers_set_if; cbn [ledger_columns]; lia.
Qed.

(** [for col in range(1, columnCount())] stays inside the ten columns. *)
Lemma keeps_ledgers_loadDeliveryRow date ws row : keeps ledgers_ok (loadDeliveryRow date ws row).
Proof.
  unfold loadDeliveryRow. apply keeps_bind_gets. intros s0 Hs0.
  destruct (ledgers_ok_table DeliveryLedger s0 Hs0) as [_ Hc]. cbn [table_of] in Hc. rewrite Hc.
  apply keeps_for. intros col Hcol. apply in_seq in Hcol. cbn [ledger_columns delivery_column_count] in Hcol.
  destruct (cells ws row (col + 1)) as [v|]; [|apply keeps_ret].
  apply (keeps_scan_rows _ DeliveryLedger _ _ days); [exact (ledgers_ok_rows DeliveryLedger)|].
  intros r Hr. apply keeps_ledgers_set_cell; [exact Hr | cbn [ledger_columns delivery_column_count]; lia].
Qed.

Lemma keeps_load_sheet (P : App T -> Prop) ws load :
  (forall date row, keeps P (load date ws row)) -> keeps P (load_sheet ws load).
Proof. intros Hl. unfold load_sheet. step_tac; apply Hl. Qed.

Lemma keeps_ledgers_load_body wb : keeps ledgers_ok
  ((match sheet_named wb "Munkaórák" with Some ws => load_sheet (T:=T) ws loadWorkHoursRow | None => ret tt end) ;;;
   (match sheet_named wb "Fuvar adatok" with Some ws => load_sheet (T:=T) ws loadDeliveryRow | None => ret tt end) ;;;
   modify (add_message excel_loaded)).
Proof.
  step_tac; apply keeps_load_sheet; intros;
    first [apply keeps_ledgers_loadWorkHoursRow | apply keeps_ledgers_loadDeliveryRow].
Qed.

Lemma keeps_ledgers_loadDataFromExcel wb : keeps ledgers_ok (loadDataFromExcel wb).
Proof. apply keeps_try; [apply keeps_ledgers_load_body | intros e; apply keeps_modify; frame]. Qed.

Lemma keeps_label_loadDataFromExcel wb : keeps label_ok (loadDataFromExcel wb).
Proof.
  unfold loadDataFromExcel. step_tac; apply keeps_load_sheet; intros date row.
  - unfold loadWorkHoursRow. apply keeps_scan_rows_any. intros r. step_tac; apply keeps_label_set_if.
  - unfold loadDeliveryRow. step_tac. apply keeps_scan_rows_any. intros r. apply keeps_label_set_cell.
Qed.

Lemma normal_loadDataFromExcel wb : only_raises ledgers_ok no_exc (loadDataFromExcel wb).
Proof. apply only_try_any; [apply keeps_ledgers_load_body | intros e; apply only_modify]. Qed.

Lemma keeps_openExcel (P : App T -> Prop) choice :
  (forall e, keeps P (modify (add_message (open_error e)))) -> (forall wb, keeps P (loadDataFromExcel wb)) ->
  keeps P (openExcel choice).
Proof. intros Hm Hl. unfold openExcel. destruct choice as [[wb|e]|]; auto using keeps_ret. Qed.

Lemma normal_openExcel choice : only_raises ledgers_ok no_exc (openExcel choice).
Proof.
  unfold openExcel. destruct choice as [[wb|e]|]; [apply normal_loadDataFromExcel | apply only_modify | apply only_ret].
Qed.

End Invariants.
