(* ===== verification/Window.v ===== *)
(** * The program as a state machine: the main window and its events

    A run of [src/main.py] is a sequence of user events on one window
    ([app.exec()], main.py:934-937): each event runs one handler to
    completion.  The window state [Window] is the state of [FuvarAdminApp]
    ([App qtable], Ledger.v), the reference store in [fuvarok.db] and
    whether the window is open.  [Event] lists what the user can do: edit
    the form widgets, press Enter in the m3 field (main.py:228), click the
    buttons of [setupButtons] (main.py:427-445), choose the menu actions of
    [MenuBar] (main.py:20-35), or start the program again after closing it
    ([__init__], main.py:38-41); [JournalWritable] is the one event of the
    environment: the JSON journals becoming writable or not.  [ui_run] runs
    the handler an event triggers and [reachable] is the set of windows a
    run can reach, an inductive relation whose induction principle proves
    the invariants.

    The theorems: every reachable window has a store with positive,
    strictly increasing ids in each table and an m3 label that shows the m3
    values; as long as the last distance band is never chosen, both ledgers
    stay the dated ledgers of the month the program was started in, and no
    handler lets an exception escape. *)

From Stdlib Require Import String List ZArith Lia Bool.
From S2P Require Import Prelude PyStr PyFloat QtTable QtDate Zone Ledger Volume Delivery WorkHours.
From S2P Require Import RefStore Excel HandlerInvariants.
Import ListNotations ZoneResolver.
Local Open Scope string_scope.

(** ** State and events *)

Record Window := mkWindow { win_app : App qtable; win_store : Store; win_open : bool }.

Inductive Event :=
| PickDate (d : QDate)
| PickTimes (start stop : QTime)
| PickType (k : nat)
| PickBand (k : nat)
| PickFactory (k : nat)
| TypeAddress (v : string)
| TypeDeliveryNumber (v : string)
| TypeM3 (v : string)
| PressEnterM3
| ClickSaveWork
| ClickSaveDelivery
| ClickExport (save_ok : bool)
| MenuOpenExcel (choice : option (outcome Workbook))
| MenuSave (save_ok : bool)
| MenuPrint
| MenuDatabase (acts : list DialogAction)
| ClickQuit
| JournalWritable (b : bool)
| Launch (today : QDate).

(** The form edits the widgets make on their own. *)
Definition edit_form (g : Form -> Form) (s : App qtable) : App qtable := set_form (g (form s)) s.

Definition with_type (k : nat) (f : Form) : Form :=
  mkForm (date_edit f) (start_time f) (end_time f) k (km_index f) (factory_items f)
         (factory_index f) (address_input f) (delivery_input f) (m3_input f) (m3_sum f).

Definition with_factory (k : nat) (f : Form) : Form :=
  mkForm (date_edit f) (start_time f) (end_time f) (type_index f) (km_index f) (factory_items f)
         k (address_input f) (delivery_input f) (m3_input f) (m3_sum f).

Definition with_address (v : string) (f : Form) : Form :=
  mkForm (date_edit f) (start_time f) (end_time f) (type_index f) (km_index f) (factory_items f)
         (factory_index f) v (delivery_input f) (m3_input f) (m3_sum f).

Definition with_delivery_number (v : string) (f : Form) : Form :=
  mkForm (date_edit f) (start_time f) (end_time f) (type_index f) (km_index f) (factory_items f)
         (factory_index f) (address_input f) v (m3_input f) (m3_sum f).

(** [FuvarAdminApp()]: [initDatabase], then the widgets with the factory
    combo box filled from the store and the ledgers of the current month. *)
Definition launch (today : QDate) (st : Store) : Window :=
  let st' := initDatabase st in
  mkWindow (init_app today (loadFactories_main st')) st' true.

(** [printData] opens a print dialog and prints nothing (a TODO). *)
Definition printData (w : Window) : Window := w.

(** What the widgets let the user enter: a date of the calendar, times of
    the day, an entry of each combo box; every event but [Launch] needs an
    open window, and [Launch] a closed one. *)
Definition event_ok (w : Window) (e : Event) : bool :=
  match e with
  | Launch today => negb (win_open w) && valid_date today
  | PickDate d => win_open w && valid_date d
  | PickTimes st et => win_open w && valid_time st && valid_time et
  | PickType k => win_open w && Nat.ltb k (length type_items)
  | PickBand k => win_open w && Nat.ltb k (length km_items)
  | PickFactory k => win_open w && Nat.ltb k (length (factory_items (form (win_app w))))
  | _ => win_open w
  end.

Definition on_app (w : Window) (r : App qtable * outcome unit) : Window * outcome unit :=
  (mkWindow (fst r) (win_store w) (win_open w), snd r).

(** The handler each event triggers, with its outcome. *)
Definition ui_run (w : Window) (e : Event) : Window * outcome unit :=
  let s := win_app w in
  match e with
  | PickDate d => on_app w (set_date_edit d s, Ok tt)
  | PickTimes st et => on_app w (set_times st et s, Ok tt)
  | PickType k => on_app w (edit_form (with_type k) s, Ok tt)
  | PickBand k => on_app w (set_km_index k s, Ok tt)
  | PickFactory k => on_app w (edit_form (with_factory k) s, Ok tt)
  | TypeAddress v => on_app w (edit_form (with_address v) s, Ok tt)
  | TypeDeliveryNumber v => on_app w (edit_form (with_delivery_number v) s, Ok tt)
  | TypeM3 v => on_app w (set_m3_input v s, Ok tt)
  | PressEnterM3 => on_app w (handleM3Input s)
  | ClickSaveWork => on_app w (saveWorkHours s)
  | ClickSaveDelivery => on_app w (saveDeliveryData s)
  | ClickExport ok => on_app w (fst (exportToExcel ok s), Ok tt)
  | MenuOpenExcel choice => on_app w (openExcel choice s)
  | MenuSave ok => on_app w (fst (saveToExcel ok s), Ok tt)
  | MenuPrint => (printData w, Ok tt)
  | MenuDatabase acts =>
      let r := openDatabaseManager acts (factory_items (form s)) (win_store w) in
      (mkWindow s (snd r) (win_open w), Ok tt)
  | ClickQuit => (mkWindow s (win_store w) false, Ok tt)
  | JournalWritable b => on_app w (set_journal_ok b s, Ok tt)
  | Launch today => (launch today (win_store w), Ok tt)
  end.

Definition ui_step (w : Window) (e : Event) : Window := fst (ui_run w e).

(** The windows a run reaches from a first start on a store that keeps the
    id invariant, through events that [allowed] admits. *)
Inductive reachable (allowed : Event -> Prop) : Window -> Prop :=
| reach_launch today st :
    valid_date today = true -> store_ok st -> reachable allowed (launch today st)
| reach_event w e :
    reachable allowed w -> event_ok w e = true -> allowed e -> reachable allowed (ui_step w e).

(** Every event except choosing the last distance band. *)
Definition below_last_band (e : Event) : Prop :=
  match e with PickBand k => k < 9 | _ => True end.

(** A sequence of events, each one admitted by the widgets in the window
    the previous ones left. *)
Fixpoint run_events (es : list Event) (w : Window) : Window :=
  match es with [] => w | e :: es' => run_events es' (ui_step w e) end.

Fixpoint events_ok (w : Window) (es : list Event) : bool :=
  match es with [] => true | e :: es' => event_ok w e && events_ok (ui_step w e) es' end.

(** The first day of a month of year [y] other than [m]. *)
Definition other_month (y m : Z) : QDate := mkDate y (if (m =? 1)%Z then 2 else 1) 1.

(** ** The start of the program *)

Section Launch.

(** [setupTableRows] touches the tables only, and keeps their columns. *)
Lemma keeps_setupTableRows (P : App qtable -> Prop) today :
  (forall l t s, P s -> columnCount t = columnCount (table_of l s) -> P (set_table l t s)) ->
  keeps P (setupTableRows today).
Proof.
  intros HP. unfold setupTableRows. cbn [py_for]. unfold setup_ledger, set_cell.
  keeps_tac; apply keeps_modify; intros s Hs; apply HP; try exact Hs;
    rewrite ?columnCount_setItem, ?columnCount_insertRow, ?columnCount_clearRows; reflexivity.
Qed.

Lemma launch_label_ok today st : label_ok (win_app (launch today st)).
Proof.
  cbn [launch win_app]. unfold init_app. apply keeps_setupTableRows; [|reflexivity].
  intros l t s Hs _. destruct l; exact Hs.
Qed.

Lemma launch_columns today st :
  columnCount (work_table (win_app (launch today st))) = 7 /\
  columnCount (delivery_table (win_app (launch today st))) = delivery_column_count.
Proof.
  cbn [launch win_app]. unfold init_app.
  apply (keeps_setupTableRows (fun s => columnCount (work_table s) = 7 /\
                                        columnCount (delivery_table s) = delivery_column_count));
    [|split; reflexivity].
  intros [] t s [Hw Hd] Ht; cbn in *; split; congruence.
Qed.

(** A new window holds the dated ledgers of the month it was started in. *)
Lemma launch_ledgers_ok today st :
  ledgers_ok (qd_year today) (qd_month today) (win_app (launch today st)).
Proof.
  destruct (init_app_fresh today (loadFactories_main (initDatabase st))) as [Hw Hd].
  destruct (launch_columns today st) as [Hwc Hdc].
  split; [apply (fresh_dated WorkLedger); exact Hw|]. split; [exact Hwc|].
  split; [apply (fresh_dated DeliveryLedger); exact Hd|]. split; [exact Hdc|].
  cbn. unfold init_app. apply keeps_setupTableRows; [|cbn; lia].
  intros l t s Hs _. destruct l; exact Hs.
Qed.
End Launch.

(** ** One event *)

Section Step.

Lemma store_ok_step w e : store_ok (win_store w) -> store_ok (win_store (ui_step w e)).
Proof.
  intros Hok. destruct e; try exact Hok.
  - cbn [ui_step ui_run fst snd win_store openDatabaseManager].
    apply run_dialog_ok. rewrite dstore_open_dialog. exact Hok.
  - cbn [ui_step ui_run fst win_store launch]. apply initDatabase_ok. exact Hok.
Qed.

Lemma label_ok_step w e : label_ok (win_app w) -> label_ok (win_app (ui_step w e)).
Proof.
  intros Hl. destruct e; cbn [ui_step ui_run on_app fst win_app printData]; try exact Hl.
  - apply keeps_label_handleM3Input; exact Hl.
  - apply keeps_label_saveWorkHours; exact Hl.
  - apply keeps_label_saveDeliveryData; exact Hl.
  - destruct save_ok; exact Hl.
  - revert Hl. apply keeps_openExcel; [intros e; apply keeps_modify; intros s Hs; exact Hs |].
    apply keeps_label_loadDataFromExcel.
  - destruct save_ok; exact Hl.
  - apply launch_label_ok.
Qed.

(** Every event but a new start keeps the ledgers of the month; choosing a
    band keeps them when it is not the last band. *)
Lemma ledgers_ok_step y m w e :
  ledgers_ok y m (win_app w) -> below_last_band e -> (forall d, e <> Launch d) ->
  ledgers_ok y m (win_app (ui_step w e)).
Proof.
  intros Hl Hb Hn. destruct e; cbn [ui_step ui_run on_app fst win_app printData]; try exact Hl.
  - destruct Hl as (H1 & H2 & H3 & H4 & _). cbn [below_last_band] in Hb.
    exact (conj H1 (conj H2 (conj H3 (conj H4 Hb)))).
  - apply keeps_ledgers_handleM3Input; exact Hl.
  - apply keeps_ledgers_saveWorkHours; exact Hl.
  - apply keeps_ledgers_saveDeliveryData; exact Hl.
  - destruct save_ok; exact Hl.
  - revert Hl. apply keeps_openExcel; [intros e; apply keeps_modify; intros s Hs; exact Hs |].
    apply keeps_ledgers_loadDataFromExcel.
  - destruct save_ok; exact Hl.
  - exfalso. exact (Hn today eq_refl).
Qed.

(** From a window with the ledgers of a month, no event lets an exception
    escape its handler. *)
Lemma ui_run_normal y m w e : ledgers_ok y m (win_app w) -> snd (ui_run w e) = Ok tt.
Proof.
  intros Hl. destruct e; cbn [ui_run on_app snd]; try reflexivity.
  - exact (only_no_exc _ _ _ (normal_handleM3Input y m) Hl).
  - exact (only_no_exc _ _ _ (normal_saveWorkHours y m) Hl).
  - exact (only_no_exc _ _ _ (normal_saveDeliveryData y m) Hl).
  - exact (only_no_exc _ _ _ (normal_openExcel y m choice) Hl).
Qed.
End Step.

(** ** Every reachable window *)

Section Reachable.

(** The invariant of the month, carried along a run without the last band. *)
Lemma launch_month today : valid_date today = true -> (1 <= qd_month today <= 12)%Z.
Proof. unfold valid_date. intros H. repeat (apply andb_prop in H as [H ?]). lia. Qed.

Lemma reachable_ledgers w :
  reachable below_last_band w -> exists y m, (1 <= m <= 12)%Z /\ ledgers_ok y m (win_app w).
Proof.
  induction 1 as [today st Hd Hst | w e Hr IH Hok Hb].
  - exists (qd_year today), (qd_month today). split; [exact (launch_month today Hd) | apply launch_ledgers_ok].
  - destruct e;
      try (destruct IH as (y & m & Hm & Hl); exists y, m; split; [exact Hm|];
           apply ledgers_ok_step; [exact Hl | exact Hb | discriminate]).
    exists (qd_year today), (qd_month today). split; [|apply launch_ledgers_ok].
    apply launch_month. cbn [event_ok] in Hok. apply andb_prop in Hok as [_ Hok]. exact Hok.
Qed.

(** C14: in every window a run reaches, whatever the user does, each table
    of the reference store has positive, strictly increasing ids, and the
    m3 label shows the m3 values: ["(0)"] when there are none, their
    summary otherwise. *)
Theorem reachable_store_label (allowed : Event -> Prop) w :
  reachable allowed w -> store_ok (win_store w) /\ label_ok (win_app w).
Proof.
  induction 1 as [today st Hd Hst | w e Hr [IHs IHl] Hok Ha].
  - split; [apply initDatabase_ok; exact Hst | apply launch_label_ok].
  - split; [apply store_ok_step; exact IHs | apply label_ok_step; exact IHl].
Qed.

(** C11: as long as the last distance band is never chosen, both ledgers of
    every reachable window are the dated ledgers of the month the program
    was last started in: one row per day, each holding its date in column
    0, with 7 and 10 columns. *)
Theorem reachable_ledgers_dated w :
  reachable below_last_band w ->
  exists y m, dated_ledger (work_table (win_app w)) y m /\ dated_ledger (delivery_table (win_app w)) y m /\
              columnCount (work_table (win_app w)) = 7 /\
              columnCount (delivery_table (win_app w)) = delivery_column_count.
Proof.
  intros Hr. destruct (reachable_ledgers w Hr) as (y & m & _ & Hw & Hwc & Hd & Hdc & _).
  exists y, m. exact (conj Hw (conj Hd (conj Hwc Hdc))).
Qed.

(** C12: as long as the last distance band is never chosen, no event of a
    reachable window lets an exception escape its handler: each one
    returns normally, [handleM3Input] included, whose [except ValueError]
    would let the [AttributeError] of a row without a date item through. *)
Theorem reachable_handlers_return w e :
  reachable below_last_band w -> snd (ui_run w e) = Ok tt.
Proof.
  intros Hr. destruct (reachable_ledgers w Hr) as (y & m & _ & Hl). exact (ui_run_normal y m w e Hl).
Qed.
(** A date of another month than the ledgers' matches no row. *)
Lemma other_month_no_row y m (t : qtable) :
  (1 <= m <= 12)%Z -> dated_ledger t y m ->
  forall i, i < rowCount t -> date_text (mkDate y m (1 + Z.of_nat i)) <> date_text (other_month y m).
Proof.
  intros Hm _ i _ E. unfold other_month in E.
  apply date_text_month_inj in E; [|lia | destruct (Z.eqb_spec m 1); lia | lia | lia].
  destruct (Z.eqb_spec m 1); lia.
Qed.

Lemma other_month_valid y m : valid_date (other_month y m) = true.
Proof.
  unfold other_month, valid_date; cbn [qd_year qd_month qd_day].
  pose proof (days_in_month_range y (if (m =? 1)%Z then 2 else 1)) as Hd.
  destruct (m =? 1)%Z; apply andb_true_intro; split; try (apply Z.leb_le; lia);
    repeat (apply andb_true_intro; split); apply Z.leb_le; lia.
Qed.

(** C13: from every reachable window that is open, with a writable journal
    and without the last band chosen so far, the user can always commit the
    m3 values typed so far: choosing a date of another month and saving
    journals a trip with exactly those values and clears them, whatever the
    ledger cells hold. *)
Theorem m3_values_can_be_committed w :
  reachable below_last_band w -> win_open w = true -> journal_ok (win_app w) = true ->
  exists es, Forall below_last_band es /\ events_ok w es = true /\
    exists r, delivery_log (win_app (run_events es w)) = (delivery_log (win_app w) ++ [r])%list /\
              dr_m3_values r = values_or_empty (win_app w) /\
              m3_values (win_app (run_events es w)) = Some [] /\
              m3_sum (form (win_app (run_events es w))) = "(0)".
Proof.
  intros Hr Ho Hj. destruct (reachable_ledgers w Hr) as (y & m & Hm & _ & _ & Hd & _).
  set (s1 := set_date_edit (other_month y m) (win_app w)).
  exists [PickDate (other_month y m); ClickSaveDelivery].
  split; [repeat constructor|]. split.
  { cbn [events_ok event_ok ui_step ui_run on_app fst win_open]. rewrite Ho, other_month_valid. reflexivity. }
  cbn [run_events ui_step ui_run on_app fst win_app].
  fold s1. rewrite (saveDeliveryData_after s1 s1 (Ok tt))
    by (apply (update_zone_absent s1 y m Hd), (other_month_no_row y m _ Hm Hd)).
  rewrite (commit_tail_ok _ s1 Hj). exists (delivery_data s1). repeat split.
Qed.
End Reachable.

(** ** Witnesses *)

Definition start_nov5 : Window := launch nov5 empty_store.

Lemma start_nov5_reachable (allowed : Event -> Prop) : reachable allowed start_nov5.
Proof. apply reach_launch; [reflexivity | repeat split; constructor]. Qed.

(** Typing ["5"] and pressing Enter, on a window of 5 November 2024. *)
Definition typed_nov5 : Window := ui_step (ui_step start_nov5 (TypeM3 "5")) PressEnterM3.

Lemma typed_nov5_reachable : reachable below_last_band typed_nov5.
Proof.
  apply reach_event; [apply reach_event; [apply start_nov5_reachable | reflexivity | exact I] | reflexivity | exact I].
Qed.

Lemma reachable_store_label_witness :
  reachable (fun _ => True) start_nov5 /\ store_ok (win_store start_nov5) /\ label_ok (win_app start_nov5).
Proof.
  split; [apply start_nov5_reachable|]. apply (reachable_store_label (fun _ => True)). apply start_nov5_reachable.
Defined.

Lemma reachable_ledgers_dated_witness :
  reachable below_last_band typed_nov5 /\
  exists y m, dated_ledger (work_table (win_app typed_nov5)) y m /\
              dated_ledger (delivery_table (win_app typed_nov5)) y m /\
              columnCount (work_table (win_app typed_nov5)) = 7 /\
              columnCount (delivery_table (win_app typed_nov5)) = delivery_column_count.
Proof. split; [exact typed_nov5_reachable | apply reachable_ledgers_dated; exact typed_nov5_reachable]. Defined.

Lemma m3_values_can_be_committed_witness :
  reachable below_last_band typed_nov5 /\ win_open typed_nov5 = true /\ journal_ok (win_app typed_nov5) = true /\
  exists es, Forall below_last_band es /\ events_ok typed_nov5 es = true /\
    exists r, delivery_log (win_app (run_events es typed_nov5)) = (delivery_log (win_app typed_nov5) ++ [r])%list /\
              dr_m3_values r = values_or_empty (win_app typed_nov5) /\
              m3_values (win_app (run_events es typed_nov5)) = Some [] /\
              m3_sum (form (win_app (run_events es typed_nov5))) = "(0)".
Proof.
  split; [exact typed_nov5_reachable|]. split; [reflexivity|]. split; [reflexivity|].
  apply m3_values_can_be_committed; [exact typed_nov5_reachable | reflexivity | reflexivity].
Defined.

Lemma reachable_handlers_return_witness :
  reachable below_last_band typed_nov5 /\ snd (ui_run typed_nov5 ClickSaveDelivery) = Ok tt.
Proof. split; [exact typed_nov5_reachable | apply reachable_handlers_return; exact typed_nov5_reachable]. Defined.
