(* ===== verification/QtWidgets.v ===== *)
(** * The Qt objects [initUI] builds, and the attributes of a Python object

    The window is built by calls on Qt objects ([QFrame], [QLabel],
    [QLineEdit], [QDateEdit], [QTimeEdit], [QComboBox], [QTableWidget],
    [QPushButton], [QMenuBar]) and on layouts ([QHBoxLayout],
    [QVBoxLayout]).  A Python variable or attribute holding such an object
    holds a reference: here an object is its index in the store [Ui], and
    every variable, attribute or layout entry that refers to it holds that
    index, so a change made through one of them is seen through all.

    - [Dict]: a Python dict with string keys, [dict_get] its [d[k]] (a
      later key of a literal overrides an earlier one); the attributes of
      the window ([self.x]) are such a dict, and reading a missing one
      raises [AttributeError] ([get_attr]).
    - [Kind]: the class of an object with the state its methods read and
      write; [QWidget_] the state every widget has (style sheet, fixed
      width, layout); [TableView] a table widget: its cells (the [qtable]
      of QtTable.v), its horizontal header items, section widths and
      header view.
    - [call w m]: [w.m(...)], where [m] returns [None] when the object has
      no such method: Python raises [AttributeError].
    - The layout operations append to the layout's entries and
      [setLayout] installs a layout on a widget; Layout.v proves that the
      window never adds an object to two places, so Qt's reparenting rules
      are never exercised and are not modelled. *)

From Stdlib Require Import String List ZArith Lia Bool.
From S2P Require Import Prelude QtTable QtDate.
Import ListNotations.
Local Open Scope py_scope.
Local Open Scope string_scope.
Local Open Scope list_scope.

(** ** Dicts and attributes *)

Definition Dict (V : Type) : Type := list (string * V).

(** [d[k]]: the last binding of [k]. *)
Fixpoint dict_get {V} (d : Dict V) (k : string) : option V :=
  match d with
  | [] => None
  | (k', v) :: d' =>
      match dict_get d' k with
      | Some v' => Some v'
      | None => if String.eqb k' k then Some v else None
      end
  end.

(** [d[k] = v] *)
Definition dict_set {V} (d : Dict V) (k : string) (v : V) : Dict V := d ++ [(k, v)].

(** [xs[i] = x] on an index of the list; an index past the end changes
    nothing (Qt ignores a column or item index out of range). *)
Fixpoint list_set {A} (xs : list A) (i : nat) (x : A) : list A :=
  match xs, i with
  | [], _ => []
  | _ :: xs', O => x :: xs'
  | y :: xs', S i' => y :: list_set xs' i' x
  end.

(** The first [n] entries, padded with [x]. *)
Definition resize {A} (n : nat) (x : A) (xs : list A) : list A :=
  firstn n xs ++ repeat x (n - length xs).

(** ** Objects *)

(** The bound methods the window connects to signals. *)
Inductive Slot :=
| SlotOpenExcel | SlotSaveToExcel | SlotPrintData | SlotClose | SlotOpenDatabaseManager
| SlotHandleM3Input | SlotSaveWorkHours | SlotSaveDeliveryData | SlotExportToExcel.

Scheme Equality for Slot.

(** [QHBoxLayout] and [QVBoxLayout] *)
Inductive Orientation := Horizontal | Vertical.

Inductive LayoutItem :=
| WidgetItem (w : nat)
| LayoutChild (l : nat)
| Stretch.

Record QLayout := mkLayout {
  lay_orientation : Orientation;
  lay_items : list LayoutItem;
  lay_spacing : option nat;
  lay_margins : option (nat * nat * nat * nat) }.

(** A [QTableWidgetItem] of the horizontal header: its text and whether
    [setTextAlignment(Qt.AlignCenter)] was called on it. *)
Record HeaderItem := mkHeaderItem { hi_text : string; hi_centered : bool }.

(** The [QHeaderView] of [horizontalHeader()]. *)
Record QHeader := mkHeader {
  hd_visible : bool;
  hd_min_height : nat;
  hd_max_height : option nat;
  hd_centered : bool;
  hd_style : string }.

(** A [QTableWidget]: the cells, one header item slot and one section width
    per column, and the header view. *)
Record TableView := mkTableView {
  tv_cells : qtable;
  tv_header_items : list (option HeaderItem);
  tv_widths : list nat;
  tv_header : QHeader }.

(** A [QMenu] of the menu bar: its title and its actions, each with the
    slots its [triggered] signal is connected to. *)
Record Menu := mkMenu { menu_title : string; menu_actions : list (string * list Slot) }.

Inductive Kind :=
| KWidget
| KFrame
| KMenuBar (menus : list Menu)
| KLabel (text : string)
| KLineEdit (text : string) (return_pressed : list Slot)
| KDateEdit (date : QDate) (calendar_popup : bool)
| KTimeEdit (time : QTime) (no_buttons : bool)
| KComboBox (items : list string) (current : Z)
| KTable (tv : TableView)
| KButton (text : string) (clicked : list Slot).

Record QWidget_ := mkWidget {
  w_kind : Kind;
  w_style : string;
  w_fixed_width : option nat;
  w_layout : option nat }.

(** The objects, the layouts, the attributes of the [QMainWindow] and the
    window's own state. *)
Record Ui := mkUi {
  ui_title : string;
  ui_widgets : list QWidget_;
  ui_layouts : list QLayout;
  ui_attrs : Dict nat;
  ui_styles : option (Dict string);
  ui_central : option nat;
  ui_menu_bar : option nat;
  ui_maximized : bool }.

(** [super().__init__()]: a window with no child yet. *)
Definition empty_ui : Ui := mkUi "" [] [] [] None None None false.

Definition set_widgets (ws : list QWidget_) (s : Ui) : Ui :=
  mkUi (ui_title s) ws (ui_layouts s) (ui_attrs s) (ui_styles s) (ui_central s) (ui_menu_bar s) (ui_maximized s).
Definition set_layouts (ls : list QLayout) (s : Ui) : Ui :=
  mkUi (ui_title s) (ui_widgets s) ls (ui_attrs s) (ui_styles s) (ui_central s) (ui_menu_bar s) (ui_maximized s).
Definition set_attrs (a : Dict nat) (s : Ui) : Ui :=
  mkUi (ui_title s) (ui_widgets s) (ui_layouts s) a (ui_styles s) (ui_central s) (ui_menu_bar s) (ui_maximized s).

(** ** Creating objects and reading attributes *)

(** [QFrame()], [QLabel(text)], ...: a new object with an empty style
    sheet, no fixed width and no layout. *)
Definition new_widget (k : Kind) : Py Ui nat :=
  fun s => (set_widgets (ui_widgets s ++ [mkWidget k "" None None]) s, Ok (length (ui_widgets s))).

Definition new_layout (o : Orientation) : Py Ui nat :=
  fun s => (set_layouts (ui_layouts s ++ [mkLayout o [] None None]) s, Ok (length (ui_layouts s))).

(** [self.name = obj] *)
Definition set_attr (name : string) (w : nat) : Py Ui unit :=
  modify (fun s => set_attrs (dict_set (ui_attrs s) name w) s).

(** [self.name] *)
Definition get_attr (name : string) : Py Ui nat :=
  fun s => match dict_get (ui_attrs s) name with
           | Some w => (s, Ok w)
           | None => (s, Raise AttributeError)
           end.

(** [self.styles[key]]: [AttributeError] before [setupStyles], [KeyError]
    for a key the dict does not have. *)
Definition style (key : string) : Py Ui string :=
  fun s => match ui_styles s with
           | None => (s, Raise AttributeError)
           | Some d => match dict_get d key with
                       | Some v => (s, Ok v)
                       | None => (s, Raise (KeyError key))
                       end
           end.

(** ** Method calls *)

(** [w.m(...)]: [m] gives the object after the call, or [None] when its
    class has no such method. *)
Definition call (w : nat) (m : QWidget_ -> option QWidget_) : Py Ui unit :=
  fun s => match nth_error (ui_widgets s) w with
           | Some x => match m x with
                       | Some x' => (set_widgets (list_set (ui_widgets s) w x') s, Ok tt)
                       | None => (s, Raise AttributeError)
                       end
           | None => (s, Raise AttributeError)
           end.

Definition with_kind (k : Kind) (x : QWidget_) : QWidget_ :=
  mkWidget k (w_style x) (w_fixed_width x) (w_layout x).

(** The methods of every widget. *)
Definition setStyleSheet (css : string) (x : QWidget_) : option QWidget_ :=
  Some (mkWidget (w_kind x) css (w_fixed_width x) (w_layout x)).

Definition setFixedWidth (n : nat) (x : QWidget_) : option QWidget_ :=
  Some (mkWidget (w_kind x) (w_style x) (Some n) (w_layout x)).

(** [QWidget.setLayout]: Qt ignores the call on a widget that has one. *)
Definition setLayout (l : nat) (x : QWidget_) : option QWidget_ :=
  match w_layout x with
  | None => Some (mkWidget (w_kind x) (w_style x) (w_fixed_width x) (Some l))
  | Some _ => Some x
  end.

(** The methods of one class, on its state. *)
Definition method (f : Kind -> option Kind) (x : QWidget_) : option QWidget_ :=
  match f (w_kind x) with Some k => Some (with_kind k x) | None => None end.

Definition setDate (d : QDate) : Kind -> option Kind :=
  fun k => match k with KDateEdit _ p => Some (KDateEdit d p) | _ => None end.

Definition setCalendarPopup (b : bool) : Kind -> option Kind :=
  fun k => match k with KDateEdit d _ => Some (KDateEdit d b) | _ => None end.

(** [setButtonSymbols(QTimeEdit.NoButtons)] *)
Definition setNoButtons : Kind -> option Kind :=
  fun k => match k with KTimeEdit t _ => Some (KTimeEdit t true) | _ => None end.

(** [QComboBox.addItems]: an empty combo box has current index -1 and the
    first item added becomes current. *)
Definition addItems (xs : list string) : Kind -> option Kind :=
  fun k => match k with
           | KComboBox items cur =>
               Some (KComboBox (items ++ xs)
                               (if (cur =? -1)%Z then match xs with [] => cur | _ => 0%Z end else cur))
           | _ => None
           end.

Definition clear : Kind -> option Kind :=
  fun k => match k with KComboBox _ _ => Some (KComboBox [] (-1)) | _ => None end.

(** [returnPressed.connect(slot)] and [clicked.connect(slot)] *)
Definition returnPressed_connect (sl : Slot) : Kind -> option Kind :=
  fun k => match k with KLineEdit t sls => Some (KLineEdit t (sls ++ [sl])) | _ => None end.

Definition clicked_connect (sl : Slot) : Kind -> option Kind :=
  fun k => match k with KButton t sls => Some (KButton t (sls ++ [sl])) | _ => None end.

(** ** Table widgets *)

(** A new [QTableWidget()]: no row, no column; Qt shows the horizontal
    header, centres its sections and sizes them 100 pixels wide. *)
Definition default_section_size : nat := 100.
Definition new_header : QHeader := mkHeader true 0 None true "".
Definition new_table_view : TableView := mkTableView (empty_qtable 0) [] [] new_header.

Definition table (f : TableView -> TableView) : Kind -> option Kind :=
  fun k => match k with KTable tv => Some (KTable (f tv)) | _ => None end.

(** [setColumnCount(n)]: the cells of the first [n] columns are kept, the
    header item slots and the section widths are cut or padded to [n]. *)
Definition q_setColumnCount (n : nat) (t : qtable) : qtable :=
  {| q_cols := n; q_rows := q_rows t;
     q_items := flat_map (fun r => map (fun c => q_item t r c) (seq 0 n)) (seq 0 (q_rows t)) |}.

Definition setColumnCount (n : nat) (tv : TableView) : TableView :=
  mkTableView (q_setColumnCount n (tv_cells tv)) (resize n None (tv_header_items tv))
              (resize n default_section_size (tv_widths tv)) (tv_header tv).

(** [setHorizontalHeaderItem(i, item)]: ignored past the last column. *)
Definition setHorizontalHeaderItem (i : nat) (it : HeaderItem) (tv : TableView) : TableView :=
  mkTableView (tv_cells tv) (list_set (tv_header_items tv) i (Some it)) (tv_widths tv) (tv_header tv).

(** [setColumnWidth(i, w)]: ignored past the last column. *)
Definition setColumnWidth (i w : nat) (tv : TableView) : TableView :=
  mkTableView (tv_cells tv) (tv_header_items tv) (list_set (tv_widths tv) i w) (tv_header tv).

(** [setHorizontalHeaderLabels(labels)]: for each column that has a label,
    the text of its header item, which is created when missing. *)
Definition set_header_label (hs : list (option HeaderItem)) (il : nat * string) : list (option HeaderItem) :=
  match nth_error hs (fst il) with
  | Some (Some it) => list_set hs (fst il) (Some (mkHeaderItem (snd il) (hi_centered it)))
  | Some None => list_set hs (fst il) (Some (mkHeaderItem (snd il) false))
  | None => hs
  end.

Definition setHorizontalHeaderLabels (labels : list string) (tv : TableView) : TableView :=
  mkTableView (tv_cells tv) (fold_left set_header_label (combine (seq 0 (length labels)) labels) (tv_header_items tv))
              (tv_widths tv) (tv_header tv).

(** The header view's methods: [setVisible], [setMinimumHeight],
    [setFixedHeight] (minimum and maximum), [setDefaultAlignment(Qt.AlignCenter)],
    [setStyleSheet]. *)
Definition header (f : QHeader -> QHeader) (tv : TableView) : TableView :=
  mkTableView (tv_cells tv) (tv_header_items tv) (tv_widths tv) (f (tv_header tv)).

Definition hd_setVisible (b : bool) (h : QHeader) : QHeader :=
  mkHeader b (hd_min_height h) (hd_max_height h) (hd_centered h) (hd_style h).
Definition hd_setMinimumHeight (n : nat) (h : QHeader) : QHeader :=
  mkHeader (hd_visible h) n (hd_max_height h) (hd_centered h) (hd_style h).
Definition hd_setFixedHeight (n : nat) (h : QHeader) : QHeader :=
  mkHeader (hd_visible h) n (Some n) (hd_centered h) (hd_style h).
Definition hd_setDefaultAlignment_center (h : QHeader) : QHeader :=
  mkHeader (hd_visible h) (hd_min_height h) (hd_max_height h) true (hd_style h).
Definition hd_setStyleSheet (css : string) (h : QHeader) : QHeader :=
  mkHeader (hd_visible h) (hd_min_height h) (hd_max_height h) (hd_centered h) css.

(** ** The menu bar *)

(** The menus of a menu bar. *)
Definition menus_of (mb : nat) : Py Ui (list Menu) :=
  fun s => match nth_error (ui_widgets s) mb with
           | Some x => match w_kind x with
                       | KMenuBar ms => (s, Ok ms)
                       | _ => (s, Raise AttributeError)
                       end
           | None => (s, Raise AttributeError)
           end.

Definition push_menu (title : string) : Kind -> option Kind :=
  fun k => match k with KMenuBar ms => Some (KMenuBar (ms ++ [mkMenu title []])) | _ => None end.

(** [menubar.addMenu(title)]: the index of the new menu. *)
Definition addMenu (mb : nat) (title : string) : Py Ui nat :=
  ms <- menus_of mb ;;
  call mb (method (push_menu title)) ;;;
  ret (length ms).

Definition menu_add_action (text : string) (m : Menu) : Menu :=
  mkMenu (menu_title m) (menu_actions m ++ [(text, [])]).

Definition action_connect (a : nat) (sl : Slot) (m : Menu) : Menu :=
  mkMenu (menu_title m)
         (match nth_error (menu_actions m) a with
          | Some (t, sls) => list_set (menu_actions m) a (t, sls ++ [sl])
          | None => menu_actions m
          end).

Definition on_menu (mi : nat) (f : Menu -> Menu) : Kind -> option Kind :=
  fun k => match k with
           | KMenuBar ms => match nth_error ms mi with
                            | Some m => Some (KMenuBar (list_set ms mi (f m)))
                            | None => None
                            end
           | _ => None
           end.

(** [menu.addAction(text)]: the index of the new action. *)
Definition addAction (mb mi : nat) (text : string) : Py Ui nat :=
  ms <- menus_of mb ;;
  call mb (method (on_menu mi (menu_add_action text))) ;;;
  ret (match nth_error ms mi with Some m => length (menu_actions m) | None => 0 end).

(** [action.triggered.connect(slot)] *)
Definition triggered_connect (mb mi a : nat) (sl : Slot) : Py Ui unit :=
  call mb (method (on_menu mi (action_connect a sl))).

(** ** Layouts *)

Definition on_layout (l : nat) (f : QLayout -> QLayout) : Py Ui unit :=
  fun s => match nth_error (ui_layouts s) l with
           | Some x => (set_layouts (list_set (ui_layouts s) l (f x)) s, Ok tt)
           | None => (s, Raise AttributeError)
           end.

Definition push_item (it : LayoutItem) (x : QLayout) : QLayout :=
  mkLayout (lay_orientation x) (lay_items x ++ [it]) (lay_spacing x) (lay_margins x).

Definition addWidget (l w : nat) : Py Ui unit := on_layout l (push_item (WidgetItem w)).
Definition addLayout (l l' : nat) : Py Ui unit := on_layout l (push_item (LayoutChild l')).
Definition addStretch (l : nat) : Py Ui unit := on_layout l (push_item Stretch).

Definition setSpacing (l n : nat) : Py Ui unit :=
  on_layout l (fun x => mkLayout (lay_orientation x) (lay_items x) (Some n) (lay_margins x)).

Definition setContentsMargins (l a b c d : nat) : Py Ui unit :=
  on_layout l (fun x => mkLayout (lay_orientation x) (lay_items x) (lay_spacing x) (Some (a, b, c, d))).

(** ** The window's own methods *)

Definition setWindowTitle (t : string) : Py Ui unit :=
  modify (fun s => mkUi t (ui_widgets s) (ui_layouts s) (ui_attrs s) (ui_styles s)
                        (ui_central s) (ui_menu_bar s) (ui_maximized s)).

Definition setCentralWidget (w : nat) : Py Ui unit :=
  modify (fun s => mkUi (ui_title s) (ui_widgets s) (ui_layouts s) (ui_attrs s) (ui_styles s)
                        (Some w) (ui_menu_bar s) (ui_maximized s)).

Definition setMenuBar (w : nat) : Py Ui unit :=
  modify (fun s => mkUi (ui_title s) (ui_widgets s) (ui_layouts s) (ui_attrs s) (ui_styles s)
                        (ui_central s) (Some w) (ui_maximized s)).

Definition showMaximized : Py Ui unit :=
  modify (fun s => mkUi (ui_title s) (ui_widgets s) (ui_layouts s) (ui_attrs s) (ui_styles s)
                        (ui_central s) (ui_menu_bar s) true).

(** [self.styles = {...}] *)
Definition set_styles (d : Dict string) : Py Ui unit :=
  modify (fun s => mkUi (ui_title s) (ui_widgets s) (ui_layouts s) (ui_attrs s) (Some d)
                        (ui_central s) (ui_menu_bar s) (ui_maximized s)).

(** ** Reading the objects *)

(** [self.name.m(...)] *)
Definition call_attr (name : string) (m : QWidget_ -> option QWidget_) : Py Ui unit :=
  w <- get_attr name ;; call w m.

(** The state of the table widget [w]: [AttributeError] on another class. *)
Definition table_view (w : nat) : Py Ui TableView :=
  fun s => match nth_error (ui_widgets s) w with
           | Some x => match w_kind x with
                       | KTable tv => (s, Ok tv)
                       | _ => (s, Raise AttributeError)
                       end
           | None => (s, Raise AttributeError)
           end.

(** [table.columnCount()] *)
Definition columnCount_of (w : nat) : Py Ui nat :=
  tv <- table_view w ;; ret (q_cols (tv_cells tv)).

(** The class and state of the object an attribute holds. *)
Definition widget_at (s : Ui) (name : string) : option Kind :=
  match dict_get (ui_attrs s) name with
  | Some w => option_map w_kind (nth_error (ui_widgets s) w)
  | None => None
  end.

(** ** The object tree *)

(** An object of the store: a widget or a layout. *)
Inductive Node := NWidget (w : nat) | NLayout (l : nat).

Scheme Equality for Node.

Definition item_node (it : LayoutItem) : list Node :=
  match it with WidgetItem w => [NWidget w] | LayoutChild l => [NLayout l] | Stretch => [] end.

(** The children of an object: the layout a widget has, the entries of a
    layout. *)
Definition children (s : Ui) (n : Node) : list Node :=
  match n with
  | NWidget w => match nth_error (ui_widgets s) w with
                 | Some x => match w_layout x with Some l => [NLayout l] | None => [] end
                 | None => []
                 end
  | NLayout l => match nth_error (ui_layouts s) l with
                 | Some x => flat_map item_node (lay_items x)
                 | None => []
                 end
  end.

Definition all_nodes (s : Ui) : list Node :=
  map NWidget (seq 0 (length (ui_widgets s))) ++ map NLayout (seq 0 (length (ui_layouts s))).

(** Every place an object is put into another: one entry per parent. *)
Definition placements (s : Ui) : list Node := flat_map (children s) (all_nodes s).

(** The window's own children: the central widget and the menu bar. *)
Definition roots (s : Ui) : list Node :=
  map NWidget (match ui_central s with Some w => [w] | None => [] end ++
               match ui_menu_bar s with Some w => [w] | None => [] end).

(** The objects below [n], to depth [fuel]. *)
Fixpoint descendants (fuel : nat) (s : Ui) (n : Node) : list Node :=
  match fuel with
  | O => [n]
  | S f => n :: flat_map (descendants f s) (children s n)
  end.

(** What the window shows: the objects below its roots.  A tree has depth
    at most its number of objects, so that many steps reach every one. *)
Definition shown (s : Ui) : list Node := flat_map (descendants (length (all_nodes s)) s) (roots s).

Definition in_nodes (n : Node) (ns : list Node) : bool := existsb (Node_beq n) ns.

(** The objects of the store the window does not show. *)
Definition hidden (s : Ui) : list Node := filter (fun n => negb (in_nodes n (shown s))) (all_nodes s).

(** The objects form a forest under the window: no object is put in two
    places, and neither root is put anywhere. *)
Definition forest (s : Ui) : Prop :=
  NoDup (placements s) /\ Forall (fun r => ~ In r (placements s)) (roots s).

Fixpoint nodupb (ns : list Node) : bool :=
  match ns with [] => true | n :: ns' => negb (in_nodes n ns') && nodupb ns' end.

Definition forestb (s : Ui) : bool :=
  nodupb (placements s) && forallb (fun r => negb (in_nodes r (placements s))) (roots s).

Lemma in_nodes_In n ns : in_nodes n ns = true <-> In n ns.
Proof.
  unfold in_nodes. rewrite existsb_exists. split.
  - intros (m & Hm & E). apply internal_Node_dec_bl in E. subst m. exact Hm.
  - intros Hn. exists n. split; [exact Hn | apply internal_Node_dec_lb; reflexivity].
Qed.

Lemma nodupb_NoDup ns : nodupb ns = true -> NoDup ns.
Proof.
  induction ns as [|n ns IH]; intros H; [constructor|]. cbn [nodupb] in H.
  apply andb_prop in H as [Hn H]. constructor; [|exact (IH H)].
  intros Hin. apply in_nodes_In in Hin. rewrite Hin in Hn. discriminate.
Qed.

Lemma forestb_forest s : forestb s = true -> forest s.
Proof.
  unfold forestb, forest. intros H. apply andb_prop in H as [Hd Hr]. split; [exact (nodupb_NoDup _ Hd)|].
  apply Forall_forall. intros r Hin Hp. rewrite forallb_forall in Hr. specialize (Hr r Hin).
  apply in_nodes_In in Hp. rewrite Hp in Hr. discriminate.
Qed.
