(* ===== verification/Layout.v ===== *)
(** * The main window as [__init__] builds it

    [FuvarAdminApp.__init__] (main.py:38-41) runs [initDatabase] and then
    [initUI] (main.py:43-56), which builds the window from Qt objects:
    the menu bar [MenuBar] (main.py:20-35), the style sheets of
    [setupStyles] (main.py:97-158), the form of [setupTopFrame]
    (main.py:160-246) with its [createInputGroup] rows (main.py:417-425)
    and [loadFactories] (main.py:447-452), the two table widgets of
    [setupBottomFrame] (main.py:248-357) filled by [setupTableRows] and
    styled by [setupTableStyles] (main.py:359-388), and the buttons of
    [setupButtons] (main.py:427-445).  Each method is a computation of
    [Py Ui], over the object store of QtWidgets.v; [setupTableRows] is the
    handler of Ledger.v, run on the cells of the two table widgets the
    attributes [self.work_table] and [self.delivery_table] hold.

    The theorems: [initUI] returns normally (every [self.styles[...]] key
    exists, every attribute is set before it is read, every method is
    called on an object of its class); the widgets the window's attributes
    hold are the form and ledgers of [launch] (Window.v), the abstract
    start state every other theorem begins from; the objects form a tree
    with no object added twice, and one object is in no layout: the first
    delivery table, built and then replaced; the delivery header shows the
    first ten of its eleven labels, so that the column [getZoneColumn]
    gives each of the first nine bands is headed by that band, and the last
    band has no column; the window has exactly ten signal connections,
    the controls the events of Window.v stand for. *)

From Stdlib Require Import String List ZArith Lia Bool.
From S2P Require Import Prelude PyStr QtTable QtDate Zone Ledger RefStore Window QtWidgets.
Import ListNotations ZoneResolver.
Local Open Scope string_scope.
Local Open Scope list_scope.

Module MainWindow.

(** ** [setupStyles] *)

(** main.py:99 *)
Definition css_main_frame : string := "
                QFrame {
                    background-color: #2d2d2d;
                    border: 3px solid #3e3e3e;
                    border-radius: 15px;
                    margin: 5px;
                }
            ".

(** main.py:107 *)
Definition css_sub_frame : string := "
                QFrame {
                    background-color: #d9d9d9;
                    border: 2px solid #4d4d4d;
                    border-radius: 15px;
                    margin: 5px;
                }
            ".

(** main.py:115 *)
Definition css_table_frame : string := "
                QFrame {
                    background-color: #d9d9d9;
                    border: 3px solid #ff2800;
                    border-radius: 15px;
                    padding: 10px;
                }
            ".

(** main.py:123 *)
Definition css_label : string := "
                QLabel {
                    color: black;
                    font-size: 14px;
                    font-weight: bold;
                    padding: 5px;
                }
            ".

(** main.py:131 *)
Definition css_input : string := "
                QLineEdit, QDateEdit, QTimeEdit, QComboBox {
                    background-color: white; 
                    padding: 5px;
                    border: 2px solid #a0a0a0;
                    border-radius: 5px;
                    color: black;
                    min-width: 150px;
                    max-width: 150px;
                    min-height: 30px;
                    max-height: 30px;
                    font-size: 14px;
                }
            ".

(** main.py:145 *)
Definition css_button : string := "
                QPushButton {
                    background-color: #4a90e2;
                    color: white;
                    border: none;
                    padding: 10px 20px;
                    border-radius: 5px;
                    min-width: 120px;
                }
                QPushButton:hover {
                    background-color: #357abd;
                }
            ".

(** main.py:291 *)
Definition css_header : string := "
            QHeaderView::section {
                background-color: #f0f0f0;
                padding: 5px;
                border: 1px solid black;
                font-size: 14px;
                font-weight: bold;
            }
        ".

(** main.py:360 *)
Definition table_style : string := "
            QTableWidget {
                background-color: white;
                border: 2px solid #ff2800;
                color: black;
                font-size: 14px;
                gridline-color: black;
            }
            QHeaderView::section {
                background-color: #f0f0f0;
                color: black;
                font-weight: bold;
                border: 1px solid black;
                padding: 8px;
                font-size: 14px;
                min-height: 35px;
                font-family: Arial;
            }
            QTableWidget::item {
                padding: 8px;
                min-height: 30px;
                border-bottom: 1px solid #ddd;
            }
            QScrollBar {
                background: white;
            }
        ".


(** [self.styles = {...}] *)
Definition styles : Dict string :=
  [("main_frame", css_main_frame); ("sub_frame", css_sub_frame); ("table_frame", css_table_frame);
   ("label", css_label); ("input", css_input); ("button", css_button)].

Definition setupStyles : Py Ui unit := set_styles styles.

(** ** [MenuBar] *)

Definition createFileMenu (mb : nat) : Py Ui unit :=
  fileMenu <- addMenu mb "Fájl" ;;
  a <- addAction mb fileMenu "Excel megnyitása" ;; triggered_connect mb fileMenu a SlotOpenExcel ;;;
  a <- addAction mb fileMenu "Mentés" ;; triggered_connect mb fileMenu a SlotSaveToExcel ;;;
  a <- addAction mb fileMenu "Nyomtatás" ;; triggered_connect mb fileMenu a SlotPrintData ;;;
  a <- addAction mb fileMenu "Kilépés" ;; triggered_connect mb fileMenu a SlotClose.

Definition createDatabaseMenu (mb : nat) : Py Ui unit :=
  dbMenu <- addMenu mb "Adatbázis" ;;
  a <- addAction mb dbMenu "Törzsadatok kezelése" ;; triggered_connect mb dbMenu a SlotOpenDatabaseManager.

(** [MenuBar(self)]: the new menu bar. *)
Definition MenuBar_init : Py Ui nat :=
  mb <- new_widget (KMenuBar []) ;;
  createFileMenu mb ;;;
  createDatabaseMenu mb ;;;
  ret mb.

(** ** [setupTopFrame] *)

(** [createInputGroup(label_text, widget)]: a row with the label and the
    widget, both styled. *)
Definition createInputGroup (label_text : string) (widget : nat) : Py Ui nat :=
  layout <- new_layout Horizontal ;;
  label <- new_widget (KLabel label_text) ;;
  css <- style "label" ;; call label (setStyleSheet css) ;;;
  addWidget layout label ;;;
  css' <- style "input" ;; call widget (setStyleSheet css') ;;;
  addWidget layout widget ;;;
  addStretch layout ;;;
  ret layout.

(** [layout.addLayout(self.createInputGroup(label_text, self.name))] *)
Definition add_input_group (layout : nat) (label_text name : string) : Py Ui unit :=
  w <- get_attr name ;;
  g <- createInputGroup label_text w ;;
  addLayout layout g.

(** [self.name = widget] *)
Definition new_attr (name : string) (k : Kind) : Py Ui unit :=
  w <- new_widget k ;; set_attr name w.

(** [input_width] *)
Definition input_width : nat := 150.

(** The widgets' initial state: [QDateEdit()] shows 2000-01-01,
    [QTimeEdit()] 00:00, a [QComboBox()] is empty with current index -1. *)
Definition new_date_edit : Kind := KDateEdit (mkDate 2000 1 1) false.
Definition new_time_edit : Kind := KTimeEdit (mkTime 0 0) false.
Definition new_combo : Kind := KComboBox [] (-1).
Definition new_line_edit : Kind := KLineEdit "" [].

(** [loadFactories]: the names of the factories table, in rowid order. *)
Definition loadFactories (st : Store) : Py Ui unit :=
  call_attr "factory_combo" (method clear) ;;;
  call_attr "factory_combo" (method (addItems (loadFactories_main st))).

Definition setupTopFrame (today : QDate) (st : Store) (main_layout : nat) : Py Ui unit :=
  top_frame <- new_widget KFrame ;;
  css <- style "main_frame" ;; call top_frame (setStyleSheet css) ;;;
  top_layout <- new_layout Horizontal ;;
  left_panel <- new_widget KFrame ;;
  css <- style "sub_frame" ;; call left_panel (setStyleSheet css) ;;;
  left_layout <- new_layout Vertical ;;
  new_attr "date_edit" new_date_edit ;;;
  call_attr "date_edit" (method (setCalendarPopup true)) ;;;
  call_attr "date_edit" (method (setDate today)) ;;;
  call_attr "date_edit" (setFixedWidth input_width) ;;;
  add_input_group left_layout "Dátum:" "date_edit" ;;;
  new_attr "start_time" new_time_edit ;;;
  call_attr "start_time" (method setNoButtons) ;;;
  call_attr "start_time" (setFixedWidth input_width) ;;;
  new_attr "end_time" new_time_edit ;;;
  call_attr "end_time" (method setNoButtons) ;;;
  call_attr "end_time" (setFixedWidth input_width) ;;;
  add_input_group left_layout "Kezdés:" "start_time" ;;;
  add_input_group left_layout "Végzés:" "end_time" ;;;
  new_attr "type_combo" new_combo ;;;
  call_attr "type_combo" (method (addItems type_items)) ;;;
  call_attr "type_combo" (setFixedWidth input_width) ;;;
  add_input_group left_layout "Munka típusa:" "type_combo" ;;;
  addStretch left_layout ;;;
  call left_panel (setLayout left_layout) ;;;
  right_panel <- new_widget KFrame ;;
  css <- style "sub_frame" ;; call right_panel (setStyleSheet css) ;;;
  right_layout <- new_layout Vertical ;;
  new_attr "km_combo" new_combo ;;;
  call_attr "km_combo" (method (addItems km_items)) ;;;
  call_attr "km_combo" (setFixedWidth input_width) ;;;
  add_input_group right_layout "Kilométer sáv:" "km_combo" ;;;
  new_attr "factory_combo" new_combo ;;;
  call_attr "factory_combo" (setFixedWidth input_width) ;;;
  loadFactories st ;;;
  add_input_group right_layout "Gyár:" "factory_combo" ;;;
  new_attr "address_input" new_line_edit ;;;
  call_attr "address_input" (setFixedWidth input_width) ;;;
  add_input_group right_layout "Cím:" "address_input" ;;;
  new_attr "delivery_input" new_line_edit ;;;
  call_attr "delivery_input" (setFixedWidth input_width) ;;;
  add_input_group right_layout "Szállítószám:" "delivery_input" ;;;
  new_attr "m3_input" new_line_edit ;;;
  call_attr "m3_input" (setFixedWidth input_width) ;;;
  call_attr "m3_input" (method (returnPressed_connect SlotHandleM3Input)) ;;;
  new_attr "m3_sum" (KLabel "(0)") ;;;
  m3_layout <- new_layout Horizontal ;;
  m3_label <- new_widget (KLabel "M3:") ;;
  css <- style "label" ;; call m3_label (setStyleSheet css) ;;;
  addWidget m3_layout m3_label ;;;
  w <- get_attr "m3_input" ;; addWidget m3_layout w ;;;
  w <- get_attr "m3_sum" ;; addWidget m3_layout w ;;;
  addStretch m3_layout ;;;
  addLayout right_layout m3_layout ;;;
  addStretch right_layout ;;;
  call right_panel (setLayout right_layout) ;;;
  addWidget top_layout left_panel ;;;
  addWidget top_layout right_panel ;;;
  call top_frame (setLayout top_layout) ;;;
  addWidget main_layout top_frame.

(** ** [setupBottomFrame] *)

Definition work_headers : list string :=
  ["Dátum"; "Nap"; "Munka KB"; "Munka BF"; "Ledolgozott óra"; "Műhely KB"; "Műhely BF"].

(** [table.method(...)] on the table widget an attribute holds. *)
Definition call_table (name : string) (f : TableView -> TableView) : Py Ui unit :=
  call_attr name (method (table f)).

(** [for i, title in enumerate(headers): item = QTableWidgetItem(title);
       item.setTextAlignment(Qt.AlignCenter);
       self.name.setHorizontalHeaderItem(i, item); self.name.setColumnWidth(i, 150)] *)
Definition set_header_items (name : string) (headers : list string) : Py Ui unit :=
  py_for (combine (range (length headers)) headers) (fun it =>
    call_table name (setHorizontalHeaderItem (fst it) (mkHeaderItem (snd it) true)) ;;;
    call_table name (setColumnWidth (fst it) 150)).

(** [header = self.name.horizontalHeader(); header.setVisible(True);
       header.setMinimumHeight(40)] *)
Definition show_header (name : string) : Py Ui unit :=
  call_table name (header (hd_setVisible true)) ;;;
  call_table name (header (hd_setMinimumHeight 40)).

(** [header = self.name.horizontalHeader(); header.setFixedHeight(35);
       header.setDefaultAlignment(Qt.AlignCenter); header.setStyleSheet(...)] *)
Definition format_header (name : string) : Py Ui unit :=
  call_table name (header (hd_setFixedHeight 35)) ;;;
  call_table name (header hd_setDefaultAlignment_center) ;;;
  call_table name (header (hd_setStyleSheet css_header)).

(** [for i in range(self.name.columnCount()): self.name.setColumnWidth(i, 150)] *)
Definition set_column_widths (name : string) : Py Ui unit :=
  w <- get_attr name ;; n <- columnCount_of w ;;
  py_for (range n) (fun i => call_table name (setColumnWidth i 150)).

(** [self.setupTableRows()]: the handler of Ledger.v on the cells of the two
    table widgets; it reads no widget of the form, so the view carries the
    form of a window with no factory ([setupTableRows_set_form] shows the
    result does not depend on it). *)
Definition ledgers_view (tw td : qtable) : App qtable :=
  mkApp (start_form (mkDate 2000 1 1) []) tw td None [] [] true [].

Definition set_cells (w : nat) (t : qtable) : Py Ui unit :=
  call w (method (table (fun tv => mkTableView t (tv_header_items tv) (tv_widths tv) (tv_header tv)))).

Definition run_on_ledgers (m : Py (App qtable) unit) : Py Ui unit :=
  wt <- get_attr "work_table" ;; dt <- get_attr "delivery_table" ;;
  tw <- table_view wt ;; td <- table_view dt ;;
  let r := m (ledgers_view (tv_cells tw) (tv_cells td)) in
  set_cells wt (work_table (fst r)) ;;;
  set_cells dt (delivery_table (fst r)) ;;;
  lift (snd r).

Definition setupTableStyles : Py Ui unit :=
  call_attr "work_table" (setStyleSheet table_style) ;;;
  call_attr "delivery_table" (setStyleSheet table_style).

Definition setupBottomFrame (today : QDate) (main_layout : nat) : Py Ui unit :=
  bottom_frame <- new_widget KFrame ;;
  css <- style "main_frame" ;; call bottom_frame (setStyleSheet css) ;;;
  button_layout <- new_layout Horizontal ;;
  work_frame <- new_widget KFrame ;;
  css <- style "table_frame" ;; call work_frame (setStyleSheet css) ;;;
  work_layout <- new_layout Vertical ;;
  new_attr "work_table" (KTable new_table_view) ;;;
  call_table "work_table" (setColumnCount 7) ;;;
  show_header "work_table" ;;;
  set_header_items "work_table" work_headers ;;;
  new_attr "delivery_table" (KTable new_table_view) ;;;
  call_table "delivery_table" (setColumnCount 10) ;;;
  show_header "delivery_table" ;;;
  set_header_items "delivery_table" delivery_headers ;;;
  format_header "work_table" ;;;
  set_column_widths "work_table" ;;;
  w <- get_attr "work_table" ;; addWidget work_layout w ;;;
  call work_frame (setLayout work_layout) ;;;
  addWidget button_layout work_frame ;;;
  delivery_frame <- new_widget KFrame ;;
  css <- style "table_frame" ;; call delivery_frame (setStyleSheet css) ;;;
  delivery_layout <- new_layout Vertical ;;
  new_attr "delivery_table" (KTable new_table_view) ;;;
  call_table "delivery_table" (setColumnCount 10) ;;;
  show_header "delivery_table" ;;;
  set_header_items "delivery_table" delivery_headers ;;;
  call_table "delivery_table" (setHorizontalHeaderLabels delivery_headers) ;;;
  format_header "delivery_table" ;;;
  set_column_widths "delivery_table" ;;;
  w <- get_attr "delivery_table" ;; addWidget delivery_layout w ;;;
  call delivery_frame (setLayout delivery_layout) ;;;
  addWidget button_layout delivery_frame ;;;
  call bottom_frame (setLayout button_layout) ;;;
  addWidget main_layout bottom_frame ;;;
  run_on_ledgers (setupTableRows today) ;;;
  setupTableStyles.

(** ** [setupButtons] *)

Definition buttons : list (string * Slot) :=
  [("Munkaórák Mentése", SlotSaveWorkHours); ("Fuvar Adatok Mentése", SlotSaveDeliveryData);
   ("Excel Exportálás", SlotExportToExcel); ("Kilépés", SlotClose)].

Definition setupButtons (main_layout : nat) : Py Ui unit :=
  button_frame <- new_widget KFrame ;;
  button_layout <- new_layout Horizontal ;;
  py_for buttons (fun b =>
    btn <- new_widget (KButton (fst b) []) ;;
    call btn (method (clicked_connect (snd b))) ;;;
    css <- style "button" ;; call btn (setStyleSheet css) ;;;
    addWidget button_layout btn) ;;;
  call button_frame (setLayout button_layout) ;;;
  addWidget main_layout button_frame.

(** ** [initUI] and [__init__] *)

Definition initUI (today : QDate) (st : Store) : Py Ui unit :=
  setWindowTitle "Fuvar Adminisztráció" ;;;
  main_widget <- new_widget KWidget ;;
  setCentralWidget main_widget ;;;
  main_layout <- new_layout Vertical ;;
  setSpacing main_layout 10 ;;;
  setContentsMargins main_layout 10 10 10 10 ;;;
  mb <- MenuBar_init ;; setMenuBar mb ;;;
  setupStyles ;;;
  setupTopFrame today st main_layout ;;;
  setupBottomFrame today main_layout ;;;
  setupButtons main_layout ;;;
  call main_widget (setLayout main_layout) ;;;
  showMaximized.

(** [FuvarAdminApp()] on the day [today] and the database file [st]: the
    window and the database after [initDatabase]. *)
Definition FuvarAdminApp (today : QDate) (st : Store) : (Ui * outcome unit) * Store :=
  let st' := initDatabase st in (initUI today st' empty_ui, st').

(** ** What the window holds *)

(** The form the attributes' widgets hold, in the terms of Ledger.v: a
    combo box's current index, -1 when it is empty, reads as entry 0 (the
    empty [currentText()]). *)
Definition form_of (s : Ui) : option Form :=
  match widget_at s "date_edit", widget_at s "start_time", widget_at s "end_time",
        widget_at s "type_combo", widget_at s "km_combo", widget_at s "factory_combo",
        widget_at s "address_input", widget_at s "delivery_input", widget_at s "m3_input",
        widget_at s "m3_sum" with
  | Some (KDateEdit d _), Some (KTimeEdit t1 _), Some (KTimeEdit t2 _), Some (KComboBox _ ti),
    Some (KComboBox _ ki), Some (KComboBox fs fi), Some (KLineEdit a _), Some (KLineEdit dn _),
    Some (KLineEdit m3 _), Some (KLabel sum) =>
      Some (mkForm d t1 t2 (Z.to_nat ti) (Z.to_nat ki) fs (Z.to_nat fi) a dn m3 sum)
  | _, _, _, _, _, _, _, _, _, _ => None
  end.

Definition combo_items (s : Ui) (name : string) : option (list string) :=
  match widget_at s name with Some (KComboBox xs _) => Some xs | _ => None end.

Definition table_at (s : Ui) (name : string) : option TableView :=
  match widget_at s name with Some (KTable tv) => Some tv | _ => None end.

Definition header_texts (tv : TableView) : list (option string) :=
  map (option_map hi_text) (tv_header_items tv).

(** Every signal connection of the window: a button's text, the menu and
    action of a menu entry, or [returnPressed] of a line edit, with the
    slot it calls. *)
Definition connections (s : Ui) : list (string * Slot) :=
  flat_map (fun x => match w_kind x with
                     | KButton t sls => map (fun sl => (t, sl)) sls
                     | KLineEdit _ sls => map (fun sl => ("returnPressed", sl)) sls
                     | KMenuBar ms =>
                         flat_map (fun m => flat_map (fun a => map (fun sl => (menu_title m ++ "/" ++ fst a, sl))%string (snd a))
                                                     (menu_actions m)) ms
                     | _ => []
                     end) (ui_widgets s).

(** ** Running [initUI] *)

(** The window [launch] starts from (Window.v), with the ledgers filled by
    [setupTableRows] from a view that has the form of [ledgers_view]. *)
Lemma launch_app (today : QDate) (st : Store) :
  win_app (launch today st) =
    set_form (start_form today (loadFactories_main (initDatabase st)))
             (fst (setupTableRows today (ledgers_view (empty_qtable 7) (empty_qtable 10)))).
Proof.
  cbn [launch win_app]. unfold init_app.
  change (unfilled_app today (loadFactories_main (initDatabase st)))
    with (set_form (start_form today (loadFactories_main (initDatabase st)))
                   (ledgers_view (empty_qtable 7) (empty_qtable 10))).
  rewrite setupTableRows_set_form. reflexivity.
Qed.

(** Evaluate the construction with the style sheets, the store and
    [setupTableRows] folded; the run of [setupTableRows] is then named
    [r] with its equation, and its outcome is [Ok tt]
    ([setupTableRows_normal]). *)
Ltac run_ui :=
  lazy -[setupTableRows qtable_widget css_main_frame css_sub_frame css_table_frame css_label css_input
         css_button css_header table_style loadFactories_main initDatabase];
  match goal with
  | |- context [setupTableRows ?d ?v] =>
      generalize (setupTableRows_normal d v);
      destruct (setupTableRows d v) as [?r [[]|?e]] eqn:?Er; intros ?Hn; [clear Hn | discriminate Hn]
  end;
  lazy -[setupTableRows qtable_widget css_main_frame css_sub_frame css_table_frame css_label css_input
         css_button css_header table_style loadFactories_main initDatabase].

(** C17: [initUI] returns normally on every day and every database: each
    key of [self.styles] it reads exists, each attribute is set before it
    is read, and each method is called on an object of its class. *)
Theorem initUI_returns (today : QDate) (st : Store) : snd (initUI today st empty_ui) = Ok tt.
Proof. run_ui. reflexivity. Qed.

(** C10: the window [FuvarAdminApp()] builds is the start state of the
    model: its widgets hold the form of [launch] (Window.v), the type and
    distance combo boxes hold the entries [type_items] and [km_items] the
    handlers read through [currentText()], the two table widgets hold the
    ledgers [setupTableRows] filled, and the database is the one
    [initDatabase] leaves. *)
Theorem FuvarAdminApp_refines_launch (today : QDate) (st : Store) :
  snd (FuvarAdminApp today st) = win_store (launch today st) /\
  form_of (fst (fst (FuvarAdminApp today st))) = Some (form (win_app (launch today st))) /\
  combo_items (fst (fst (FuvarAdminApp today st))) "type_combo" = Some type_items /\
  combo_items (fst (fst (FuvarAdminApp today st))) "km_combo" = Some km_items /\
  option_map tv_cells (table_at (fst (fst (FuvarAdminApp today st))) "work_table") =
    Some (work_table (win_app (launch today st))) /\
  option_map tv_cells (table_at (fst (fst (FuvarAdminApp today st))) "delivery_table") =
    Some (delivery_table (win_app (launch today st))).
Proof.
  rewrite !launch_app. unfold FuvarAdminApp. run_ui.
  destruct (loadFactories_main (initDatabase st)); repeat split.
Qed.

(** The headers of the first ten columns: the column of each of the
    first nine bands is headed by that band, the last band has no column. *)
Lemma shown_headers_bands k :
  k < length km_items ->
  nth_error (map Some (firstn delivery_column_count delivery_headers)) (Z.to_nat (getZoneColumn (nth k km_items ""))) =
    if Nat.ltb k 9 then Some (Some (nth k km_items "")) else None.
Proof.
  intros Hk. cbn [length km_items map range seq] in Hk. rewrite km_items_column by lia.
  do 10 (destruct k as [|k]; [vm_compute; reflexivity|]). lia.
Qed.

(** C18: the delivery table the window shows has ten columns, 150 pixels
    wide, headed by the first ten of the eleven labels of
    [delivery_headers]: ["Összeg"] heads no column.  The column
    [getZoneColumn] gives the band of entry [k] of the distance combo box
    is headed by that band for the first nine entries; for the last one,
    ["Övezet 45-50"], the column has no header: it is past the table. *)
Theorem delivery_header_bands (today : QDate) (st : Store) :
  exists tv, table_at (fst (initUI today st empty_ui)) "delivery_table" = Some tv /\
    header_texts tv = map Some (firstn delivery_column_count delivery_headers) /\
    ~ In (Some "Összeg") (header_texts tv) /\
    tv_widths tv = repeat 150 delivery_column_count /\
    forall k, k < length km_items ->
      nth_error (header_texts tv) (Z.to_nat (getZoneColumn (nth k km_items ""))) =
        if Nat.ltb k 9 then Some (Some (nth k km_items "")) else None.
Proof.
  assert (Hshown : exists tv, table_at (fst (initUI today st empty_ui)) "delivery_table" = Some tv /\
            header_texts tv = map Some (firstn delivery_column_count delivery_headers) /\
            tv_widths tv = repeat 150 delivery_column_count)
    by (run_ui; eexists; split; [reflexivity|]; split; reflexivity).
  destruct Hshown as (tv & Htv & Hh & Hw). exists tv.
  split; [exact Htv|]. split; [exact Hh|]. rewrite Hh.
  split; [vm_compute; intros H; repeat (destruct H as [H|H]; [discriminate H|]); exact H|].
  split; [exact Hw | exact shown_headers_bands].
Qed.

(** C19: the objects [initUI] builds form a forest under the window: no
    widget or layout is put in two places and neither the central widget
    nor the menu bar is put anywhere, so none of Qt's reparenting rules
    applies; and the widget each attribute of the window holds is shown. *)
Theorem initUI_forest (today : QDate) (st : Store) :
  forest (fst (initUI today st empty_ui)) /\
  Forall (fun a => exists w, dict_get (ui_attrs (fst (initUI today st empty_ui))) (fst a) = Some w /\
                              In (NWidget w) (shown (fst (initUI today st empty_ui))))
         (ui_attrs (fst (initUI today st empty_ui))).
Proof.
  split.
  - apply forestb_forest. run_ui. reflexivity.
  - run_ui. repeat (apply Forall_cons; [eexists; split; [reflexivity | repeat (first [left; reflexivity | right])]|]).
    apply Forall_nil.
Qed.

(** C20: exactly one object [initUI] builds is not shown: a table widget with
    the delivery headers, which [self.delivery_table] held before the
    second [self.delivery_table = QTableWidget()] replaced it
    (main.py:274-285 and 314). *)
Theorem first_delivery_table_hidden (today : QDate) (st : Store) :
  exists w tv, hidden (fst (initUI today st empty_ui)) = [NWidget w] /\
    option_map w_kind (nth_error (ui_widgets (fst (initUI today st empty_ui))) w) = Some (KTable tv) /\
    header_texts tv = map Some (firstn delivery_column_count delivery_headers) /\
    dict_get (ui_attrs (fst (initUI today st empty_ui))) "delivery_table" <> Some w /\
    In ("delivery_table", w) (ui_attrs (fst (initUI today st empty_ui))).
Proof.
  run_ui. do 2 eexists. split; [reflexivity|]. split; [reflexivity|]. split; [reflexivity|].
  split; [discriminate | cbn; tauto].
Qed.

(** C21: the signals of the window are connected to exactly these slots:
    the four actions of the file menu and the one of the database menu,
    Enter in the m3 field, and the four buttons: the controls the events
    of Window.v stand for, each with the handler [ui_run] runs for it. *)
Theorem initUI_connections (today : QDate) (st : Store) :
  connections (fst (initUI today st empty_ui)) =
    [("Fájl/Excel megnyitása", SlotOpenExcel); ("Fájl/Mentés", SlotSaveToExcel);
     ("Fájl/Nyomtatás", SlotPrintData); ("Fájl/Kilépés", SlotClose);
     ("Adatbázis/Törzsadatok kezelése", SlotOpenDatabaseManager);
     ("returnPressed", SlotHandleM3Input);
     ("Munkaórák Mentése", SlotSaveWorkHours); ("Fuvar Adatok Mentése", SlotSaveDeliveryData);
     ("Excel Exportálás", SlotExportToExcel); ("Kilépés", SlotClose)].
Proof. run_ui. reflexivity. Qed.

End MainWindow.
