(* ===== verification/JournalSchema.v ===== *)
(** * The records of the two JSON journals

    [saveWorkHours] appends [json.dump(data)] to [work_hours.json]
    (main.py:503-508, 528-530) and [saveDeliveryData] to
    [delivery_data.json] (main.py:538-545, 570-572).  This file gives the
    schema of those records, the type the files' readers can rely on:
    - a work record has the [yyyy-MM-dd] text of a valid date, the [HH:mm]
      texts of two valid times and one of the four work types;
    - a delivery record has the [yyyy-MM-dd] text of a valid date and one of
      the ten distance band labels.
    The form's widgets only hold such values ([form_ok]), no handler
    changes them, and so every record of a reachable window has its
    schema. *)

From Stdlib Require Import String List ZArith Lia Bool.
From S2P Require Import Prelude PyStr PyFloat QtTable QtDate Zone Ledger Volume Delivery WorkHours.
From S2P Require Import RefStore Excel HandlerInvariants Window.
Import ListNotations ZoneResolver.
Local Open Scope string_scope.

(** ** The schema *)

Definition work_record_ok (r : WorkRecord) : Prop :=
  (exists d, valid_date d = true /\ wr_date r = date_text d) /\
  (exists t, valid_time t = true /\ wr_start_time r = time_text t) /\
  (exists t, valid_time t = true /\ wr_end_time r = time_text t) /\
  In (wr_type r) type_items.

Definition delivery_record_ok (r : DeliveryRecord) : Prop :=
  (exists d, valid_date d = true /\ dr_date r = date_text d) /\ In (dr_km_range r) km_items.

(** What the widgets hold: a valid date, two valid times, an entry of the
    type and distance combo boxes. *)
Definition form_ok (f : Form) : Prop :=
  valid_date (date_edit f) = true /\ valid_time (start_time f) = true /\
  valid_time (end_time f) = true /\ type_index f < length type_items /\ km_index f < length km_items.

Definition journals_ok {T} (s : App T) : Prop :=
  form_ok (form s) /\ Forall work_record_ok (work_log s) /\ Forall delivery_record_ok (delivery_log s).

(** ** The records the handlers build *)

Section Records.
Context {T : Type} `{TableWidget T}.

Lemma work_data_ok (s : App T) : form_ok (form s) -> work_record_ok (work_data s).
Proof.
  intros (Hd & Hs & He & Ht & _). unfold work_data.
  split; [eauto|]. split; [eauto|]. split; [eauto|]. apply nth_In. exact Ht.
Qed.

Lemma delivery_data_ok (s : App T) : form_ok (form s) -> delivery_record_ok (delivery_data s).
Proof. intros (Hd & _ & _ & _ & Hk). unfold delivery_data. split; [eauto | apply nth_In; exact Hk]. Qed.

Lemma journals_ok_add_work (s : App T) r :
  work_record_ok r -> journals_ok s -> journals_ok (add_work_record r s).
Proof.
  intros Hr (Hf & Hw & Hd). split; [exact Hf|]. split; [|exact Hd].
  apply Forall_app; split; [exact Hw | constructor; [exact Hr | constructor]].
Qed.

Lemma journals_ok_add_delivery (s : App T) r :
  delivery_record_ok r -> journals_ok s -> journals_ok (add_delivery_record r s).
Proof.
  intros Hr (Hf & Hw & Hd). split; [exact Hf|]. split; [exact Hw|].
  apply Forall_app; split; [exact Hd | constructor; [exact Hr | constructor]].
Qed.

(** The steps that leave the form's widgets and the journals alone. *)
Ltac frame_tac :=
  repeat first
    [ keeps_step
    | match goal with
      | |- keeps _ (modify _) => apply keeps_modify; intros ?s ?Hs; exact Hs
      | |- keeps _ (cell _ _ _) => apply keeps_cell
      | |- keeps _ (cell_text _ _ _) => apply keeps_cell_text
      | |- keeps _ (set_cell _ _ _ _) => unfold set_cell
      | |- keeps _ (scan_rows _ _ _) => apply keeps_scan_rows_any
      end ].

Lemma keeps_journals_handleM3Input : keeps journals_ok handleM3Input.
Proof. unfold handleM3Input, updateDeliveryTable. frame_tac. Qed.

Lemma keeps_journals_saveWorkHours : keeps journals_ok saveWorkHours.
Proof.
  unfold saveWorkHours, work_row, append_work. frame_tac.
  apply keeps_modify. intros s Hs. apply journals_ok_add_work; [|exact Hs].
  apply work_data_ok. exact (proj1 Hs0).
Qed.

Lemma keeps_journals_saveDeliveryData : keeps journals_ok saveDeliveryData.
Proof.
  unfold saveDeliveryData, update_zone, commit_row, commit_tail, append_delivery, reset_m3. frame_tac.
  apply keeps_modify. intros s Hs. apply journals_ok_add_delivery; [|exact Hs].
  apply delivery_data_ok. exact (proj1 Hs0).
Qed.

Lemma keeps_journals_loadDataFromExcel wb : keeps journals_ok (loadDataFromExcel wb).
Proof.
  unfold loadDataFromExcel, load_sheet, loadWorkHoursRow, loadDeliveryRow, set_if. frame_tac.
Qed.
End Records.

(** ** Every reachable window *)

Lemma launch_journals_ok today st : valid_date today = true -> journals_ok (win_app (launch today st)).
Proof.
  intros Hd. cbn [launch win_app]. unfold init_app.
  apply keeps_setupTableRows; [intros [] t s Hs _; exact Hs|].
  split; [|split; constructor]. repeat split; (exact Hd || reflexivity || (cbn; lia)).
Qed.

Lemma journals_ok_step w e :
  journals_ok (win_app w) -> event_ok w e = true -> journals_ok (win_app (ui_step w e)).
Proof.
  intros Hj Hok. pose proof Hj as ((Hd & Hs & He & Ht & Hk) & Hw & Hdl).
  destruct e; cbn [ui_step ui_run on_app fst win_app printData]; try exact Hj; cbn [event_ok] in Hok.
  - apply andb_prop in Hok as [_ Hv]. exact (conj (conj Hv (conj Hs (conj He (conj Ht Hk)))) (conj Hw Hdl)).
  - apply andb_prop in Hok as [Hok Hv2]. apply andb_prop in Hok as [_ Hv1].
    exact (conj (conj Hd (conj Hv1 (conj Hv2 (conj Ht Hk)))) (conj Hw Hdl)).
  - apply andb_prop in Hok as [_ Hv]. apply Nat.ltb_lt in Hv.
    exact (conj (conj Hd (conj Hs (conj He (conj Hv Hk)))) (conj Hw Hdl)).
  - apply andb_prop in Hok as [_ Hv]. apply Nat.ltb_lt in Hv.
    exact (conj (conj Hd (conj Hs (conj He (conj Ht Hv)))) (conj Hw Hdl)).
  - exact (keeps_journals_handleM3Input _ Hj).
  - exact (keeps_journals_saveWorkHours _ Hj).
  - exact (keeps_journals_saveDeliveryData _ Hj).
  - destruct save_ok; exact Hj.
  - revert Hj. apply keeps_openExcel; [intros e; apply keeps_modify; intros s Hs'; exact Hs' |].
    apply keeps_journals_loadDataFromExcel.
  - destruct save_ok; exact Hj.
  - apply andb_prop in Hok as [_ Hv]. apply launch_journals_ok. exact Hv.
Qed.

(** C16: every line a reachable window has appended to [work_hours.json]
    holds the [yyyy-MM-dd] text of a valid date, the [HH:mm] texts of two
    valid times and one of the four work types, and every line of
    [delivery_data.json] the text of a valid date and one of the ten
    distance band labels. *)
Theorem reachable_journal_schema (allowed : Event -> Prop) w :
  reachable allowed w ->
  Forall work_record_ok (work_log (win_app w)) /\ Forall delivery_record_ok (delivery_log (win_app w)).
Proof.
  intros Hr. enough (Hj : journals_ok (win_app w)) by exact (proj2 Hj).
  induction Hr as [today st Hd Hst | w e Hr IH Hok Ha];
    [exact (launch_journals_ok today st Hd) | exact (journals_ok_step w e IH Hok)].
Qed.

Lemma reachable_journal_schema_witness :
  reachable below_last_band (ui_step typed_nov5 ClickSaveDelivery) /\
  Forall work_record_ok (work_log (win_app (ui_step typed_nov5 ClickSaveDelivery))) /\
  Forall delivery_record_ok (delivery_log (win_app (ui_step typed_nov5 ClickSaveDelivery))).
Proof.
  assert (Hr : reachable below_last_band (ui_step typed_nov5 ClickSaveDelivery))
    by (apply reach_event; [exact typed_nov5_reachable | reflexivity | exact I]).
  split; [exact Hr | apply (reachable_journal_schema below_last_band); exact Hr].
Defined.
