(* ===== verification/Scenarios.v ===== *)
(** * Scenarios: the handlers composed, on a window of 5 November 2024

    Each example runs several handlers of the main window one after the
    other, as a user would, and evaluates the outcome. *)

From Stdlib Require Import String Ascii List ZArith Lia Bool Floats.
From S2P Require Import Prelude PyStr PyFloat QtTable QtDate Zone Ledger Volume Delivery WorkHours Excel.
Import ListNotations.
Local Open Scope string_scope.

(** A work day of 08:00 to 16:30 saved, and a trip of 5 m3 in band 0-5 km
    committed, both on 5 November. *)
Definition day_logged : App qtable :=
  let s1 := fst (saveWorkHours (set_times (mkTime 8 0) (mkTime 16 30) (init_app nov5 []))) in
  fst (saveDeliveryData (set_m3_values (Some [5%float]) s1)).

(** The workbook [saveToExcel] writes for it. *)
Definition day_workbook : Workbook :=
  match snd (saveToExcel true day_logged) with Some wb => wb | None => [] end.

(** The same workbook opened in a new window. *)
Definition day_reloaded : App qtable :=
  fst (openExcel (Some (Ok day_workbook)) (init_app nov5 [])).

(** Saving to Excel and opening the file in a new window gives back
    the delivery ledger, but not the work ledger: the import reads sheet
    columns 2 to 4 (day name, start, end) into table columns 2 to 4
    (start, end, hours), so "Kedd" lands in the start column and the end
    time over the hours. *)
Example excel_roundtrip_example :
  q_item (delivery_table day_reloaded) 4 1 = q_item (delivery_table day_logged) 4 1 /\
  q_item (delivery_table day_logged) 4 1 = Some "5.0" /\
  map (q_item (work_table day_logged) 4) [2; 3; 4] = [Some "08:00"; Some "16:30"; Some "8.50"] /\
  map (q_item (work_table day_reloaded) 4) [2; 3; 4] = [Some "Kedd"; Some "08:00"; Some "16:30"] /\
  last (messages day_reloaded) (Information "" "") = excel_loaded.
Proof. vm_compute. repeat split. Qed.

(** Through the user interface, committed volumes only accumulate when
    each value is typed under another band than the one committed: the
    summary [handleM3Input] writes under band 5-10 km is never read, and
    two trips of 5 and 3 m3 committed under band 0-5 km give "8.0". *)
Example accumulate_through_ui :
  let type_and_commit (v : string) (s : App qtable) :=
    let s1 := fst (handleM3Input (set_m3_input v (set_km_index 1 s))) in
    fst (saveDeliveryData (set_km_index 0 s1)) in
  let s := type_and_commit "3" (type_and_commit "5" (init_app nov5 [])) in
  q_item (delivery_table s) 4 1 = Some "8.0" /\ q_item (delivery_table s) 4 2 = Some "(3.0) (3.0)" /\
  length (delivery_log s) = 2%nat.
Proof. vm_compute. repeat split. Qed.
